(** * Guarded step pipelines of the zbxscript monitoring scripts

    A shallow embedding of the result model ([TestResult]), the error-banner
    detector ([raise_if_error_banner], [wait_element]), the retry wrappers
    ([execute_step_with_retry], [retry_on_exception]) and the [main]
    pipelines of [itrans.py], [itrans_zd.py], [lks.py] and [test_dl.py],
    with the properties the specification states about them; and of the
    code around them: the environment, the driver, the clicks and waits
    of the page objects, the module steps of [itrans.py], the screenshots
    and the Telegram alerts, with properties read off the code. *)

From Stdlib Require Import String Ascii List ZArith NArith Bool Lia.
Import ListNotations.

Set Implicit Arguments.

(** ** Python strings

    A Python [str] is a sequence of Unicode code points.  Literals are
    written as UTF-8 source text and decoded once. *)

Module PyStr.

Definition pystr := list N.

Fixpoint utf8_decode (bs : list N) : pystr :=
  match bs with
  | [] => []
  | b0 :: r0 =>
    if (b0 <? 128)%N then b0 :: utf8_decode r0
    else match r0 with
    | [] => []
    | b1 :: r1 =>
      if (b0 <? 224)%N then ((b0 - 192) * 64 + (b1 - 128))%N :: utf8_decode r1
      else match r1 with
      | [] => []
      | b2 :: r2 =>
        if (b0 <? 240)%N
        then ((b0 - 224) * 4096 + (b1 - 128) * 64 + (b2 - 128))%N :: utf8_decode r2
        else match r2 with
        | [] => []
        | b3 :: r3 =>
          ((b0 - 240) * 262144 + (b1 - 128) * 4096 + (b2 - 128) * 64 + (b3 - 128))%N
            :: utf8_decode r3
        end
      end
    end
  end.

Definition py (s : string) : pystr :=
  utf8_decode (map N_of_ascii (list_ascii_of_string s)).

(** [a == b] on strings. *)
Fixpoint str_eqb (a b : pystr) : bool :=
  match a, b with
  | [], [] => true
  | x :: a', y :: b' => (x =? y)%N && str_eqb a' b'
  | _, _ => false
  end.

Fixpoint startswith (p s : pystr) : bool :=
  match p, s with
  | [], _ => true
  | _ :: _, [] => false
  | x :: p', y :: s' => (x =? y)%N && startswith p' s'
  end.

(** [p in s]: [p] occurs in [s] as a substring. *)
Fixpoint contains (p s : pystr) : bool :=
  startswith p s ||
  match s with
  | [] => false
  | _ :: s' => contains p s'
  end.

(** [str.lower()] on the alphabets the scripts meet: Basic Latin, Latin-1
    and the Cyrillic block.  Other code points are left as they are. *)
Definition lower_cp (c : N) : N :=
  if (65 <=? c)%N && (c <=? 90)%N then (c + 32)%N
  else if (192 <=? c)%N && (c <=? 222)%N && negb (c =? 215)%N then (c + 32)%N
  else if (1040 <=? c)%N && (c <=? 1071)%N then (c + 32)%N
  else if (1024 <=? c)%N && (c <=? 1039)%N then (c + 80)%N
  else c.

Definition lower (s : pystr) : pystr := map lower_cp s.

(** Code points for which [str.isspace()] holds. *)
Definition isspace (c : N) : bool :=
  ((9 <=? c)%N && (c <=? 13)%N) || ((28 <=? c)%N && (c <=? 32)%N)
  || (c =? 133)%N || (c =? 160)%N || (c =? 5760)%N
  || ((8192 <=? c)%N && (c <=? 8202)%N)
  || (c =? 8232)%N || (c =? 8233)%N || (c =? 8239)%N || (c =? 8287)%N
  || (c =? 12288)%N.

Fixpoint lstrip (s : pystr) : pystr :=
  match s with
  | [] => []
  | c :: s' => if isspace c then lstrip s' else s
  end.

(** [str.strip()]. *)
Definition strip (s : pystr) : pystr := rev (lstrip (rev (lstrip s))).

(** [value or ""] for a value that is a string or [None]. *)
Definition or_empty (o : option pystr) : pystr :=
  match o with
  | Some s => s
  | None => []
  end.

(** Truthiness of an optional string: [None] and [""] are falsy. *)
Definition truthy (o : option pystr) : bool :=
  match o with
  | Some (_ :: _) => true
  | _ => false
  end.

(** [str(n)] for a step number. *)
Definition digit (n : nat) : N := (48 + N.of_nat n)%N.

Fixpoint str_of_nat_fuel (fuel n : nat) (acc : pystr) : pystr :=
  match fuel with
  | O => acc
  | S f =>
    let acc' := digit (n mod 10) :: acc in
    if (n / 10 =? 0)%nat then acc' else str_of_nat_fuel f (n / 10) acc'
  end.

Definition str_of_nat (n : nat) : pystr := str_of_nat_fuel (S n) n [].

End PyStr.
Import PyStr.

(** ** Exceptions and results

    Selenium's [TimeoutException] and [StaleElementReferenceException] are
    subclasses of [WebDriverException]; every class below is a subclass of
    [Exception], so [except Exception] catches all of them. *)

Inductive exn_class :=
| TimeoutException
| StaleElementReferenceException
| WebDriverException
| ValueError
| AttributeError
| Exception.

Record exn := Exn { exn_cls : exn_class; exn_str : pystr }.

Definition is_WebDriverException (e : exn) : bool :=
  match exn_cls e with
  | TimeoutException | StaleElementReferenceException | WebDriverException => true
  | _ => false
  end.

Definition is_TimeoutException (e : exn) : bool :=
  match exn_cls e with
  | TimeoutException => true
  | _ => false
  end.

Inductive res (A : Type) :=
| Ok (a : A)
| Raise (e : exn).

Arguments Ok {A} a.
Arguments Raise {A} e.

Definition is_raise {A} (r : res A) : bool :=
  match r with
  | Raise _ => true
  | Ok _ => false
  end.

Definition is_ok {A} (r : res A) : bool := negb (is_raise r).

(** ** Values of a report *)

#[warnings="-register-all"]
Inductive pyval :=
| PyNone
| PyBool (b : bool)
| PyStr (s : pystr)
| PyNum (hundredths : Z)
| PyDict (d : list (pystr * pyval)).

(** A [dict]: insertion-ordered, assignment to a present key keeps its
    place. *)
Fixpoint dict_set {V} (k : pystr) (v : V) (d : list (pystr * V)) : list (pystr * V) :=
  match d with
  | [] => [(k, v)]
  | (k', v') :: d' =>
    if str_eqb k k' then (k, v) :: d' else (k', v') :: dict_set k v d'
  end.

Fixpoint dict_get {V} (k : pystr) (d : list (pystr * V)) : option V :=
  match d with
  | [] => None
  | (k', v') :: d' => if str_eqb k k' then Some v' else dict_get k d'
  end.

(** ** Clock

    [time.time()] readings are taken as exact integers in microseconds, and
    [round(x, 2)] as rounding to hundredths of a second, ties to even.  The
    rounding error of float arithmetic is not modelled. *)

Definition round_half_even (n d : Z) : Z :=
  let q := (n / d)%Z in
  let r := (n mod d)%Z in
  if (2 * r <? d)%Z then q
  else if (d <? 2 * r)%Z then (q + 1)%Z
  else if Z.even q then q else (q + 1)%Z.

Definition round2 (microseconds : Z) : Z := round_half_even microseconds 10000.

(** ** TestResult

    The class is the same in [itrans.py], [itrans_zd.py] and [lks.py] up to
    [to_dict]. *)

Record StepEntry := { st_status : pystr; st_duration_seconds : Z }.

Record TestResult := {
  start_time : Z;
  steps : list (pystr * StepEntry);
  success : bool;
  status : pystr;
  message : pystr;
  error : option pystr;
  screenshot : option pystr;
  test_info : list (pystr * Z)
}.

Definition TestResult__init__ (now : Z) : TestResult :=
  {| start_time := now; steps := []; success := true; status := py "1";
     message := []; error := None; screenshot := None; test_info := [] |}.

Definition add_step (step_name status_ : pystr) (duration_seconds : Z)
    (self : TestResult) : TestResult :=
  let steps' :=
    dict_set step_name
      {| st_status := status_; st_duration_seconds := round2 duration_seconds |}
      (steps self) in
  if str_eqb status_ (py "0")
  then {| start_time := start_time self; steps := steps'; success := false;
          status := py "0"; message := message self; error := error self;
          screenshot := screenshot self; test_info := test_info self |}
  else {| start_time := start_time self; steps := steps'; success := success self;
          status := status self; message := message self; error := error self;
          screenshot := screenshot self; test_info := test_info self |}.

Definition set_screenshot_b64 (b64 : pystr) (self : TestResult) : TestResult :=
  {| start_time := start_time self; steps := steps self; success := success self;
     status := status self; message := message self; error := error self;
     screenshot := Some b64; test_info := test_info self |}.

(** [finalize], given the reading [end_] it takes from the clock. *)
Definition finalize_at (end_ : Z) (success_ : bool) (message_ : pystr)
    (error_ : option pystr) (self : TestResult) : TestResult :=
  {| start_time := start_time self; steps := steps self; success := success_;
     status := if success_ then py "1" else py "0";
     message := message_; error := error_; screenshot := screenshot self;
     test_info := [(py "total_duration", round2 (end_ - start_time self))] |}.

Definition opt_val (o : option pystr) : pyval :=
  match o with
  | Some s => PyStr s
  | None => PyNone
  end.

Definition step_val (e : StepEntry) : pyval :=
  PyDict [(py "status", PyStr (st_status e));
          (py "timing", PyDict [(py "duration_seconds", PyNum (st_duration_seconds e))])].

Definition steps_val (d : list (pystr * StepEntry)) : pyval :=
  PyDict (map (fun kv => (fst kv, step_val (snd kv))) d).

Definition info_val (d : list (pystr * Z)) : pyval :=
  PyDict (map (fun kv => (fst kv, PyNum (snd kv))) d).

(** ** The browser session and the run state *)

Definition WebElement := nat.

Inductive Event :=
| EvTime (t : Z)
| EvBuildDriver (r : res unit)
| EvStep (k : nat) (r : res unit)
| EvRefresh (r : res unit)
| EvReadyState (r : res unit)
| EvSleep (seconds : Z)
| EvScreenshot (r : res pystr)
| EvSaveFile
| EvAlert (text : pystr) (shot : option pystr)
| EvQuit (r : res unit)
| EvWaitPresence (xpath : pystr) (timeout : Z) (r : res WebElement).

Section Runtime.

Variable W : Type.

(** What the scripts consume from outside: the clock, the remote driver, the
    files and the notifier, as transitions of a world [W].  A step body is
    the site-specific navigation of one step, taken as a whole.  The four
    page queries of the banner check read the page and leave it alone. *)
Record Browser := {
  time_time : W -> Z * W;
  build_driver : W -> res unit * W;
  step_body : nat -> W -> res unit * W;
  driver_refresh : W -> res unit * W;
  wait_ready_state : W -> res unit * W;
  time_sleep : Z -> W -> W;
  get_screenshot_b64 : W -> res pystr * W;
  save_screenshot_file : W -> W;
  send_telegram_alert : pystr -> option pystr -> W -> W;
  driver_quit : W -> res unit * W;
  wait_until_presence : pystr -> Z -> W -> res WebElement * W;
  find_elements : pystr -> W -> res (list WebElement);
  is_displayed : WebElement -> W -> res bool;
  get_attribute : WebElement -> pystr -> W -> res (option pystr);
  element_text : WebElement -> W -> res (option pystr);
  traceback_format_exception : exn -> pystr
}.

(** The objects of a run: the page and clock behind the driver, what was
    asked of them so far, what was printed, the [TestResult] and the test
    object's [driver] and [check_error_banner] attributes. *)
Record State := {
  world : W;
  log : list Event;
  stdout : list pyval;
  test_result : TestResult;
  test_driver : bool;
  check_error_banner : bool
}.

Definition M (A : Type) := State -> res A * State.

Definition ret {A} (a : A) : M A := fun st => (Ok a, st).

Definition raise {A} (e : exn) : M A := fun st => (Raise e, st).

Definition bind {A B} (m : M A) (k : A -> M B) : M B :=
  fun st =>
    match m st with
    | (Ok a, st') => k a st'
    | (Raise e, st') => (Raise e, st')
    end.

(** [try: m except Exception as e: h e]. *)
Definition try_except {A} (m : M A) (h : exn -> M A) : M A :=
  fun st =>
    match m st with
    | (Ok a, st') => (Ok a, st')
    | (Raise e, st') => h e st'
    end.

(** [try: m except C: h e] for a class test [c]; other classes go through. *)
Definition try_except_if {A} (c : exn -> bool) (m : M A) (h : exn -> M A) : M A :=
  try_except m (fun e => if c e then h e else raise e).

(** [try: m finally: f], for an [f] that does not raise. *)
Definition try_finally {A} (m : M A) (f : M unit) : M A :=
  fun st =>
    match m st with
    | (r, st') => (r, snd (f st'))
    end.

Definition set_world (w : W) (st : State) : State :=
  {| world := w; log := log st; stdout := stdout st; test_result := test_result st;
     test_driver := test_driver st; check_error_banner := check_error_banner st |}.

Definition add_log (ev : Event) (st : State) : State :=
  {| world := world st; log := log st ++ [ev]; stdout := stdout st;
     test_result := test_result st; test_driver := test_driver st;
     check_error_banner := check_error_banner st |}.

Definition set_test_result (r : TestResult) (st : State) : State :=
  {| world := world st; log := log st; stdout := stdout st; test_result := r;
     test_driver := test_driver st; check_error_banner := check_error_banner st |}.

Definition set_test_driver (b : bool) (st : State) : State :=
  {| world := world st; log := log st; stdout := stdout st;
     test_result := test_result st; test_driver := b;
     check_error_banner := check_error_banner st |}.

Definition set_check_error_banner (b : bool) (st : State) : State :=
  {| world := world st; log := log st; stdout := stdout st;
     test_result := test_result st; test_driver := test_driver st;
     check_error_banner := b |}.

Definition add_stdout (v : pyval) (st : State) : State :=
  {| world := world st; log := log st; stdout := stdout st ++ [v];
     test_result := test_result st; test_driver := test_driver st;
     check_error_banner := check_error_banner st |}.

(** A call that may raise, and a call that does not. *)
Definition call {A} (op : W -> res A * W) (ev : res A -> Event) : M A :=
  fun st =>
    let '(r, w) := op (world st) in
    (r, add_log (ev r) (set_world w st)).

Definition call_quiet (op : W -> W) (ev : Event) : M unit :=
  fun st => (Ok tt, add_log ev (set_world (op (world st)) st)).

(** A page query. *)
Definition query {A} (op : W -> res A) : M A := fun st => (op (world st), st).

Definition update (f : State -> State) : M unit := fun st => (Ok tt, f st).

Definition on_result (f : TestResult -> TestResult) : M unit :=
  update (fun st => set_test_result (f (test_result st)) st).

Definition initial_state (w : W) : State :=
  {| world := w; log := []; stdout := []; test_result := TestResult__init__ 0;
     test_driver := false; check_error_banner := true |}.

End Runtime.

Arguments ret {W A} a.
Arguments raise {W A} e.
Arguments update {W} f.
Arguments on_result {W} f.
Arguments query {W A} op.
Arguments initial_state {W} w.

Declare Scope py_scope.
Delimit Scope py_scope with py_scope.
Notation "x <- m ;; k" := (bind m (fun x => k))
  (at level 100, m at next level, right associativity) : py_scope.
Notation "m ;; k" := (bind m (fun _ => k))
  (at level 100, right associativity) : py_scope.
Open Scope py_scope.

(** ** Calls shared by the scripts *)

Section Calls.

Variable W : Type.
Variable B : Browser W.

(** [time.time()]. *)
Definition clock : M W Z :=
  fun st =>
    let '(t, w) := time_time B (world st) in
    (Ok t, add_log (EvTime t) (set_world w st)).

(** [TestResult.finalize]: the reading [end = time.time()] comes first. *)
Definition finalize (success_ : bool) (message_ : pystr) (error_ : option pystr)
    : M W unit :=
  end_ <- clock ;;
  on_result (finalize_at end_ success_ message_ error_).

(** [print(json.dumps(v, ...))]. *)
Definition print_json (v : pyval) : M W unit := update (add_stdout v).

Definition run_step (k : nat) : M W unit := call (step_body B k) (EvStep k).

Definition alert (text : pystr) (shot : option pystr) : M W unit :=
  call_quiet (send_telegram_alert B text shot) (EvAlert text shot).

(** A [for] loop whose body may [return] ([Some v]) or go on ([None]). *)
Fixpoint for_range {A} (xs : list nat) (body : nat -> M W (option A)) : M W (option A) :=
  match xs with
  | [] => ret None
  | x :: rest =>
    o <- body x ;;
    match o with
    | Some v => ret (Some v)
    | None => for_range rest body
    end
  end.

(** The steps of a [main] one after the other; a step that answers [false]
    has already emitted the report and ends the run. *)
Fixpoint run_steps (blocks : list (M W bool)) : M W bool :=
  match blocks with
  | [] => ret true
  | b :: rest =>
    ok <- b ;;
    if ok then run_steps rest else ret false
  end.

End Calls.

(** ** The test object of [itrans.py] and [itrans_zd.py]

    [raise_if_error_banner] is the same text in both files. *)

Module ItransTest.

Section Defs.

Variable W : Type.
Variable B : Browser W.

Definition ERROR_CONTAINER_VISIBLE_ALERTS_SELECTOR : pystr :=
  Eval vm_compute in py ".errors-container .alert.show".

Definition CLASS_MARKER : pystr := Eval vm_compute in py "alert-error".
Definition TEXT_MARKER : pystr := Eval vm_compute in py "ошибка".
Definition TEXT_MARKER_LONG : pystr := Eval vm_compute in py "произошла ошибка".
Definition BANNER_PREFIX : pystr :=
  Eval vm_compute in py "Обнаружено сообщение об ошибке на странице: ".

(** [[el for el in alerts if el.is_displayed()]]. *)
Fixpoint visible_alerts (alerts : list WebElement) : M W (list WebElement) :=
  match alerts with
  | [] => ret []
  | el :: rest =>
    shown <- query (is_displayed B el) ;;
    vs <- visible_alerts rest ;;
    ret (if shown then el :: vs else vs)
  end.

(** The test applied to one alert, on the lowered class attribute and the
    stripped text. *)
Definition is_error (classes text : pystr) : bool :=
  let is_error_by_class := contains CLASS_MARKER classes in
  let is_error_by_text :=
    contains TEXT_MARKER (lower text) || contains TEXT_MARKER_LONG (lower text) in
  is_error_by_class || is_error_by_text.

Definition banner_exception (text : pystr) : exn :=
  Exn Exception (BANNER_PREFIX ++ text).

Fixpoint check_alerts (visible : list WebElement) : M W unit :=
  match visible with
  | [] => ret tt
  | alert_ :: rest =>
    c <- query (get_attribute B alert_ (py "class")) ;;
    let classes := lower (or_empty c) in
    t <- query (element_text B alert_) ;;
    let text := strip (or_empty t) in
    if is_error classes text then raise (banner_exception text)
    else check_alerts rest
  end.

(** The body of the [try] in [raise_if_error_banner]. *)
Definition scan : M W unit :=
  alerts <- query (find_elements B ERROR_CONTAINER_VISIBLE_ALERTS_SELECTOR) ;;
  visible <- visible_alerts alerts ;;
  check_alerts visible.

Definition raise_if_error_banner : M W unit :=
  fun st =>
    if negb (check_error_banner st) then (Ok tt, st)
    else if negb (test_driver st) then (Ok tt, st)
    else try_except_if is_WebDriverException scan (fun _ => ret tt) st.

(** [wait_element], with the text of the failure left to each script. *)
Definition wait_element_with (not_found : pystr -> pystr) (xpath : pystr) (timeout : Z)
    : M W WebElement :=
  try_except_if is_TimeoutException
    (element <- call (wait_until_presence B xpath timeout) (EvWaitPresence xpath timeout) ;;
     raise_if_error_banner ;;
     ret element)
    (fun _ =>
       raise_if_error_banner ;;
       raise (Exn Exception (not_found xpath))).

End Defs.

End ItransTest.

(** ** itrans.py *)

Module Itrans.

Section Defs.

Variable W : Type.
Variable B : Browser W.

Definition to_dict (self : TestResult) : pyval :=
  PyDict [(py "success", PyBool (success self));
          (py "status", PyStr (status self));
          (py "message", PyStr (message self));
          (py "error", opt_val (error self));
          (py "test_info", info_val (test_info self));
          (py "steps", steps_val (steps self));
          (py "screenshot", opt_val (screenshot self))].

Definition print_report : M W unit :=
  fun st => print_json (to_dict (test_result st)) st.

(** [traceback.format_exception] is taken not to raise. *)
Definition format_exception_full (e : exn) : pystr := traceback_format_exception B e.

Definition wait_element (xpath : pystr) (timeout : Z) : M W WebElement :=
  ItransTest.wait_element_with B (fun x => py "Element not found: " ++ x) xpath timeout.

Definition step_error (n : nat) (e : exn) : pystr :=
  py "Шаг " ++ str_of_nat n ++ py " ошибка: " ++ format_exception_full e.

Definition step_message (n : nat) : pystr :=
  py "Тест завершился с ошибкой на шаге " ++ str_of_nat n.

(** One [try]/[except] block of [main]: the five blocks differ in the step
    number, the key and the body only.  The answer is [true] when [main]
    goes on to the next block and [false] when the block has returned 1. *)
Definition step_block (n : nat) (key : pystr) (body : M W unit) : M W bool :=
  t0 <- clock B ;;
  try_except
    (body ;;
     t1 <- clock B ;;
     on_result (add_step key (py "1") (t1 - t0)) ;;
     ret true)
    (fun e =>
       let err := step_error n e in
       ss_b64 <- call (get_screenshot_b64 B) EvScreenshot ;;
       t1 <- clock B ;;
       on_result (add_step key (py "0") (t1 - t0)) ;;
       on_result (set_screenshot_b64 ss_b64) ;;
       alert B err (Some ss_b64) ;;
       finalize B false (step_message n) (Some err) ;;
       print_report ;;
       ret false).

(** During step 1 the banner check is switched off. *)
Definition login_body : M W unit :=
  update (set_check_error_banner false) ;;
  run_step B 1 ;;
  update (set_check_error_banner true).

Definition KEY1 : pystr := Eval vm_compute in py "test_01_open_and_login".
Definition KEY2 : pystr := Eval vm_compute in py "test_02_open_coordinator_module".
Definition KEY3 : pystr := Eval vm_compute in py "test_03_open_analytics_module".
Definition KEY4 : pystr := Eval vm_compute in py "test_04_open_resources_module".
Definition KEY5 : pystr := Eval vm_compute in py "test_05_open_sales_module".

Definition critical_handler (e : exn) : M W Z :=
  let err_text := py "Критическая ошибка: " ++ format_exception_full e in
  ss_b64 <- try_except
              (fun st =>
                 if test_driver st
                 then (s <- call (get_screenshot_b64 B) EvScreenshot ;;
                       on_result (set_screenshot_b64 s) ;;
                       ret (Some s)) st
                 else (Ok None, st))
              (fun _ => ret None) ;;
  alert B err_text ss_b64 ;;
  finalize B false (py "Тест завершился с критической ошибкой") (Some err_text) ;;
  print_report ;;
  ret 1%Z.

Definition quit_driver : M W unit :=
  try_except
    (fun st =>
       if test_driver st then call (driver_quit B) EvQuit st else (Ok tt, st))
    (fun _ => ret tt).

Definition main (username password : option pystr) : M W Z :=
  t <- clock B ;;
  update (set_test_result (TestResult__init__ t)) ;;
  update (set_test_driver false) ;;
  update (set_check_error_banner true) ;;
  try_finally
    (try_except
       ((if negb (truthy username) || negb (truthy password)
         then raise (Exn ValueError
                (py "Не заданы учетные данные: ITRANS_LOGIN и ITRANS_PASSWORD"))
         else ret tt) ;;
        call (build_driver B) EvBuildDriver ;;
        update (set_test_driver true) ;;
        ok1 <- step_block 1 KEY1 login_body ;;
        if negb ok1 then ret 1%Z else
        ok2 <- step_block 2 KEY2 (run_step B 2) ;;
        if negb ok2 then ret 1%Z else
        ok3 <- step_block 3 KEY3 (run_step B 3) ;;
        if negb ok3 then ret 1%Z else
        ok4 <- step_block 4 KEY4 (run_step B 4) ;;
        if negb ok4 then ret 1%Z else
        ok5 <- step_block 5 KEY5 (run_step B 5) ;;
        if negb ok5 then ret 1%Z else
        finalize B true (py "Тест выполнен успешно") None ;;
        print_report ;;
        ret 0%Z)
       critical_handler)
    quit_driver.

End Defs.

End Itrans.

(** ** itrans_zd.py *)

Module ItransZd.

Section Defs.

Variable W : Type.
Variable B : Browser W.

Definition to_dict (self : TestResult) : pyval := Itrans.to_dict self.

Definition print_report : M W unit :=
  fun st => print_json (to_dict (test_result st)) st.

Definition wait_element (xpath : pystr) (timeout : Z) : M W WebElement :=
  ItransTest.wait_element_with B
    (fun x => py "Ошибка при поиске элемента Локатор = " ++ x ++ py ".") xpath timeout.

Definition step_error (n : nat) (e : exn) : pystr :=
  py "Шаг " ++ str_of_nat n ++ py " ошибка: " ++ exn_str e.

Definition step_message (n : nat) : pystr :=
  py "Тест завершился с ошибкой на шаге " ++ str_of_nat n.

Definition when_given (f : option (M W unit)) : M W unit :=
  match f with
  | Some m => m
  | None => ret tt
  end.

(** The closure [execute_step] of [main]. *)
Definition execute_step (step_number : nat) (step_key : pystr) (action : M W unit)
    (before after : option (M W unit)) : M W bool :=
  t0 <- clock B ;;
  try_except
    (when_given before ;;
     action ;;
     when_given after ;;
     t1 <- clock B ;;
     on_result (add_step step_key (py "1") (t1 - t0)) ;;
     ret true)
    (fun e =>
       let err := step_error step_number e in
       ss_b64 <- call (get_screenshot_b64 B) EvScreenshot ;;
       t1 <- clock B ;;
       on_result (add_step step_key (py "0") (t1 - t0)) ;;
       on_result (set_screenshot_b64 ss_b64) ;;
       alert B err (Some ss_b64) ;;
       finalize B false (step_message step_number) (Some err) ;;
       print_report ;;
       ret false).

Definition KEY1 : pystr := Eval vm_compute in py "step_01_open_and_login".
Definition KEY2 : pystr := Eval vm_compute in py "step_02_open_rail_module".
Definition KEY3 : pystr := Eval vm_compute in py "step_03_open_reports_module".
Definition KEY4 : pystr := Eval vm_compute in py "step_04_open_directory_module".
Definition KEY5 : pystr := Eval vm_compute in py "step_05_open_unified_window_module".

Definition general_handler (e : exn) : M W Z :=
  let err_text := py "Общая ошибка: " ++ exn_str e in
  ss_b64 <- try_except
              (fun st =>
                 if test_driver st
                 then (s <- call (get_screenshot_b64 B) EvScreenshot ;;
                       on_result (set_screenshot_b64 s) ;;
                       ret (Some s)) st
                 else (Ok None, st))
              (fun _ => ret None) ;;
  alert B err_text ss_b64 ;;
  finalize B false (py "Тест завершился с ошибкой") (Some err_text) ;;
  print_report ;;
  ret 1%Z.

Definition main (username password : option pystr) : M W Z :=
  t <- clock B ;;
  update (set_test_result (TestResult__init__ t)) ;;
  update (set_test_driver false) ;;
  update (set_check_error_banner true) ;;
  try_finally
    (try_except
       ((if negb (truthy username) || negb (truthy password)
         then raise (Exn ValueError
                (py "Не заданы учетные данные: ITRANS_LOGIN и ITRANS_PASSWORD"))
         else ret tt) ;;
        call (build_driver B) EvBuildDriver ;;
        update (set_test_driver true) ;;
        ok1 <- execute_step 1 KEY1 (run_step B 1)
                 (Some (update (set_check_error_banner false)))
                 (Some (update (set_check_error_banner true))) ;;
        if negb ok1 then ret 1%Z else
        ok2 <- execute_step 2 KEY2 (run_step B 2) None None ;;
        if negb ok2 then ret 1%Z else
        ok3 <- execute_step 3 KEY3 (run_step B 3) None None ;;
        if negb ok3 then ret 1%Z else
        ok4 <- execute_step 4 KEY4 (run_step B 4) None None ;;
        if negb ok4 then ret 1%Z else
        ok5 <- execute_step 5 KEY5 (run_step B 5) None None ;;
        if negb ok5 then ret 1%Z else
        finalize B true (py "Тест выполнен успешно") None ;;
        print_report ;;
        ret 0%Z)
       general_handler)
    (Itrans.quit_driver B).

End Defs.

End ItransZd.

(** ** lks.py *)

Module Lks.

Section Defs.

Variable W : Type.
Variable B : Browser W.

(** The [error] key is left out when there is no error. *)
Definition to_dict (self : TestResult) : pyval :=
  let data :=
    [(py "success", PyBool (success self));
     (py "status", PyStr (status self));
     (py "message", PyStr (message self));
     (py "test_info", info_val (test_info self));
     (py "steps", steps_val (steps self));
     (py "screenshot", opt_val (screenshot self))] in
  match error self with
  | Some e => PyDict (dict_set (py "error") (PyStr e) data)
  | None => PyDict data
  end.

Definition print_report : M W unit :=
  fun st => print_json (to_dict (test_result st)) st.

Definition step_error (n : nat) (e : exn) : pystr :=
  py "Шаг " ++ str_of_nat n ++ py " ошибка: " ++ exn_str e.

Definition step_message (n : nat) : pystr :=
  py "Тест завершился с ошибкой на шаге " ++ str_of_nat n.

(** [get_screenshot_b64(driver)]; without a driver the attribute lookup
    fails. *)
Definition screenshot_of (driver : bool) : M W pystr :=
  if driver then call (get_screenshot_b64 B) EvScreenshot
  else raise (Exn AttributeError
         (py "'NoneType' object has no attribute 'get_screenshot_as_png'")).

(** The reload between two attempts; what goes wrong in it is dropped. *)
Definition reload_page (driver : bool) : M W unit :=
  try_except
    (if driver
     then (call (driver_refresh B) EvRefresh ;;
           call (wait_ready_state B) EvReadyState ;;
           call_quiet (time_sleep B 3) (EvSleep 3))
     else ret tt)
    (fun _ => ret tt).

(** The screenshot of the failing step, kept when it could be taken. *)
Definition capture (driver : bool) : M W (option pystr) :=
  try_except
    (s <- screenshot_of driver ;;
     on_result (set_screenshot_b64 s) ;;
     call_quiet (save_screenshot_file B) EvSaveFile ;;
     ret (Some s))
    (fun _ => ret None).

Definition attempt_body (step_number : nat) (step_key : pystr) (action : M W unit)
    (driver : bool) (max_retries : nat) (attempt : nat) : M W (option bool) :=
  t0 <- clock B ;;
  try_except
    (action ;;
     t1 <- clock B ;;
     on_result (add_step step_key (py "1") (t1 - t0)) ;;
     ret (Some true))
    (fun e =>
       if (attempt <? max_retries)%nat
       then (reload_page driver ;; ret None)
       else
         let err := step_error step_number e in
         ss_b64 <- capture driver ;;
         t1 <- clock B ;;
         on_result (add_step step_key (py "0") (t1 - t0)) ;;
         alert B err ss_b64 ;;
         finalize B false (step_message step_number) (Some err) ;;
         print_report ;;
         ret (Some false)).

(** [None] is the answer of a call that falls off the loop. *)
Definition execute_step_with_retry (step_number : nat) (step_key : pystr)
    (action : M W unit) (driver : bool) (max_retries : nat) : M W (option bool) :=
  for_range (seq 0 (max_retries + 1))
    (attempt_body step_number step_key action driver max_retries).

(** [not v] for an answer of [execute_step_with_retry]. *)
Definition falsy (v : option bool) : bool :=
  match v with
  | Some true => false
  | _ => true
  end.

Definition KEY1 : pystr := Eval vm_compute in py "step_01_open_and_authenticate".
Definition KEY2 : pystr := Eval vm_compute in py "step_02_open_journal".
Definition KEY3 : pystr :=
  Eval vm_compute in py "step_03_open_expeditor_report_and_select_rail".
Definition KEY4 : pystr := Eval vm_compute in py "step_04_open_available_equipment".
Definition KEY5 : pystr := Eval vm_compute in py "step_05_check_container_filter".

Definition general_handler (e : exn) : M W Z :=
  let err_text := py "Общая ошибка: " ++ exn_str e in
  ss_b64 <- try_except
              (fun st =>
                 if test_driver st
                 then (s <- call (get_screenshot_b64 B) EvScreenshot ;;
                       on_result (set_screenshot_b64 s) ;;
                       call_quiet (save_screenshot_file B) EvSaveFile ;;
                       ret (Some s)) st
                 else (Ok None, st))
              (fun _ => ret None) ;;
  alert B err_text ss_b64 ;;
  finalize B false (py "Тест завершился с ошибкой") (Some err_text) ;;
  print_report ;;
  ret 1%Z.

Definition quit_driver : M W unit :=
  try_except
    (fun st =>
       if test_driver st then call (driver_quit B) EvQuit st else (Ok tt, st))
    (fun _ => ret tt).

Definition main (username password : option pystr) : M W Z :=
  t <- clock B ;;
  update (set_test_result (TestResult__init__ t)) ;;
  update (set_test_driver false) ;;
  try_finally
    (try_except
       ((if negb (truthy username) || negb (truthy password)
         then raise (Exn ValueError
                (py "Не заданы учетные данные: ITRANS_LOGIN и ITRANS_PASSWORD"))
         else ret tt) ;;
        call (build_driver B) EvBuildDriver ;;
        update (set_test_driver true) ;;
        r1 <- execute_step_with_retry 1 KEY1 (run_step B 1) true 2 ;;
        if falsy r1 then ret 1%Z else
        r2 <- execute_step_with_retry 2 KEY2 (run_step B 2) true 2 ;;
        if falsy r2 then ret 1%Z else
        r3 <- execute_step_with_retry 3 KEY3 (run_step B 3) true 2 ;;
        if falsy r3 then ret 1%Z else
        r4 <- execute_step_with_retry 4 KEY4 (run_step B 4) true 2 ;;
        if falsy r4 then ret 1%Z else
        r5 <- execute_step_with_retry 5 KEY5 (run_step B 5) true 2 ;;
        if falsy r5 then ret 1%Z else
        finalize B true (py "Тест выполнен успешно") None ;;
        print_report ;;
        ret 0%Z)
       general_handler)
    quit_driver.

End Defs.

End Lks.

(** ** test_dl.py *)

Module TestDl.

Section Defs.

Variable W : Type.
Variable B : Browser W.

(** One turn of the loop in the wrapper that
    [retry_on_exception(retries, delay)] puts around [func]. *)
Definition attempt_body {A} (retries : nat) (delay : Z) (func : M W A)
    (attempt : nat) : M W (option A) :=
  try_except
    (v <- func ;; ret (Some v))
    (fun e =>
       if (attempt =? retries - 1)%nat then raise e
       else
         (try_except (call (driver_refresh B) EvRefresh) (fun _ => ret tt) ;;
          call_quiet (time_sleep B delay) (EvSleep delay) ;;
          ret None)).

(** The wrapper.  [Some v] is [return func(...)], [None] the [return None]
    after the loop. *)
Definition retry_on_exception {A} (retries : nat) (delay : Z) (func : M W A)
    : M W (option A) :=
  for_range (seq 0 retries) (attempt_body retries delay func).

(** [@retry_on_exception(retries=2)] on steps 8 and 9. *)
Definition test_08_select_shipper_consignee : M W (option unit) :=
  retry_on_exception 2 1 (run_step B 8).


End Defs.

End TestDl.

(** ** A scripted browser

    A world whose answers are written down in advance: the clock advances
    one second per reading, step bodies and screenshots answer from lists
    (and succeed once the list is used up), and the page shows a fixed list
    of alert elements.  It is the world of the examples below. *)

Module Sim.

Record alert_el := {
  a_displayed : res bool;
  a_class : res (option pystr);
  a_text : res (option pystr)
}.

Record world := {
  sim_clock : Z;
  sim_steps : list (res unit);
  sim_shots : list (res pystr);
  sim_waits : list (res WebElement);
  sim_find_fails : bool;
  sim_alerts : list alert_el
}.

Definition driver_error (msg : string) : exn := Exn WebDriverException (py msg).

Definition default_shot : pystr := Eval vm_compute in py "iVBORw0KGgo=".

Definition tick (w : world) : Z * world :=
  (sim_clock w,
   {| sim_clock := sim_clock w + 1000000; sim_steps := sim_steps w;
      sim_shots := sim_shots w; sim_waits := sim_waits w;
      sim_find_fails := sim_find_fails w; sim_alerts := sim_alerts w |}).

Definition next_step (_ : nat) (w : world) : res unit * world :=
  match sim_steps w with
  | [] => (Ok tt, w)
  | r :: rest =>
    (r, {| sim_clock := sim_clock w; sim_steps := rest; sim_shots := sim_shots w;
           sim_waits := sim_waits w; sim_find_fails := sim_find_fails w;
           sim_alerts := sim_alerts w |})
  end.

Definition next_shot (w : world) : res pystr * world :=
  match sim_shots w with
  | [] => (Ok default_shot, w)
  | r :: rest =>
    (r, {| sim_clock := sim_clock w; sim_steps := sim_steps w; sim_shots := rest;
           sim_waits := sim_waits w; sim_find_fails := sim_find_fails w;
           sim_alerts := sim_alerts w |})
  end.

Definition next_wait (_ : pystr) (_ : Z) (w : world) : res WebElement * world :=
  match sim_waits w with
  | [] => (Ok O, w)
  | r :: rest =>
    (r, {| sim_clock := sim_clock w; sim_steps := sim_steps w;
           sim_shots := sim_shots w; sim_waits := rest;
           sim_find_fails := sim_find_fails w; sim_alerts := sim_alerts w |})
  end.

Definition stale : exn :=
  Exn StaleElementReferenceException (py "stale element reference").

Definition on_alert {A} (f : alert_el -> res A) (el : WebElement) (w : world) : res A :=
  match nth_error (sim_alerts w) el with
  | Some a => f a
  | None => Raise stale
  end.

Definition browser : Browser world := {|
  time_time := tick;
  build_driver := fun w => (Ok tt, w);
  step_body := next_step;
  driver_refresh := fun w => (Ok tt, w);
  wait_ready_state := fun w => (Ok tt, w);
  time_sleep := fun _ w => w;
  get_screenshot_b64 := next_shot;
  save_screenshot_file := fun w => w;
  send_telegram_alert := fun _ _ w => w;
  driver_quit := fun w => (Ok tt, w);
  wait_until_presence := next_wait;
  find_elements := fun _ w =>
    if sim_find_fails w then Raise (driver_error "no such window")
    else Ok (seq 0 (length (sim_alerts w)));
  is_displayed := on_alert a_displayed;
  get_attribute := fun el _ => on_alert a_class el;
  element_text := on_alert a_text;
  traceback_format_exception := exn_str
|}.

(** A world with the given step answers, screenshot answers and page. *)
Definition scripted (steps_ : list (res unit)) (shots : list (res pystr))
    (alerts : list alert_el) : world :=
  {| sim_clock := 0; sim_steps := steps_; sim_shots := shots; sim_waits := [];
     sim_find_fails := false; sim_alerts := alerts |}.

Definition boom (msg : string) : res unit := Raise (Exn Exception (py msg)).

(** A page on which the awaited element never appears while an alert
    is displayed whose text, not its class, tells of an error. *)
Definition timeout_error : exn := Exn TimeoutException (py "Message: ").

Definition error_alert : alert_el :=
  {| a_displayed := Ok true;
     a_class := Ok (Some (py "alert alert-danger show"));
     a_text := Ok (Some (py "  Произошла ОШИБКА сервера ")) |}.

Definition timed_out_page : world :=
  {| sim_clock := 0; sim_steps := []; sim_shots := [];
     sim_waits := [Raise timeout_error]; sim_find_fails := false;
     sim_alerts := [error_alert] |}.

Definition creds : option pystr := Some (py "monitor").

End Sim.

(** Pages for the banner check. *)
Module SimAlerts.

(** An alert that has left the page since it was found. *)
Definition stale_alert : Sim.alert_el :=
  {| Sim.a_displayed := Raise Sim.stale;
     Sim.a_class := Raise Sim.stale;
     Sim.a_text := Raise Sim.stale |}.

(** An alert whose class is written in capitals and whose text says
    nothing. *)
Definition capitals_alert : Sim.alert_el :=
  {| Sim.a_displayed := Ok true;
     Sim.a_class := Ok (Some (py "alert ALERT-ERROR show"));
     Sim.a_text := Ok None |}.

(** An alert that tells of a success. *)
Definition success_alert : Sim.alert_el :=
  {| Sim.a_displayed := Ok true;
     Sim.a_class := Ok (Some (py "alert alert-success show"));
     Sim.a_text := Ok (Some (py "Сохранено")) |}.

(** The awaited element never appears; the page lists an alert that has
    gone stale and, after it, a displayed error alert. *)
Definition timed_out_behind_stale : Sim.world :=
  {| Sim.sim_clock := 0; Sim.sim_steps := []; Sim.sim_shots := [];
     Sim.sim_waits := [Raise Sim.timeout_error]; Sim.sim_find_fails := false;
     Sim.sim_alerts := [stale_alert; Sim.error_alert] |}.

(** The same page with a harmless alert in front instead. *)
Definition timed_out_behind_success : Sim.world :=
  {| Sim.sim_clock := 0; Sim.sim_steps := []; Sim.sim_shots := [];
     Sim.sim_waits := [Raise Sim.timeout_error]; Sim.sim_find_fails := false;
     Sim.sim_alerts := [success_alert; Sim.error_alert] |}.

End SimAlerts.

(** ** What a log says *)

(** The answers of the bodies of step [k], in the order they were run. *)
Fixpoint step_events (k : nat) (l : list Event) : list (res unit) :=
  match l with
  | [] => []
  | EvStep j r :: l' =>
    if (j =? k)%nat then r :: step_events k l' else step_events k l'
  | _ :: l' => step_events k l'
  end.

(** Step [k] was run and none of its attempts succeeded. *)
Definition step_failed (k : nat) (l : list Event) : Prop :=
  step_events k l <> [] /\ forallb is_raise (step_events k l) = true.

(** Some attempt of step [k] succeeded. *)
Definition step_passed (k : nat) (l : list Event) : Prop :=
  existsb is_ok (step_events k l) = true.

(** The attempts and reloads of a log, other events left out. *)
Inductive Turn :=
| Attempt (r : res unit)
| Reload.

Fixpoint turns (l : list Event) : list Turn :=
  match l with
  | [] => []
  | EvStep _ r :: l' => Attempt r :: turns l'
  | EvRefresh _ :: l' => Reload :: turns l'
  | _ :: l' => turns l'
  end.


Definition count_reloads (l : list Event) : nat :=
  length (filter (fun t => match t with Reload => true | _ => false end) (turns l)).

Definition count_attempts (l : list Event) : nat :=
  length (filter (fun t => match t with Attempt _ => true | _ => false end) (turns l)).

(** The clock readings of a log. *)
Fixpoint readings (l : list Event) : list Z :=
  match l with
  | [] => []
  | EvTime t :: l' => t :: readings l'
  | _ :: l' => readings l'
  end.

(** The statuses recorded in a [steps] dict, in its order. *)
Definition statuses (d : list (pystr * StepEntry)) : list pystr :=
  map (fun kv => st_status (snd kv)) d.

(** A sequence of [add_step] calls on one object. *)
Definition record_all (calls : list (pystr * pystr * Z)) (r : TestResult) : TestResult :=
  fold_left (fun r c => add_step (fst (fst c)) (snd (fst c)) (snd c) r) calls r.

(** Reading a report. *)
Definition field (k : string) (v : pyval) : option pyval :=
  match v with
  | PyDict d => dict_get (py k) d
  | _ => None
  end.

(** Status and success agree. *)
Definition coherent (r : TestResult) : Prop :=
  status r = if success r then py "1" else py "0".

(** ** The banner, in words

    An alert marks an error when its class attribute contains the marker
    [alert-error] or its text contains the word [ошибка], each letter small
    or capital. *)

(** A marker letter with its capital; a sign that has none stands with
    itself.  Neither is white space. *)
Definition letter_pair (pair : N * N) : bool :=
  let x := fst pair in
  let X := snd pair in
  negb (isspace x) && negb (isspace X) &&
  (((X =? x)%N && (x <? 65)%N) ||
   ((X + 32 =? x)%N &&
    (((97 <=? x)%N && (x <=? 122)%N) || ((1072 <=? x)%N && (x <=? 1103)%N)))).

(** [m] spells the word: letter by letter it has the small or the capital
    one. *)
Definition spells (small capitals m : pystr) : Prop :=
  Forall2 (fun pair y => y = fst pair \/ y = snd pair) (combine small capitals) m.

(** The word occurs in [s]. *)
Definition occurs (small capitals s : pystr) : Prop :=
  exists a m b, s = a ++ m ++ b /\ spells small capitals m.

(** The class attribute [c] or the text [t] marks an error; [None] is an
    attribute or a text that is not there. *)
Definition marks_error (c t : option pystr) : Prop :=
  occurs (py "alert-error") (py "ALERT-ERROR") (or_empty c) \/
  occurs (py "ошибка") (py "ОШИБКА") (or_empty t).

(** ** What a state shows *)

Section Observers.

Variable W : Type.
Variable B : Browser W.

(** The next reading of the clock, and the state [clock] leaves. *)
Definition reading (st : State W) : Z := fst (time_time B (world st)).

Definition after_clock (st : State W) : State W :=
  add_log (EvTime (fst (time_time B (world st))))
    (set_world (snd (time_time B (world st))) st).

(** An alert element that is displayed. *)
Definition shown (w : W) (el : WebElement) : bool :=
  match is_displayed B el w with
  | Ok true => true
  | _ => false
  end.

(** Every alert of the list says whether it is displayed. *)
Definition all_say_displayed (w : W) (els : list WebElement) : Prop :=
  Forall (fun el => exists b, is_displayed B el w = Ok b) els.

(** The alert gives the class attribute [c] and the text [t]. *)
Definition says (w : W) (el : WebElement) (c t : option pystr) : Prop :=
  get_attribute B el (py "class") w = Ok c /\ element_text B el w = Ok t.

(** Alerts that give their class attribute and text and mark no error. *)
Definition harmless (w : W) (els : list WebElement) : Prop :=
  Forall (fun el => exists c t, says w el c t /\ ~ marks_error c t) els.

(** The check reaches the displayed alert [el], whose text is [t] and which
    marks an error, before any query fails: the alerts are found, each says
    whether it is displayed, and the displayed ones before [el] give their
    class attribute and text and mark no error. *)
Definition finds_banner (w : W) (el : WebElement) (t : option pystr) : Prop :=
  exists els pre post c,
    find_elements B (py ".errors-container .alert.show") w = Ok els /\
    all_say_displayed w els /\
    filter (shown w) els = pre ++ el :: post /\
    harmless w pre /\
    says w el c t /\ marks_error c t.

(** A query of the check fails with [e] before an alert that marks an error
    is reached: the search for the alerts; or the question whether an alert
    is displayed, all alerts being asked before any class attribute or text
    is read; or the class attribute or the text of a displayed alert. *)
Definition query_fails (w : W) (e : exn) : Prop :=
  find_elements B (py ".errors-container .alert.show") w = Raise e \/
  exists els,
    find_elements B (py ".errors-container .alert.show") w = Ok els /\
    ((exists pre el post,
        els = pre ++ el :: post /\ all_say_displayed w pre /\
        is_displayed B el w = Raise e) \/
     (all_say_displayed w els /\
      exists pre el post,
        filter (shown w) els = pre ++ el :: post /\ harmless w pre /\
        (get_attribute B el (py "class") w = Raise e \/
         ((exists c, get_attribute B el (py "class") w = Ok c) /\
          element_text B el w = Raise e)))).

(** The page answers every query of the banner check: the alerts are [els],
    each says whether it is displayed, and the displayed ones give their class
    and text. *)
Definition readable (w : W) (els : list WebElement) : Prop :=
  find_elements B (py ".errors-container .alert.show") w = Ok els /\
  Forall (fun el =>
            exists b, is_displayed B el w = Ok b /\
              (b = true ->
               (exists c, get_attribute B el (py "class") w = Ok c) /\
               (exists t, element_text B el w = Ok t))) els.

End Observers.

(** ** Shapes of a log *)

(** Events that are neither an attempt, nor a reload, nor a reading. *)
Definition quiet_event (ev : Event) : bool :=
  match ev with
  | EvStep _ _ | EvRefresh _ | EvTime _ => false
  | _ => true
  end.

Definition quiet (q : list Event) : Prop := forallb quiet_event q = true.

(** A failed attempt of step [k] and the reload that follows it, with or
    without the reading that starts the attempt. *)
Definition failed_round (k : nat) (evs : list Event) : Prop :=
  exists pre e r q,
    evs = pre ++ EvStep k (Raise e) :: EvRefresh r :: q /\ quiet q /\
    (pre = [] \/ exists t, pre = [EvTime t]).

Section Outcomes.

Variable W : Type.
Variable B : Browser W.

(** The events a run added to the log. *)
Definition since (st st' : State W) : list Event :=
  skipn (length (log st)) (log st').

(** The run left the objects as they were. *)
Definition unchanged (st st' : State W) : Prop :=
  test_result st' = test_result st /\ stdout st' = stdout st /\
  test_driver st' = test_driver st /\
  check_error_banner st' = check_error_banner st.

(** What a call of [execute_step_with_retry] on step [k] leaves behind: failed
    rounds, then one last attempt that either passes or fails for good. *)
Definition retry_outcome (n : nat) (key : pystr) (k bound : nat)
    (st : State W) (out : res (option bool) * State W) : Prop :=
  let st' := snd out in
  exists rounds last,
    log st' = log st ++ concat rounds ++ last /\
    Forall (failed_round k) rounds /\
    test_driver st' = test_driver st /\
    check_error_banner st' = check_error_banner st /\
    ((exists t0 t1,
        fst out = Ok (Some true) /\
        last = [EvTime t0; EvStep k (Ok tt); EvTime t1] /\
        length rounds <= bound /\
        test_result st' = add_step key (py "1") (t1 - t0) (test_result st) /\
        stdout st' = stdout st)
     \/
     (exists t0 e q t1 ss t2,
        fst out = Ok (Some false) /\
        last = [EvTime t0; EvStep k (Raise e)] ++ q ++
               [EvTime t1; EvAlert (Lks.step_error n e) ss; EvTime t2] /\
        quiet q /\
        length rounds = bound /\
        test_result st' =
          finalize_at t2 false (Lks.step_message n) (Some (Lks.step_error n e))
            (add_step key (py "0") (t1 - t0)
               (match ss with
                | Some s => set_screenshot_b64 s (test_result st)
                | None => test_result st
                end)) /\
        stdout st' = stdout st ++ [Lks.to_dict (test_result st')])).

(** What a call of a function wrapped by [retry_on_exception] leaves
    behind. *)
Definition dl_outcome (k bound : nat) (st : State W)
    (out : res (option unit) * State W) : Prop :=
  let st' := snd out in
  exists rounds last,
    log st' = log st ++ concat rounds ++ last /\
    Forall (failed_round k) rounds /\
    unchanged st st' /\
    ((fst out = Ok (Some tt) /\ last = [EvStep k (Ok tt)] /\ length rounds <= bound)
     \/
     (exists e, fst out = Raise e /\ last = [EvStep k (Raise e)] /\
                length rounds = bound)).

End Outcomes.

(** ** Pipelines *)

Definition is_true_result (r : res bool) : bool :=
  match r with
  | Ok true => true
  | _ => false
  end.

Section Pipeline.

Variable W : Type.
Variable B : Browser W.

(** How a report is built from the result. *)
Variable td : TestResult -> pyval.

(** One step of a [main], with its number and its key in [steps]. *)
Record Block := {
  blk_num : nat;
  blk_key : pystr;
  blk_login : bool;
  blk_run : M W bool
}.

(** The banner check after a block: a login block leaves it on when it
    passes and off when it does not, other blocks leave it as it is. *)
Definition flag_after (b : Block) (passed : bool) (flag : bool) : bool :=
  if blk_login b then passed else flag.

(** What a block does from any state: it passes and records ["1"]; or it
    fails, records ["0"] and prints the report; or, where [may_crash]
    allows it, an exception of the screenshot escapes and nothing is
    recorded. *)
Definition block_summary (may_crash : bool) (b : Block) : Prop :=
  forall st,
    let out := blk_run b st in
    let st' := snd out in
    exists evs,
      log st' = log st ++ evs /\
      test_driver st' = test_driver st /\
      (forall j, j <> blk_num b -> step_events j evs = []) /\
      check_error_banner st' =
        flag_after b (is_true_result (fst out)) (check_error_banner st) /\
      ((fst out = Ok true /\
        step_passed (blk_num b) evs /\
        (exists d, test_result st' = add_step (blk_key b) (py "1") d (test_result st)) /\
        stdout st' = stdout st)
       \/
       (fst out = Ok false /\
        step_failed (blk_num b) evs /\
        (exists d,
           steps (test_result st') =
             dict_set (blk_key b) {| st_status := py "0"; st_duration_seconds := d |}
               (steps (test_result st))) /\
        success (test_result st') = false /\
        error (test_result st') <> None /\
        stdout st' = stdout st ++ [td (test_result st')])
       \/
       (may_crash = true /\
        exists e,
          fst out = Raise e /\
          In (EvScreenshot (Raise e)) evs /\
          step_failed (blk_num b) evs /\
          test_result st' = test_result st /\
          stdout st' = stdout st)).

(** Calls of [add_step] that record a pass for each of [keys], in order. *)
Definition passing_calls (keys : list pystr) (calls : list (pystr * pystr * Z)) : Prop :=
  map (fun c => fst (fst c)) calls = keys /\
  Forall (fun c => snd (fst c) = py "1") calls.

(** Where a run of blocks ended. *)
Inductive Ending :=
| AllPassed
| FailedAt (pre : list Block) (b : Block) (post : list Block)
| CrashedAt (pre : list Block) (b : Block) (post : list Block) (e : exn).

(** What a run of [blocks] from [st] shows in its new events [evs] and its
    last state [st'], for each ending. *)
Definition chain_ending (may_crash : bool) (blocks : list Block) (st st' : State W)
    (evs : list Event) (ending : Ending) : Prop :=
  match ending with
  | AllPassed =>
    (forall b, In b blocks -> step_passed (blk_num b) evs) /\
    (exists calls,
       passing_calls (map blk_key blocks) calls /\
       test_result st' = record_all calls (test_result st)) /\
    stdout st' = stdout st
  | FailedAt pre b post =>
    blocks = pre ++ b :: post /\
    (forall x, In x pre -> step_passed (blk_num x) evs) /\
    step_failed (blk_num b) evs /\
    (forall x, In x post -> step_events (blk_num x) evs = []) /\
    (exists calls d,
       passing_calls (map blk_key pre) calls /\
       steps (test_result st') =
         dict_set (blk_key b) {| st_status := py "0"; st_duration_seconds := d |}
           (steps (record_all calls (test_result st)))) /\
    success (test_result st') = false /\
    error (test_result st') <> None /\
    stdout st' = stdout st ++ [td (test_result st')]
  | CrashedAt pre b post e =>
    may_crash = true /\
    blocks = pre ++ b :: post /\
    (forall x, In x pre -> step_passed (blk_num x) evs) /\
    step_failed (blk_num b) evs /\
    In (EvScreenshot (Raise e)) evs /\
    (forall x, In x post -> step_events (blk_num x) evs = []) /\
    (exists calls,
       passing_calls (map blk_key pre) calls /\
       test_result st' = record_all calls (test_result st)) /\
    stdout st' = stdout st
  end.

(** The banner check at the end of a run of blocks that began with it set
    to [flag]. *)
Definition pass_flag (blocks : list Block) (flag : bool) : bool :=
  if existsb blk_login blocks then true else flag.

Definition ending_flag (blocks : list Block) (ending : Ending) (flag : bool) : bool :=
  match ending with
  | AllPassed => pass_flag blocks flag
  | FailedAt pre b _ | CrashedAt pre b _ _ =>
    if blk_login b then false else pass_flag pre flag
  end.

Definition ending_result (ending : Ending) : res bool :=
  match ending with
  | AllPassed => Ok true
  | FailedAt _ _ _ => Ok false
  | CrashedAt _ _ _ e => Raise e
  end.

End Pipeline.

Section Skeleton.

Variable W : Type.
Variable B : Browser W.
Variable td : TestResult -> pyval.

Definition CREDENTIALS_MISSING : pystr :=
  Eval vm_compute in py "Не заданы учетные данные: ITRANS_LOGIN и ITRANS_PASSWORD".

Definition SUCCESS_MESSAGE : pystr := Eval vm_compute in py "Тест выполнен успешно".

(** What the three [main] functions share once the objects are made: the
    check of the credentials, the driver, the steps with an early return,
    and the [except] around them. *)
Definition guarded_body (username password : option pystr) (blocks : list (M W bool))
    (handler : exn -> M W Z) : M W Z :=
  try_except
    ((if negb (truthy username) || negb (truthy password)
      then raise (Exn ValueError CREDENTIALS_MISSING)
      else ret tt) ;;
     call (build_driver B) EvBuildDriver ;;
     update (set_test_driver true) ;;
     ok <- run_steps blocks ;;
     if ok
     then (finalize B true SUCCESS_MESSAGE None ;;
           (fun st => print_json (td (test_result st)) st) ;;
           ret 0%Z)
     else ret 1%Z)
    handler.

(** And the [finally] around that. *)
Definition guarded_run (username password : option pystr) (blocks : list (M W bool))
    (handler : exn -> M W Z) (quit : M W unit) : M W Z :=
  try_finally (guarded_body username password blocks handler) quit.

(** The handler of the outer [except]: it reports a failure and leaves
    [steps] alone. *)
Definition handler_summary (h : exn -> M W Z) : Prop :=
  forall e st,
    let out := h e st in
    let st' := snd out in
    exists evs,
      fst out = Ok 1%Z /\
      log st' = log st ++ evs /\
      (forall j, step_events j evs = []) /\
      steps (test_result st') = steps (test_result st) /\
      success (test_result st') = false /\
      error (test_result st') <> None /\
      stdout st' = stdout st ++ [td (test_result st')] /\
      check_error_banner st' = check_error_banner st.

(** The [finally] block: it only talks to the driver. *)
Definition quit_summary (q : M W unit) : Prop :=
  forall st,
    let st' := snd (q st) in
    exists evs,
      log st' = log st ++ evs /\
      (forall j, step_events j evs = []) /\
      test_result st' = test_result st /\
      stdout st' = stdout st /\
      check_error_banner st' = check_error_banner st.

(** What a whole run shows, by its ending; [None] is a run that ended
    before the first step. *)
Definition run_ending (may_crash : bool) (blocks : list (Block W)) (st st' : State W)
    (evs : list Event) (code : Z) (ending : option (Ending W)) : Prop :=
  let tr := test_result st in
  let tr' := test_result st' in
  stdout st' = stdout st ++ [td tr'] /\
  check_error_banner st' =
    match ending with
    | None => check_error_banner st
    | Some en => ending_flag blocks en (check_error_banner st)
    end /\
  match ending with
  | None =>
    code = 1%Z /\
    (forall j, step_events j evs = []) /\
    steps tr' = steps tr /\
    success tr' = false /\ error tr' <> None
  | Some (AllPassed _) =>
    code = 0%Z /\
    (forall b, In b blocks -> step_passed (blk_num b) evs) /\
    (exists calls t,
       passing_calls (map (@blk_key W) blocks) calls /\
       tr' = finalize_at t true SUCCESS_MESSAGE None (record_all calls tr))
  | Some (FailedAt pre b post) =>
    code = 1%Z /\
    blocks = pre ++ b :: post /\
    (forall x, In x pre -> step_passed (blk_num x) evs) /\
    step_failed (blk_num b) evs /\
    (forall x, In x post -> step_events (blk_num x) evs = []) /\
    (exists calls d,
       passing_calls (map (@blk_key W) pre) calls /\
       steps tr' =
         dict_set (blk_key b) {| st_status := py "0"; st_duration_seconds := d |}
           (steps (record_all calls tr))) /\
    success tr' = false /\ error tr' <> None
  | Some (CrashedAt pre b post e) =>
    code = 1%Z /\
    may_crash = true /\
    blocks = pre ++ b :: post /\
    (forall x, In x pre -> step_passed (blk_num x) evs) /\
    step_failed (blk_num b) evs /\
    In (EvScreenshot (Raise e)) evs /\
    (forall x, In x post -> step_events (blk_num x) evs = []) /\
    (exists calls,
       passing_calls (map (@blk_key W) pre) calls /\
       steps tr' = steps (record_all calls tr)) /\
    success tr' = false /\ error tr' <> None
  end.

End Skeleton.

(** ** The blocks of the three scripts *)

Section Blocks.

Variable W : Type.
Variable B : Browser W.

(** The state in which [main] of [itrans.py] and of [itrans_zd.py] enters its
    [try], and the same for [lks.py], whose test object has no banner check. *)
Definition started (st : State W) : State W :=
  set_check_error_banner true
    (set_test_driver false
       (set_test_result (TestResult__init__ (reading B st)) (after_clock B st))).

Definition lks_started (st : State W) : State W :=
  set_test_driver false
    (set_test_result (TestResult__init__ (reading B st)) (after_clock B st)).

Definition itrans_block (n : nat) (key : pystr) : Block W :=
  {| blk_num := n; blk_key := key; blk_login := false;
     blk_run := Itrans.step_block B n key (run_step B n) |}.

Definition itrans_login : Block W :=
  {| blk_num := 1; blk_key := Itrans.KEY1; blk_login := true;
     blk_run := Itrans.step_block B 1 Itrans.KEY1 (Itrans.login_body B) |}.

Definition itrans_blocks : list (Block W) :=
  [itrans_login; itrans_block 2 Itrans.KEY2; itrans_block 3 Itrans.KEY3;
   itrans_block 4 Itrans.KEY4; itrans_block 5 Itrans.KEY5].

Definition zd_block (n : nat) (key : pystr) : Block W :=
  {| blk_num := n; blk_key := key; blk_login := false;
     blk_run := ItransZd.execute_step B n key (run_step B n) None None |}.

Definition zd_login : Block W :=
  {| blk_num := 1; blk_key := ItransZd.KEY1; blk_login := true;
     blk_run :=
       ItransZd.execute_step B 1 ItransZd.KEY1 (run_step B 1)
         (Some (update (set_check_error_banner false)))
         (Some (update (set_check_error_banner true))) |}.

Definition zd_blocks : list (Block W) :=
  [zd_login; zd_block 2 ItransZd.KEY2; zd_block 3 ItransZd.KEY3;
   zd_block 4 ItransZd.KEY4; zd_block 5 ItransZd.KEY5].

Definition lks_block (n : nat) (key : pystr) : Block W :=
  {| blk_num := n; blk_key := key; blk_login := false;
     blk_run :=
       r <- Lks.execute_step_with_retry B n key (run_step B n) true 2 ;;
       ret (negb (Lks.falsy r)) |}.

Definition lks_blocks : list (Block W) :=
  [lks_block 1 Lks.KEY1; lks_block 2 Lks.KEY2; lks_block 3 Lks.KEY3;
   lks_block 4 Lks.KEY4; lks_block 5 Lks.KEY5].

End Blocks.

(** The entry that a call of [add_step] writes. *)
Definition entry_of (c : pystr * pystr * Z) : pystr * StepEntry :=
  (fst (fst c), {| st_status := snd (fst c); st_duration_seconds := round2 (snd c) |}).

(** * More of the scripts *)

(** ** Method calls on a TestResult *)

(** The calls the scripts make on a [TestResult], [finalize] with the
    reading it takes. *)
Inductive Method :=
| AddStep (step_name status_ : pystr) (duration_seconds : Z)
| SetScreenshot (b64 : pystr)
| Finalize (end_ : Z) (success_ : bool) (message_ : pystr) (error_ : option pystr).

Definition invoke (c : Method) (self : TestResult) : TestResult :=
  match c with
  | AddStep n s d => add_step n s d self
  | SetScreenshot b => set_screenshot_b64 b self
  | Finalize t s m e => finalize_at t s m e self
  end.

Definition invoke_all (calls : list Method) (self : TestResult) : TestResult :=
  fold_left (fun r c => invoke c r) calls self.

Definition is_SetScreenshot (c : Method) : bool :=
  match c with
  | SetScreenshot _ => true
  | _ => false
  end.

(** ** The environment

    [os.environ] as a mapping from names to values. *)

Definition getenv (environ : list (pystr * pystr)) (name : pystr)
    (default : option pystr) : option pystr :=
  match dict_get name environ with
  | Some v => Some v
  | None => default
  end.

(** [env(name, default)] of [itrans.py], [itrans_zd.py] and [lks.py]. *)
Definition env (environ : list (pystr * pystr)) (name : pystr)
    (default : option pystr) : option pystr :=
  let value := getenv environ name default in
  match value with
  | None => None
  | Some v => Some (strip v)
  end.

(** [a or b] on optional strings. *)
Definition py_or (a b : option pystr) : option pystr :=
  if truthy a then a else b.

Module ItransEnv.

Definition username (environ : list (pystr * pystr)) : option pystr :=
  py_or (getenv environ (py "ITRANS_LOGIN") None)
    (py_or (getenv environ (py "ITRANS_USER") None)
       (getenv environ (py "LOGIN") None)).

Definition password (environ : list (pystr * pystr)) : option pystr :=
  py_or (getenv environ (py "ITRANS_PASSWORD") None)
    (getenv environ (py "PASSWORD") None).

End ItransEnv.

Module LksEnv.

Definition username (environ : list (pystr * pystr)) : option pystr :=
  py_or (getenv environ (py "ITRANS_LOGIN") None)
    (getenv environ (py "LOGIN") None).

Definition password (environ : list (pystr * pystr)) : option pystr :=
  py_or (getenv environ (py "ITRANS_PASSWORD") None)
    (getenv environ (py "PASSWORD") None).

End LksEnv.

(** ** Clicks and waits

    The driver calls of [click_element], [element_is_present] and
    [wait_visible_by_xpath] that the banner check does not use.  They are
    not written to the log. *)

Section Pages.

Variable W : Type.

Record Page := {
  wait_until_clickable : pystr -> Z -> W -> res unit * W;
  wait_until_visible : pystr -> Z -> W -> res unit * W;
  wait_until_link_visible : pystr -> Z -> W -> res unit * W;
  element_click : WebElement -> W -> res unit * W;
  execute_script_click : WebElement -> W -> res unit * W
}.

Definition act {A} (op : W -> res A * W) : M W A :=
  fun st =>
    let '(r, w) := op (world st) in
    (r, set_world w st).

End Pages.

(** The state after a wait for the presence of an element, with the answer
    of the wait in the log. *)
Definition waited {W : Type} (B : Browser W) (xpath : pystr) (timeout : Z)
    (st : State W) : State W :=
  add_log (EvWaitPresence xpath timeout
             (fst (wait_until_presence B xpath timeout (world st))))
    (set_world (snd (wait_until_presence B xpath timeout (world st))) st).

(** [except (StaleElementReferenceException, TimeoutException)]. *)
Definition is_Stale_or_Timeout (e : exn) : bool :=
  match exn_cls e with
  | StaleElementReferenceException | TimeoutException => true
  | _ => false
  end.

(** The log of a click loop that waited for the element [length waits]
    times: a sleep of one second between two waits, none after the last. *)
Fixpoint click_log (xpath : pystr) (timeout : Z) (waits : list (res WebElement))
    : list Event :=
  match waits with
  | [] => []
  | [r] => [EvWaitPresence xpath timeout r]
  | r :: rest => EvWaitPresence xpath timeout r :: EvSleep 1 :: click_log xpath timeout rest
  end.

Section ClickLoops.

Variable W : Type.
Variable B : Browser W.

(** One turn of a click loop: it waits for the element once; then it
    either ends the loop, by returning or by raising something that is not
    retried, or it sleeps a second and asks for the next turn, which it never
    does in the last turn. *)
Definition click_turn (xpath : pystr) (timeout : Z) (retries : nat)
    (turn : nat -> M W (option unit)) : Prop :=
  forall attempt st,
    let out := turn attempt st in
    let r := fst (wait_until_presence B xpath timeout (world st)) in
    unchanged st (snd out) /\
    (((fst out = Ok (Some tt) \/
       exists e, fst out = Raise e /\ is_Stale_or_Timeout e = false) /\
      log (snd out) = log st ++ [EvWaitPresence xpath timeout r])
     \/
     (fst out = Ok None /\ attempt <> retries - 1 /\
      log (snd out) = log st ++ [EvWaitPresence xpath timeout r; EvSleep 1])).

(** What a call of [click_element] leaves behind. *)
Definition click_outcome {A} (xpath : pystr) (timeout : Z) (bound : nat)
    (st : State W) (out : res A * State W) : Prop :=
  exists waits,
    log (snd out) = log st ++ click_log xpath timeout waits /\
    length waits <= bound /\
    (bound <> 0 -> waits <> []) /\
    unchanged st (snd out) /\
    (forall e, fst out = Raise e -> is_Stale_or_Timeout e = false).

End ClickLoops.

Definition QUOTE : pystr := [34%N].

Module ItransClicks.

Section Defs.

Variable W : Type.
Variable B : Browser W.
Variable P : Page W.

Definition click_failure (retries : nat) (xpath : pystr) (e : exn) : exn :=
  Exn Exception
    (py "Failed to click element after " ++ str_of_nat retries ++ py " attempts: "
       ++ xpath ++ py ". Cause: " ++ exn_str e).

(** One turn of the loop of [click_element]: [Some tt] is the [return]. *)
Definition click_attempt (xpath : pystr) (timeout : Z) (retries attempt : nat)
    : M W (option unit) :=
  try_except_if is_Stale_or_Timeout
    (element <- Itrans.wait_element B xpath timeout ;;
     act (wait_until_clickable P xpath timeout) ;;
     try_except (act (element_click P element))
       (fun _ => act (execute_script_click P element)) ;;
     ItransTest.raise_if_error_banner B ;;
     ret (Some tt))
    (fun e =>
       if (attempt =? retries - 1)%nat then raise (click_failure retries xpath e)
       else (call_quiet (time_sleep B 1) (EvSleep 1) ;; ret None)).

Definition click_element (xpath : pystr) (timeout : Z) (retries : nat) : M W unit :=
  for_range (seq 0 retries) (click_attempt xpath timeout retries) ;;
  ret tt.

Definition element_is_present (xpath : pystr) (timeout : Z) : M W bool :=
  try_except_if is_TimeoutException
    (call (wait_until_presence B xpath timeout) (EvWaitPresence xpath timeout) ;;
     ItransTest.raise_if_error_banner B ;;
     ret true)
    (fun _ =>
       ItransTest.raise_if_error_banner B ;;
       ret false).

End Defs.

End ItransClicks.

Module ZdClicks.

Section Defs.

Variable W : Type.
Variable B : Browser W.
Variable P : Page W.

(** The quoted title of the two messages, empty without a description. *)
Definition title_part (description : option pystr) : pystr :=
  let title := or_empty description in
  if truthy (Some title) then py " " ++ QUOTE ++ title ++ QUOTE else [].

Definition click_failure (description : option pystr) (xpath : pystr) : exn :=
  Exn Exception
    (py "Ошибка при нажатии на кнопку" ++ title_part description
       ++ py " Локатор = " ++ xpath ++ py ".").

Definition click_attempt (xpath : pystr) (timeout : Z) (retries : nat)
    (description : option pystr) (attempt : nat) : M W (option unit) :=
  try_except_if is_Stale_or_Timeout
    (element <- ItransZd.wait_element B xpath timeout ;;
     act (wait_until_visible P xpath timeout) ;;
     act (wait_until_clickable P xpath timeout) ;;
     try_except (act (element_click P element))
       (fun _ => act (execute_script_click P element)) ;;
     ItransTest.raise_if_error_banner B ;;
     ret (Some tt))
    (fun _ =>
       if (attempt =? retries - 1)%nat then raise (click_failure description xpath)
       else (call_quiet (time_sleep B 1) (EvSleep 1) ;; ret None)).

Definition click_element (xpath : pystr) (timeout : Z) (retries : nat)
    (description : option pystr) : M W unit :=
  for_range (seq 0 retries) (click_attempt xpath timeout retries description) ;;
  ret tt.

Definition visibility_failure (description : option pystr) (xpath : pystr) : exn :=
  Exn Exception
    (py "Ошибка при проверке видимости надписи" ++ title_part description
       ++ py " Локатор = " ++ xpath ++ py ".").

Definition wait_visible_by_xpath (xpath : pystr) (timeout : Z)
    (description : option pystr) : M W unit :=
  try_except_if is_TimeoutException
    (act (wait_until_visible P xpath timeout) ;;
     ItransTest.raise_if_error_banner B)
    (fun _ => raise (visibility_failure description xpath)).

End Defs.

End ZdClicks.

Module LksTest.

Section Defs.

Variable W : Type.
Variable B : Browser W.
Variable P : Page W.

Definition not_found (xpath : pystr) : exn :=
  Exn Exception (py "Элемент не найден: " ++ xpath).

Definition wait_element (xpath : pystr) (timeout : Z) : M W WebElement :=
  try_except_if is_TimeoutException
    (call (wait_until_presence B xpath timeout) (EvWaitPresence xpath timeout))
    (fun _ => raise (not_found xpath)).

Definition click_failure (retries : nat) (xpath : pystr) (e : exn) : exn :=
  Exn Exception
    (py "Не удалось нажать элемент после " ++ str_of_nat retries ++ py " попыток: "
       ++ xpath ++ py ". Причина: " ++ exn_str e).

Definition click_attempt (xpath : pystr) (timeout : Z) (retries attempt : nat)
    : M W (option unit) :=
  try_except_if is_Stale_or_Timeout
    (element <- wait_element xpath timeout ;;
     act (wait_until_clickable P xpath timeout) ;;
     try_except (act (element_click P element))
       (fun _ => act (execute_script_click P element)) ;;
     ret (Some tt))
    (fun e =>
       if (attempt =? retries - 1)%nat then raise (click_failure retries xpath e)
       else (call_quiet (time_sleep B 1) (EvSleep 1) ;; ret None)).

Definition click_element (xpath : pystr) (timeout : Z) (retries : nat) : M W unit :=
  for_range (seq 0 retries) (click_attempt xpath timeout retries) ;;
  ret tt.

(** [except (TimeoutException, WebDriverException)]: the second class
    includes the first. *)
Definition element_is_present (xpath : pystr) (timeout : Z) : M W bool :=
  try_except_if is_WebDriverException
    (wait_element xpath timeout ;; ret true)
    (fun _ => ret false).

End Defs.

End LksTest.

(** ** Base64

    [base64.b64encode] and [base64.b64decode] on bytes, each byte a number
    below 256.  The decoder is the lenient one ([validate=False]): characters
    outside the alphabet are skipped, and padding that completes a group of
    four ends the input. *)

Definition B64_ALPHABET : pystr :=
  Eval vm_compute in
    py "ABCDEFGHIJKLMNOPQRSTUVWXYZabcdefghijklmnopqrstuvwxyz0123456789+/".

Definition B64_PAD : N := 61.

Definition b64_char (v : N) : N := nth (N.to_nat v) B64_ALPHABET B64_PAD.

Fixpoint index_of (c : N) (l : list N) (i : N) : option N :=
  match l with
  | [] => None
  | x :: l' => if (x =? c)%N then Some i else index_of c l' (i + 1)%N
  end.

Definition b64_value (c : N) : option N := index_of c B64_ALPHABET 0.

Fixpoint b64encode (bs : list N) : pystr :=
  match bs with
  | [] => []
  | [a] => [b64_char (a / 4); b64_char (a mod 4 * 16); B64_PAD; B64_PAD]%N
  | [a; b] =>
    [b64_char (a / 4); b64_char (a mod 4 * 16 + b / 16);
     b64_char (b mod 16 * 4); B64_PAD]%N
  | a :: b :: c :: rest =>
    [b64_char (a / 4); b64_char (a mod 4 * 16 + b / 16);
     b64_char (b mod 16 * 4 + c / 64); b64_char (c mod 64)]%N ++ b64encode rest
  end.

Definition b64_error (msg : pystr) : exn := Exn ValueError msg.

Definition INCORRECT_PADDING : pystr := Eval vm_compute in py "Incorrect padding".

(** The message for a single character left over, after [n] bytes. *)
Definition one_left_over (n : nat) : pystr :=
  py "Invalid base64-encoded string: number of data characters ("
    ++ str_of_nat (n / 3 * 4 + 1)
    ++ py ") cannot be 1 more than a multiple of 4".

(** The decoder's loop: [quad_pos] characters of the current group are in,
    [leftchar] holds their bits not yet written, [pads] counts the padding
    seen since the last character of the alphabet. *)
Fixpoint a2b_base64 (s : pystr) (quad_pos : nat) (leftchar : N) (pads : nat)
    (out : list N) : res (list N) :=
  match s with
  | [] =>
    match quad_pos with
    | 0 => Ok out
    | 1 => Raise (b64_error (one_left_over (length out)))
    | _ => Raise (b64_error INCORRECT_PADDING)
    end
  | ch :: rest =>
    if (ch =? B64_PAD)%N then
      if (2 <=? quad_pos)%nat then
        if (4 <=? quad_pos + (pads + 1))%nat then Ok out
        else a2b_base64 rest quad_pos leftchar (pads + 1) out
      else a2b_base64 rest quad_pos leftchar pads out
    else
      match b64_value ch with
      | None => a2b_base64 rest quad_pos leftchar pads out
      | Some v =>
        match quad_pos with
        | 0 => a2b_base64 rest 1 v 0 out
        | 1 => a2b_base64 rest 2 (v mod 16) 0 (out ++ [leftchar * 4 + v / 16])%N
        | 2 => a2b_base64 rest 3 (v mod 4) 0 (out ++ [leftchar * 16 + v / 4])%N
        | _ => a2b_base64 rest 0 0 0 (out ++ [leftchar * 64 + v])%N
        end
      end
  end.

Definition NOT_ASCII : pystr :=
  Eval vm_compute in py "string argument should contain only ASCII characters".

Definition b64decode (s : pystr) : res (list N) :=
  if forallb (fun c => (c <? 128)%N) s then a2b_base64 s 0 0 0 []
  else Raise (b64_error NOT_ASCII).

(** ** Screenshots and Telegram *)

Inductive Payload :=
| SendPhoto (chat_id caption : pystr) (parse_mode : option pystr)
    (filename : pystr) (photo : list N) (content_type : pystr)
| SendMessage (chat_id text : pystr) (parse_mode : option pystr).

Record Request := { req_url : pystr; req_payload : Payload; req_timeout : Z }.

Record Response := {
  resp_ok : bool;
  resp_status_code : nat;
  resp_text : res pystr
}.

Section Outside.

Variable W : Type.

(** The services behind the notifier: the HTTP client, the standard error
    stream and the wall clock, the last as the date and the time of day it
    is formatted to.  Writing to the error stream is taken not to raise. *)
Record Services := {
  driver_get_screenshot_as_png : W -> res (list N) * W;
  requests_post : Request -> W -> res Response * W;
  stderr_print : pystr -> W -> W;
  datetime_now : W -> (pystr * pystr) * W
}.

Variable sv : Services.

(** [get_screenshot_b64]: the same text in the three scripts. *)
Definition get_screenshot_b64_of : W -> res pystr * W :=
  fun w =>
    match driver_get_screenshot_as_png sv w with
    | (Ok png_bytes, w') => (Ok (b64encode png_bytes), w')
    | (Raise e, w') => (Raise e, w')
    end.

Definition api_url (token : option pystr) : pystr :=
  py "https://api.telegram.org/bot" ++ or_empty token.

Definition photo_request (token : option pystr) (chat_id caption : pystr)
    (parse_mode : option pystr) (photo_bytes : list N) (timeout : Z) : Request :=
  {| req_url := api_url token ++ py "/sendPhoto";
     req_payload := SendPhoto chat_id caption parse_mode (py "error.png") photo_bytes
                      (py "image/png");
     req_timeout := timeout |}.

Definition message_request (token : option pystr) (chat_id text : pystr)
    (parse_mode : option pystr) (timeout : Z) : Request :=
  {| req_url := api_url token ++ py "/sendMessage";
     req_payload := SendMessage chat_id text parse_mode;
     req_timeout := timeout |}.

(** Whether [TELEGRAM_DEBUG], lower-cased and empty when not set, is one of
    [1], [true] and [yes]. *)
Definition telegram_debug (environ : list (pystr * pystr)) : bool :=
  let v := lower (or_empty (getenv environ (py "TELEGRAM_DEBUG") (Some []))) in
  str_eqb v (py "1") || str_eqb v (py "true") || str_eqb v (py "yes").

Definition when (b : bool) (f : W -> W) : W -> W := fun w => if b then f w else w.

(** What follows a request in [itrans_zd.py] and [lks.py]: with debugging
    on, a response that is not [ok] and an exception are written to the
    error stream. *)
Definition report_post (debug : bool) (out : res Response * W) : W :=
  match out with
  | (Ok resp, w) =>
    if negb (resp_ok resp) && debug then
      let body :=
        match resp_text resp with
        | Ok t => t
        | Raise _ => py "<no body>"
        end in
      stderr_print sv
        (py "[telegram] ошибка HTTP " ++ str_of_nat (resp_status_code resp)
           ++ py ": " ++ body) w
    else w
  | (Raise e, w) =>
    when debug (stderr_print sv (py "[telegram] исключение при отправке: " ++ exn_str e)) w
  end.

Definition SKIPPED : pystr :=
  Eval vm_compute in
    py "[telegram] пропуск: не задан TELEGRAM_BOT_TOKEN или TELEGRAM_CHAT_ID".

End Outside.

Module ItransAlert.

Section Defs.

Variable W : Type.
Variable sv : Services W.

Definition send_telegram_alert (token chat_id : option pystr) (text : pystr)
    (screenshot_b64 : option pystr) : W -> W :=
  fun w =>
    if negb (truthy token) || negb (truthy chat_id) then w
    else if truthy screenshot_b64 then
      match b64decode (or_empty screenshot_b64) with
      | Ok photo_bytes =>
        snd (requests_post sv
               (photo_request token (or_empty chat_id) text None photo_bytes 15) w)
      | Raise _ => w
      end
    else
      snd (requests_post sv (message_request token (or_empty chat_id) text None 15) w).

End Defs.

End ItransAlert.

Module ZdAlert.

Section Defs.

Variable W : Type.
Variable sv : Services W.

Definition ELLIPSIS : pystr := [8230%N].

Definition safe_caption (text : pystr) (screenshot_b64 : option pystr) : pystr :=
  if truthy screenshot_b64 && (1000 <? length text)%nat
  then firstn 1000 text ++ ELLIPSIS
  else text.

Definition send_telegram_alert (environ : list (pystr * pystr))
    (token chat_id : option pystr) (text : pystr) (screenshot_b64 : option pystr)
    : W -> W :=
  fun w =>
    let debug := telegram_debug environ in
    if negb (truthy token) || negb (truthy chat_id)
    then when debug (stderr_print sv SKIPPED) w
    else if truthy screenshot_b64 then
      match b64decode (or_empty screenshot_b64) with
      | Ok photo_bytes =>
        report_post sv debug
          (requests_post sv
             (photo_request token (or_empty chat_id) (safe_caption text screenshot_b64)
                None photo_bytes 20) w)
      | Raise e => report_post sv debug (Raise e, w)
      end
    else
      report_post sv debug
        (requests_post sv (message_request token (or_empty chat_id) text None 20) w).

End Defs.

End ZdAlert.

Module LksAlert.

Section Defs.

Variable W : Type.
Variable sv : Services W.

Definition NL : pystr := [10%N].

Definition step_info (step_number step_description : option pystr) : pystr :=
  if truthy step_number && truthy step_description
  then py "Шаг " ++ or_empty step_number ++ py " - " ++ or_empty step_description
  else if truthy step_number then py "Шаг " ++ or_empty step_number
  else if truthy step_description then or_empty step_description
  else py "Шаг N/A".

Definition caption (info date_str time_str : pystr) : pystr :=
  py "<b>Ошибка в тесте iTrans " ++ QUOTE ++ py "ЛК соисполнителя" ++ QUOTE
    ++ py "</b>" ++ NL ++ NL
    ++ py "<b>Шаг:</b> " ++ info ++ NL
    ++ py "<b>Дата:</b> " ++ date_str ++ NL
    ++ py "<b>Время:</b> " ++ time_str.

Definition HTML : option pystr := Some (py "HTML").

Definition send_telegram_alert (environ : list (pystr * pystr))
    (token chat_id : option pystr) (text : pystr) (screenshot_b64 : option pystr)
    (step_number step_description : option pystr) : W -> W :=
  fun w =>
    let debug := telegram_debug environ in
    if negb (truthy token) || negb (truthy chat_id)
    then when debug (stderr_print sv SKIPPED) w
    else
      let '((date_str, time_str), w1) := datetime_now sv w in
      let caption_ := caption (step_info step_number step_description) date_str time_str in
      if truthy screenshot_b64 then
        match b64decode (or_empty screenshot_b64) with
        | Ok photo_bytes =>
          report_post sv debug
            (requests_post sv
               (photo_request token (or_empty chat_id) caption_ HTML photo_bytes 20) w1)
        | Raise e => report_post sv debug (Raise e, w1)
        end
      else
        report_post sv debug
          (requests_post sv (message_request token (or_empty chat_id) caption_ HTML 20) w1).

End Defs.

End LksAlert.

(** ** Sessions *)

(** The events that open and close a browser session. *)
Definition is_session_event (ev : Event) : bool :=
  match ev with
  | EvBuildDriver _ | EvQuit _ => true
  | _ => false
  end.

Definition in_session (ev : Event) : bool := negb (is_session_event ev).

(** A log with one session, opened once and closed by the last event; or
    with one failed attempt to open a session and nothing closed; or with
    neither. *)
Definition session_shape (l : list Event) : Prop :=
  (exists pre inner r,
     l = pre ++ [EvBuildDriver (Ok tt)] ++ inner ++ [EvQuit r] /\
     forallb in_session pre = true /\ forallb in_session inner = true)
  \/
  (exists pre e post,
     l = pre ++ [EvBuildDriver (Raise e)] ++ post /\
     forallb in_session pre = true /\ forallb in_session post = true)
  \/
  forallb in_session l = true.

Section Frames.

Variable W : Type.

(** [m] adds to the log only events that satisfy [P], and leaves the
    [driver] attribute of the test object alone. *)
Definition adds (P : Event -> bool) {A} (m : M W A) : Prop :=
  forall st, exists evs,
    log (snd (m st)) = log st ++ evs /\
    forallb P evs = true /\
    test_driver (snd (m st)) = test_driver st.

(** A run of [main] that returns a code, having printed its result once. *)
Definition one_report (td : TestResult -> pyval) (out : res Z * State W) : Prop :=
  exists code,
    fst out = Ok code /\
    (code = 0 \/ code = 1)%Z /\
    stdout (snd out) = [td (test_result (snd out))] /\
    (code = 0%Z <-> success (test_result (snd out)) = true).

(** A [finally] block that calls [quit] when there is a driver, and does
    nothing else. *)
Definition quits (q : M W unit) : Prop :=
  forall st,
    (test_driver st = false -> log (snd (q st)) = log st) /\
    (test_driver st = true -> exists r, log (snd (q st)) = log st ++ [EvQuit r]).

End Frames.

(** A run of [main] that ended before the first step: after the reading
    that starts the run and the events [between], the handler of the outer
    [except] sent the alert without a screenshot, finalized the fresh result
    and printed it, and [main] returned 1. *)
Definition early_end {W : Type} (td : TestResult -> pyval) (between : list Event)
    (err msg : pystr) (out : res Z * State W) : Prop :=
  exists t0 t1,
    fst out = Ok 1%Z /\
    log (snd out) = [EvTime t0] ++ between ++ [EvAlert err None; EvTime t1] /\
    test_result (snd out) = finalize_at t1 false msg (Some err) (TestResult__init__ t0) /\
    stdout (snd out) = [td (test_result (snd out))].

(** The scripted browser behind a grid that refuses the session. *)
Definition grid_down : exn :=
  Exn Exception
    (py "Ошибка подключения к Selenium Grid: не удалось установить соединение.").

Definition no_grid : Browser Sim.world := {|
  time_time := time_time Sim.browser;
  build_driver := fun w => (Raise grid_down, w);
  step_body := step_body Sim.browser;
  driver_refresh := driver_refresh Sim.browser;
  wait_ready_state := wait_ready_state Sim.browser;
  time_sleep := time_sleep Sim.browser;
  get_screenshot_b64 := get_screenshot_b64 Sim.browser;
  save_screenshot_file := save_screenshot_file Sim.browser;
  send_telegram_alert := send_telegram_alert Sim.browser;
  driver_quit := driver_quit Sim.browser;
  wait_until_presence := wait_until_presence Sim.browser;
  find_elements := find_elements Sim.browser;
  is_displayed := is_displayed Sim.browser;
  get_attribute := get_attribute Sim.browser;
  element_text := element_text Sim.browser;
  traceback_format_exception := traceback_format_exception Sim.browser
|}.

(** What the last [add_step] call on [name] recorded, [acc] if there was
    none. *)
Fixpoint last_recorded (name : pystr) (calls : list Method) (acc : option StepEntry)
    : option StepEntry :=
  match calls with
  | [] => acc
  | AddStep n s d :: rest =>
    last_recorded name rest
      (if str_eqb name n
       then Some {| st_status := s; st_duration_seconds := round2 d |}
       else acc)
  | _ :: rest => last_recorded name rest acc
  end.

(** A page on which every click and every wait of [click_element] goes
    through. *)
Module SimPage.

Definition no_clicks : Page Sim.world := {|
  wait_until_clickable := fun _ _ w => (Ok tt, w);
  wait_until_visible := fun _ _ w => (Ok tt, w);
  wait_until_link_visible := fun _ _ w => (Ok tt, w);
  element_click := fun _ w => (Ok tt, w);
  execute_script_click := fun _ w => (Ok tt, w)
|}.

(** A page on which the links with the texts [missing] never become
    visible. *)
Definition without_links (missing : list pystr) : Page Sim.world := {|
  wait_until_clickable := fun _ _ w => (Ok tt, w);
  wait_until_visible := fun _ _ w => (Ok tt, w);
  wait_until_link_visible := fun tab_name _ w =>
    (if existsb (str_eqb tab_name) missing then Raise Sim.timeout_error else Ok tt, w);
  element_click := fun _ w => (Ok tt, w);
  execute_script_click := fun _ w => (Ok tt, w)
|}.

(** A page without alerts on which the awaited element never appears. *)
Definition absent : Sim.world :=
  {| Sim.sim_clock := 0; Sim.sim_steps := []; Sim.sim_shots := [];
     Sim.sim_waits := [Raise Sim.timeout_error]; Sim.sim_find_fails := false;
     Sim.sim_alerts := [] |}.

(** Services whose world is the list of the requests posted so far; every
    request is answered with 200. *)
Definition PNG_MAGIC : list N := [137; 80; 78; 71; 13; 10; 26; 10]%N.

Definition TOKEN : option pystr := Some (py "123456:token").

Definition CHAT_ID : option pystr := Some (py "-1001").

Definition outbox : Services (list Request) := {|
  driver_get_screenshot_as_png := fun w => (Ok PNG_MAGIC, w);
  requests_post := fun r w =>
    (Ok {| resp_ok := true; resp_status_code := 200; resp_text := Ok [] |}, w ++ [r]);
  stderr_print := fun _ w => w;
  datetime_now := fun w => ((py "03.11.2026", py "09:30"), w)
|}.

End SimPage.

(** What an answer of [execute_step_with_retry] says about the state it
    leaves: the step recorded as passed; or the step recorded as failed,
    the result finalized with the error of step [n] and printed last. *)
Definition answered {W : Type} (n : nat) (key : pystr) (b : bool) (s : State W) : Prop :=
  if b
  then exists d, dict_get key (steps (test_result s)) =
                 Some {| st_status := py "1"; st_duration_seconds := d |}
  else exists e t d r printed,
         test_result s =
           finalize_at t false (py "Тест завершился с ошибкой на шаге " ++ str_of_nat n)
             (Some (py "Шаг " ++ str_of_nat n ++ py " ошибка: " ++ exn_str e)) r /\
         dict_get key (steps r) =
           Some {| st_status := py "0"; st_duration_seconds := d |} /\
         success r = false /\
         stdout s = printed ++ [Lks.to_dict (test_result s)].

(** ** The driver

    [webdriver.Remote(command_executor=url, options=...)] and
    [webdriver.Chrome(options=...)] as transitions of the world. *)

Section Drivers.

Variable W : Type.

Record Selenium := {
  webdriver_Remote : pystr -> W -> res unit * W;
  webdriver_Chrome : W -> res unit * W
}.

End Drivers.

Definition USE_SELENIUM_GRID : bool := true.

(** [f"{value}"] for a value that is a string or [None]. *)
Definition format_value (o : option pystr) : pystr :=
  match o with
  | Some s => s
  | None => py "None"
  end.

Definition SELENIUM_GRID_URL (SELENIUM_GRID_LOGIN SELENIUM_GRID_PASSWORD : option pystr)
    : pystr :=
  py "http://" ++ format_value SELENIUM_GRID_LOGIN ++ py ":"
    ++ format_value SELENIUM_GRID_PASSWORD ++ py "@172.18.65.116:4444/wd/hub".

Definition URL_NOT_SET : exn :=
  Exn Exception (py "Ошибка подключения к Selenium Grid: не задан SELENIUM_GRID_URL.").

Module ItransDriver.

Definition build_driver {W : Type} (G : Selenium W) (login password : option pystr)
    : W -> res unit * W :=
  if USE_SELENIUM_GRID
  then webdriver_Remote G (SELENIUM_GRID_URL login password)
  else webdriver_Chrome G.

End ItransDriver.

Module LksDriver.

Definition CONNECTION_FAILED : exn :=
  Exn Exception
    (py "Ошибка подключения к Selenium Grid: не удалось установить соединение.").

Definition build_driver {W : Type} (G : Selenium W) (login password : option pystr)
    : W -> res unit * W :=
  fun w =>
    if USE_SELENIUM_GRID
    then
      match
        (if negb (truthy (Some (SELENIUM_GRID_URL login password)))
         then (Raise URL_NOT_SET, w)
         else webdriver_Remote G (SELENIUM_GRID_URL login password) w)
      with
      | (Ok d, w') => (Ok d, w')
      | (Raise _, w') => (Raise CONNECTION_FAILED, w')
      end
    else webdriver_Chrome G w.

End LksDriver.

Module ZdDriver.

Definition CONNECTION_FAILED : exn :=
  Exn Exception
    (py "Ошибка подключения к Selenium Grid: не удалось установить соединение с удалённым драйвером.").

Definition build_driver {W : Type} (G : Selenium W) (login password : option pystr)
    : W -> res unit * W :=
  fun w =>
    if USE_SELENIUM_GRID
    then
      match
        (if negb (truthy (Some (SELENIUM_GRID_URL login password)))
         then (Raise URL_NOT_SET, w)
         else webdriver_Remote G (SELENIUM_GRID_URL login password) w)
      with
      | (Ok d, w') => (Ok d, w')
      | (Raise _, w') => (Raise CONNECTION_FAILED, w')
      end
    else webdriver_Chrome G w.

End ZdDriver.

(** The browser [B] with [build_driver] given by [bd]. *)
Definition with_build_driver {W : Type} (B : Browser W) (bd : W -> res unit * W)
    : Browser W := {|
  time_time := time_time B;
  build_driver := bd;
  step_body := step_body B;
  driver_refresh := driver_refresh B;
  wait_ready_state := wait_ready_state B;
  time_sleep := time_sleep B;
  get_screenshot_b64 := get_screenshot_b64 B;
  save_screenshot_file := save_screenshot_file B;
  send_telegram_alert := send_telegram_alert B;
  driver_quit := driver_quit B;
  wait_until_presence := wait_until_presence B;
  find_elements := find_elements B;
  is_displayed := is_displayed B;
  get_attribute := get_attribute B;
  element_text := element_text B;
  traceback_format_exception := traceback_format_exception B
|}.

(** A grid that refuses every session with [e]. *)
Definition refusing (e : exn) : Selenium Sim.world := {|
  webdriver_Remote := fun _ w => (Raise e, w);
  webdriver_Chrome := fun w => (Ok tt, w)
|}.

(** ** The steps of itrans.py *)

(** [sep.join(l)]. *)
Fixpoint join (sep : pystr) (l : list pystr) : pystr :=
  match l with
  | [] => []
  | [x] => x
  | x :: rest => x ++ sep ++ join sep rest
  end.

Module ItransSteps.

Section Defs.

Variable W : Type.
Variable B : Browser W.
Variable P : Page W.

Definition sleep (seconds : Z) : M W unit :=
  call_quiet (time_sleep B seconds) (EvSleep seconds).

(** The body of the [try] in the loop over the sub-tabs: the wait for the
    link with the text [tab_name], then the banner check. *)
Definition check_subtab (timeout : Z) (tab_name : pystr) : M W unit :=
  act (wait_until_link_visible P tab_name timeout) ;;
  ItransTest.raise_if_error_banner B.

(** The loop over the sub-tabs, from the list [missing_tabs] so far. *)
Fixpoint collect_missing_tabs (timeout : Z) (tab_names missing_tabs : list pystr)
    : M W (list pystr) :=
  match tab_names with
  | [] => ret missing_tabs
  | tab_name :: rest =>
    missing_tabs' <- try_except_if is_TimeoutException
                       (check_subtab timeout tab_name ;; ret missing_tabs)
                       (fun _ => ret (missing_tabs ++ [tab_name])) ;;
    collect_missing_tabs timeout rest missing_tabs'
  end.

Definition missing_subtabs (missing_tabs : list pystr) : exn :=
  Exn Exception (py "Отсутствуют подвкладки: " ++ join (py ", ") missing_tabs).

(** The loop and the [if missing_tabs: raise] after it. *)
Definition verify_subtabs (timeout : Z) (tab_names : list pystr) : M W unit :=
  missing_tabs <- collect_missing_tabs timeout tab_names [] ;;
  match missing_tabs with
  | [] => ret tt
  | _ :: _ => raise (missing_subtabs missing_tabs)
  end.

Definition step_open_coordinator_module_and_verify_tabs : M W unit :=
  try_except
    (ItransClicks.click_element B P (py "//*[@id='app']/div[4]/div/div[2]/a[1]") 5 2 ;;
     sleep 1)
    (fun _ => ret tt) ;;
  ItransClicks.click_element B P (py "//*[@id='app']/div[4]/div/div[1]/span") 10 2 ;;
  sleep 5 ;;
  let coordinator_xpath := py "//*[@id='coordinator']/button/span" in
  present <- ItransClicks.element_is_present B coordinator_xpath 10 ;;
  (if negb present
   then raise (Exn Exception (py "Вкладка 'Модуль координатора' не найдена на странице"))
   else ret tt) ;;
  ItransClicks.click_element B P coordinator_xpath 30 2 ;;
  sleep 2 ;;
  let subtabs_to_check :=
    [(py "//*[@id='coordinator-collapse']/ul/li[2]/a", py "Монитор заказов")] in
  verify_subtabs 5 (map snd subtabs_to_check) ;;
  ItransClicks.click_element B P (py "//*[@id='coordinator-collapse']/ul/li[2]/a") 30 2 ;;
  sleep 2.

Definition step_open_sales_module_and_verify_tabs : M W unit :=
  let sales_tab_xpath := py "//*[@id='sales']/button/span" in
  present <- ItransClicks.element_is_present B sales_tab_xpath 10 ;;
  (if negb present
   then raise (Exn Exception (py "Вкладка 'Регулировка' не найдена на странице"))
   else ret tt) ;;
  ItransClicks.click_element B P sales_tab_xpath 30 2 ;;
  sleep 2 ;;
  let subtabs_to_check :=
    [(py "//*[@id='sales-collapse']/ul/li[1]/a", py "Журнал регулировочных заказов");
     (py "//*[@id='sales-collapse']/ul/li[2]/a", py "Создать заказ на регулировку")] in
  verify_subtabs 5 (map snd subtabs_to_check) ;;
  ItransClicks.click_element B P (py "//*[@id='sales-collapse']/ul/li[1]/a") 30 2 ;;
  sleep 2 ;;
  ItransClicks.click_element B P
    (py "//*[@id='root']/main/div[2]/aside/div[1]/div[4]/button/div[1]") 30 2 ;;
  sleep 2 ;;
  ItransClicks.click_element B P
    (py "//*[@id='root']/main/div[2]/aside/div[1]/div[4]/a[2]") 30 2 ;;
  sleep 2.

Definition step_open_analytics_module_and_verify_tabs : M W unit :=
  let analytics_tab_xpath := py "//*[@id='analitycs']/button/span" in
  present <- ItransClicks.element_is_present B analytics_tab_xpath 10 ;;
  (if negb present
   then raise (Exn Exception (py "Вкладка 'Аналитика' не найдена на странице"))
   else ret tt) ;;
  ItransClicks.click_element B P analytics_tab_xpath 30 2 ;;
  sleep 2 ;;
  let subtabs_to_check :=
    [(py "//*[@id='analitycs-collapse']/ul/li[1]/a", py "Отчеты")] in
  verify_subtabs 5 (map snd subtabs_to_check) ;;
  ItransClicks.click_element B P (py "//*[@id='analitycs-collapse']/ul/li[1]/a") 30 2 ;;
  sleep 2.

Definition step_open_resources_module_and_verify_tabs : M W unit :=
  let resources_tab_xpath := py "//*[@id='resources']/button/span" in
  present <- ItransClicks.element_is_present B resources_tab_xpath 10 ;;
  (if negb present
   then raise (Exn Exception
          (py "Вкладка 'Модуль управления ресурсами' не найдена на странице"))
   else ret tt) ;;
  ItransClicks.click_element B P resources_tab_xpath 30 2 ;;
  sleep 2 ;;
  let subtabs_to_check :=
    [(py "//*[@id='resources-collapse']/ul/li[1]/a", py "Контейнеры без заказа");
     (py "//*[@id='resources-collapse']/ul/li[2]/a", py "События дислокации");
     (py "//*[@id='resources-collapse']/ul/li[3]/a",
      py "Справочник текущей дислокации ресурсов")] in
  verify_subtabs 5 (map snd subtabs_to_check) ;;
  ItransClicks.click_element B P (py "//*[@id='resources-collapse']/ul/li[1]/a") 30 2 ;;
  sleep 2 ;;
  ItransClicks.click_element B P (py "//*[@id='resources-collapse']/ul/li[2]/a") 30 2 ;;
  sleep 2 ;;
  ItransClicks.click_element B P (py "//*[@id='resources-collapse']/ul/li[3]/a") 30 2 ;;
  sleep 2.

(** The outcomes of the checks of the sub-tabs, one after the other. *)
Fixpoint subtab_answers (timeout : Z) (tab_names : list pystr) (st : State W)
    : list (res unit) :=
  match tab_names with
  | [] => []
  | tab_name :: rest =>
    fst (check_subtab timeout tab_name st)
      :: subtab_answers timeout rest (snd (check_subtab timeout tab_name st))
  end.

End Defs.

End ItransSteps.

Definition timed_out {A} (r : res A) : bool :=
  match r with
  | Raise e => is_TimeoutException e
  | Ok _ => false
  end.

(** The names whose check timed out. *)
Definition missing_of (tab_names : list pystr) (answers : list (res unit)) : list pystr :=
  map fst (filter (fun na => timed_out (snd na)) (combine tab_names answers)).

(** No answer is an exception other than a timeout. *)
Definition found_or_missing (answers : list (res unit)) : bool :=
  forallb (fun r => negb (is_raise r) || timed_out r) answers.

(** [m] does not raise a [TimeoutException]. *)
Definition no_timeout {W A : Type} (m : M W A) : Prop :=
  forall st e, fst (m st) = Raise e -> is_TimeoutException e = false.

(** ** The page helpers of test_dl.py *)

Section Sites.

Variable W : Type.

(** What [TestIsales] asks besides: the page load, and the two ways a
    screenshot leaves the script, the file [test_isales_error.png] and the
    Telegram message.  Both catch and log what goes wrong in them. *)
Record Site := {
  driver_get : pystr -> W -> res unit * W;
  write_screenshot_file : list N -> W -> W;
  send_screenshot_to_telegram : list N -> option pystr -> W -> W
}.

End Sites.

(** [loc.replace('/', '_')]. *)
Definition replace_slashes (loc : pystr) : pystr :=
  map (fun c => if (c =? 47)%N then 95%N else c) loc.

Module TestIsales.

Section Defs.

Variable W : Type.
Variable B : Browser W.
Variable P : Page W.
Variable sv : Services W.
Variable D : Site W.

Definition DRIVER_WAIT_EXPLICIT : Z := 10.

Definition save_screenshot (name : pystr) (test_name : option pystr)
    : M W (option pystr) :=
  try_except_if is_WebDriverException
    (if startswith (py "test_error") name
     then (call_quiet (time_sleep B 1) (EvSleep 1) ;;
           screenshot_bytes <- act (driver_get_screenshot_as_png sv) ;;
           act (fun w => (Ok tt, write_screenshot_file D screenshot_bytes w)) ;;
           act (fun w => (Ok tt, send_screenshot_to_telegram D screenshot_bytes test_name w)) ;;
           ret (Some (py "screenshot_sent_to_telegram")))
     else ret None)
    (fun e => raise e).

Definition not_found (loc : pystr) : exn :=
  Exn Exception (py "Элемент не найден: " ++ loc).

Definition wait_element (loc : pystr) (timeout : Z) : M W WebElement :=
  try_except_if is_TimeoutException
    (call (wait_until_presence B loc timeout) (EvWaitPresence loc timeout))
    (fun _ =>
       save_screenshot (py "element_not_found_" ++ replace_slashes loc)
         (Some (py "element_wait")) ;;
       raise (not_found loc)).

Definition click_failure (retries : nat) (loc : pystr) (e : exn) : exn :=
  Exn Exception
    (py "Не удалось нажать элемент после " ++ str_of_nat retries ++ py " попыток: "
       ++ loc ++ py ". Причина: " ++ exn_str e).

Definition click_attempt (loc : pystr) (timeout : Z) (retries attempt : nat)
    : M W (option unit) :=
  try_except_if is_Stale_or_Timeout
    (element <- wait_element loc timeout ;;
     act (wait_until_clickable P loc timeout) ;;
     act (element_click P element) ;;
     ret (Some tt))
    (fun e =>
       if (attempt =? retries - 1)%nat
       then (save_screenshot (py "click_failed_" ++ replace_slashes loc)
               (Some (py "element_click")) ;;
             raise (click_failure retries loc e))
       else (call_quiet (time_sleep B 1) (EvSleep 1) ;; ret None)).

Definition click_element (loc : pystr) (timeout : Z) (retries : nat) : M W unit :=
  for_range (seq 0 retries) (click_attempt loc timeout retries) ;;
  ret tt.

Definition element_is_present (loc : pystr) (timeout : Z) : M W bool :=
  try_except_if is_WebDriverException
    (wait_element loc timeout ;; ret true)
    (fun _ => ret false).

Definition HEADER_LINK : pystr :=
  Eval vm_compute in py "//*[contains(@class, 'Header_freeCallLink')]".

Definition NOT_OPENED : exn :=
  Exn Exception (py "Не удалось открыть сайт после нескольких попыток").

(** One turn of the loop of [open_site_with_retries]: [Some tt] is the
    [return] inside the [try]. *)
Definition open_attempt (url : pystr) (wait : Z) (attempt : nat) : M W (option unit) :=
  opened <- try_except
              (act (driver_get D url) ;;
               call_quiet (time_sleep B wait) (EvSleep wait) ;;
               present <- element_is_present HEADER_LINK 5 ;;
               if present then ret (Some tt) else ret None)
              (fun _ => ret None) ;;
  match opened with
  | Some _ => ret (Some tt)
  | None => call_quiet (time_sleep B 3) (EvSleep 3) ;; ret None
  end.

Definition open_site_with_retries (url : pystr) (retries : nat) (wait : Z) : M W unit :=
  opened <- for_range (seq 0 retries) (open_attempt url wait) ;;
  match opened with
  | Some _ => ret tt
  | None =>
    save_screenshot (py "test_error_open_site") (Some (py "test_01_login")) ;;
    raise NOT_OPENED
  end.

End Defs.

End TestIsales.

(** The events of an attempt of [open_site_with_retries] that did not open
    the site: the page did not load; or it loaded, and after the pause the
    wait for the link in the header did not give the link. *)
Definition failed_opening (wait : Z) (evs : list Event) : Prop :=
  evs = [EvSleep 3] \/
  exists e, evs = [EvSleep wait; EvWaitPresence TestIsales.HEADER_LINK 5 (Raise e);
                   EvSleep 3].

(** What a call of [open_site_with_retries] leaves behind. *)
Definition opening_outcome {W : Type} (sv : Services W) (wait : Z) (retries : nat)
    (st : State W) (out : res unit * State W) : Prop :=
  exists rounds last,
    log (snd out) = log st ++ concat rounds ++ last /\
    Forall (failed_opening wait) rounds /\
    unchanged st (snd out) /\
    ((exists el,
        fst out = Ok tt /\
        last = [EvSleep wait; EvWaitPresence TestIsales.HEADER_LINK 5 (Ok el)] /\
        length rounds < retries)
     \/
     (length rounds = retries /\ last = [EvSleep 1] /\
      (fst out = Raise TestIsales.NOT_OPENED \/
       exists e w, fst out = Raise e /\
                   fst (driver_get_screenshot_as_png sv w) = Raise e))).

(** ** The retry wrappers for any integer

    [max_retries] and [retries] are Python integers: [range(n)] is empty
    when [n] is zero or negative. *)

Definition py_range (n : Z) : list nat := seq 0 (Z.to_nat n).

Module LksRetry.

Section Defs.

Variable W : Type.
Variable B : Browser W.

Definition attempt_body (step_number : nat) (step_key : pystr) (action : M W unit)
    (driver : bool) (max_retries : Z) (attempt : nat) : M W (option bool) :=
  t0 <- clock B ;;
  try_except
    (action ;;
     t1 <- clock B ;;
     on_result (add_step step_key (py "1") (t1 - t0)) ;;
     ret (Some true))
    (fun e =>
       if (Z.of_nat attempt <? max_retries)%Z
       then (Lks.reload_page B driver ;; ret None)
       else
         let err := Lks.step_error step_number e in
         ss_b64 <- Lks.capture B driver ;;
         t1 <- clock B ;;
         on_result (add_step step_key (py "0") (t1 - t0)) ;;
         alert B err ss_b64 ;;
         finalize B false (Lks.step_message step_number) (Some err) ;;
         @Lks.print_report W ;;
         ret (Some false)).

(** [None] is the answer of a call that falls off the loop. *)
Definition execute_step_with_retry (step_number : nat) (step_key : pystr)
    (action : M W unit) (driver : bool) (max_retries : Z) : M W (option bool) :=
  for_range (py_range (max_retries + 1))
    (attempt_body step_number step_key action driver max_retries).

End Defs.

End LksRetry.

Module TestDlRetry.

Section Defs.

Variable W : Type.
Variable B : Browser W.

(** [time.sleep(delay)] refuses a negative delay. *)
Definition sleep (delay : Z) : M W unit :=
  if (delay <? 0)%Z
  then raise (Exn ValueError (py "sleep length must be non-negative"))
  else call_quiet (time_sleep B delay) (EvSleep delay).

Definition attempt_body {A} (retries delay : Z) (func : M W A) (attempt : nat)
    : M W (option A) :=
  try_except
    (v <- func ;; ret (Some v))
    (fun e =>
       if (Z.of_nat attempt =? retries - 1)%Z then raise e
       else
         (try_except (call (driver_refresh B) EvRefresh) (fun _ => ret tt) ;;
          sleep delay ;;
          ret None)).

Definition retry_on_exception {A} (retries delay : Z) (func : M W A)
    : M W (option A) :=
  for_range (py_range retries) (attempt_body retries delay func).

End Defs.

End TestDlRetry.

(** * Properties *)

Unset Implicit Arguments.

(** ** Strings *)

Lemma str_eqb_refl (a : pystr) : str_eqb a a = true.
Proof.
  induction a as [|x a IH]; simpl; [reflexivity|].
  now rewrite N.eqb_refl, IH.
Qed.

Lemma str_eqb_eq (a b : pystr) : str_eqb a b = true <-> a = b.
Proof.
  split.
  - revert b; induction a as [|x a IH]; intros [|y b] H; simpl in H;
      try discriminate; [reflexivity|].
    apply andb_true_iff in H as [Hx Hr].
    apply N.eqb_eq in Hx; subst y.
    now rewrite (IH b Hr).
  - intros ->; apply str_eqb_refl.
Qed.

Lemma str_eqb_neq (a b : pystr) : str_eqb a b = false <-> a <> b.
Proof.
  split.
  - intros H E. apply str_eqb_eq in E. congruence.
  - intros H. destruct (str_eqb a b) eqn:E; [|reflexivity].
    apply str_eqb_eq in E. contradiction.
Qed.

Lemma startswith_app (p s : pystr) :
  startswith p s = true <-> exists t, s = p ++ t.
Proof.
  split.
  - revert s; induction p as [|x p IH]; intros s H.
    + now exists s.
    + destruct s as [|y s]; simpl in H; [discriminate|].
      apply andb_true_iff in H as [Hx Hr].
      apply N.eqb_eq in Hx; subst y.
      destruct (IH s Hr) as [t ->]. now exists t.
  - intros [t ->]. induction p as [|x p IH]; simpl; [reflexivity|].
    now rewrite N.eqb_refl, IH.
Qed.

(** [contains] is the substring relation. *)
Lemma contains_spec (p s : pystr) :
  contains p s = true <-> exists a b, s = a ++ p ++ b.
Proof.
  split.
  - induction s as [|y s IH]; simpl; intros H.
    + rewrite orb_false_r in H. apply startswith_app in H as [t Ht].
      now exists [], t.
    + apply orb_true_iff in H as [H|H].
      * apply startswith_app in H as [t Ht]. now exists [], t.
      * destruct (IH H) as (a & b & ->). now exists (y :: a), b.
  - intros (a & b & ->). induction a as [|y a IH].
    + simpl. destruct (p ++ b) eqn:E; simpl.
      * destruct p; [reflexivity|discriminate].
      * rewrite <- E. apply orb_true_iff; left.
        apply startswith_app. now exists b.
    + simpl. apply orb_true_iff; right. exact IH.
Qed.

(** Case facts are checked by enumeration below the last code point that
    the mapping moves, and hold trivially above it. *)
Lemma forallb_below (f : N -> bool) (n : nat) :
  forallb f (map N.of_nat (seq 0 n)) = true ->
  forall c, (c < N.of_nat n)%N -> f c = true.
Proof.
  intros H c Hc.
  rewrite forallb_forall in H. apply H.
  apply in_map_iff. exists (N.to_nat c). split; [apply N2Nat.id|].
  apply in_seq. lia.
Qed.

Lemma lower_cp_high (c : N) : (1120 <= c)%N -> lower_cp c = c.
Proof.
  intros H. unfold lower_cp.
  assert (E1 : (c <=? 90)%N = false) by (apply N.leb_gt; lia).
  assert (E2 : (c <=? 222)%N = false) by (apply N.leb_gt; lia).
  assert (E3 : (c <=? 1071)%N = false) by (apply N.leb_gt; lia).
  assert (E4 : (c <=? 1039)%N = false) by (apply N.leb_gt; lia).
  rewrite E1, E2, E3, E4, !andb_false_r. reflexivity.
Qed.

Lemma lower_idem_cp (c : N) : lower_cp (lower_cp c) = lower_cp c.
Proof.
  destruct (N.lt_ge_cases c 1120) as [Hlt|Hge].
  - apply N.eqb_eq.
    apply (forallb_below (fun c => (lower_cp (lower_cp c) =? lower_cp c)%N) 1120);
      [vm_compute; reflexivity | exact Hlt].
  - now rewrite !(lower_cp_high c Hge).
Qed.

Lemma lower_idem (s : pystr) : lower (lower s) = lower s.
Proof.
  unfold lower. rewrite map_map. apply map_ext, lower_idem_cp.
Qed.

Lemma lstrip_suffix (s : pystr) :
  exists p, s = p ++ lstrip s /\ forallb isspace p = true.
Proof.
  induction s as [|c s (p & Hs & Hp)]; [now exists []|].
  cbn [lstrip]. destruct (isspace c) eqn:E.
  - exists (c :: p). split; [cbn [app]; now rewrite <- Hs|].
    cbn [forallb]. now rewrite E, Hp.
  - now exists [].
Qed.

Lemma lstrip_head (s : pystr) (c : N) (r : pystr) :
  lstrip s = c :: r -> isspace c = false.
Proof.
  induction s as [|a s IH]; cbn [lstrip]; [discriminate|].
  destruct (isspace a) eqn:E; [exact IH|].
  intros H. injection H as <- _. exact E.
Qed.

Lemma forallb_rev {A} (f : A -> bool) (l : list A) :
  forallb f l = true -> forallb f (rev l) = true.
Proof.
  rewrite !forallb_forall. intros H x Hx. apply H. now apply in_rev.
Qed.

Lemma strip_inside (s : pystr) :
  exists p q,
    s = p ++ strip s ++ q /\ forallb isspace p = true /\ forallb isspace q = true /\
    lstrip s = strip s ++ q.
Proof.
  destruct (lstrip_suffix s) as (p & Hs & Hp).
  destruct (lstrip_suffix (rev (lstrip s))) as (q & Ht & Hq).
  exists p, (rev q).
  assert (E : lstrip s = strip s ++ rev q).
  { unfold strip. rewrite <- rev_app_distr, <- Ht. now rewrite rev_involutive. }
  split; [now rewrite <- E|]. split; [exact Hp|]. split; [now apply forallb_rev|exact E].
Qed.

Lemma strip_ends (s : pystr) (c : N) (r : pystr) :
  (strip s = c :: r -> isspace c = false) /\
  (strip s = r ++ [c] -> isspace c = false).
Proof.
  split; intros H.
  - destruct (strip_inside s) as (p & q & _ & _ & _ & E).
    rewrite H in E. exact (lstrip_head s c (r ++ q) E).
  - apply (lstrip_head (rev (lstrip s)) c (rev r)).
    unfold strip in H. apply (f_equal (@rev N)) in H.
    rewrite rev_involutive, rev_app_distr in H. exact H.
Qed.

Lemma strip_blank (s : pystr) : forallb isspace s = true -> strip s = [].
Proof.
  intros H. assert (E : lstrip s = []).
  { induction s as [|c s IH]; [reflexivity|].
    cbn in *. apply andb_prop in H as [-> H]. now apply IH. }
  unfold strip. now rewrite E.
Qed.

(** ** The markers *)

(** What [lower_cp] sends to a marker letter. *)
Lemma lower_cp_letter (x X y : N) :
  letter_pair (x, X) = true -> (lower_cp y = x <-> y = x \/ y = X).
Proof.
  unfold letter_pair. cbn [fst snd]. intros H.
  apply andb_true_iff in H as [_ H].
  assert (Hx : (X = x /\ x < 65)%N \/
               ((X + 32 = x)%N /\ ((97 <= x <= 122)%N \/ (1072 <= x <= 1103)%N))).
  { apply orb_true_iff in H as [H|H]; apply andb_true_iff in H as [H1 H2].
    - left. split; [now apply N.eqb_eq|now apply N.ltb_lt].
    - right. split; [now apply N.eqb_eq|].
      apply orb_true_iff in H2 as [H2|H2]; apply andb_true_iff in H2 as [H3 H4];
        apply N.leb_le in H3, H4; [left|right]; now split. }
  clear H. unfold lower_cp.
  destruct (N.leb_spec 65 y), (N.leb_spec y 90); cbn [andb]; try lia;
    destruct (N.leb_spec 192 y), (N.leb_spec y 222), (N.eqb_spec y 215);
    cbn [andb negb]; try lia;
    destruct (N.leb_spec 1040 y), (N.leb_spec y 1071); cbn [andb]; try lia;
    destruct (N.leb_spec 1024 y), (N.leb_spec y 1039); cbn [andb]; lia.
Qed.

Lemma spells_lower (small capitals m : pystr) :
  length small = length capitals ->
  forallb letter_pair (combine small capitals) = true ->
  (spells small capitals m <-> lower m = small).
Proof.
  unfold spells, lower. revert capitals m.
  induction small as [|x s IH]; intros [|X c] m Hlen Hp; try discriminate Hlen.
  - cbn [combine]. split.
    + intros H. inversion H. reflexivity.
    + destruct m; [constructor|discriminate].
  - cbn [combine forallb] in Hp. apply andb_true_iff in Hp as [Hx Hp].
    injection Hlen as Hlen. cbn [combine]. split.
    + intros H. inversion H as [|p y l m' Hy Hr]; subst. cbn [map fst snd] in *.
      f_equal; [now apply (lower_cp_letter x X y Hx)|now apply (IH c m' Hlen Hp)].
    + destruct m as [|y m']; [discriminate|]. cbn [map]. intros H.
      injection H as Hy Hr. constructor.
      * now apply (lower_cp_letter x X y Hx).
      * now apply (IH c m' Hlen Hp).
Qed.

(** [in] after [lower()] finds the word in small or capital letters. *)
Lemma contains_lower_occurs (small capitals s : pystr) :
  length small = length capitals ->
  forallb letter_pair (combine small capitals) = true ->
  (contains small (lower s) = true <-> occurs small capitals s).
Proof.
  intros Hlen Hp. rewrite contains_spec. unfold occurs. split.
  - intros (a' & b' & E). unfold lower in E.
    apply map_eq_app in E as (a & r & -> & Ha & Hr).
    apply map_eq_app in Hr as (m & b & -> & Hm & Hb).
    exists a, m, b. split; [reflexivity|]. now apply spells_lower.
  - intros (a & m & b & -> & Hs). apply spells_lower in Hs; [|exact Hlen|exact Hp].
    exists (lower a), (lower b). unfold lower in *. now rewrite !map_app, Hs.
Qed.

Lemma spells_no_space (small capitals m : pystr) :
  forallb letter_pair (combine small capitals) = true ->
  spells small capitals m -> Forall (fun c => isspace c = false) m.
Proof.
  unfold spells. generalize (combine small capitals) as ps. intros ps Hp H.
  induction H as [|p y ps m Hy _ IH]; [constructor|].
  cbn [forallb] in Hp. apply andb_true_iff in Hp as [Hx Hp].
  constructor; [|now apply IH].
  unfold letter_pair in Hx. apply andb_true_iff in Hx as [Hx _].
  apply andb_true_iff in Hx as [H1 H2]. apply negb_true_iff in H1, H2.
  now destruct Hy as [->| ->].
Qed.

Lemma lstrip_keeps (a m b : pystr) :
  m <> [] -> Forall (fun c => isspace c = false) m ->
  exists a1, lstrip (a ++ m ++ b) = a1 ++ m ++ b.
Proof.
  intros Hm Hs. induction a as [|x a [a1 IH]].
  - exists []. destruct m as [|c m]; [contradiction|].
    inversion Hs as [|? ? Hc _]; subst. cbn [app lstrip]. now rewrite Hc.
  - cbn [app lstrip]. destruct (isspace x); [now exists a1|now exists (x :: a)].
Qed.

(** [strip()] cuts nothing off a word without white space. *)
Lemma occurs_strip (small capitals t : pystr) :
  small <> [] -> length small = length capitals ->
  forallb letter_pair (combine small capitals) = true ->
  (occurs small capitals (strip t) <-> occurs small capitals t).
Proof.
  intros Hne Hlen Hp. unfold occurs. split.
  - intros (a & m & b & E & Hs).
    destruct (strip_inside t) as (p & q & Ht & _).
    exists (p ++ a), m, (b ++ q). split; [|exact Hs].
    rewrite Ht, E. now rewrite <- !app_assoc.
  - intros (a & m & b & -> & Hs).
    pose proof (spells_no_space small capitals m Hp Hs) as Hsp.
    assert (Hm : m <> []).
    { intros ->. apply spells_lower in Hs; [|exact Hlen|exact Hp].
      apply Hne. now rewrite <- Hs. }
    destruct (lstrip_keeps a m b Hm Hsp) as [a1 E1].
    assert (Hm' : rev m <> []).
    { intros E. apply Hm. apply (f_equal (@rev N)) in E.
      now rewrite rev_involutive in E. }
    destruct (lstrip_keeps (rev b) (rev m) (rev a1) Hm' (Forall_rev Hsp)) as [b1 E2].
    exists a1, m, (rev b1). split; [|exact Hs].
    unfold strip. rewrite E1, !rev_app_distr, <- app_assoc, E2.
    now rewrite !rev_app_distr, !rev_involutive, <- app_assoc.
Qed.

(** The second test of the text adds nothing to the first. *)
Lemma long_marker_has_short (s : pystr) :
  contains ItransTest.TEXT_MARKER_LONG s = true ->
  contains ItransTest.TEXT_MARKER s = true.
Proof.
  rewrite !contains_spec. intros (a & b & ->).
  exists (a ++ py "произошла "), b. rewrite <- app_assoc.
  apply (f_equal (fun x => a ++ x)). rewrite app_assoc.
  apply (f_equal (fun x => x ++ b)). vm_compute. reflexivity.
Qed.

(** The test the check applies to an alert, in the words of [marks_error]. *)
Lemma is_error_marks (c t : option pystr) :
  ItransTest.is_error (lower (or_empty c)) (strip (or_empty t)) = true <->
  marks_error c t.
Proof.
  unfold ItransTest.is_error, marks_error.
  replace ItransTest.CLASS_MARKER with (py "alert-error") by (vm_compute; reflexivity).
  rewrite orb_true_iff.
  rewrite (contains_lower_occurs (py "alert-error") (py "ALERT-ERROR") (or_empty c));
    [|vm_compute; reflexivity|vm_compute; reflexivity].
  rewrite <- (occurs_strip (py "ошибка") (py "ОШИБКА") (or_empty t));
    [|vm_compute; discriminate|vm_compute; reflexivity|vm_compute; reflexivity].
  rewrite <- (contains_lower_occurs (py "ошибка") (py "ОШИБКА") (strip (or_empty t)));
    [|vm_compute; reflexivity|vm_compute; reflexivity].
  replace (py "ошибка") with ItransTest.TEXT_MARKER by (vm_compute; reflexivity).
  split; (intros [H|H]; [now left|right]).
  - apply orb_true_iff in H as [H|H]; [exact H|now apply long_marker_has_short].
  - now rewrite H.
Qed.

Lemma is_error_marks_not (c t : option pystr) :
  ItransTest.is_error (lower (or_empty c)) (strip (or_empty t)) = false <->
  ~ marks_error c t.
Proof.
  rewrite <- is_error_marks. now destruct (ItransTest.is_error _ _).
Qed.

(** ** TestResult *)

Lemma add_step_failed (name : pystr) (d : Z) (r : TestResult) :
  success (add_step name (py "0") d r) = false /\
  status (add_step name (py "0") d r) = py "0".
Proof. split; reflexivity. Qed.

Lemma add_step_success (name s : pystr) (d : Z) (r : TestResult) :
  success (add_step name s d r) = if str_eqb s (py "0") then false else success r.
Proof. unfold add_step. now destruct (str_eqb s (py "0")). Qed.

Lemma add_step_status (name s : pystr) (d : Z) (r : TestResult) :
  status (add_step name s d r) = if str_eqb s (py "0") then py "0" else status r.
Proof. unfold add_step. now destruct (str_eqb s (py "0")). Qed.

Lemma add_step_steps (name s : pystr) (d : Z) (r : TestResult) :
  steps (add_step name s d r) =
  dict_set name {| st_status := s; st_duration_seconds := round2 d |} (steps r).
Proof. unfold add_step. now destruct (str_eqb s (py "0")). Qed.

Lemma add_step_screenshot (name s : pystr) (d : Z) (r : TestResult) :
  screenshot (add_step name s d r) = screenshot r.
Proof. unfold add_step. now destruct (str_eqb s (py "0")). Qed.

Lemma add_step_error (name s : pystr) (d : Z) (r : TestResult) :
  error (add_step name s d r) = error r.
Proof. unfold add_step. now destruct (str_eqb s (py "0")). Qed.

Lemma add_step_start_time (name s : pystr) (d : Z) (r : TestResult) :
  start_time (add_step name s d r) = start_time r.
Proof. unfold add_step. now destruct (str_eqb s (py "0")). Qed.

Lemma add_step_coherent (name s : pystr) (d : Z) (r : TestResult) :
  coherent r -> coherent (add_step name s d r).
Proof.
  unfold coherent. rewrite add_step_success, add_step_status.
  now destruct (str_eqb s (py "0")).
Qed.

Lemma record_all_success (calls : list (pystr * pystr * Z)) (r : TestResult) :
  success (record_all calls r) = false <->
  success r = false \/ Exists (fun c => snd (fst c) = py "0") calls.
Proof.
  revert r. induction calls as [|[[name s] d] calls IH]; intros r; simpl.
  - split; [now left|]. intros [H|H]; [exact H|inversion H].
  - unfold record_all in *. simpl. rewrite IH, add_step_success.
    destruct (str_eqb s (py "0")) eqn:E.
    + apply str_eqb_eq in E. split; intros _; [|now left].
      right. now constructor.
    + apply str_eqb_neq in E. split.
      * intros [H|H]; [now left|right; now constructor 2].
      * intros [H|H]; [now left|].
        inversion H as [? ? H0|? ? H0]; subst; simpl in *; [contradiction|now right].
Qed.

Lemma record_all_coherent (calls : list (pystr * pystr * Z)) (r : TestResult) :
  coherent r -> coherent (record_all calls r).
Proof.
  revert r. induction calls as [|[[name s] d] calls IH]; intros r H; [exact H|].
  apply IH. now apply add_step_coherent.
Qed.

(** ** Running programs *)

Section Steps.

Context {W : Type} (B : Browser W).

Lemma bind_ok {A C} (m : M W A) (k : A -> M W C) (st st' : State W) (a : A) :
  m st = (Ok a, st') -> bind m k st = k a st'.
Proof. intros H. unfold bind. now rewrite H. Qed.

Lemma bind_raise {A C} (m : M W A) (k : A -> M W C) (st st' : State W) (e : exn) :
  m st = (Raise e, st') -> bind m k st = (Raise e, st').
Proof. intros H. unfold bind. now rewrite H. Qed.

Lemma try_ok {A} (m : M W A) (h : exn -> M W A) (st st' : State W) (a : A) :
  m st = (Ok a, st') -> try_except m h st = (Ok a, st').
Proof. intros H. unfold try_except. now rewrite H. Qed.

Lemma try_raise {A} (m : M W A) (h : exn -> M W A) (st st' : State W) (e : exn) :
  m st = (Raise e, st') -> try_except m h st = h e st'.
Proof. intros H. unfold try_except. now rewrite H. Qed.

Lemma clock_eq (st : State W) : clock B st = (Ok (reading B st), after_clock B st).
Proof.
  unfold clock, reading, after_clock. now destruct (time_time B (world st)).
Qed.

Lemma finalize_eq (s : bool) (m : pystr) (e : option pystr) (st : State W) :
  finalize B s m e st =
  (Ok tt, set_test_result
            (finalize_at (reading B st) s m e (test_result st)) (after_clock B st)).
Proof.
  unfold finalize. unfold bind. rewrite clock_eq. reflexivity.
Qed.

End Steps.

(** C7, as the code has it.  [finalize] has no guard: a second call is
    carried out like the first, takes its own reading of the clock and sets
    [total_duration] to that reading minus the start time, rounded; the
    other fields are those of the second call. *)
Theorem finalize_twice_takes_second_reading {W : Type} (B : Browser W)
    (st : State W) (s1 s2 : bool) (m1 m2 : pystr) (e1 e2 : option pystr) :
  let st1 := snd (finalize B s1 m1 e1 st) in
  let end2 := reading B st1 in
  exists st2,
    finalize B s2 m2 e2 st1 = (Ok tt, st2) /\
    test_result st2 = finalize_at end2 s2 m2 e2 (test_result st) /\
    test_info (test_result st2) =
      [(py "total_duration", round2 (end2 - start_time (test_result st)))].
Proof.
  intros st1 end2. subst st1 end2.
  rewrite (finalize_eq B s1 m1 e1 st). simpl.
  rewrite finalize_eq. eexists. split; [reflexivity|]. split; reflexivity.
Qed.

(** C7, the claim as stated fails: on a clock that moves, the second call
    is accepted and [total_duration] goes from 1.0 to 2.0 seconds. *)
Lemma finalize_twice_changes_duration :
  let B := Sim.browser in
  let st0 := snd (bind (clock B)
                    (fun t => update (set_test_result (TestResult__init__ t)))
                    (initial_state (Sim.scripted [] [] []))) in
  let st1 := snd (finalize B false (py "first") None st0) in
  let st2 := snd (finalize B false (py "first") None st1) in
  fst (finalize B false (py "first") None st1) = Ok tt /\
  test_info (test_result st1) = [(py "total_duration", 100%Z)] /\
  test_info (test_result st2) = [(py "total_duration", 200%Z)] /\
  test_info (test_result st2) <> test_info (test_result st1).
Proof.
  vm_compute. repeat split; discriminate.
Qed.

(** ** The banner check *)

Section Banner.

Context {W : Type} (B : Browser W).

Lemma visible_alerts_state (els : list WebElement) (st : State W) :
  snd (ItransTest.visible_alerts B els st) = st.
Proof.
  revert st. induction els as [|el els IH]; intros st; simpl; [reflexivity|].
  unfold bind, query. destruct (is_displayed B el (world st)); [|reflexivity].
  specialize (IH st). destruct (ItransTest.visible_alerts B els st) as [[vs|e] st'];
    simpl in *; now subst.
Qed.

Lemma check_alerts_state (vis : list WebElement) (st : State W) :
  snd (ItransTest.check_alerts B vis st) = st.
Proof.
  revert st. induction vis as [|el vis IH]; intros st; simpl; [reflexivity|].
  unfold bind, query.
  destruct (get_attribute B el (py "class") (world st)); [|reflexivity].
  destruct (element_text B el (world st)); [|reflexivity].
  destruct (ItransTest.is_error _ _); [reflexivity|apply IH].
Qed.

Lemma scan_state (st : State W) : snd (ItransTest.scan B st) = st.
Proof.
  unfold ItransTest.scan, bind, query.
  destruct (find_elements B _ (world st)) as [els|e]; [|reflexivity].
  pose proof (visible_alerts_state els st) as H.
  destruct (ItransTest.visible_alerts B els st) as [[vs|e] st']; simpl in H; subst;
    [apply check_alerts_state|reflexivity].
Qed.

Lemma banner_check_unfold (st : State W) :
  check_error_banner st = true -> test_driver st = true ->
  ItransTest.raise_if_error_banner B st =
  (match fst (ItransTest.scan B st) with
   | Ok _ => Ok tt
   | Raise e => if is_WebDriverException e then Ok tt else Raise e
   end, st).
Proof.
  intros Hon Hdrv. unfold ItransTest.raise_if_error_banner.
  rewrite Hon, Hdrv. simpl. unfold try_except_if, try_except. 
  pose proof (scan_state st) as H.
  destruct (ItransTest.scan B st) as [[[]|e] st']; simpl in *; subst; [reflexivity|].
  destruct (is_WebDriverException e); reflexivity.
Qed.

Lemma banner_check_off (st : State W) :
  check_error_banner st = false \/ test_driver st = false ->
  ItransTest.raise_if_error_banner B st = (Ok tt, st).
Proof.
  intros [H|H]; unfold ItransTest.raise_if_error_banner; rewrite H; simpl;
    [reflexivity|]. now destruct (check_error_banner st).
Qed.

Lemma visible_alerts_readable (els : list WebElement) (st : State W) :
  Forall (fun el => exists b, is_displayed B el (world st) = Ok b) els ->
  ItransTest.visible_alerts B els st = (Ok (filter (shown B (world st)) els), st).
Proof.
  induction 1 as [|el els [b Hb] _ IH]; simpl; [reflexivity|].
  unfold bind, query, shown. rewrite Hb, IH. now destruct b.
Qed.

Lemma readable_visible (w : W) (els : list WebElement) :
  readable B w els ->
  Forall (fun el => exists b, is_displayed B el w = Ok b) els /\
  Forall (fun el =>
            (exists c, get_attribute B el (py "class") w = Ok c) /\
            (exists t, element_text B el w = Ok t)) (filter (shown B w) els).
Proof.
  intros [_ H]. split.
  - eapply Forall_impl; [|exact H]. intros el (b & Hb & _). now exists b.
  - apply Forall_forall. intros el Hin. apply filter_In in Hin as [Hin Hs].
    rewrite Forall_forall in H. destruct (H el Hin) as (b & Hb & Hr).
    apply Hr. unfold shown in Hs. rewrite Hb in Hs. now destruct b.
Qed.

End Banner.

Lemma alerts_selector :
  py ".errors-container .alert.show" = ItransTest.ERROR_CONTAINER_VISIBLE_ALERTS_SELECTOR.
Proof. vm_compute. reflexivity. Qed.

Lemma banner_exception_text (text : pystr) :
  ItransTest.banner_exception text =
  Exn Exception (py "Обнаружено сообщение об ошибке на странице: " ++ text).
Proof.
  unfold ItransTest.banner_exception.
  apply (f_equal (fun p => Exn Exception (p ++ text))). vm_compute. reflexivity.
Qed.

Section BannerCases.

Context {W : Type} (B : Browser W).

Lemma visible_alerts_fails (pre post : list WebElement) (x : WebElement) (e : exn)
    (st : State W) :
  all_say_displayed B (world st) pre ->
  is_displayed B x (world st) = Raise e ->
  ItransTest.visible_alerts B (pre ++ x :: post) st = (Raise e, st).
Proof.
  intros Hpre Hx. induction Hpre as [|y pre [b Hb] _ IH]; cbn [app ItransTest.visible_alerts];
    unfold bind, query.
  - now rewrite Hx.
  - fold (@bind W). rewrite Hb. unfold bind in IH. now rewrite IH.
Qed.

Lemma check_alerts_passes (vis : list WebElement) (st : State W) :
  harmless B (world st) vis ->
  ItransTest.check_alerts B vis st = (Ok tt, st).
Proof.
  induction 1 as [|x vis (c & t & [Hc Ht] & Hn) _ IH]; cbn [ItransTest.check_alerts];
    [reflexivity|].
  unfold bind, query. rewrite Hc, Ht.
  apply is_error_marks_not in Hn. now rewrite Hn.
Qed.

Lemma check_alerts_finds (pre post : list WebElement) (x : WebElement)
    (c t : option pystr) (st : State W) :
  harmless B (world st) pre ->
  says B (world st) x c t -> marks_error c t ->
  ItransTest.check_alerts B (pre ++ x :: post) st =
  (Raise (ItransTest.banner_exception (strip (or_empty t))), st).
Proof.
  intros Hpre [Hc Ht] Hm.
  induction Hpre as [|y pre (c' & t' & [Hc' Ht'] & Hn) _ IH];
    cbn [app ItransTest.check_alerts]; unfold bind, query.
  - rewrite Hc, Ht. apply is_error_marks in Hm. now rewrite Hm.
  - rewrite Hc', Ht'. apply is_error_marks_not in Hn. now rewrite Hn.
Qed.

Lemma check_alerts_fails (pre post : list WebElement) (x : WebElement) (e : exn)
    (st : State W) :
  harmless B (world st) pre ->
  (get_attribute B x (py "class") (world st) = Raise e \/
   ((exists c, get_attribute B x (py "class") (world st) = Ok c) /\
    element_text B x (world st) = Raise e)) ->
  ItransTest.check_alerts B (pre ++ x :: post) st = (Raise e, st).
Proof.
  intros Hpre Hx.
  induction Hpre as [|y pre (c' & t' & [Hc' Ht'] & Hn) _ IH];
    cbn [app ItransTest.check_alerts]; unfold bind, query.
  - destruct Hx as [Hc|[[c Hc] Ht]]; rewrite Hc; [reflexivity|now rewrite Ht].
  - rewrite Hc', Ht'. apply is_error_marks_not in Hn. now rewrite Hn.
Qed.

(** The body of the [try], case by case. *)
Lemma scan_passes (els : list WebElement) (st : State W) :
  find_elements B (py ".errors-container .alert.show") (world st) = Ok els ->
  all_say_displayed B (world st) els ->
  harmless B (world st) (filter (shown B (world st)) els) ->
  ItransTest.scan B st = (Ok tt, st).
Proof.
  intros Hf Hd Hh. rewrite alerts_selector in Hf.
  unfold ItransTest.scan, bind, query. rewrite Hf.
  rewrite (visible_alerts_readable B els st Hd). now apply check_alerts_passes.
Qed.

Lemma scan_finds (el : WebElement) (t : option pystr) (st : State W) :
  finds_banner B (world st) el t ->
  ItransTest.scan B st = (Raise (ItransTest.banner_exception (strip (or_empty t))), st).
Proof.
  intros (els & pre & post & c & Hf & Hd & Hv & Hh & Hs & Hm).
  rewrite alerts_selector in Hf.
  unfold ItransTest.scan, bind, query. rewrite Hf.
  rewrite (visible_alerts_readable B els st Hd), Hv.
  now apply (check_alerts_finds pre post el c t).
Qed.

Lemma scan_fails (e : exn) (st : State W) :
  query_fails B (world st) e ->
  ItransTest.scan B st = (Raise e, st).
Proof.
  intros [Hf|(els & Hf & [(pre & x & post & -> & Hd & Hx)
                         |(Hd & pre & x & post & Hv & Hh & Hx)])];
    rewrite alerts_selector in Hf; unfold ItransTest.scan, bind, query; rewrite Hf.
  - reflexivity.
  - now rewrite (visible_alerts_fails pre post x e st Hd Hx).
  - rewrite (visible_alerts_readable B els st Hd), Hv.
    now apply check_alerts_fails.
Qed.

(** The alerts of a page either all say whether they are displayed, or a
    first one does not. *)
Lemma displayed_cases (w : W) (els : list WebElement) :
  all_say_displayed B w els \/
  exists pre x post e,
    els = pre ++ x :: post /\ all_say_displayed B w pre /\ is_displayed B x w = Raise e.
Proof.
  induction els as [|y els IH]; [left; constructor|].
  destruct (is_displayed B y w) as [b|e] eqn:Ey.
  - destruct IH as [IH|(pre & x & post & e & -> & Hpre & Hx)].
    + left. constructor; [now exists b|exact IH].
    + right. exists (y :: pre), x, post, e. split; [reflexivity|].
      split; [|exact Hx]. constructor; [now exists b|exact Hpre].
  - right. exists [], y, els, e. split; [reflexivity|]. split; [constructor|exact Ey].
Qed.

(** The displayed alerts either all mark no error, or a first one marks an
    error or does not give its class attribute or text. *)
Lemma harmless_cases (w : W) (vis : list WebElement) :
  harmless B w vis \/
  exists pre x post,
    vis = pre ++ x :: post /\ harmless B w pre /\
    ((exists c t, says B w x c t /\ marks_error c t) \/
     (exists e, get_attribute B x (py "class") w = Raise e \/
                ((exists c, get_attribute B x (py "class") w = Ok c) /\
                 element_text B x w = Raise e))).
Proof.
  induction vis as [|y vis IH]; [left; constructor|].
  assert (Hfirst : forall P : Prop, P -> exists pre x post,
             y :: vis = pre ++ x :: post /\ harmless B w pre /\ (x = y -> P) ).
  { intros P HP. exists [], y, vis. split; [reflexivity|]. split; [constructor|auto]. }
  destruct (get_attribute B y (py "class") w) as [c|e] eqn:Ec.
  - destruct (element_text B y w) as [t|e] eqn:Et.
    + destruct (ItransTest.is_error (lower (or_empty c)) (strip (or_empty t))) eqn:Em.
      * right. exists [], y, vis. split; [reflexivity|]. split; [constructor|].
        left. exists c, t. split; [now split|now apply is_error_marks].
      * assert (Hy : exists c t, says B w y c t /\ ~ marks_error c t).
        { exists c, t. split; [now split|now apply is_error_marks_not]. }
        destruct IH as [IH|(pre & x & post & -> & Hpre & Hx)].
        -- left. now constructor.
        -- right. exists (y :: pre), x, post. split; [reflexivity|].
           split; [now constructor|exact Hx].
    + right. exists [], y, vis. split; [reflexivity|]. split; [constructor|].
      right. exists e. right. split; [now exists c|exact Et].
  - right. exists [], y, vis. split; [reflexivity|]. split; [constructor|].
    right. exists e. now left.
Qed.

(** Every page is of one of three kinds. *)
Lemma page_cases (w : W) :
  (exists els,
     find_elements B (py ".errors-container .alert.show") w = Ok els /\
     all_say_displayed B w els /\ harmless B w (filter (shown B w) els)) \/
  (exists el t, finds_banner B w el t) \/
  (exists e, query_fails B w e).
Proof.
  destruct (find_elements B (py ".errors-container .alert.show") w) as [els|e] eqn:Ef.
  - destruct (displayed_cases w els) as [Hd|(pre & x & post & e & -> & Hd & Hx)].
    + destruct (harmless_cases w (filter (shown B w) els))
        as [Hh|(pre & x & post & Hv & Hh & [(c & t & Hs & Hm)|(e & Hx)])].
      * left. now exists els.
      * right. left. exists x, t, els, pre, post, c. repeat split; auto; apply Hs.
      * right. right. exists e. right. exists els. split; [exact Ef|]. right.
        split; [exact Hd|]. now exists pre, x, post.
    + right. right. exists e. right. eexists. split; [exact Ef|]. left.
      now exists pre, x, post.
  - right. right. exists e. now left.
Qed.

Lemma banner_check_finds (el : WebElement) (t : option pystr) (st : State W) :
  check_error_banner st = true -> test_driver st = true ->
  finds_banner B (world st) el t ->
  ItransTest.raise_if_error_banner B st =
  (Raise (Exn Exception
            (py "Обнаружено сообщение об ошибке на странице: " ++ strip (or_empty t))),
   st).
Proof.
  intros Hon Hdrv H. rewrite (banner_check_unfold B st Hon Hdrv).
  rewrite (scan_finds el t st H). cbn [fst]. now rewrite banner_exception_text.
Qed.

Lemma banner_check_fails (e : exn) (st : State W) :
  check_error_banner st = true -> test_driver st = true ->
  query_fails B (world st) e ->
  ItransTest.raise_if_error_banner B st =
  (if is_WebDriverException e then Ok tt else Raise e, st).
Proof.
  intros Hon Hdrv H. rewrite (banner_check_unfold B st Hon Hdrv).
  now rewrite (scan_fails e st H).
Qed.

Lemma banner_check_raises (e : exn) (st : State W) :
  check_error_banner st = true -> test_driver st = true ->
  fst (ItransTest.raise_if_error_banner B st) = Raise e ->
  (exists el t,
     finds_banner B (world st) el t /\
     e = Exn Exception
           (py "Обнаружено сообщение об ошибке на странице: " ++ strip (or_empty t))) \/
  (query_fails B (world st) e /\ is_WebDriverException e = false).
Proof.
  intros Hon Hdrv.
  destruct (page_cases (world st))
    as [(els & Hf & Hd & Hh)|[(el & t & Hb)|(e' & Hq)]].
  - rewrite (banner_check_unfold B st Hon Hdrv), (scan_passes els st Hf Hd Hh).
    intros H. discriminate H.
  - rewrite (banner_check_finds el t st Hon Hdrv Hb). cbn [fst].
    intros H. injection H as <-. left. now exists el, t.
  - rewrite (banner_check_fails e' st Hon Hdrv Hq). cbn [fst].
    destruct (is_WebDriverException e') eqn:Ew; intros H; [discriminate H|].
    injection H as <-. now right.
Qed.

(** On a page that answers the queries the check finds the first displayed
    alert that marks an error, if there is one. *)
Lemma readable_finds (w : W) (els : list WebElement) (el : WebElement)
    (c t : option pystr) :
  readable B w els ->
  In el els -> is_displayed B el w = Ok true -> says B w el c t -> marks_error c t ->
  exists x u, finds_banner B w x u.
Proof.
  intros Hr Hin Hd Hs Hm.
  destruct (readable_visible B w els Hr) as [Hall Hvis].
  destruct Hr as [Hf _].
  assert (Hel : In el (filter (shown B w) els)).
  { apply filter_In. split; [exact Hin|]. unfold shown. now rewrite Hd. }
  destruct (harmless_cases w (filter (shown B w) els))
    as [Hh|(pre & x & post & Hv & Hh & [(c' & t' & Hs' & Hm')|(e & Hx)])].
  - exfalso. unfold harmless in Hh. rewrite Forall_forall in Hh.
    destruct (Hh el Hel) as (c' & t' & [Hc' Ht'] & Hn). destruct Hs as [Hc Ht].
    apply Hn. congruence.
  - exists x, t', els, pre, post, c'. repeat split; auto; apply Hs'.
  - exfalso. rewrite Forall_forall in Hvis.
    destruct (Hvis x) as [[c' Hc'] [t' Ht']].
    { rewrite Hv. apply in_or_app. right. now left. }
    destruct Hx as [Hx|[_ Hx]]; congruence.
Qed.

Lemma readable_never_fails (w : W) (els : list WebElement) (e : exn) :
  readable B w els -> ~ query_fails B w e.
Proof.
  intros Hr Hq.
  destruct (readable_visible B w els Hr) as [Hall Hvis].
  destruct Hr as [Hf _].
  destruct Hq as [Hq|(els' & Hf' & [(pre & x & post & -> & _ & Hx)
                                   |(_ & pre & x & post & Hv & _ & Hx)])].
  - congruence.
  - assert (els = pre ++ x :: post) by congruence. subst els.
    rewrite Forall_forall in Hall. destruct (Hall x) as [b Hb]; [|congruence].
    apply in_or_app. right. now left.
  - assert (els' = els) by congruence. subst els'.
    rewrite Forall_forall in Hvis. destruct (Hvis x) as [[c' Hc'] [t' Ht']].
    { rewrite Hv. apply in_or_app. right. now left. }
    destruct Hx as [Hx|[_ Hx]]; congruence.
Qed.

Lemma finds_banner_displayed (w : W) (els : list WebElement) (el : WebElement)
    (t : option pystr) :
  find_elements B (py ".errors-container .alert.show") w = Ok els ->
  finds_banner B w el t ->
  exists c, In el els /\ is_displayed B el w = Ok true /\ says B w el c t /\
            marks_error c t.
Proof.
  intros Hf (els' & pre & post & c & Hf' & _ & Hv & _ & Hs & Hm).
  assert (els' = els) by congruence. subst els'.
  assert (Hel : In el (filter (shown B w) els)).
  { rewrite Hv. apply in_or_app. right. now left. }
  apply filter_In in Hel as [Hin Hsh]. exists c. split; [exact Hin|].
  split; [|now split]. unfold shown in Hsh.
  destruct (is_displayed B el w) as [[|]|]; [reflexivity|discriminate|discriminate].
Qed.

End BannerCases.

(** C3.  With the check enabled and a driver set, [raise_if_error_banner]
    raises the banner failure exactly when it reaches, before any of its
    queries fails, a displayed alert whose class attribute contains
    [alert-error] or whose text contains [ошибка], in small or capital
    letters and either alone; the failure carries the stripped text of that
    alert.  On a page that answers every query this is: exactly when some
    displayed alert is marked so.  A query that fails with a driver error
    ends the check, which then returns normally; a failure of another class
    is passed on as it is, and nothing else is ever raised.  No driver error
    leaves the check, and the check changes nothing. *)
Theorem banner_check_raises_iff_error_alert {W : Type} (B : Browser W)
    (st : State W)
    (Hon : check_error_banner st = true) (Hdrv : test_driver st = true) :
  let w := world st in
  let outcome := fst (ItransTest.raise_if_error_banner B st) in
  let banner t :=
    Exn Exception
      (py "Обнаружено сообщение об ошибке на странице: " ++ strip (or_empty t)) in
  (forall els, readable B w els ->
     ((exists e, outcome = Raise e) <->
      (exists el c t, In el els /\ is_displayed B el w = Ok true /\
                      says B w el c t /\ marks_error c t)) /\
     (forall e, outcome = Raise e ->
        exists el c t, In el els /\ is_displayed B el w = Ok true /\
                       says B w el c t /\ marks_error c t /\ e = banner t)) /\
  (forall e, outcome = Raise e <->
     (exists el t, finds_banner B w el t /\ e = banner t) \/
     (query_fails B w e /\ is_WebDriverException e = false)) /\
  (forall e, query_fails B w e -> is_WebDriverException e = true -> outcome = Ok tt) /\
  (forall e, outcome = Raise e -> is_WebDriverException e = false) /\
  snd (ItransTest.raise_if_error_banner B st) = st.
Proof.
  intros w outcome banner. subst w outcome banner. cbv beta.
  assert (Hexact : forall e,
             fst (ItransTest.raise_if_error_banner B st) = Raise e <->
             (exists el t, finds_banner B (world st) el t /\
                e = Exn Exception
                      (py "Обнаружено сообщение об ошибке на странице: "
                         ++ strip (or_empty t))) \/
             (query_fails B (world st) e /\ is_WebDriverException e = false)).
  { intros e. split; [apply (banner_check_raises B e st Hon Hdrv)|].
    intros [(el & t & Hb & ->)|[Hq Hw]].
    - now rewrite (banner_check_finds B el t st Hon Hdrv Hb).
    - now rewrite (banner_check_fails B e st Hon Hdrv Hq), Hw. }
  split; [|split; [exact Hexact|split; [|split]]].
  - intros els Hr.
    assert (Hwhich : forall e,
               fst (ItransTest.raise_if_error_banner B st) = Raise e ->
               exists el c t, In el els /\ is_displayed B el (world st) = Ok true /\
                 says B (world st) el c t /\ marks_error c t /\
                 e = Exn Exception
                       (py "Обнаружено сообщение об ошибке на странице: "
                          ++ strip (or_empty t))).
    { intros e He. apply Hexact in He as [(el & t & Hb & ->)|[Hq _]].
      - destruct (finds_banner_displayed B (world st) els el t (proj1 Hr) Hb)
          as (c & Hin & Hd & Hs & Hm).
        now exists el, c, t.
      - exfalso. exact (readable_never_fails B (world st) els e Hr Hq). }
    split; [split|exact Hwhich].
    + intros [e He]. destruct (Hwhich e He) as (el & c & t & Hin & Hd & Hs & Hm & _).
      now exists el, c, t.
    + intros (el & c & t & Hin & Hd & Hs & Hm).
      destruct (readable_finds B (world st) els el c t Hr Hin Hd Hs Hm) as (x & u & Hb).
      eexists. apply Hexact. left. exists x, u. split; [exact Hb|reflexivity].
  - intros e Hq Hw. now rewrite (banner_check_fails B e st Hon Hdrv Hq), Hw.
  - intros e He. apply Hexact in He as [(el & t & _ & ->)|[_ Hw]]; [reflexivity|exact Hw].
  - rewrite (banner_check_unfold B st Hon Hdrv). reflexivity.
Qed.

(** A page with one displayed alert whose class is written in capitals
    and whose text says nothing. *)
Lemma banner_check_raises_iff_error_alert_witness :
  exists e,
    fst (ItransTest.raise_if_error_banner Sim.browser
           (set_test_driver true
              (initial_state (Sim.scripted [] [] [SimAlerts.capitals_alert])))) = Raise e /\
    exn_str e = py "Обнаружено сообщение об ошибке на странице: ".
Proof.
  eexists. split.
  - apply (proj2 (proj1 (proj2
             (banner_check_raises_iff_error_alert Sim.browser
                (set_test_driver true
                   (initial_state (Sim.scripted [] [] [SimAlerts.capitals_alert])))
                eq_refl eq_refl)) _)).
    left. exists 0%nat, None. split; [|reflexivity].
    exists [0%nat], [], [], (Some (py "alert ALERT-ERROR show")).
    split; [reflexivity|]. split; [constructor; [now exists true|constructor]|].
    split; [reflexivity|]. split; [constructor|]. split; [now split|].
    apply is_error_marks. vm_compute. reflexivity.
  - vm_compute. reflexivity.
Defined.

(** ** Logs *)

Lemma step_events_app (k : nat) (a b : list Event) :
  step_events k (a ++ b) = step_events k a ++ step_events k b.
Proof.
  induction a as [|ev a IH]; [reflexivity|].
  destruct ev; simpl; try exact IH.
  destruct (k0 =? k)%nat; simpl; now rewrite IH.
Qed.

Lemma turns_app (a b : list Event) : turns (a ++ b) = turns a ++ turns b.
Proof.
  induction a as [|ev a IH]; [reflexivity|].
  destruct ev; simpl; now rewrite ?IH.
Qed.

Lemma readings_app (a b : list Event) : readings (a ++ b) = readings a ++ readings b.
Proof.
  induction a as [|ev a IH]; [reflexivity|].
  destruct ev; simpl; now rewrite ?IH.
Qed.

Lemma quiet_app (a b : list Event) : quiet a -> quiet b -> quiet (a ++ b).
Proof. unfold quiet. intros Ha Hb. now rewrite forallb_app, Ha, Hb. Qed.

Lemma quiet_turns (q : list Event) : quiet q -> turns q = [].
Proof.
  unfold quiet. induction q as [|ev q IH]; [reflexivity|].
  destruct ev; simpl; intros H; try discriminate; now apply IH.
Qed.

Lemma quiet_readings (q : list Event) : quiet q -> readings q = [].
Proof.
  unfold quiet. induction q as [|ev q IH]; [reflexivity|].
  destruct ev; simpl; intros H; try discriminate; now apply IH.
Qed.

Lemma quiet_step_events (k : nat) (q : list Event) : quiet q -> step_events k q = [].
Proof.
  unfold quiet. induction q as [|ev q IH]; [reflexivity|].
  destruct ev; simpl; intros H; try discriminate; now apply IH.
Qed.


Lemma failed_round_step_events (k : nat) (evs : list Event) :
  failed_round k evs ->
  (exists e, step_events k evs = [Raise e]) /\
  (forall j, j <> k -> step_events j evs = []).
Proof.
  intros (pre & e & r & q & -> & Hq & Hpre). split.
  - exists e. rewrite step_events_app. simpl. rewrite Nat.eqb_refl.
    rewrite (quiet_step_events k q Hq).
    destruct Hpre as [->|[t ->]]; reflexivity.
  - intros j Hj. rewrite step_events_app. simpl.
    destruct (Nat.eqb_spec k j) as [E|_]; [congruence|].
    rewrite (quiet_step_events j q Hq).
    destruct Hpre as [->|[t ->]]; reflexivity.
Qed.


Lemma rounds_step_events (k : nat) (rounds : list (list Event)) :
  Forall (failed_round k) rounds ->
  (forallb is_raise (step_events k (concat rounds)) = true /\
   length (step_events k (concat rounds)) = length rounds) /\
  (forall j, j <> k -> step_events j (concat rounds) = []).
Proof.
  induction 1 as [|evs rounds Hr _ IH]; simpl.
  - now repeat split.
  - destruct (failed_round_step_events k evs Hr) as [[e He] Hj].
    destruct IH as [[I1 I2] I3]. rewrite step_events_app, He. simpl.
    repeat split; [exact I1|now rewrite I2|].
    intros j Hne. now rewrite step_events_app, (Hj j Hne), (I3 j Hne).
Qed.

Lemma dict_get_set {V : Type} (k : pystr) (v : V) (d : list (pystr * V)) :
  dict_get k (dict_set k v d) = Some v.
Proof.
  induction d as [|[k' v'] d IH]; simpl.
  - now rewrite str_eqb_refl.
  - destruct (str_eqb k k') eqn:E; simpl; rewrite ?str_eqb_refl, ?E; auto.
Qed.

Lemma dict_set_fresh {V : Type} (k : pystr) (v : V) (d : list (pystr * V)) :
  ~ In k (map fst d) -> dict_set k v d = d ++ [(k, v)].
Proof.
  induction d as [|[k' v'] d IH]; simpl; intros H; [reflexivity|].
  destruct (str_eqb k k') eqn:E.
  - apply str_eqb_eq in E. subst. exfalso. apply H. now left.
  - rewrite IH; [reflexivity|]. intros Hin. apply H. now right.
Qed.

(** ** The retry wrapper of lks.py *)

Ltac world_cases :=
  repeat (simpl;
    match goal with
    | |- context [time_time ?B ?w] =>
      let t := fresh "t" in let w' := fresh "w" in
      destruct (time_time B w) as [t w']
    | |- context [step_body ?B ?k ?w] =>
      let e := fresh "e" in let w' := fresh "w" in
      destruct (step_body B k w) as [[[]|e] w']
    | |- context [driver_refresh ?B ?w] =>
      let e := fresh "e" in let w' := fresh "w" in
      destruct (driver_refresh B w) as [[[]|e] w']
    | |- context [wait_ready_state ?B ?w] =>
      let e := fresh "e" in let w' := fresh "w" in
      destruct (wait_ready_state B w) as [[[]|e] w']
    | |- context [get_screenshot_b64 ?B ?w] =>
      let s := fresh "s" in let e := fresh "e" in let w' := fresh "w" in
      destruct (get_screenshot_b64 B w) as [[s|e] w']
    end).

Section LksAttempt.

Context {W : Type} (B : Browser W).

Lemma attempt_body_cases (n : nat) (key : pystr) (k m attempt : nat) (st : State W) :
  let out := Lks.attempt_body B n key (run_step B k) true m attempt st in
  let st' := snd out in
  exists evs,
    log st' = log st ++ evs /\
    test_driver st' = test_driver st /\
    check_error_banner st' = check_error_banner st /\
    ((exists t0 t1,
        fst out = Ok (Some true) /\
        evs = [EvTime t0; EvStep k (Ok tt); EvTime t1] /\
        test_result st' = add_step key (py "1") (t1 - t0) (test_result st) /\
        stdout st' = stdout st)
     \/
     (attempt < m /\
      fst out = Ok None /\
      failed_round k evs /\
      test_result st' = test_result st /\
      stdout st' = stdout st)
     \/
     (m <= attempt /\
      exists t0 e q t1 ss t2,
        fst out = Ok (Some false) /\
        evs = [EvTime t0; EvStep k (Raise e)] ++ q ++
              [EvTime t1; EvAlert (Lks.step_error n e) ss; EvTime t2] /\
        quiet q /\
        test_result st' =
          finalize_at t2 false (Lks.step_message n) (Some (Lks.step_error n e))
            (add_step key (py "0") (t1 - t0)
               (match ss with
                | Some s => set_screenshot_b64 s (test_result st)
                | None => test_result st
                end)) /\
        stdout st' = stdout st ++ [Lks.to_dict (test_result st')])).
Proof.
  unfold Lks.attempt_body, Lks.reload_page, Lks.capture, Lks.screenshot_of,
    Lks.print_report, finalize, alert, run_step, clock, print_json.
  unfold bind, try_except, call, call_quiet, on_result, update, ret.
  destruct (Nat.ltb_spec attempt m) as [Hlt|Hge].
  all: world_cases.
  all: eexists;
    (split; [simpl; rewrite <- ?app_assoc; simpl; reflexivity|]);
    (split; [reflexivity|]); (split; [reflexivity|]).
  all: try (left; do 2 eexists; repeat split; reflexivity).
  all: try (right; left; split; [exact Hlt|]; split; [reflexivity|];
            split; [|split; reflexivity];
            eexists [_], _, _, _; split; [reflexivity|];
            split; [reflexivity|right; eexists; reflexivity]).
  all: right; right; split; [exact Hge|]; eexists _, _.
  - exists [EvScreenshot (Ok s); EvSaveFile]. eexists _, (Some s), _.
    repeat split; reflexivity.
  - exists [EvScreenshot (Raise e0)]. eexists _, None, _.
    repeat split; reflexivity.
Qed.

Lemma retry_loop_cases (n : nat) (key : pystr) (k m : nat) :
  forall len a st,
    a + S len = m + 1 ->
    retry_outcome n key k len st
      (for_range (seq a (S len)) (Lks.attempt_body B n key (run_step B k) true m) st).
Proof.
  induction len as [|len IH]; intros a st Ha.
  - assert (a = m) by lia. subst a.
    pose proof (attempt_body_cases n key k m m st) as H.
    cbn [seq for_range]. unfold bind at 1.
    destruct (Lks.attempt_body B n key (run_step B k) true m m st) as [r st1].
    cbn [fst snd] in H.
    destruct H as (evs & Hlog & Hd & Hc & [H|[H|H]]).
    + destruct H as (t0 & t1 & -> & -> & Hr & Ho).
      exists [], [EvTime t0; EvStep k (Ok tt); EvTime t1]. cbn.
      repeat split; auto. left. exists t0, t1. repeat split; auto.
    + destruct H as [Hlt _]. lia.
    + destruct H as (_ & t0 & e & q & t1 & ss & t2 & -> & -> & Hq & Hr & Ho).
      eexists [], _. cbn [concat app fst snd ret].
      repeat split; eauto. right. exists t0, e, q, t1, ss, t2.
      repeat split; auto.
  - pose proof (attempt_body_cases n key k m a st) as H.
    cbn [seq for_range]. unfold bind at 1.
    destruct (Lks.attempt_body B n key (run_step B k) true m a st) as [r st1].
    cbn [fst snd] in H.
    destruct H as (evs & Hlog & Hd & Hc & [H|[H|H]]).
    + destruct H as (t0 & t1 & -> & -> & Hr & Ho).
      exists [], [EvTime t0; EvStep k (Ok tt); EvTime t1]. cbn.
      repeat split; auto. left. exists t0, t1. repeat split; auto. lia.
    + destruct H as (Hlt & -> & Hround & Hr & Ho).
      specialize (IH (S a) st1 ltac:(lia)).
      change (retry_outcome n key k (S len) st
                (for_range (seq (S a) (S len))
                   (Lks.attempt_body B n key (run_step B k) true m) st1)).
      set (out := for_range _ _ st1) in *.
      destruct IH as (rounds & last & Hlog' & Hrs & Hd' & Hc' & Hcase).
      exists (evs :: rounds), last. cbn [concat].
      split; [rewrite Hlog', Hlog, <- !app_assoc; reflexivity|].
      split; [now constructor|].
      split; [congruence|]. split; [congruence|].
      destruct Hcase as [(t0 & t1 & E1 & E2 & E3 & E4 & E5)
                        |(t0 & e & q & t1 & ss & t2 & E1 & E2 & E3 & E4 & E5 & E6)].
      * left. exists t0, t1. rewrite <- Hr, <- Ho.
        repeat split; auto. cbn. lia.
      * right. exists t0, e, q, t1, ss, t2. rewrite <- Hr, <- Ho.
        repeat split; auto. cbn. lia.
    + destruct H as [Hge _]. lia.
Qed.

Lemma execute_step_with_retry_cases (n : nat) (key : pystr) (k m : nat) (st : State W) :
  retry_outcome n key k m st
    (Lks.execute_step_with_retry B n key (run_step B k) true m st).
Proof.
  unfold Lks.execute_step_with_retry.
  replace (m + 1) with (S m) by lia. apply retry_loop_cases. lia.
Qed.

End LksAttempt.

(** ** The retry decorator of test_dl.py *)

Section DlRetry.

Context {W : Type} (B : Browser W).

Lemma dl_attempt_cases (k retries : nat) (delay : Z) (attempt : nat) (st : State W) :
  let out := TestDl.attempt_body B retries delay (run_step B k) attempt st in
  let st' := snd out in
  exists evs,
    log st' = log st ++ evs /\ unchanged st st' /\
    ((fst out = Ok (Some tt) /\ evs = [EvStep k (Ok tt)])
     \/
     (attempt <> retries - 1 /\ fst out = Ok None /\ failed_round k evs)
     \/
     (attempt = retries - 1 /\
      exists e, fst out = Raise e /\ evs = [EvStep k (Raise e)])).
Proof.
  unfold TestDl.attempt_body, run_step.
  unfold bind, try_except, call, call_quiet, raise, ret.
  destruct (Nat.eqb_spec attempt (retries - 1)) as [He|Hne].
  all: world_cases.
  all: eexists;
    (split; [simpl; rewrite <- ?app_assoc; simpl; reflexivity|]);
    (split; [repeat split|]).
  all: try (left; split; reflexivity).
  all: try (right; right; split; [exact He|]; eexists; split; reflexivity).
  all: right; left; split; [exact Hne|]; split; [reflexivity|];
    eexists [], _, _, _; split; [reflexivity|];
    split; [reflexivity|left; reflexivity].
Qed.

Lemma dl_loop_cases (k retries : nat) (delay : Z) :
  forall len a st,
    a + S len = retries ->
    dl_outcome k len st (for_range (seq a (S len)) (TestDl.attempt_body B retries delay (run_step B k)) st).
Proof.
  induction len as [|len IH]; intros a st Ha.
  - assert (E : a = retries - 1) by lia.
    pose proof (dl_attempt_cases k retries delay a st) as H.
    cbn [seq for_range]. unfold bind at 1.
    destruct (TestDl.attempt_body B retries delay (run_step B k) a st) as [r st1].
    cbn [fst snd] in H.
    destruct H as (evs & Hlog & Hu & [H|[H|H]]).
    + destruct H as (-> & ->).
      exists [], [EvStep k (Ok tt)]. cbn.
      repeat split; try apply Hu; auto.
    + destruct H as [Hne _]. contradiction.
    + destruct H as (_ & e & -> & ->).
      exists [], [EvStep k (Raise e)]. cbn.
      repeat split; try apply Hu; auto. right. exists e. auto.
  - pose proof (dl_attempt_cases k retries delay a st) as H.
    cbn [seq for_range]. unfold bind at 1.
    destruct (TestDl.attempt_body B retries delay (run_step B k) a st) as [r st1].
    cbn [fst snd] in H.
    destruct H as (evs & Hlog & Hu & [H|[H|H]]).
    + destruct H as (-> & ->).
      exists [], [EvStep k (Ok tt)]. cbn.
      repeat split; try apply Hu; auto. left. repeat split; auto. lia.
    + destruct H as (Hne & -> & Hround).
      specialize (IH (S a) st1 ltac:(lia)).
      change (dl_outcome k (S len) st
                (for_range (seq (S a) (S len)) (TestDl.attempt_body B retries delay (run_step B k)) st1)).
      set (out := for_range _ _ st1) in *.
      destruct IH as (rounds & last & Hlog' & Hrs & Hu' & Hcase).
      exists (evs :: rounds), last. cbn [concat].
      split; [rewrite Hlog', Hlog, <- !app_assoc; reflexivity|].
      split; [now constructor|].
      split.
      { destruct Hu as (U1 & U2 & U3 & U4), Hu' as (V1 & V2 & V3 & V4).
        repeat split; congruence. }
      destruct Hcase as [(E1 & E2 & E3)|(e & E1 & E2 & E3)].
      * left. repeat split; auto. cbn. lia.
      * right. exists e. repeat split; auto. cbn. lia.
    + destruct H as [He _]. lia.
Qed.

Lemma retry_on_exception_unfold (k retries : nat) (delay : Z) :
  TestDl.retry_on_exception B retries delay (run_step B k) =
  for_range (seq 0 retries) (TestDl.attempt_body B retries delay (run_step B k)).
Proof. reflexivity. Qed.

Lemma retry_on_exception_cases (k retries : nat) (delay : Z) (st : State W) :
  1 <= retries ->
  dl_outcome k (retries - 1) st
    (TestDl.retry_on_exception B retries delay (run_step B k) st).
Proof.
  intros H. rewrite retry_on_exception_unfold.
  destruct retries as [|r]; [lia|].
  replace (S r - 1) with r by lia. apply dl_loop_cases. lia.
Qed.

End DlRetry.

(** ** What the retry wrappers surface *)

Lemma since_app {W : Type} (st st' : State W) (evs : list Event) :
  log st' = log st ++ evs -> since st st' = evs.
Proof.
  intros H. unfold since. rewrite H.
  rewrite skipn_app, skipn_all, Nat.sub_diag. reflexivity.
Qed.

Lemma forallb_is_raise_snoc_ok (l : list (res unit)) :
  forallb is_raise (l ++ [Ok tt]) = false.
Proof. rewrite forallb_app. simpl. apply andb_false_r. Qed.

Lemma existsb_is_ok_raises (l : list (res unit)) :
  forallb is_raise l = true -> existsb is_ok l = false.
Proof.
  induction l as [|[|e] l IH]; simpl; intros H; [reflexivity|discriminate|].
  now apply IH.
Qed.

Lemma last_snoc {A : Type} (l : list A) (x d : A) : last (l ++ [x]) d = x.
Proof.
  induction l as [|y l IH]; [reflexivity|].
  simpl. destruct (l ++ [x]) eqn:E; [now destruct l|exact IH].
Qed.

Lemma lks_report_error (r : TestResult) (e : pystr) :
  error r = Some e ->
  field "error" (Lks.to_dict r) = Some (PyStr e) /\
  field "success" (Lks.to_dict r) = Some (PyBool (success r)) /\
  field "screenshot" (Lks.to_dict r) = Some (opt_val (screenshot r)).
Proof.
  intros H. unfold Lks.to_dict. rewrite H. repeat split.
Qed.

Section Surfacing.

Context {W : Type} (B : Browser W).

(** A retry outcome of [lks.py], cut at the last attempt. *)
Lemma retry_outcome_shape (n : nat) (key : pystr) (k m : nat) (st : State W)
    (out : res (option bool) * State W) :
  retry_outcome n key k m st out ->
  exists rounds t0 r post t1 rest,
    since st (snd out) = concat rounds ++ [EvTime t0; EvStep k r] ++ post /\
    Forall (failed_round k) rounds /\
    length rounds <= m /\
    turns post = [] /\
    (forall j, step_events j post = []) /\
    readings post = t1 :: rest /\
    test_driver (snd out) = test_driver st /\
    check_error_banner (snd out) = check_error_banner st /\
    ((r = Ok tt /\ fst out = Ok (Some true) /\ post = [EvTime t1] /\
      test_result (snd out) = add_step key (py "1") (t1 - t0) (test_result st) /\
      stdout (snd out) = stdout st)
     \/
     (exists e ss t2,
        r = Raise e /\ fst out = Ok (Some false) /\ length rounds = m /\
        test_result (snd out) =
          finalize_at t2 false (Lks.step_message n) (Some (Lks.step_error n e))
            (add_step key (py "0") (t1 - t0)
               (match ss with
                | Some s => set_screenshot_b64 s (test_result st)
                | None => test_result st
                end)) /\
        stdout (snd out) = stdout st ++ [Lks.to_dict (test_result (snd out))])).
Proof.
  intros (rounds & last & Hlog & Hrs & Hd & Hc & Hcase).
  apply since_app in Hlog.
  destruct Hcase as [(t0 & t1 & E1 & E2 & E3 & E4 & E5)
                    |(t0 & e & q & t1 & ss & t2 & E1 & E2 & E3 & E4 & E5 & E6)].
  - exists rounds, t0, (Ok tt), [EvTime t1], t1, [].
    subst last. repeat split; auto. left. repeat split; auto.
  - exists rounds, t0, (Raise e),
      (q ++ [EvTime t1; EvAlert (Lks.step_error n e) ss; EvTime t2]), t1, [t2].
    subst last. repeat split; auto.
    + lia.
    + rewrite turns_app, (quiet_turns q E3). reflexivity.
    + intros j. rewrite step_events_app, (quiet_step_events j q E3). reflexivity.
    + rewrite readings_app, (quiet_readings q E3). reflexivity.
    + right. exists e, ss, t2. repeat split; auto.
Qed.

Lemma shape_step_events (k : nat) (rounds : list (list Event)) (t0 : Z)
    (r : res unit) (post : list Event) :
  Forall (failed_round k) rounds ->
  (forall j, step_events j post = []) ->
  let evs := concat rounds ++ [EvTime t0; EvStep k r] ++ post in
  step_events k evs = step_events k (concat rounds) ++ [r] /\
  forallb is_raise (step_events k (concat rounds)) = true /\
  length (step_events k (concat rounds)) = length rounds /\
  (forall j, j <> k -> step_events j evs = []).
Proof.
  intros Hrs Hpost evs. subst evs.
  destruct (rounds_step_events k rounds Hrs) as [[H1 H2] H3].
  repeat split; auto.
  - rewrite step_events_app. simpl. now rewrite Nat.eqb_refl, Hpost.
  - intros j Hj. rewrite step_events_app, (H3 j Hj). simpl.
    destruct (Nat.eqb_spec k j); [congruence|apply Hpost].
Qed.

(** A retry outcome of [test_dl.py], cut at the last attempt. *)
Lemma dl_outcome_shape (k bound : nat) (st : State W)
    (out : res (option unit) * State W) :
  dl_outcome k bound st out ->
  exists rounds r,
    since st (snd out) = concat rounds ++ [EvStep k r] /\
    Forall (failed_round k) rounds /\
    length rounds <= bound /\
    unchanged st (snd out) /\
    ((r = Ok tt /\ fst out = Ok (Some tt))
     \/
     (exists e, r = Raise e /\ fst out = Raise e /\ length rounds = bound)).
Proof.
  intros (rounds & last & Hlog & Hrs & Hu & Hcase).
  apply since_app in Hlog.
  destruct Hcase as [(E1 & E2 & E3)|(e & E1 & E2 & E3)].
  - exists rounds, (Ok tt). subst last. repeat split; auto; apply Hu.
  - exists rounds, (Raise e). subst last. repeat split; try apply Hu; auto.
    + lia.
    + right. exists e. auto.
Qed.

Lemma count_reloads_app (a b : list Event) :
  count_reloads (a ++ b) = count_reloads a + count_reloads b.
Proof. unfold count_reloads. now rewrite turns_app, filter_app, length_app. Qed.

Lemma count_attempts_app (a b : list Event) :
  count_attempts (a ++ b) = count_attempts a + count_attempts b.
Proof. unfold count_attempts. now rewrite turns_app, filter_app, length_app. Qed.

Lemma count_no_turns (q : list Event) :
  turns q = [] -> count_reloads q = 0 /\ count_attempts q = 0.
Proof. unfold count_reloads, count_attempts. intros ->. now split. Qed.

End Surfacing.

(** C5.  A retry-wrapped step whose body fails on every attempt surfaces
    the failure of its last attempt: [execute_step_with_retry] of [lks.py]
    makes [max_retries + 1] attempts and puts the text of the last
    exception, after the words that name the step, in the [error] of the
    result and of the printed report; the wrapper of [retry_on_exception],
    with a delay that [time.sleep] accepts, makes [retries] attempts and
    raises the last exception as it is.  When an attempt succeeds the
    wrapper returns at once: that attempt is the last thing done to the
    page. *)
Theorem retry_surfaces_last_failure {W : Type} (B : Browser W) (st : State W)
    (n k m retries : nat) (delay : Z) (key : pystr) (Hretries : 1 <= retries)
    (Hdelay : (0 <= delay)%Z) :
  let out := Lks.execute_step_with_retry B n key (run_step B k) true m st in
  let evs := since st (snd out) in
  let out_dl := TestDl.retry_on_exception B retries delay (run_step B k) st in
  let evs_dl := since st (snd out_dl) in
  (forallb is_raise (step_events k evs) = true ->
     exists e,
       last (step_events k evs) (Ok tt) = Raise e /\
       length (step_events k evs) = m + 1 /\
       fst out = Ok (Some false) /\
       error (test_result (snd out)) =
         Some (py "Шаг " ++ str_of_nat n ++ py " ошибка: " ++ exn_str e) /\
       exists report,
         stdout (snd out) = stdout st ++ [report] /\
         field "error" report =
           Some (PyStr (py "Шаг " ++ str_of_nat n ++ py " ошибка: " ++ exn_str e)) /\
         field "success" report = Some (PyBool false)) /\
  (existsb is_ok (step_events k evs) = true ->
     fst out = Ok (Some true) /\
     exists pre t0 t1,
       evs = pre ++ [EvTime t0; EvStep k (Ok tt); EvTime t1] /\
       forallb is_raise (step_events k pre) = true) /\
  (forallb is_raise (step_events k evs_dl) = true ->
     exists e,
       last (step_events k evs_dl) (Ok tt) = Raise e /\
       length (step_events k evs_dl) = retries /\
       fst out_dl = Raise e) /\
  (existsb is_ok (step_events k evs_dl) = true ->
     fst out_dl = Ok (Some tt) /\
     exists pre,
       evs_dl = pre ++ [EvStep k (Ok tt)] /\
       forallb is_raise (step_events k pre) = true).
Proof.
  intros out evs out_dl evs_dl.
  destruct (retry_outcome_shape n key k m st out
              (execute_step_with_retry_cases B n key k m st))
    as (rounds & t0 & r & post & t1 & rest & Hev & Hrs & Hlen & Hturns & Hpost
        & Hread & _ & _ & Hcase).
  fold evs in Hev.
  destruct (shape_step_events k rounds t0 r post Hrs Hpost) as (S1 & S2 & S3 & _).
  rewrite <- Hev in S1.
  destruct (dl_outcome_shape k (retries - 1) st out_dl
              (retry_on_exception_cases B k retries delay st Hretries))
    as (rounds' & r' & Hev' & Hrs' & Hlen' & _ & Hcase').
  fold evs_dl in Hev'.
  destruct (rounds_step_events k rounds' Hrs') as [[D1 D2] _].
  assert (D3 : step_events k evs_dl = step_events k (concat rounds') ++ [r']).
  { rewrite Hev', step_events_app. simpl. now rewrite Nat.eqb_refl. }
  split; [|split; [|split]].
  - intros Hall. rewrite S1 in *.
    destruct Hcase as [(-> & _)|(e & ss & t2 & -> & Hf & Hm & Hr & Ho)].
    + now rewrite forallb_is_raise_snoc_ok in Hall.
    + exists e. rewrite last_snoc, length_app, S3, Hm. simpl.
      repeat split; auto.
      * rewrite Hr. reflexivity.
      * exists (Lks.to_dict (test_result (snd out))). split; [exact Ho|].
        rewrite Hr. split; reflexivity.
  - intros Hsome. rewrite S1 in Hsome.
    destruct Hcase as [(-> & Hf & -> & Hr & Ho)|(e & ss & t2 & -> & _)].
    + split; [exact Hf|]. exists (concat rounds), t0, t1. split; [exact Hev|exact S2].
    + rewrite existsb_app, (existsb_is_ok_raises _ S2) in Hsome. discriminate.
  - intros Hall. rewrite D3 in *.
    destruct Hcase' as [(-> & _)|(e & -> & Hf & Hn)].
    + now rewrite forallb_is_raise_snoc_ok in Hall.
    + exists e. rewrite last_snoc, length_app, D2, Hn. simpl.
      repeat split; auto. lia.
  - intros Hsome. rewrite D3 in Hsome.
    destruct Hcase' as [(-> & Hf)|(e & -> & _)].
    + split; [exact Hf|]. exists (concat rounds'). split; [exact Hev'|exact D1].
    + rewrite existsb_app, (existsb_is_ok_raises _ D1) in Hsome. discriminate.
Qed.

(** Two attempts that fail, the first with the text [first] and the
    second with [second]: step 1 of [lks.py] with one retry, and step 8 of
    [test_dl.py], wrapped with [retries=2]. *)
Lemma retry_surfaces_last_failure_witness :
  error (test_result (snd
    (Lks.execute_step_with_retry Sim.browser 1 Lks.KEY1 (run_step Sim.browser 1) true 1
       (initial_state (Sim.scripted [Sim.boom "first"; Sim.boom "second"] [] []))))) =
    Some (py "Шаг 1 ошибка: second") /\
  exists e,
    fst (TestDl.test_08_select_shipper_consignee Sim.browser
           (initial_state (Sim.scripted [Sim.boom "first"; Sim.boom "second"] [] [])))
      = Raise e /\
    exn_str e = py "second".
Proof.
  split.
  - destruct (proj1
                (retry_surfaces_last_failure Sim.browser
                   (initial_state
                      (Sim.scripted [Sim.boom "first"; Sim.boom "second"] [] []))
                   1 1 1 2 1 Lks.KEY1 (le_S 1 1 (le_n 1)) Z.le_0_1)
                eq_refl) as (e & Hlast & _ & _ & Herr & _).
    rewrite Herr. vm_compute in Hlast. injection Hlast as <-.
    vm_compute. reflexivity.
  - destruct (proj1 (proj2 (proj2
                (retry_surfaces_last_failure Sim.browser
                   (initial_state
                      (Sim.scripted [Sim.boom "first"; Sim.boom "second"] [] []))
                   8 8 2 2 1 [] (le_S 1 1 (le_n 1)) Z.le_0_1)))
                eq_refl) as (e & Hlast & _ & Hfst).
    exists e. split; [exact Hfst|].
    vm_compute in Hlast. injection Hlast as <-. reflexivity.
Defined.




(** C10.  The duration that [execute_step_with_retry] records for a step
    is measured from the reading taken at the top of the last attempt: the
    log of a call splits into what came before that reading (all earlier
    attempts and all reloads), the reading [t0], the last attempt, and what
    came after, where the first reading [t1] gives the recorded
    [round(t1 - t0, 2)]. *)
Theorem retry_duration_covers_last_attempt {W : Type} (B : Browser W)
    (st : State W) (n k m : nat) (key : pystr) :
  let out := Lks.execute_step_with_retry B n key (run_step B k) true m st in
  let evs := since st (snd out) in
  exists pre t0 r post t1 rest,
    evs = pre ++ [EvTime t0; EvStep k r] ++ post /\
    turns post = [] /\
    count_attempts pre + 1 = count_attempts evs /\
    count_reloads pre = count_reloads evs /\
    readings post = t1 :: rest /\
    dict_get key (steps (test_result (snd out))) =
      Some {| st_status := if is_raise r then py "0" else py "1";
              st_duration_seconds := round2 (t1 - t0) |}.
Proof.
  intros out evs.
  destruct (retry_outcome_shape n key k m st out
              (execute_step_with_retry_cases B n key k m st))
    as (rounds & t0 & r & post & t1 & rest & Hev & Hrs & Hlen & Hturns & Hpost
        & Hread & _ & _ & Hcase).
  fold evs in Hev.
  destruct (count_no_turns post Hturns) as [P1 P2].
  exists (concat rounds), t0, r, post, t1, rest.
  split; [exact Hev|]. split; [exact Hturns|].
  split; [rewrite Hev, !count_attempts_app, P2; cbn; lia|].
  split; [rewrite Hev, !count_reloads_app, P1; cbn; lia|].
  split; [exact Hread|].
  destruct Hcase as [(-> & _ & _ & Ht & _)|(e & ss & t2 & -> & _ & _ & Ht & _)];
    rewrite Ht; cbn [steps finalize_at is_raise]; rewrite add_step_steps;
    apply dict_get_set.
Qed.

(** ** Runs of blocks *)

Lemma passed_not_failed (k : nat) (evs : list Event) :
  step_passed k evs -> step_failed k evs -> False.
Proof.
  unfold step_passed, step_failed. intros Hp [_ Hf].
  rewrite (existsb_is_ok_raises _ Hf) in Hp. discriminate.
Qed.

Lemma step_passed_app_l (k : nat) (a b : list Event) :
  step_passed k a -> step_passed k (a ++ b).
Proof.
  unfold step_passed. intros H. rewrite step_events_app, existsb_app, H. reflexivity.
Qed.

Lemma step_passed_app_r (k : nat) (a b : list Event) :
  step_passed k b -> step_passed k (a ++ b).
Proof.
  unfold step_passed. intros H. rewrite step_events_app, existsb_app, H.
  apply orb_true_r.
Qed.

Lemma step_failed_app_l (k : nat) (a b : list Event) :
  step_failed k a -> step_events k b = [] -> step_failed k (a ++ b).
Proof.
  unfold step_failed. intros H Hb. now rewrite step_events_app, Hb, app_nil_r.
Qed.

Lemma step_failed_app_r (k : nat) (a b : list Event) :
  step_events k a = [] -> step_failed k b -> step_failed k (a ++ b).
Proof.
  unfold step_failed. intros Ha H. now rewrite step_events_app, Ha.
Qed.

Section Chains.

Context {W : Type} (B : Browser W) (td : TestResult -> pyval) (may_crash : bool).

Lemma run_steps_cons (b : M W bool) (bs : list (M W bool)) (st : State W) :
  run_steps (b :: bs) st =
  match b st with
  | (Ok true, st1) => run_steps bs st1
  | (Ok false, st1) => (Ok false, st1)
  | (Raise e, st1) => (Raise e, st1)
  end.
Proof.
  cbn [run_steps]. unfold bind. now destruct (b st) as [[[|]|e] st1].
Qed.

Lemma pass_flag_cons (b : Block W) (blocks : list (Block W)) (flag : bool) :
  pass_flag blocks (flag_after b true flag) = pass_flag (b :: blocks) flag.
Proof.
  unfold pass_flag, flag_after. cbn [existsb].
  destruct (blk_login b), (existsb (@blk_login W) blocks); reflexivity.
Qed.

Lemma chain_cases (blocks : list (Block W)) :
  Forall (block_summary td may_crash) blocks ->
  NoDup (map (@blk_num W) blocks) ->
  forall st,
    let out := run_steps (map (@blk_run W) blocks) st in
    exists evs ending,
      fst out = ending_result ending /\
      log (snd out) = log st ++ evs /\
      test_driver (snd out) = test_driver st /\
      (forall j, ~ In j (map (@blk_num W) blocks) -> step_events j evs = []) /\
      check_error_banner (snd out) =
        ending_flag blocks ending (check_error_banner st) /\
      chain_ending td may_crash blocks st (snd out) evs ending.
Proof.
  induction 1 as [|b blocks Hb Hbs IH]; intros Hnd st.
  - exists [], (AllPassed W). cbn. rewrite app_nil_r.
    do 5 (split; [reflexivity|]).
    split; [intros b []|]. split; [|reflexivity].
    exists []. split; [split; [reflexivity|constructor]|reflexivity].
  - cbn [map] in Hnd. apply NoDup_cons_iff in Hnd as [Hnotin Hnd].
    specialize (IH Hnd).
    cbn [map]. rewrite run_steps_cons.
    destruct (Hb st) as (evs1 & Hlog1 & Hd1 & Hoth1 & Hfl1 & Hcase1).
    destruct (blk_run b st) as [r st1]. cbn [fst snd] in *.
    assert (Hx1 : forall x, In x blocks -> step_events (blk_num x) evs1 = []).
    { intros x Hx. apply Hoth1. intros E. apply Hnotin. rewrite <- E.
      now apply in_map. }
    destruct Hcase1 as [(-> & Hp & [d Hr] & Ho)
                       |[(-> & Hf & [d Hs] & Hsucc & Herr & Ho)
                        |(Hmc & e & -> & Hshot & Hf & Hr & Ho)]];
      cbn [is_true_result] in Hfl1.
    + (* the block passed: go on *)
      destruct (IH st1) as (evs2 & ending & Hres & Hlog2 & Hd2 & Hoth2 & Hfl2 & Hend).
      set (out := run_steps (map (@blk_run W) blocks) st1) in *.
      assert (Hb2 : step_events (blk_num b) evs2 = []) by (apply Hoth2, Hnotin).
      assert (Hoth : forall j, ~ In j (blk_num b :: map (@blk_num W) blocks) ->
                               step_events j (evs1 ++ evs2) = []).
      { intros j Hj. rewrite step_events_app, Hoth2, Hoth1; auto.
        - intros E. apply Hj. now left.
        - intros Hin. apply Hj. now right. }
      assert (Hlog : log (snd out) = log st ++ evs1 ++ evs2)
        by (rewrite Hlog2, Hlog1, app_assoc; reflexivity).
      assert (Hd : test_driver (snd out) = test_driver st) by congruence.
      exists (evs1 ++ evs2).
      destruct ending as [|pre x post|pre x post e]; cbn [chain_ending] in Hend.
      * destruct Hend as (Hall & (calls & [Hk Hone] & Hrec) & Hout).
        exists (AllPassed W). cbn [ending_result chain_ending ending_flag] in *.
        do 4 (split; [assumption|]).
        split; [rewrite Hfl2, Hfl1; apply pass_flag_cons|].
        split; [|split].
        { intros y [<-|Hy]; [now apply step_passed_app_l|].
          apply step_passed_app_r. now apply Hall. }
        { exists ((blk_key b, py "1", d) :: calls). split.
          - split; [cbn; now rewrite Hk|now constructor].
          - rewrite Hrec, Hr. reflexivity. }
        { congruence. }
      * destruct Hend as (Hsplit & Hpre & Hfx & Hpost & (calls & d' & [Hk Hone] & Hst)
                          & Hsucc & Herr & Hout).
        exists (FailedAt (b :: pre) x post).
        cbn [ending_result chain_ending ending_flag] in *.
        do 4 (split; [assumption|]).
        split; [rewrite Hfl2, Hfl1, pass_flag_cons; reflexivity|].
        split; [now rewrite Hsplit|]. split.
        { intros y [<-|Hy]; [now apply step_passed_app_l|].
          apply step_passed_app_r. now apply Hpre. }
        split.
        { apply step_failed_app_r; [|exact Hfx]. apply Hx1.
          rewrite Hsplit. apply in_or_app. right. now left. }
        split.
        { intros y Hy. rewrite step_events_app, (Hpost y Hy), app_nil_r.
          apply Hx1. rewrite Hsplit. apply in_or_app. right. now right. }
        split.
        { exists ((blk_key b, py "1", d) :: calls), d'. split.
          - split; [cbn; now rewrite Hk|now constructor].
          - rewrite Hst, Hr. reflexivity. }
        repeat split; auto. congruence.
      * destruct Hend as (Hmc & Hsplit & Hpre & Hfx & Hshot & Hpost
                          & (calls & [Hk Hone] & Hrec) & Hout).
        exists (CrashedAt (b :: pre) x post e).
        cbn [ending_result chain_ending ending_flag] in *.
        do 4 (split; [assumption|]).
        split; [rewrite Hfl2, Hfl1, pass_flag_cons; reflexivity|].
        split; [exact Hmc|]. split; [now rewrite Hsplit|]. split.
        { intros y [<-|Hy]; [now apply step_passed_app_l|].
          apply step_passed_app_r. now apply Hpre. }
        split.
        { apply step_failed_app_r; [|exact Hfx]. apply Hx1.
          rewrite Hsplit. apply in_or_app. right. now left. }
        split; [apply in_or_app; now right|].
        split.
        { intros y Hy. rewrite step_events_app, (Hpost y Hy), app_nil_r.
          apply Hx1. rewrite Hsplit. apply in_or_app. right. now right. }
        split.
        { exists ((blk_key b, py "1", d) :: calls). split.
          - split; [cbn; now rewrite Hk|now constructor].
          - rewrite Hrec, Hr. reflexivity. }
        congruence.
    + (* the block failed: the run ends *)
      exists evs1, (FailedAt [] b blocks). cbn.
      split; [reflexivity|]. split; [exact Hlog1|]. split; [exact Hd1|].
      split. { intros j Hj. apply Hoth1. intros E. apply Hj. now left. }
      split. { rewrite Hfl1. unfold flag_after. now destruct (blk_login b). }
      split; [reflexivity|]. split; [intros x []|]. split; [exact Hf|].
      split; [exact Hx1|].
      split.
      { exists [], d. split; [split; [reflexivity|constructor]|exact Hs]. }
      repeat split; auto.
    + (* the screenshot of the failed block raised *)
      exists evs1, (CrashedAt [] b blocks e). cbn.
      split; [reflexivity|]. split; [exact Hlog1|]. split; [exact Hd1|].
      split. { intros j Hj. apply Hoth1. intros E. apply Hj. now left. }
      split. { rewrite Hfl1. unfold flag_after. now destruct (blk_login b). }
      split; [exact Hmc|]. split; [reflexivity|]. split; [intros x []|].
      split; [exact Hf|]. split; [exact Hshot|].
      split; [exact Hx1|].
      split.
      { exists []. split; [split; [reflexivity|constructor]|exact Hr]. }
      exact Ho.
Qed.

End Chains.

Section Runs.

Context {W : Type} (B : Browser W) (td : TestResult -> pyval) (may_crash : bool).

Lemma no_steps_frame (a b c : list Event) :
  (forall j, step_events j a = []) ->
  (forall j, step_events j c = []) ->
  forall j, step_events j (a ++ b ++ c) = step_events j b.
Proof.
  intros Ha Hc j. now rewrite !step_events_app, Ha, Hc, app_nil_r.
Qed.

Lemma step_passed_frame (a b c : list Event) (k : nat) :
  (forall j, step_events j a = []) ->
  (forall j, step_events j c = []) ->
  step_passed k b -> step_passed k (a ++ b ++ c).
Proof.
  intros Ha Hc. unfold step_passed. now rewrite (no_steps_frame a b c Ha Hc).
Qed.

Lemma step_failed_frame (a b c : list Event) (k : nat) :
  (forall j, step_events j a = []) ->
  (forall j, step_events j c = []) ->
  step_failed k b -> step_failed k (a ++ b ++ c).
Proof.
  intros Ha Hc. unfold step_failed. now rewrite (no_steps_frame a b c Ha Hc).
Qed.

Lemma guarded_body_eq (u p : option pystr) (blocks : list (M W bool))
    (h : exn -> M W Z) (st : State W) :
  guarded_body B td u p blocks h st =
  if negb (truthy u) || negb (truthy p)
  then h (Exn ValueError CREDENTIALS_MISSING) st
  else
    match build_driver B (world st) with
    | (Raise e, w1) => h e (add_log (EvBuildDriver (Raise e)) (set_world w1 st))
    | (Ok _, w1) =>
      match run_steps blocks
              (set_test_driver true
                 (add_log (EvBuildDriver (Ok tt)) (set_world w1 st))) with
      | (Ok true, st3) =>
        (Ok 0%Z,
         add_stdout
           (td (finalize_at (reading B st3) true SUCCESS_MESSAGE None (test_result st3)))
           (set_test_result
              (finalize_at (reading B st3) true SUCCESS_MESSAGE None (test_result st3))
              (after_clock B st3)))
      | (Ok false, st3) => (Ok 1%Z, st3)
      | (Raise e, st3) => h e st3
      end
    end.
Proof.
  unfold guarded_body, try_except, bind, call, update, ret, raise.
  destruct (negb (truthy u) || negb (truthy p)); [reflexivity|].
  destruct (build_driver B (world st)) as [[[]|e] w1]; [|reflexivity].
  destruct (run_steps blocks _) as [[[|]|e] st3]; try reflexivity.
  rewrite finalize_eq. reflexivity.
Qed.

Lemma ending_passed_frame (a c evs : list Event) (l : list (Block W)) :
  (forall j, step_events j a = []) ->
  (forall j, step_events j c = []) ->
  (forall x, In x l -> step_passed (blk_num x) evs) ->
  forall x, In x l -> step_passed (blk_num x) (a ++ evs ++ c).
Proof. intros Ha Hc H x Hx. apply step_passed_frame; auto. Qed.

Lemma ending_none_frame (a c evs : list Event) (l : list (Block W)) :
  (forall j, step_events j a = []) ->
  (forall j, step_events j c = []) ->
  (forall x, In x l -> step_events (blk_num x) evs = []) ->
  forall x, In x l -> step_events (blk_num x) (a ++ evs ++ c) = [].
Proof. intros Ha Hc H x Hx. rewrite no_steps_frame; auto. Qed.

Lemma guarded_body_cases (u p : option pystr) (blocks : list (Block W))
    (h : exn -> M W Z) :
  Forall (block_summary td may_crash) blocks ->
  NoDup (map (@blk_num W) blocks) ->
  handler_summary td h ->
  forall st,
    let out := guarded_body B td u p (map (@blk_run W) blocks) h st in
    exists evs code ending,
      fst out = Ok code /\
      log (snd out) = log st ++ evs /\
      (forall j, ~ In j (map (@blk_num W) blocks) -> step_events j evs = []) /\
      run_ending td may_crash blocks st (snd out) evs code ending.
Proof.
  intros Hbs Hnd Hh st out. subst out. rewrite guarded_body_eq.
  destruct (negb (truthy u) || negb (truthy p)).
  - (* no credentials *)
    destruct (Hh (Exn ValueError CREDENTIALS_MISSING) st)
      as (evs & Hf & Hlog & Hno & Hst & Hsu & Her & Hout & Hfl).
    exists evs, 1%Z, None. repeat split; auto.
  - destruct (build_driver B (world st)) as [[[]|e] w1].
    + (* the driver is there *)
      set (st2 := set_test_driver true
                    (add_log (EvBuildDriver (Ok tt)) (set_world w1 st))).
      destruct (chain_cases td may_crash blocks Hbs Hnd st2)
        as (evs & ending & Hres & Hlog & _ & Hoth & Hfl & Hend).
      destruct (run_steps (map (@blk_run W) blocks) st2) as [r st3].
      cbn [fst snd] in *.
      assert (Ha : forall j, step_events j [EvBuildDriver (Ok tt)] = [])
        by reflexivity.
      assert (Hlog3 : log st3 = log st ++ [EvBuildDriver (Ok tt)] ++ evs).
      { rewrite Hlog. unfold st2. cbn. now rewrite <- app_assoc. }
      destruct ending as [|pre x post|pre x post e];
        cbn [ending_result chain_ending] in *; subst r.
      * (* every block passed *)
        destruct Hend as (Hall & (calls & Hcalls & Hrec) & Hout).
        assert (Hc : forall j, step_events j [EvTime (reading B st3)] = [])
          by reflexivity.
        exists ([EvBuildDriver (Ok tt)] ++ evs ++ [EvTime (reading B st3)]),
          0%Z, (Some (AllPassed W)).
        cbn [fst snd].
        split; [reflexivity|]. split.
        { unfold add_stdout, set_test_result, after_clock, add_log, set_world, reading.
          cbn [log]. rewrite Hlog3, <- !app_assoc. reflexivity. }
        split. { intros j Hj. rewrite no_steps_frame; auto. }
        split.
        { unfold add_stdout, set_test_result, after_clock, add_log, set_world.
          cbn [stdout test_result]. rewrite Hout. reflexivity. }
        split; [exact Hfl|].
        split; [reflexivity|]. split; [now apply ending_passed_frame|].
        exists calls, (reading B st3). split; [exact Hcalls|].
        unfold add_stdout, set_test_result. cbn [test_result]. now rewrite Hrec.
      * (* a block failed *)
        destruct Hend as (Hsplit & Hpre & Hfx & Hpost & Hsteps & Hsucc & Herr & Hout).
        assert (Hc : forall j, step_events j (@nil Event) = []) by reflexivity.
        exists ([EvBuildDriver (Ok tt)] ++ evs ++ []), 1%Z,
          (Some (FailedAt pre x post)).
        cbn [fst snd].
        split; [reflexivity|]. split; [now rewrite app_nil_r|].
        split. { intros j Hj. rewrite no_steps_frame; auto. }
        split; [exact Hout|]. split; [exact Hfl|].
        split; [reflexivity|]. split; [exact Hsplit|].
        split; [now apply ending_passed_frame|].
        split; [now apply step_failed_frame|].
        split; [now apply ending_none_frame|].
        repeat split; auto.
      * (* the screenshot of a failed block raised *)
        destruct Hend as (Hmc & Hsplit & Hpre & Hfx & Hshot & Hpost
                          & (calls & Hcalls & Hrec) & Hout).
        destruct (Hh e st3)
          as (evs' & Hf' & Hlog' & Hno' & Hst' & Hsu' & Her' & Hout' & Hfl').
        exists ([EvBuildDriver (Ok tt)] ++ evs ++ evs'), 1%Z,
          (Some (CrashedAt pre x post e)).
        split; [exact Hf'|]. split.
        { rewrite Hlog', Hlog3, <- !app_assoc. reflexivity. }
        split. { intros j Hj. rewrite no_steps_frame; auto. }
        split; [rewrite Hout', Hout; reflexivity|].
        split; [rewrite Hfl'; exact Hfl|].
        split; [reflexivity|]. split; [exact Hmc|]. split; [exact Hsplit|].
        split; [now apply ending_passed_frame|].
        split; [now apply step_failed_frame|].
        split. { apply in_or_app. right. apply in_or_app. now left. }
        split; [now apply ending_none_frame|].
        split. { exists calls. split; [exact Hcalls|]. now rewrite Hst', Hrec. }
        split; assumption.
    + (* no driver *)
      destruct (Hh e (add_log (EvBuildDriver (Raise e)) (set_world w1 st)))
        as (evs & Hf & Hlog & Hno & Hst & Hsu & Her & Hout & Hfl).
      exists ([EvBuildDriver (Raise e)] ++ evs), 1%Z, None.
      split; [exact Hf|]. split.
      { rewrite Hlog. cbn. now rewrite <- app_assoc. }
      split. { intros j _. rewrite step_events_app. cbn. apply Hno. }
      split; [exact Hout|]. split; [exact Hfl|].
      split; [reflexivity|]. split.
      { intros j. rewrite step_events_app. cbn. apply Hno. }
      repeat split; auto.
Qed.

Lemma guarded_run_cases (u p : option pystr) (blocks : list (Block W))
    (h : exn -> M W Z) (q : M W unit) :
  Forall (block_summary td may_crash) blocks ->
  NoDup (map (@blk_num W) blocks) ->
  handler_summary td h ->
  quit_summary q ->
  forall st,
    let out := guarded_run B td u p (map (@blk_run W) blocks) h q st in
    exists evs code ending,
      fst out = Ok code /\
      log (snd out) = log st ++ evs /\
      (forall j, ~ In j (map (@blk_num W) blocks) -> step_events j evs = []) /\
      run_ending td may_crash blocks st (snd out) evs code ending.
Proof.
  intros Hbs Hnd Hh Hq st out. subst out. unfold guarded_run, try_finally.
  destruct (guarded_body_cases u p blocks h Hbs Hnd Hh st)
    as (evs & code & ending & Hf & Hlog & Hoth & Hend).
  destruct (guarded_body B td u p (map (@blk_run W) blocks) h st) as [r st1].
  cbn [fst snd] in *.
  destruct (Hq st1) as (evs' & Hlog' & Hno' & Htr' & Hout' & Hfl').
  assert (Ha : forall j, step_events j (@nil Event) = []) by reflexivity.
  exists ([] ++ evs ++ evs'), code, ending.
  split; [exact Hf|]. split; [rewrite Hlog', Hlog, <- app_assoc; reflexivity|].
  split. { intros j Hj. rewrite no_steps_frame; auto. }
  unfold run_ending in *. rewrite Htr', Hout', Hfl'.
  destruct Hend as (Hout & Hfl & Hend).
  split; [exact Hout|]. split; [exact Hfl|].
  destruct ending as [[|pre x post|pre x post e]|].
  - destruct Hend as (Hc & Hall & Hrec).
    split; [exact Hc|]. split; [now apply ending_passed_frame|exact Hrec].
  - destruct Hend as (Hc & Hsplit & Hpre & Hfx & Hpost & Hrest).
    split; [exact Hc|]. split; [exact Hsplit|].
    split; [now apply ending_passed_frame|].
    split; [now apply step_failed_frame|].
    split; [now apply ending_none_frame|exact Hrest].
  - destruct Hend as (Hc & Hmc & Hsplit & Hpre & Hfx & Hshot & Hpost & Hrest).
    split; [exact Hc|]. split; [exact Hmc|]. split; [exact Hsplit|].
    split; [now apply ending_passed_frame|].
    split; [now apply step_failed_frame|].
    split. { cbn. apply in_or_app. now left. }
    split; [now apply ending_none_frame|exact Hrest].
  - destruct Hend as (Hc & Hno & Hrest).
    split; [exact Hc|]. split; [|exact Hrest].
    intros j. rewrite no_steps_frame; auto.
Qed.

End Runs.

(** ** The blocks of the three scripts *)

Ltac log_eq := simpl; rewrite <- ?app_assoc; simpl; reflexivity.

Ltac step_facts :=
  repeat match goal with
  | |- step_passed _ _ => unfold step_passed; cbn; rewrite ?Nat.eqb_refl; reflexivity
  | |- step_failed _ _ =>
    unfold step_failed; cbn; rewrite ?Nat.eqb_refl; split; [discriminate|reflexivity]
  | |- forall j, _ <> _ -> step_events j _ = [] =>
    let j := fresh "j" in let Hj := fresh "Hj" in
    intros j Hj; cbn -[Nat.eqb];
    match goal with
    | |- context [(?k =? j)%nat] =>
      destruct (Nat.eqb_spec k j); [congruence|reflexivity]
    | |- _ => reflexivity
    end
  | |- forall j, step_events j _ = [] => intros ?; reflexivity
  end.

Section ItransBlocks.

Context {W : Type} (B : Browser W).

Lemma itrans_block_summary (n : nat) (key : pystr) :
  block_summary Itrans.to_dict true (itrans_block B n key).
Proof.
  intros st. cbn [blk_run blk_num blk_key itrans_block].
  unfold Itrans.step_block, Itrans.print_report, finalize, alert, run_step, clock,
    print_json.
  unfold bind, try_except, call, call_quiet, on_result, update, ret.
  world_cases.
  all: eexists; (split; [log_eq|]); (split; [reflexivity|]);
    (split; [step_facts|]); (split; [reflexivity|]).
  - left. split; [reflexivity|]. split; [step_facts|].
    split; [eexists; reflexivity|reflexivity].
  - right; left. split; [reflexivity|]. split; [step_facts|].
    split; [eexists; reflexivity|]. split; [reflexivity|].
    split; [discriminate|reflexivity].
  - right; right. split; [reflexivity|]. eexists. split; [reflexivity|].
    split; [cbn; auto|]. split; [step_facts|]. split; reflexivity.
Qed.

Lemma itrans_login_summary : block_summary Itrans.to_dict true (itrans_login B).
Proof.
  intros st. cbn [blk_run blk_num blk_key itrans_login].
  unfold Itrans.step_block, Itrans.login_body, Itrans.print_report, finalize, alert,
    run_step, clock, print_json.
  unfold bind, try_except, call, call_quiet, on_result, update, ret.
  world_cases.
  all: eexists; (split; [log_eq|]); (split; [reflexivity|]);
    (split; [step_facts|]); (split; [reflexivity|]).
  - left. split; [reflexivity|]. split; [step_facts|].
    split; [eexists; reflexivity|reflexivity].
  - right; left. split; [reflexivity|]. split; [step_facts|].
    split; [eexists; reflexivity|]. split; [reflexivity|].
    split; [discriminate|reflexivity].
  - right; right. split; [reflexivity|]. eexists. split; [reflexivity|].
    split; [cbn; auto|]. split; [step_facts|]. split; reflexivity.
Qed.

Lemma itrans_handler_summary :
  handler_summary Itrans.to_dict (Itrans.critical_handler B).
Proof.
  intros e st.
  unfold Itrans.critical_handler, Itrans.print_report, finalize, alert, clock,
    print_json.
  unfold bind, try_except, call, call_quiet, on_result, update, ret.
  destruct (test_driver st); world_cases.
  all: eexists; split; [reflexivity|]; (split; [log_eq|]);
    (split; [step_facts|]); repeat split; discriminate.
Qed.

Lemma itrans_quit_summary : quit_summary (Itrans.quit_driver B).
Proof.
  intros st. unfold Itrans.quit_driver, try_except, call, ret.
  destruct (test_driver st); [destruct (driver_quit B (world st)) as [[[]|e] w]|].
  1, 2: eexists; (split; [log_eq|]); (split; [step_facts|]); repeat split.
  exists []. cbn. rewrite app_nil_r. repeat split.
Qed.

Lemma itrans_main_eq (u p : option pystr) (st : State W) :
  Itrans.main B u p st =
  guarded_run B Itrans.to_dict u p (map (@blk_run W) (itrans_blocks B))
    (Itrans.critical_handler B) (Itrans.quit_driver B) (started B st).
Proof.
  unfold Itrans.main, guarded_run, guarded_body.
  unfold bind at 1. rewrite clock_eq.
  unfold bind at 1, update at 1. unfold bind at 1, update at 1.
  unfold bind at 1, update at 1. fold (started B st).
  unfold try_finally, try_except.
  cbn [map itrans_blocks itrans_login itrans_block blk_run run_steps].
  unfold bind, raise, ret, call, update.
  destruct (negb (truthy u) || negb (truthy p)); [reflexivity|].
  destruct (build_driver B (world (started B st))) as [[[]|e] w]; [|reflexivity].
  repeat match goal with
  | |- context [Itrans.step_block ?B ?n ?k ?body ?s] =>
    destruct (Itrans.step_block B n k body s) as [[[|]|?] ?];
    cbn [negb]; try reflexivity
  end.
Qed.

End ItransBlocks.

Section ZdBlocks.

Context {W : Type} (B : Browser W).

Lemma zd_block_summary (n : nat) (key : pystr) :
  block_summary Itrans.to_dict true (zd_block B n key).
Proof.
  intros st. cbn [blk_run blk_num blk_key zd_block].
  unfold ItransZd.execute_step, ItransZd.when_given, ItransZd.print_report,
    ItransZd.to_dict, finalize, alert, run_step, clock, print_json.
  unfold bind, try_except, call, call_quiet, on_result, update, ret.
  world_cases.
  all: eexists; (split; [log_eq|]); (split; [reflexivity|]);
    (split; [step_facts|]); (split; [reflexivity|]).
  - left. split; [reflexivity|]. split; [step_facts|].
    split; [eexists; reflexivity|reflexivity].
  - right; left. split; [reflexivity|]. split; [step_facts|].
    split; [eexists; reflexivity|]. split; [reflexivity|].
    split; [discriminate|reflexivity].
  - right; right. split; [reflexivity|]. eexists. split; [reflexivity|].
    split; [cbn; auto|]. split; [step_facts|]. split; reflexivity.
Qed.

Lemma zd_login_summary : block_summary Itrans.to_dict true (zd_login B).
Proof.
  intros st. cbn [blk_run blk_num blk_key zd_login].
  unfold ItransZd.execute_step, ItransZd.when_given, ItransZd.print_report,
    ItransZd.to_dict, finalize, alert, run_step, clock, print_json.
  unfold bind, try_except, call, call_quiet, on_result, update, ret.
  world_cases.
  all: eexists; (split; [log_eq|]); (split; [reflexivity|]);
    (split; [step_facts|]); (split; [reflexivity|]).
  - left. split; [reflexivity|]. split; [step_facts|].
    split; [eexists; reflexivity|reflexivity].
  - right; left. split; [reflexivity|]. split; [step_facts|].
    split; [eexists; reflexivity|]. split; [reflexivity|].
    split; [discriminate|reflexivity].
  - right; right. split; [reflexivity|]. eexists. split; [reflexivity|].
    split; [cbn; auto|]. split; [step_facts|]. split; reflexivity.
Qed.

Lemma zd_handler_summary :
  handler_summary Itrans.to_dict (ItransZd.general_handler B).
Proof.
  intros e st.
  unfold ItransZd.general_handler, ItransZd.print_report, ItransZd.to_dict,
    finalize, alert, clock, print_json.
  unfold bind, try_except, call, call_quiet, on_result, update, ret.
  destruct (test_driver st); world_cases.
  all: eexists; split; [reflexivity|]; (split; [log_eq|]);
    (split; [step_facts|]); repeat split; discriminate.
Qed.

Lemma zd_main_eq (u p : option pystr) (st : State W) :
  ItransZd.main B u p st =
  guarded_run B Itrans.to_dict u p (map (@blk_run W) (zd_blocks B))
    (ItransZd.general_handler B) (Itrans.quit_driver B) (started B st).
Proof.
  unfold ItransZd.main, guarded_run, guarded_body.
  unfold bind at 1. rewrite clock_eq.
  unfold bind at 1, update at 1. unfold bind at 1, update at 1.
  unfold bind at 1, update at 1. fold (started B st).
  unfold try_finally, try_except.
  cbn [map zd_blocks zd_login zd_block blk_run run_steps].
  unfold bind, raise, ret, call, update.
  destruct (negb (truthy u) || negb (truthy p)); [reflexivity|].
  destruct (build_driver B (world (started B st))) as [[[]|e] w]; [|reflexivity].
  repeat match goal with
  | |- context [ItransZd.execute_step ?B ?n ?k ?body ?b ?a ?s] =>
    destruct (ItransZd.execute_step B n k body b a s) as [[[|]|?] ?];
    cbn [negb]; try reflexivity
  end.
Qed.

End ZdBlocks.

Section LksBlocks.

Context {W : Type} (B : Browser W).

Lemma lks_block_summary (n : nat) (key : pystr) :
  block_summary Lks.to_dict false (lks_block B n key).
Proof.
  intros st. cbn [blk_run blk_num blk_key blk_login lks_block].
  unfold bind, ret.
  destruct (execute_step_with_retry_cases B n key n 2 st)
    as (rounds & last & Hlog & Hrs & Hd & Hc & Hcase).
  destruct (Lks.execute_step_with_retry B n key (run_step B n) true 2 st) as [r st'].
  cbn [fst snd] in *.
  exists (concat rounds ++ last).
  destruct Hcase as [(t0 & t1 & -> & -> & Hlen & Hr & Ho)
                    |(t0 & e & q & t1 & ss & t2 & -> & -> & Hq & Hlen & Hr & Ho)].
  - destruct (shape_step_events n rounds t0 (Ok tt) [EvTime t1] Hrs
                ltac:(intros; reflexivity)) as (S1 & S2 & S3 & S4).
    cbn [fst snd Lks.falsy negb is_true_result]. cbv zeta in S1, S4. cbn [app] in S1, S4 |- *.
    split; [exact Hlog|]. split; [exact Hd|]. split; [exact S4|].
    split; [exact Hc|]. left.
    split; [reflexivity|]. split.
    { unfold step_passed. rewrite S1, existsb_app. cbn.
      apply orb_true_r. }
    split; [eexists; exact Hr|exact Ho].
  - assert (Hpost : forall j,
              step_events j (q ++ [EvTime t1; EvAlert (Lks.step_error n e) ss;
                                   EvTime t2]) = []).
    { intros j. now rewrite step_events_app, (quiet_step_events j q Hq). }
    destruct (shape_step_events n rounds t0 (Raise e) _ Hrs Hpost)
      as (S1 & S2 & S3 & S4).
    cbn [fst snd Lks.falsy negb is_true_result]. cbv zeta in S1, S4. cbn [app] in S1, S4 |- *.
    split; [exact Hlog|]. split; [exact Hd|]. split; [exact S4|].
    split; [exact Hc|]. right; left.
    split; [reflexivity|]. split.
    { unfold step_failed. rewrite S1. split.
      - now destruct (step_events n (concat rounds)).
      - rewrite forallb_app, S2. reflexivity. }
    split.
    { eexists. rewrite Hr. cbn [steps finalize_at]. rewrite add_step_steps.
      destruct ss; reflexivity. }
    rewrite Hr. split; [reflexivity|]. split; [discriminate|].
    rewrite <- Hr. exact Ho.
Qed.

Lemma lks_handler_summary :
  handler_summary Lks.to_dict (Lks.general_handler B).
Proof.
  intros e st.
  unfold Lks.general_handler, Lks.print_report, finalize, alert, clock, print_json.
  unfold bind, try_except, call, call_quiet, on_result, update, ret.
  destruct (test_driver st); world_cases.
  all: eexists; split; [reflexivity|]; (split; [log_eq|]);
    (split; [step_facts|]); repeat split; discriminate.
Qed.

Lemma lks_quit_summary : quit_summary (Lks.quit_driver B).
Proof. exact (itrans_quit_summary B). Qed.

Lemma lks_main_eq (u p : option pystr) (st : State W) :
  Lks.main B u p st =
  guarded_run B Lks.to_dict u p (map (@blk_run W) (lks_blocks B))
    (Lks.general_handler B) (Lks.quit_driver B) (lks_started B st).
Proof.
  unfold Lks.main, guarded_run, guarded_body.
  unfold bind at 1. rewrite clock_eq.
  unfold bind at 1, update at 1. unfold bind at 1, update at 1.
  fold (lks_started B st).
  unfold try_finally, try_except.
  cbn [map lks_blocks lks_block blk_run run_steps].
  unfold bind, raise, ret, call, update.
  destruct (negb (truthy u) || negb (truthy p)); [reflexivity|].
  destruct (build_driver B (world (lks_started B st))) as [[[]|e] w]; [|reflexivity].
  repeat match goal with
  | |- context [Lks.execute_step_with_retry ?B ?n ?k ?body ?d ?m ?s] =>
    destruct (Lks.execute_step_with_retry B n k body d m s) as [[[[|]|]|?] ?];
    cbn [negb Lks.falsy]; try reflexivity
  end.
Qed.

End LksBlocks.

(** ** Whole runs *)

Lemma record_all_cons (c : pystr * pystr * Z) (calls : list (pystr * pystr * Z))
    (r : TestResult) :
  record_all (c :: calls) r =
  record_all calls (add_step (fst (fst c)) (snd (fst c)) (snd c) r).
Proof. reflexivity. Qed.

Lemma record_all_keeps (calls : list (pystr * pystr * Z)) (r : TestResult) :
  screenshot (record_all calls r) = screenshot r /\
  error (record_all calls r) = error r /\
  start_time (record_all calls r) = start_time r.
Proof.
  revert r. induction calls as [|c calls IH]; intros r; [now repeat split|].
  rewrite record_all_cons. destruct (IH (add_step (fst (fst c)) (snd (fst c)) (snd c) r))
    as (H1 & H2 & H3).
  now rewrite H1, H2, H3, add_step_screenshot, add_step_error, add_step_start_time.
Qed.

Lemma record_all_steps (calls : list (pystr * pystr * Z)) (r : TestResult) :
  NoDup (map fst (steps r) ++ map (fun c => fst (fst c)) calls) ->
  steps (record_all calls r) = steps r ++ map entry_of calls.
Proof.
  revert r. induction calls as [|c calls IH]; intros r Hnd.
  - cbn. now rewrite app_nil_r.
  - rewrite record_all_cons, IH.
    + rewrite add_step_steps, dict_set_fresh.
      * rewrite <- app_assoc. reflexivity.
      * cbn [map] in Hnd. apply NoDup_remove_2 in Hnd.
        intros Hin. apply Hnd. apply in_or_app. now left.
    + rewrite add_step_steps, dict_set_fresh.
      * rewrite map_app. cbn [map fst]. rewrite <- app_assoc. exact Hnd.
      * cbn [map] in Hnd. apply NoDup_remove_2 in Hnd.
        intros Hin. apply Hnd. apply in_or_app. now left.
Qed.

Lemma passing_entries (keys : list pystr) (calls : list (pystr * pystr * Z)) :
  passing_calls keys calls ->
  map fst (map entry_of calls) = keys /\
  statuses (map entry_of calls) = repeat (py "1") (length keys).
Proof.
  intros [Hk Hone]. subst keys. unfold statuses.
  induction Hone as [|c calls Hc _ IH]; [now split|].
  destruct IH as [I1 I2]. cbn. rewrite I1, I2, Hc. now split.
Qed.

(** The [steps] of a run that passed the steps of [keys] from a fresh
    result. *)
Lemma passed_steps (keys : list pystr) (calls : list (pystr * pystr * Z)) (t : Z) :
  passing_calls keys calls -> NoDup keys ->
  map fst (steps (record_all calls (TestResult__init__ t))) = keys /\
  statuses (steps (record_all calls (TestResult__init__ t))) =
    repeat (py "1") (length keys).
Proof.
  intros Hp Hnd. rewrite record_all_steps.
  - cbn [steps TestResult__init__ app]. now apply passing_entries.
  - cbn [steps TestResult__init__ map app]. destruct Hp as [-> _]. exact Hnd.
Qed.

(** The same with the failed step of key [kb] recorded last. *)
Lemma failed_steps (keys : list pystr) (kb : pystr) (d : Z)
    (calls : list (pystr * pystr * Z)) (t : Z) (d0 : list (pystr * StepEntry)) :
  passing_calls keys calls -> NoDup (keys ++ [kb]) ->
  d0 = dict_set kb {| st_status := py "0"; st_duration_seconds := d |}
         (steps (record_all calls (TestResult__init__ t))) ->
  map fst d0 = keys ++ [kb] /\
  statuses d0 = repeat (py "1") (length keys) ++ [py "0"].
Proof.
  intros Hp Hnd ->.
  assert (Hk : NoDup keys) by (now apply NoDup_app_remove_r in Hnd).
  destruct (passed_steps keys calls t Hp Hk) as [H1 H2].
  rewrite dict_set_fresh.
  - unfold statuses in *. rewrite !map_app, H1, H2. now split.
  - rewrite H1. apply NoDup_remove_2 in Hnd. now rewrite app_nil_r in Hnd.
Qed.

(** ** Recording steps *)

Lemma exists_failed_entry (calls : list (pystr * pystr * Z)) :
  Exists (fun kv => st_status (snd kv) = py "0") (map entry_of calls) <->
  Exists (fun c => snd (fst c) = py "0") calls.
Proof.
  induction calls as [|c calls IH]; cbn [map].
  - split; intros H; inversion H.
  - split; intros H; inversion H as [? ? H0|? ? H0]; subst.
    + now constructor.
    + constructor 2. now apply IH.
    + now constructor.
    + constructor 2. now apply IH.
Qed.

(** C9.  After any sequence of [add_step] calls on a fresh [TestResult],
    [success] is [False] exactly when one of the calls had status ["0"], and
    then [status] is ["0"]; otherwise [status] is still ["1"].  When the
    calls have distinct step names this is exactly when [steps] holds an
    entry of status ["0"].  A later [add_step], whatever its status, leaves
    a [False] in place, and so does [set_screenshot_b64]; [finalize] with
    [success=True] sets it back. *)
Theorem add_step_failure_is_monotone (now : Z) (calls : list (pystr * pystr * Z)) :
  let r := record_all calls (TestResult__init__ now) in
  (success r = false <-> Exists (fun c => snd (fst c) = py "0") calls) /\
  (NoDup (map (fun c => fst (fst c)) calls) ->
   (success r = false <->
    Exists (fun kv => st_status (snd kv) = py "0") (steps r))) /\
  (success r = false -> status r = py "0") /\
  (success r = true -> status r = py "1") /\
  (forall name s d, success r = false ->
     success (add_step name s d r) = false /\ status (add_step name s d r) = py "0") /\
  (forall b64, success (set_screenshot_b64 b64 r) = success r) /\
  (forall end_ msg err, success (finalize_at end_ true msg err r) = true).
Proof.
  intros r.
  assert (C : coherent r) by (apply record_all_coherent; reflexivity).
  assert (S : success r = false <-> Exists (fun c => snd (fst c) = py "0") calls).
  { split.
    - intros H. apply record_all_success in H as [H|H]; [discriminate|exact H].
    - intros H. apply record_all_success. now right. }
  split; [exact S|]. split; [|split; [|split; [|split; [|split]]]].
  - intros Hnd. subst r. rewrite record_all_steps by exact Hnd.
    cbn [steps TestResult__init__ app]. rewrite exists_failed_entry. exact S.
  - intros H. unfold coherent in C. now rewrite H in C.
  - intros H. unfold coherent in C. now rewrite H in C.
  - intros name s d H. split.
    + rewrite add_step_success. now destruct (str_eqb s (py "0")).
    + rewrite add_step_status. destruct (str_eqb s (py "0")); [reflexivity|].
      unfold coherent in C. now rewrite H in C.
  - reflexivity.
  - reflexivity.
Qed.

(** A step recorded twice under one name: the second call, a pass,
    replaces the entry and leaves the failure of the run in place. *)
Example repeated_name_keeps_failure :
  let r := record_all [(py "step", py "0", 0%Z); (py "step", py "1", 0%Z)]
             (TestResult__init__ 0) in
  statuses (steps r) = [py "1"] /\ success r = false /\ status r = py "0".
Proof. vm_compute. repeat split. Qed.

(** A login that passes and a search that fails, under distinct names. *)
Lemma add_step_failure_is_monotone_witness :
  let calls := [(py "login", py "1", 120000%Z); (py "search", py "0", 45000%Z)] in
  let r := record_all calls (TestResult__init__ 0) in
  NoDup (map (fun c => fst (fst c)) calls) /\
  success r = false /\
  Exists (fun kv => st_status (snd kv) = py "0") (steps r) /\
  status r = py "0".
Proof.
  intros calls r.
  assert (Hnd : NoDup (map (fun c => fst (fst c)) calls)).
  { repeat constructor; cbn; try tauto.
    intros [H | []]. vm_compute in H. discriminate H. }
  assert (Hs : success r = false) by (vm_compute; reflexivity).
  pose proof (add_step_failure_is_monotone 0%Z calls) as H.
  cbv zeta in H.
  destruct H as (_ & Hd & Hst & _).
  split; [exact Hnd|]. split; [exact Hs|].
  split; [apply (proj1 (Hd Hnd)); exact Hs | apply Hst; exact Hs].
Defined.

Section Unique.

Context {W : Type}.

(** In a run of blocks with distinct numbers, a step that is seen to fail
    is the block at which the run ended, and a step seen to pass is not. *)
Lemma failed_is_the_ending (blocks pre post : list (Block W)) (b : Block W)
    (evs : list Event) (k : nat) :
  blocks = pre ++ b :: post ->
  (forall j, ~ In j (map (@blk_num W) blocks) -> step_events j evs = []) ->
  (forall x, In x pre -> step_passed (blk_num x) evs) ->
  (forall x, In x post -> step_events (blk_num x) evs = []) ->
  step_failed k evs -> k = blk_num b.
Proof.
  intros Hsplit Hoth Hpre Hpost Hf.
  destruct (Nat.eq_dec k (blk_num b)) as [E|Hne]; [exact E|exfalso].
  destruct (in_dec Nat.eq_dec k (map (@blk_num W) blocks)) as [Hin|Hnin].
  - rewrite Hsplit, map_app in Hin. cbn [map] in Hin.
    apply in_app_or in Hin as [Hin|[Hin|Hin]].
    + apply in_map_iff in Hin as (x & <- & Hx).
      exact (passed_not_failed _ _ (Hpre x Hx) Hf).
    + congruence.
    + apply in_map_iff in Hin as (x & <- & Hx).
      destruct Hf as [Hf _]. apply Hf, Hpost, Hx.
  - destruct Hf as [Hf _]. apply Hf, Hoth, Hnin.
Qed.

Lemma passed_is_in_blocks (blocks : list (Block W)) (evs : list Event) (k : nat) :
  (forall j, ~ In j (map (@blk_num W) blocks) -> step_events j evs = []) ->
  step_passed k evs -> In k (map (@blk_num W) blocks).
Proof.
  intros Hoth Hp.
  destruct (in_dec Nat.eq_dec k (map (@blk_num W) blocks)) as [Hin|Hnin]; [exact Hin|].
  unfold step_passed in Hp. rewrite (Hoth k Hnin) in Hp. discriminate.
Qed.

End Unique.

Ltac nodup_nums :=
  repeat (constructor; [cbn; intuition discriminate|]); constructor.

Section MainCases.

Context {W : Type} (B : Browser W).

Lemma lks_main_cases (u p : option pystr) (w : W) :
  let out := Lks.main B u p (initial_state w) in
  let st0 := lks_started B (initial_state w) in
  exists evs code ending,
    fst out = Ok code /\
    (forall k, step_events k (log (snd out)) = step_events k evs) /\
    (forall j, ~ In j [1; 2; 3; 4; 5] -> step_events j evs = []) /\
    run_ending Lks.to_dict false (lks_blocks B) st0 (snd out) evs code ending.
Proof.
  intros out st0. subst out. rewrite lks_main_eq. fold st0.
  destruct (guarded_run_cases B Lks.to_dict false u p (lks_blocks B)
              (Lks.general_handler B) (Lks.quit_driver B))
    with (st := st0) as (evs & code & ending & Hf & Hlog & Hoth & Hend).
  - repeat constructor; apply lks_block_summary.
  - nodup_nums.
  - apply lks_handler_summary.
  - apply lks_quit_summary.
  - exists evs, code, ending. split; [exact Hf|]. split; [|split; assumption].
    intros k. rewrite Hlog. apply step_events_app.
Qed.

Lemma itrans_main_cases (u p : option pystr) (w : W) :
  let out := Itrans.main B u p (initial_state w) in
  let st0 := started B (initial_state w) in
  exists evs code ending,
    fst out = Ok code /\
    (forall k, step_events k (log (snd out)) = step_events k evs) /\
    (forall e, In (EvScreenshot (Raise e)) evs ->
               In (EvScreenshot (Raise e)) (log (snd out))) /\
    (forall j, ~ In j [1; 2; 3; 4; 5] -> step_events j evs = []) /\
    run_ending Itrans.to_dict true (itrans_blocks B) st0 (snd out) evs code ending.
Proof.
  intros out st0. subst out. rewrite itrans_main_eq. fold st0.
  destruct (guarded_run_cases B Itrans.to_dict true u p (itrans_blocks B)
              (Itrans.critical_handler B) (Itrans.quit_driver B))
    with (st := st0) as (evs & code & ending & Hf & Hlog & Hoth & Hend).
  - repeat constructor; first [apply itrans_login_summary|apply itrans_block_summary].
  - nodup_nums.
  - apply itrans_handler_summary.
  - apply itrans_quit_summary.
  - exists evs, code, ending. split; [exact Hf|]. split; [|split; [|split; assumption]].
    + intros k. rewrite Hlog. apply step_events_app.
    + intros e He. rewrite Hlog. apply in_or_app. now right.
Qed.

Lemma zd_main_cases (u p : option pystr) (w : W) :
  let out := ItransZd.main B u p (initial_state w) in
  let st0 := started B (initial_state w) in
  exists evs code ending,
    fst out = Ok code /\
    (forall k, step_events k (log (snd out)) = step_events k evs) /\
    (forall j, ~ In j [1; 2; 3; 4; 5] -> step_events j evs = []) /\
    run_ending Itrans.to_dict true (zd_blocks B) st0 (snd out) evs code ending.
Proof.
  intros out st0. subst out. rewrite zd_main_eq. fold st0.
  destruct (guarded_run_cases B Itrans.to_dict true u p (zd_blocks B)
              (ItransZd.general_handler B) (Itrans.quit_driver B))
    with (st := st0) as (evs & code & ending & Hf & Hlog & Hoth & Hend).
  - repeat constructor; first [apply zd_login_summary|apply zd_block_summary].
  - nodup_nums.
  - apply zd_handler_summary.
  - apply itrans_quit_summary.
  - exists evs, code, ending. split; [exact Hf|]. split; [|split; assumption].
    intros k. rewrite Hlog. apply step_events_app.
Qed.

End MainCases.

Lemma lks_keys_nodup :
  NoDup [Lks.KEY1; Lks.KEY2; Lks.KEY3; Lks.KEY4; Lks.KEY5].
Proof. repeat (constructor; [cbn; intuition discriminate|]); constructor. Qed.

Lemma itrans_keys_nodup :
  NoDup [Itrans.KEY1; Itrans.KEY2; Itrans.KEY3; Itrans.KEY4; Itrans.KEY5].
Proof. repeat (constructor; [cbn; intuition discriminate|]); constructor. Qed.

Lemma nodup_prefix {A : Type} (l pre post : list A) :
  l = pre ++ post -> NoDup l -> NoDup pre.
Proof. intros -> H. now apply NoDup_app_remove_r in H. Qed.

(** The five places at which a list of five splits around one element. *)
Lemma split_five {A : Type} (a1 a2 a3 a4 a5 b : A) (pre post : list A) :
  [a1; a2; a3; a4; a5] = pre ++ b :: post ->
  (pre = [] /\ b = a1 /\ post = [a2; a3; a4; a5]) \/
  (pre = [a1] /\ b = a2 /\ post = [a3; a4; a5]) \/
  (pre = [a1; a2] /\ b = a3 /\ post = [a4; a5]) \/
  (pre = [a1; a2; a3] /\ b = a4 /\ post = [a5]) \/
  (pre = [a1; a2; a3; a4] /\ b = a5 /\ post = []).
Proof.
  intros H.
  destruct pre as [|x1 [|x2 [|x3 [|x4 [|x5 pre]]]]]; cbn in H;
    injection H as; subst; auto 10.
  - destruct pre; discriminate.
Qed.

(** Fail-fast in [lks.py]: when step [k] is the first to fail, [main]
    records the [k - 1] passes and the failure, in order, nothing after,
    reports [success = False], and runs no later step. *)
Lemma lks_main_fail_fast {W : Type} (B : Browser W) (u p : option pystr) (w : W)
    (k : nat) :
  let out := Lks.main B u p (initial_state w) in
  let st' := snd out in
  step_failed k (log st') ->
  (forall j, 1 <= j < k -> step_passed j (log st')) ->
  1 <= k <= 5 /\
  fst out = Ok 1%Z /\
  map fst (steps (test_result st')) =
    firstn k [Lks.KEY1; Lks.KEY2; Lks.KEY3; Lks.KEY4; Lks.KEY5] /\
  statuses (steps (test_result st')) = repeat (py "1") (k - 1) ++ [py "0"] /\
  success (test_result st') = false /\
  (forall j, k < j -> step_events j (log st') = []) /\
  stdout st' = [Lks.to_dict (test_result st')].
Proof.
  intros out st' Hfail _.
  destruct (lks_main_cases B u p w) as (evs & code & ending & Hf & Hev & Hoth & Hend).
  fold out in Hf, Hev, Hend. fold st' in Hev, Hend.
  unfold step_failed in Hfail. rewrite Hev in Hfail. fold (step_failed k evs) in Hfail.
  destruct Hend as (Hout & _ & Hend).
  destruct ending as [[|pre b post|pre b post e]|].
  - (* every step passed *)
    destruct Hend as (_ & Hall & _). exfalso.
    destruct (in_dec Nat.eq_dec k [1; 2; 3; 4; 5]) as [Hin|Hnin].
    + assert (Hp : step_passed k evs).
      { cbn in Hin. decompose [or] Hin; subst; try contradiction;
          [apply (Hall (lks_block B 1 Lks.KEY1))|apply (Hall (lks_block B 2 Lks.KEY2))
          |apply (Hall (lks_block B 3 Lks.KEY3))|apply (Hall (lks_block B 4 Lks.KEY4))
          |apply (Hall (lks_block B 5 Lks.KEY5))]; cbn; auto 10. }
      exact (passed_not_failed _ _ Hp Hfail).
    + destruct Hfail as [Hne _]. apply Hne, Hoth, Hnin.
  - (* a step failed *)
    destruct Hend as (-> & Hsplit & Hpre & Hfx & Hpost & (calls & d & Hcalls & Hsteps)
                      & Hsucc & _).
    assert (Hk : k = blk_num b)
      by (eapply failed_is_the_ending; eauto).
    pose proof lks_keys_nodup as Hnd.
    assert (Hlater : forall j, In j [1; 2; 3; 4; 5] -> ~ In j (map (@blk_num W) post) ->
                               k < j -> False).
    { apply split_five in Hsplit. intros j H5 Hp Hj.
      decompose [or and] Hsplit; subst pre b post; cbn in Hk, H5, Hp; lia. }
    assert (Hnone : forall j, k < j -> step_events j (log st') = []).
    { intros j Hj. rewrite Hev.
      destruct (in_dec Nat.eq_dec j (map (@blk_num W) post)) as [Hin|Hnin].
      - apply in_map_iff in Hin as (x & <- & Hx). now apply Hpost.
      - apply Hoth. intros H5. exact (Hlater j H5 Hnin Hj). }
    apply split_five in Hsplit.
    decompose [or and] Hsplit; subst pre b post; cbn [blk_num lks_block] in Hk; subst k;
      cbn [map blk_key lks_block] in Hcalls, Hsteps;
      (split; [lia|]); (split; [exact Hf|]);
      match type of Hcalls with
      | passing_calls ?keys _ =>
        destruct (failed_steps keys _ d calls _ _ Hcalls
                    ltac:(eapply nodup_prefix; [|exact Hnd]; reflexivity) Hsteps)
          as [K1 K2]
      end;
      (split; [exact K1|]); (split; [exact K2|]); (split; [exact Hsucc|]);
      (split; [exact Hnone|exact Hout]).
  - (* no screenshot exception escapes in lks.py *)
    destruct Hend as (_ & Hmc & _). discriminate.
  - (* the run ended before the first step *)
    destruct Hend as (_ & Hno & _). exfalso.
    destruct Hfail as [Hne _]. apply Hne, Hno.
Qed.

(** Fail-fast in [itrans.py], for the runs in which the screenshot of the
    failing step could be taken. *)
Lemma itrans_main_fail_fast {W : Type} (B : Browser W) (u p : option pystr) (w : W)
    (k : nat) :
  let out := Itrans.main B u p (initial_state w) in
  let st' := snd out in
  step_failed k (log st') ->
  (forall j, 1 <= j < k -> step_passed j (log st')) ->
  (forall e, ~ In (EvScreenshot (Raise e)) (log st')) ->
  1 <= k <= 5 /\
  fst out = Ok 1%Z /\
  map fst (steps (test_result st')) =
    firstn k [Itrans.KEY1; Itrans.KEY2; Itrans.KEY3; Itrans.KEY4; Itrans.KEY5] /\
  statuses (steps (test_result st')) = repeat (py "1") (k - 1) ++ [py "0"] /\
  success (test_result st') = false /\
  (forall j, k < j -> step_events j (log st') = []) /\
  stdout st' = [Itrans.to_dict (test_result st')].
Proof.
  intros out st' Hfail _ Hshots.
  destruct (itrans_main_cases B u p w)
    as (evs & code & ending & Hf & Hev & Hsh & Hoth & Hend).
  fold out in Hf, Hev, Hsh, Hend. fold st' in Hev, Hsh, Hend.
  unfold step_failed in Hfail. rewrite Hev in Hfail. fold (step_failed k evs) in Hfail.
  destruct Hend as (Hout & _ & Hend).
  destruct ending as [[|pre b post|pre b post e]|].
  - (* every step passed *)
    destruct Hend as (_ & Hall & _). exfalso.
    destruct (in_dec Nat.eq_dec k [1; 2; 3; 4; 5]) as [Hin|Hnin].
    + assert (Hp : step_passed k evs).
      { cbn in Hin. decompose [or] Hin; subst; try contradiction;
          [apply (Hall (itrans_login B))|apply (Hall (itrans_block B 2 Itrans.KEY2))
          |apply (Hall (itrans_block B 3 Itrans.KEY3))
          |apply (Hall (itrans_block B 4 Itrans.KEY4))
          |apply (Hall (itrans_block B 5 Itrans.KEY5))]; cbn; auto 10. }
      exact (passed_not_failed _ _ Hp Hfail).
    + destruct Hfail as [Hne _]. apply Hne, Hoth, Hnin.
  - (* a step failed *)
    destruct Hend as (-> & Hsplit & Hpre & Hfx & Hpost & (calls & d & Hcalls & Hsteps)
                      & Hsucc & _).
    assert (Hk : k = blk_num b)
      by (eapply failed_is_the_ending; eauto).
    pose proof itrans_keys_nodup as Hnd.
    assert (Hlater : forall j, In j [1; 2; 3; 4; 5] -> ~ In j (map (@blk_num W) post) ->
                               k < j -> False).
    { apply split_five in Hsplit. intros j H5 Hp Hj.
      decompose [or and] Hsplit; subst pre b post; cbn in Hk, H5, Hp; lia. }
    assert (Hnone : forall j, k < j -> step_events j (log st') = []).
    { intros j Hj. rewrite Hev.
      destruct (in_dec Nat.eq_dec j (map (@blk_num W) post)) as [Hin|Hnin].
      - apply in_map_iff in Hin as (x & <- & Hx). now apply Hpost.
      - apply Hoth. intros H5. exact (Hlater j H5 Hnin Hj). }
    apply split_five in Hsplit.
    decompose [or and] Hsplit; subst pre b post;
      cbn [blk_num itrans_block itrans_login] in Hk; subst k;
      cbn [map blk_key itrans_block itrans_login] in Hcalls, Hsteps;
      (split; [lia|]); (split; [exact Hf|]);
      match type of Hcalls with
      | passing_calls ?keys _ =>
        destruct (failed_steps keys _ d calls _ _ Hcalls
                    ltac:(eapply nodup_prefix; [|exact Hnd]; reflexivity) Hsteps)
          as [K1 K2]
      end;
      (split; [exact K1|]); (split; [exact K2|]); (split; [exact Hsucc|]);
      (split; [exact Hnone|exact Hout]).
  - (* the screenshot raised: excluded here *)
    destruct Hend as (_ & _ & _ & _ & _ & Hin & _). exfalso.
    exact (Hshots e (Hsh e Hin)).
  - (* the run ended before the first step *)
    destruct Hend as (_ & Hno & _). exfalso.
    destruct Hfail as [Hne _]. apply Hne, Hno.
Qed.

(** C1.  The claim holds on [lks.py] and is missed by [itrans.py] when the
    screenshot of the failing step cannot be taken.  On this input step 2
    fails after step 1 passed, the exception of [get_screenshot_b64] leaves
    the handler of step 2 before [add_step] is reached, and the report is
    printed by the outer handler with one entry in [steps], the pass of step
    1, and none for step 2. *)
Lemma itrans_failed_step_lost_when_capture_fails :
  let w := Sim.scripted [Ok tt; Sim.boom "no such element"]
             [Raise (Sim.driver_error "invalid session id")] [] in
  let out := Itrans.main Sim.browser Sim.creds Sim.creds (initial_state w) in
  let st' := snd out in
  step_passed 1 (log st') /\
  step_failed 2 (log st') /\
  fst out = Ok 1%Z /\
  stdout st' = [Itrans.to_dict (test_result st')] /\
  map fst (steps (test_result st')) = [Itrans.KEY1] /\
  statuses (steps (test_result st')) = [py "1"] /\
  length (steps (test_result st')) <> 2 /\
  success (test_result st') = false.
Proof.
  vm_compute. repeat split; discriminate.
Qed.

Lemma itrans_report_fields (r : TestResult) :
  field "success" (Itrans.to_dict r) = Some (PyBool (success r)) /\
  field "status" (Itrans.to_dict r) = Some (PyStr (status r)) /\
  field "screenshot" (Itrans.to_dict r) = Some (opt_val (screenshot r)) /\
  field "error" (Itrans.to_dict r) = Some (opt_val (error r)).
Proof. repeat split. Qed.

Lemma lks_report_fields (r : TestResult) :
  error r = None ->
  field "success" (Lks.to_dict r) = Some (PyBool (success r)) /\
  field "status" (Lks.to_dict r) = Some (PyStr (status r)) /\
  field "screenshot" (Lks.to_dict r) = Some (opt_val (screenshot r)) /\
  field "error" (Lks.to_dict r) = None.
Proof. intros H. unfold Lks.to_dict. rewrite H. repeat split. Qed.

Section AllPass.

Context {W : Type}.

(** A run in which the five steps are seen to pass ended with all blocks
    passed. *)
Lemma all_passed_ending (td : TestResult -> pyval) (may_crash : bool)
    (b1 b2 b3 b4 b5 : Block W) (st st' : State W) (evs : list Event) (code : Z)
    (ending : option (Ending W)) :
  map (@blk_num W) [b1; b2; b3; b4; b5] = [1; 2; 3; 4; 5] ->
  run_ending td may_crash [b1; b2; b3; b4; b5] st st' evs code ending ->
  (forall k, 1 <= k <= 5 -> step_passed k evs) ->
  ending = Some (AllPassed W).
Proof.
  intros Hnums (_ & _ & Hend) Hall.
  injection Hnums as N1 N2 N3 N4 N5.
  destruct ending as [[|pre b post|pre b post e]|]; [reflexivity| | |]; exfalso.
  - destruct Hend as (_ & Hsplit & _ & Hf & _).
    apply (passed_not_failed (blk_num b) evs); [|exact Hf].
    apply Hall. apply split_five in Hsplit.
    decompose [or and] Hsplit; subst; lia.
  - destruct Hend as (_ & _ & Hsplit & _ & Hf & _).
    apply (passed_not_failed (blk_num b) evs); [|exact Hf].
    apply Hall. apply split_five in Hsplit.
    decompose [or and] Hsplit; subst; lia.
  - destruct Hend as (_ & Hno & _).
    specialize (Hall 1 ltac:(lia)). unfold step_passed in Hall.
    rewrite Hno in Hall. discriminate.
Qed.

End AllPass.

(** C8, as the code has it.  When all five steps pass, [main] returns 0
    and prints one report with [success] true, [status] ["1"] and a null
    [screenshot]; there is no error detail: in [itrans.py] the [error] key
    is there with the value null, in [lks.py] the key is left out. *)
Theorem all_pass_report {W : Type} (B : Browser W) (u p : option pystr) (w : W) :
  let out_i := Itrans.main B u p (initial_state w) in
  let out_l := Lks.main B u p (initial_state w) in
  ((forall k, 1 <= k <= 5 -> step_passed k (log (snd out_i))) ->
   fst out_i = Ok 0%Z /\
   exists report,
     stdout (snd out_i) = [report] /\
     field "success" report = Some (PyBool true) /\
     field "status" report = Some (PyStr (py "1")) /\
     field "screenshot" report = Some PyNone /\
     field "error" report = Some PyNone) /\
  ((forall k, 1 <= k <= 5 -> step_passed k (log (snd out_l))) ->
   fst out_l = Ok 0%Z /\
   exists report,
     stdout (snd out_l) = [report] /\
     field "success" report = Some (PyBool true) /\
     field "status" report = Some (PyStr (py "1")) /\
     field "screenshot" report = Some PyNone /\
     field "error" report = None).
Proof.
  intros out_i out_l. split; intros Hall.
  - destruct (itrans_main_cases B u p w)
      as (evs & code & ending & Hf & Hev & _ & Hoth & Hend).
    fold out_i in Hf, Hev, Hend.
    assert (Hall' : forall k, 1 <= k <= 5 -> step_passed k evs).
    { intros k Hk. specialize (Hall k Hk). unfold step_passed in *.
      now rewrite <- Hev. }
    assert (E : ending = Some (AllPassed W))
      by (eapply all_passed_ending; [| exact Hend | exact Hall']; reflexivity).
    subst ending. destruct Hend as (Hout & _ & -> & _ & calls & t & Hcalls & Hr).
    split; [exact Hf|]. exists (Itrans.to_dict (test_result (snd out_i))).
    split; [exact Hout|].
    destruct (itrans_report_fields (test_result (snd out_i))) as (F1 & F2 & F3 & F4).
    rewrite F1, F2, F3, F4, Hr. cbn [success status screenshot error finalize_at].
    destruct (record_all_keeps calls
                (test_result (started B (initial_state w)))) as (K1 & _).
    rewrite K1. repeat split.
  - destruct (lks_main_cases B u p w)
      as (evs & code & ending & Hf & Hev & Hoth & Hend).
    fold out_l in Hf, Hev, Hend.
    assert (Hall' : forall k, 1 <= k <= 5 -> step_passed k evs).
    { intros k Hk. specialize (Hall k Hk). unfold step_passed in *.
      now rewrite <- Hev. }
    assert (E : ending = Some (AllPassed W))
      by (eapply all_passed_ending; [| exact Hend | exact Hall']; reflexivity).
    subst ending. destruct Hend as (Hout & _ & -> & _ & calls & t & Hcalls & Hr).
    split; [exact Hf|]. exists (Lks.to_dict (test_result (snd out_l))).
    split; [exact Hout|].
    destruct (lks_report_fields (test_result (snd out_l))) as (F1 & F2 & F3 & F4).
    { rewrite Hr. reflexivity. }
    rewrite F1, F2, F3, F4, Hr. cbn [success status screenshot error finalize_at].
    destruct (record_all_keeps calls
                (test_result (lks_started B (initial_state w)))) as (K1 & _).
    rewrite K1. repeat split.
Qed.

(** A run of [lks.py] in which step 3 needs a second attempt. *)
Lemma all_pass_report_witness :
  fst (Lks.main Sim.browser Sim.creds Sim.creds
         (initial_state (Sim.scripted [Ok tt; Ok tt; Sim.boom "stale"] [] [])))
    = Ok 0%Z.
Proof.
  refine (proj1 (proj2 (all_pass_report Sim.browser Sim.creds Sim.creds
                          (Sim.scripted [Ok tt; Ok tt; Sim.boom "stale"] [] [])) _)).
  intros k Hk.
  assert (E : k = 1 \/ k = 2 \/ k = 3 \/ k = 4 \/ k = 5) by lia.
  decompose [or] E; subst k; vm_compute; reflexivity.
Defined.

(** C8, the claim as stated fails on [itrans.py]: all steps pass and the
    printed report has an [error] key, with the value null. *)
Lemma itrans_all_pass_report_has_error_key :
  let out := Itrans.main Sim.browser Sim.creds Sim.creds
               (initial_state (Sim.scripted [] [] [])) in
  (forall k, 1 <= k <= 5 -> step_passed k (log (snd out))) /\
  fst out = Ok 0%Z /\
  exists report,
    stdout (snd out) = [report] /\
    field "success" report = Some (PyBool true) /\
    field "error" report = Some PyNone /\
    field "error" report <> None.
Proof.
  split; [|split].
  - intros k Hk.
    assert (E : k = 1 \/ k = 2 \/ k = 3 \/ k = 4 \/ k = 5) by lia.
    decompose [or] E; subst k; vm_compute; reflexivity.
  - vm_compute. reflexivity.
  - eexists. split; [vm_compute; reflexivity|].
    vm_compute. repeat split. discriminate.
Qed.

Section LoginFlag.

Context {W : Type}.

(** The banner check at the end of a run whose first block is the login
    block and which began with the check on. *)
Lemma login_flag_of_ending (td : TestResult -> pyval) (may_crash : bool)
    (b1 b2 b3 b4 b5 : Block W) (st st' : State W) (evs : list Event) (code : Z)
    (ending : option (Ending W)) :
  map (@blk_num W) [b1; b2; b3; b4; b5] = [1; 2; 3; 4; 5] ->
  map (@blk_login W) [b1; b2; b3; b4; b5] = [true; false; false; false; false] ->
  check_error_banner st = true ->
  (forall j, ~ In j [1; 2; 3; 4; 5] -> step_events j evs = []) ->
  run_ending td may_crash [b1; b2; b3; b4; b5] st st' evs code ending ->
  (step_passed 1 evs -> check_error_banner st' = true) /\
  (step_failed 1 evs ->
   check_error_banner st' = false /\ code = 1%Z /\
   forall j, j <> 1 -> step_events j evs = []).
Proof.
  intros Hnums Hlogin Hon Hoth (_ & Hfl & Hend).
  injection Hnums as N1 N2 N3 N4 N5.
  injection Hlogin as L1 L2 L3 L4 L5.
  rewrite Hon in Hfl.
  assert (Hothers : forall post : list (Block W),
            map (@blk_num W) post = [2; 3; 4; 5] ->
            (forall x, In x post -> step_events (blk_num x) evs = []) ->
            forall j, j <> 1 -> step_events j evs = []).
  { intros post Hp Hpost j Hj.
    destruct (in_dec Nat.eq_dec j (map (@blk_num W) post)) as [Hin|Hnin].
    - apply in_map_iff in Hin as (x & <- & Hx). now apply Hpost.
    - apply Hoth. rewrite Hp in Hnin. cbn in *. lia. }
  assert (Hpf : forall l : list (Block W), pass_flag l true = true).
  { intros l. unfold pass_flag. now destruct (existsb _ l). }
  destruct ending as [[|pre b post|pre b post e]|]; cbn [ending_flag] in Hfl;
    rewrite ?Hpf in Hfl.
  - (* every block passed *)
    destruct Hend as (_ & Hall & _). split.
    + intros _. exact Hfl.
    + intros Hf. exfalso. apply (passed_not_failed 1 evs); [|exact Hf].
      rewrite <- N1. apply Hall. now left.
  - destruct Hend as (Hc & Hsplit & Hpre & Hfx & Hpost & _).
    apply split_five in Hsplit. split.
    + intros Hp. rewrite Hfl.
      decompose [or and] Hsplit; subst pre b post;
        rewrite ?L1, ?L2, ?L3, ?L4, ?L5; try reflexivity.
      exfalso. rewrite N1 in Hfx. exact (passed_not_failed 1 evs Hp Hfx).
    + intros Hf.
      decompose [or and] Hsplit; subst pre b post.
      * rewrite Hfl, L1. split; [reflexivity|]. split; [exact Hc|].
        apply (Hothers [b2; b3; b4; b5]); [cbn; congruence|exact Hpost].
      * exfalso. apply (passed_not_failed 1 evs); [|exact Hf].
        rewrite <- N1. apply Hpre. now left.
      * exfalso. apply (passed_not_failed 1 evs); [|exact Hf].
        rewrite <- N1. apply Hpre. now left.
      * exfalso. apply (passed_not_failed 1 evs); [|exact Hf].
        rewrite <- N1. apply Hpre. now left.
      * exfalso. apply (passed_not_failed 1 evs); [|exact Hf].
        rewrite <- N1. apply Hpre. now left.
  - destruct Hend as (Hc & _ & Hsplit & Hpre & Hfx & _ & Hpost & _).
    apply split_five in Hsplit. split.
    + intros Hp. rewrite Hfl.
      decompose [or and] Hsplit; subst pre b post;
        rewrite ?L1, ?L2, ?L3, ?L4, ?L5; try reflexivity.
      exfalso. rewrite N1 in Hfx. exact (passed_not_failed 1 evs Hp Hfx).
    + intros Hf.
      decompose [or and] Hsplit; subst pre b post.
      * rewrite Hfl, L1. split; [reflexivity|]. split; [exact Hc|].
        apply (Hothers [b2; b3; b4; b5]); [cbn; congruence|exact Hpost].
      * exfalso. apply (passed_not_failed 1 evs); [|exact Hf].
        rewrite <- N1. apply Hpre. now left.
      * exfalso. apply (passed_not_failed 1 evs); [|exact Hf].
        rewrite <- N1. apply Hpre. now left.
      * exfalso. apply (passed_not_failed 1 evs); [|exact Hf].
        rewrite <- N1. apply Hpre. now left.
      * exfalso. apply (passed_not_failed 1 evs); [|exact Hf].
        rewrite <- N1. apply Hpre. now left.
  - (* the run ended before the first step *)
    destruct Hend as (_ & Hno & _). split.
    + intros Hp. unfold step_passed in Hp. rewrite Hno in Hp. discriminate.
    + intros [Hne _]. exfalso. apply Hne, Hno.
Qed.

End LoginFlag.

(** C4, as the code has it.  In [itrans.py] and in [itrans_zd.py] the
    banner check is switched off for the login step and switched on again
    right after the login action when that action succeeds: the login block
    then ends with [check_error_banner] true, and it is true at the end of
    the run.  When the login action fails the switch is not set back:
    [check_error_banner] is false at the end, the run returns 1, and no
    other step is run. *)
Theorem banner_check_after_login {W : Type} (B : Browser W) (u p : option pystr)
    (w : W) :
  let out_i := Itrans.main B u p (initial_state w) in
  let out_z := ItransZd.main B u p (initial_state w) in
  let login_i := Itrans.step_block B 1 Itrans.KEY1 (Itrans.login_body B) in
  let login_z :=
    ItransZd.execute_step B 1 ItransZd.KEY1 (run_step B 1)
      (Some (update (set_check_error_banner false)))
      (Some (update (set_check_error_banner true))) in
  (forall st, fst (login_i st) = Ok true -> check_error_banner (snd (login_i st)) = true) /\
  (forall st, fst (login_z st) = Ok true -> check_error_banner (snd (login_z st)) = true) /\
  (step_passed 1 (log (snd out_i)) -> check_error_banner (snd out_i) = true) /\
  (step_passed 1 (log (snd out_z)) -> check_error_banner (snd out_z) = true) /\
  (step_failed 1 (log (snd out_i)) ->
   check_error_banner (snd out_i) = false /\ fst out_i = Ok 1%Z /\
   forall j, j <> 1 -> step_events j (log (snd out_i)) = []) /\
  (step_failed 1 (log (snd out_z)) ->
   check_error_banner (snd out_z) = false /\ fst out_z = Ok 1%Z /\
   forall j, j <> 1 -> step_events j (log (snd out_z)) = []).
Proof.
  intros out_i out_z login_i login_z.
  destruct (itrans_main_cases B u p w)
    as (evs & code & ending & Hf & Hev & _ & Hoth & Hend).
  fold out_i in Hf, Hev, Hend.
  destruct (login_flag_of_ending Itrans.to_dict true
              (itrans_login B) (itrans_block B 2 Itrans.KEY2)
              (itrans_block B 3 Itrans.KEY3) (itrans_block B 4 Itrans.KEY4)
              (itrans_block B 5 Itrans.KEY5)
              (started B (initial_state w)) (snd out_i) evs code ending
              eq_refl eq_refl eq_refl Hoth Hend) as [Pi Fi].
  destruct (zd_main_cases B u p w)
    as (evs' & code' & ending' & Hf' & Hev' & Hoth' & Hend').
  fold out_z in Hf', Hev', Hend'.
  destruct (login_flag_of_ending Itrans.to_dict true
              (zd_login B) (zd_block B 2 ItransZd.KEY2)
              (zd_block B 3 ItransZd.KEY3) (zd_block B 4 ItransZd.KEY4)
              (zd_block B 5 ItransZd.KEY5)
              (started B (initial_state w)) (snd out_z) evs' code' ending'
              eq_refl eq_refl eq_refl Hoth' Hend') as [Pz Fz].
  split; [|split; [|split; [|split; [|split]]]].
  - intros st Hok.
    destruct (itrans_login_summary B st) as (e1 & _ & _ & _ & Hfl & _).
    cbn [blk_run itrans_login] in Hfl. fold login_i in Hfl.
    rewrite Hfl, Hok. reflexivity.
  - intros st Hok.
    destruct (zd_login_summary B st) as (e1 & _ & _ & _ & Hfl & _).
    cbn [blk_run zd_login] in Hfl. fold login_z in Hfl.
    rewrite Hfl, Hok. reflexivity.
  - intros Hp. apply Pi. unfold step_passed in *. now rewrite <- Hev.
  - intros Hp. apply Pz. unfold step_passed in *. now rewrite <- Hev'.
  - intros Hfail. unfold step_failed in Hfail. rewrite Hev in Hfail.
    destruct (Fi Hfail) as (F1 & -> & F3).
    split; [exact F1|]. split; [exact Hf|].
    intros j Hj. rewrite Hev. now apply F3.
  - intros Hfail. unfold step_failed in Hfail. rewrite Hev' in Hfail.
    destruct (Fz Hfail) as (F1 & -> & F3).
    split; [exact F1|]. split; [exact Hf'|].
    intros j Hj. rewrite Hev'. now apply F3.
Qed.

(** A run of [itrans.py] in which the login passes and step 2 fails. *)
Lemma banner_check_after_login_witness :
  check_error_banner
    (snd (Itrans.main Sim.browser Sim.creds Sim.creds
            (initial_state (Sim.scripted [Ok tt; Sim.boom "no tab"] [] [])))) = true.
Proof.
  refine (proj1 (proj2 (proj2
            (banner_check_after_login Sim.browser Sim.creds Sim.creds
               (Sim.scripted [Ok tt; Sim.boom "no tab"] [] []))))  _).
  vm_compute. reflexivity.
Defined.

(** C4, the claim as stated fails: the login action raises, the step is
    recorded as failed, and [check_error_banner] is still false when the run
    is over.  So in [itrans.py] and in [itrans_zd.py]. *)
Lemma login_failure_leaves_banner_check_off :
  let w := Sim.scripted [Sim.boom "login form not found"] [] [] in
  let out_i := Itrans.main Sim.browser Sim.creds Sim.creds (initial_state w) in
  let out_z := ItransZd.main Sim.browser Sim.creds Sim.creds (initial_state w) in
  (step_failed 1 (log (snd out_i)) /\
   statuses (steps (test_result (snd out_i))) = [py "0"] /\
   check_error_banner (snd out_i) = false /\
   check_error_banner (snd out_i) <> true) /\
  (step_failed 1 (log (snd out_z)) /\
   statuses (steps (test_result (snd out_z))) = [py "0"] /\
   check_error_banner (snd out_z) = false /\
   check_error_banner (snd out_z) <> true).
Proof.
  vm_compute. repeat split; discriminate.
Qed.

(** * More properties *)

(** ** Whole runs: one report, one session *)

Section OneReport.

Context {W : Type} (B : Browser W).

Lemma run_ending_one_report (td : TestResult -> pyval) (may_crash : bool)
    (blocks : list (Block W)) (st : State W) (out : res Z * State W)
    (evs : list Event) (code : Z) (ending : option (Ending W)) :
  stdout st = [] ->
  fst out = Ok code ->
  run_ending td may_crash blocks st (snd out) evs code ending ->
  one_report td out.
Proof.
  intros Hst Hf (Hout & _ & Hend). exists code.
  rewrite Hst in Hout. cbn in Hout.
  destruct ending as [[|pre b post|pre b post e]|].
  - destruct Hend as (-> & _ & calls & t & _ & Hr).
    repeat split; auto. now rewrite Hr.
  - destruct Hend as (-> & _ & _ & _ & _ & _ & Hs & _).
    repeat split; auto; [discriminate|congruence].
  - destruct Hend as (-> & _ & _ & _ & _ & _ & _ & _ & Hs & _).
    repeat split; auto; [discriminate|congruence].
  - destruct Hend as (-> & _ & _ & Hs & _).
    repeat split; auto; [discriminate|congruence].
Qed.

End OneReport.

(** Whatever the browser, the clock and the notifier do, and whatever the
    credentials are, [main] of [itrans.py], of [itrans_zd.py] and of [lks.py]
    returns: no exception leaves it.  It returns 0 or 1, it has printed one
    document, the [to_dict] of the result as it is at the end, and the code is
    0 exactly when that result says success. *)
Theorem main_prints_one_report {W : Type} (B : Browser W) (u p : option pystr) (w : W) :
  one_report Itrans.to_dict (Itrans.main B u p (initial_state w)) /\
  one_report ItransZd.to_dict (ItransZd.main B u p (initial_state w)) /\
  one_report Lks.to_dict (Lks.main B u p (initial_state w)).
Proof.
  split; [|split].
  - destruct (itrans_main_cases B u p w) as (evs & code & ending & Hf & _ & _ & _ & He).
    eapply run_ending_one_report; [|exact Hf|exact He]. reflexivity.
  - destruct (zd_main_cases B u p w) as (evs & code & ending & Hf & _ & _ & He).
    eapply run_ending_one_report; [|exact Hf|exact He]. reflexivity.
  - destruct (lks_main_cases B u p w) as (evs & code & ending & Hf & _ & _ & He).
    eapply run_ending_one_report; [|exact Hf|exact He]. reflexivity.
Qed.

(** ** Runs that end before the first step *)

Lemma py_or_falsy (a b : option pystr) :
  truthy (py_or a b) = false <-> truthy a = false /\ truthy b = false.
Proof.
  unfold py_or. destruct (truthy a) eqn:E; [rewrite E|]; intuition congruence.
Qed.

Lemma itrans_username_falsy (environ : list (pystr * pystr)) :
  truthy (ItransEnv.username environ) = false <->
  Forall (fun n => truthy (getenv environ n None) = false)
    [py "ITRANS_LOGIN"; py "ITRANS_USER"; py "LOGIN"].
Proof.
  unfold ItransEnv.username. rewrite !py_or_falsy. split.
  - intros (H1 & H2 & H3). repeat constructor; assumption.
  - intros H. inversion_clear H as [|? ? H1 H0]. inversion_clear H0 as [|? ? H2 H].
    inversion_clear H as [|? ? H3 _]. auto.
Qed.

Lemma password_falsy (environ : list (pystr * pystr)) :
  truthy (ItransEnv.password environ) = false <->
  Forall (fun n => truthy (getenv environ n None) = false)
    [py "ITRANS_PASSWORD"; py "PASSWORD"].
Proof.
  unfold ItransEnv.password. rewrite !py_or_falsy. split.
  - intros (H1 & H2). repeat constructor; assumption.
  - intros H. inversion_clear H as [|? ? H1 H0]. inversion_clear H0 as [|? ? H2 _]. auto.
Qed.

Lemma lks_username_falsy (environ : list (pystr * pystr)) :
  truthy (LksEnv.username environ) = false <->
  Forall (fun n => truthy (getenv environ n None) = false)
    [py "ITRANS_LOGIN"; py "LOGIN"].
Proof.
  unfold LksEnv.username. rewrite !py_or_falsy. split.
  - intros (H1 & H2). repeat constructor; assumption.
  - intros H. inversion_clear H as [|? ? H1 H0]. inversion_clear H0 as [|? ? H2 _]. auto.
Qed.

Lemma credentials_missing (u p : option pystr) :
  truthy u = false \/ truthy p = false -> negb (truthy u) || negb (truthy p) = true.
Proof. intros [H|H]; rewrite H; [reflexivity|apply orb_true_r]. Qed.

Ltac run_handler :=
  unfold Itrans.critical_handler, ItransZd.general_handler, Lks.general_handler,
    Itrans.quit_driver, Lks.quit_driver, Itrans.format_exception_full,
    Itrans.print_report, ItransZd.print_report, Lks.print_report, finalize,
    alert, clock, print_json, started, lks_started, after_clock, reading;
  unfold bind, try_except, call, call_quiet, on_result, update, ret;
  cbn; world_cases; do 2 eexists; repeat split; reflexivity.

Section EarlyEnd.

Context {W : Type} (B : Browser W).

Lemma itrans_no_credentials (u p : option pystr) (w : W) :
  negb (truthy u) || negb (truthy p) = true ->
  early_end Itrans.to_dict []
    (py "Критическая ошибка: "
       ++ traceback_format_exception B (Exn ValueError CREDENTIALS_MISSING))
    (py "Тест завершился с критической ошибкой")
    (Itrans.main B u p (initial_state w)).
Proof.
  intros H. rewrite itrans_main_eq. unfold guarded_run, try_finally.
  rewrite guarded_body_eq, H. run_handler.
Qed.

Lemma zd_no_credentials (u p : option pystr) (w : W) :
  negb (truthy u) || negb (truthy p) = true ->
  early_end ItransZd.to_dict [] (py "Общая ошибка: " ++ CREDENTIALS_MISSING)
    (py "Тест завершился с ошибкой") (ItransZd.main B u p (initial_state w)).
Proof.
  intros H. rewrite zd_main_eq. unfold guarded_run, try_finally.
  rewrite guarded_body_eq, H. run_handler.
Qed.

Lemma lks_no_credentials (u p : option pystr) (w : W) :
  negb (truthy u) || negb (truthy p) = true ->
  early_end Lks.to_dict [] (py "Общая ошибка: " ++ CREDENTIALS_MISSING)
    (py "Тест завершился с ошибкой") (Lks.main B u p (initial_state w)).
Proof.
  intros H. rewrite lks_main_eq. unfold guarded_run, try_finally.
  rewrite guarded_body_eq, H. run_handler.
Qed.

End EarlyEnd.

(** With no login or no password in the environment, [main] of [itrans.py]
    and of [itrans_zd.py] asks for no browser: the run consists of the
    reading of the clock, the alert without a screenshot and the reading of
    [finalize].  No driver is built or quit, no step is run, no screenshot
    is taken; the report has no steps and no screenshot, and the code is 1.
    A variable that is set to the empty string counts as not set. *)
Theorem missing_credentials_open_no_browser {W : Type} (B : Browser W)
    (environ : list (pystr * pystr)) (w : W) :
  Forall (fun n => truthy (getenv environ n None) = false)
    [py "ITRANS_LOGIN"; py "ITRANS_USER"; py "LOGIN"] \/
  Forall (fun n => truthy (getenv environ n None) = false)
    [py "ITRANS_PASSWORD"; py "PASSWORD"] ->
  let u := ItransEnv.username environ in
  let p := ItransEnv.password environ in
  early_end Itrans.to_dict []
    (py "Критическая ошибка: "
       ++ traceback_format_exception B (Exn ValueError CREDENTIALS_MISSING))
    (py "Тест завершился с критической ошибкой")
    (Itrans.main B u p (initial_state w)) /\
  early_end ItransZd.to_dict [] (py "Общая ошибка: " ++ CREDENTIALS_MISSING)
    (py "Тест завершился с ошибкой") (ItransZd.main B u p (initial_state w)).
Proof.
  intros H u p.
  assert (Hc : negb (truthy u) || negb (truthy p) = true).
  { apply credentials_missing. destruct H as [H|H];
      [left; now apply itrans_username_falsy|right; now apply password_falsy]. }
  split; [now apply itrans_no_credentials|now apply zd_no_credentials].
Qed.

(** Only an empty [ITRANS_LOGIN] is set, with a password. *)
Lemma missing_credentials_open_no_browser_witness :
  let environ := [(py "ITRANS_LOGIN", []); (py "PASSWORD", py "secret")] in
  exists t0 t1 err,
    log (snd (ItransZd.main Sim.browser (ItransEnv.username environ)
                (ItransEnv.password environ) (initial_state (Sim.scripted [] [] [])))) =
    [EvTime t0; EvAlert err None; EvTime t1].
Proof.
  intros environ.
  assert (H : Forall (fun n => truthy (getenv environ n None) = false)
                [py "ITRANS_LOGIN"; py "ITRANS_USER"; py "LOGIN"])
    by (repeat constructor).
  destruct (proj2 (missing_credentials_open_no_browser Sim.browser environ
                     (Sim.scripted [] [] []) (or_introl H)))
    as (t0 & t1 & _ & Hlog & _).
  exists t0, t1, (py "Общая ошибка: " ++ CREDENTIALS_MISSING). exact Hlog.
Defined.

(** The same for [lks.py], which reads the login from [ITRANS_LOGIN] and
    [LOGIN] only: [ITRANS_USER] does not count there. *)
Theorem lks_missing_credentials_open_no_browser {W : Type} (B : Browser W)
    (environ : list (pystr * pystr)) (w : W) :
  Forall (fun n => truthy (getenv environ n None) = false)
    [py "ITRANS_LOGIN"; py "LOGIN"] \/
  Forall (fun n => truthy (getenv environ n None) = false)
    [py "ITRANS_PASSWORD"; py "PASSWORD"] ->
  early_end Lks.to_dict [] (py "Общая ошибка: " ++ CREDENTIALS_MISSING)
    (py "Тест завершился с ошибкой")
    (Lks.main B (LksEnv.username environ) (LksEnv.password environ) (initial_state w)).
Proof.
  intros H. apply lks_no_credentials, credentials_missing.
  destruct H as [H|H]; [left; now apply lks_username_falsy|right; now apply password_falsy].
Qed.

(** The login is given as [ITRANS_USER] only. *)
Lemma lks_missing_credentials_open_no_browser_witness :
  let environ := [(py "ITRANS_USER", py "monitor"); (py "PASSWORD", py "secret")] in
  truthy (ItransEnv.username environ) = true /\
  exists t0 t1 err,
    log (snd (Lks.main Sim.browser (LksEnv.username environ)
                (LksEnv.password environ) (initial_state (Sim.scripted [] [] [])))) =
    [EvTime t0; EvAlert err None; EvTime t1].
Proof.
  intros environ. split; [reflexivity|].
  assert (H : Forall (fun n => truthy (getenv environ n None) = false)
                [py "ITRANS_LOGIN"; py "LOGIN"])
    by (repeat constructor).
  destruct (lks_missing_credentials_open_no_browser Sim.browser environ
              (Sim.scripted [] [] []) (or_introl H))
    as (t0 & t1 & _ & Hlog & _).
  exists t0, t1, (py "Общая ошибка: " ++ CREDENTIALS_MISSING). exact Hlog.
Defined.

Section NoDriver.

Context {W : Type} (B : Browser W).

Lemma started_world (w : W) :
  world (started B (initial_state w)) = snd (time_time B w) /\
  world (lks_started B (initial_state w)) = snd (time_time B w).
Proof. split; reflexivity. Qed.

Lemma itrans_no_driver (u p : option pystr) (w w1 : W) (e : exn) :
  truthy u = true -> truthy p = true ->
  build_driver B (snd (time_time B w)) = (Raise e, w1) ->
  early_end Itrans.to_dict [EvBuildDriver (Raise e)]
    (py "Критическая ошибка: " ++ traceback_format_exception B e)
    (py "Тест завершился с критической ошибкой")
    (Itrans.main B u p (initial_state w)).
Proof.
  intros Hu Hp Hb. rewrite itrans_main_eq. unfold guarded_run, try_finally.
  rewrite guarded_body_eq, Hu, Hp. cbn [negb orb].
  rewrite (proj1 (started_world w)), Hb. run_handler.
Qed.

Lemma zd_no_driver (u p : option pystr) (w w1 : W) (e : exn) :
  truthy u = true -> truthy p = true ->
  build_driver B (snd (time_time B w)) = (Raise e, w1) ->
  early_end ItransZd.to_dict [EvBuildDriver (Raise e)]
    (py "Общая ошибка: " ++ exn_str e) (py "Тест завершился с ошибкой")
    (ItransZd.main B u p (initial_state w)).
Proof.
  intros Hu Hp Hb. rewrite zd_main_eq. unfold guarded_run, try_finally.
  rewrite guarded_body_eq, Hu, Hp. cbn [negb orb].
  rewrite (proj1 (started_world w)), Hb. run_handler.
Qed.

Lemma lks_no_driver (u p : option pystr) (w w1 : W) (e : exn) :
  truthy u = true -> truthy p = true ->
  build_driver B (snd (time_time B w)) = (Raise e, w1) ->
  early_end Lks.to_dict [EvBuildDriver (Raise e)]
    (py "Общая ошибка: " ++ exn_str e) (py "Тест завершился с ошибкой")
    (Lks.main B u p (initial_state w)).
Proof.
  intros Hu Hp Hb. rewrite lks_main_eq. unfold guarded_run, try_finally.
  rewrite guarded_body_eq, Hu, Hp. cbn [negb orb].
  rewrite (proj2 (started_world w)), Hb. run_handler.
Qed.

End NoDriver.

(** When [build_driver] raises, the three scripts end the run in the
    handler of the outer [except]: after the failed attempt the alert is
    sent without a screenshot, the result is finalized with the text of the
    exception and printed, and the code is 1.  As [driver] is still [None],
    no screenshot is asked for and [quit] is not called; no step is run. *)
Theorem driver_failure_ends_run {W : Type} (B : Browser W) (u p : option pystr)
    (w w1 : W) (e : exn) :
  truthy u = true -> truthy p = true ->
  build_driver B (snd (time_time B w)) = (Raise e, w1) ->
  early_end Itrans.to_dict [EvBuildDriver (Raise e)]
    (py "Критическая ошибка: " ++ traceback_format_exception B e)
    (py "Тест завершился с критической ошибкой")
    (Itrans.main B u p (initial_state w)) /\
  early_end ItransZd.to_dict [EvBuildDriver (Raise e)]
    (py "Общая ошибка: " ++ exn_str e) (py "Тест завершился с ошибкой")
    (ItransZd.main B u p (initial_state w)) /\
  early_end Lks.to_dict [EvBuildDriver (Raise e)]
    (py "Общая ошибка: " ++ exn_str e) (py "Тест завершился с ошибкой")
    (Lks.main B u p (initial_state w)).
Proof.
  intros Hu Hp Hb. split; [|split].
  - now apply (itrans_no_driver B u p w w1 e).
  - now apply (zd_no_driver B u p w w1 e).
  - now apply (lks_no_driver B u p w w1 e).
Qed.

(** The grid refuses the session. *)
Lemma driver_failure_ends_run_witness :
  exists t0 t1 err,
    log (snd (Lks.main no_grid Sim.creds Sim.creds
                (initial_state (Sim.scripted [] [] [])))) =
    [EvTime t0; EvBuildDriver (Raise grid_down); EvAlert err None; EvTime t1].
Proof.
  destruct (proj2 (proj2 (driver_failure_ends_run no_grid Sim.creds Sim.creds
                            (Sim.scripted [] [] [])
                            (snd (Sim.tick (Sim.scripted [] [] []))) grid_down
                            eq_refl eq_refl eq_refl)))
    as (t0 & t1 & _ & Hlog & _).
  exists t0, t1, (py "Общая ошибка: " ++ exn_str grid_down). exact Hlog.
Defined.

(** ** What a computation adds to the log *)

Section Adds.

Context {W : Type} (B : Browser W) (P : Event -> bool).

Lemma adds_ret {A} (a : A) : adds P (@ret W A a).
Proof. intros st. exists []. cbn. now rewrite app_nil_r. Qed.

Lemma adds_raise {A} (e : exn) : adds P (@raise W A e).
Proof. intros st. exists []. cbn. now rewrite app_nil_r. Qed.

Lemma adds_bind {A C} (m : M W A) (k : A -> M W C) :
  adds P m -> (forall a, adds P (k a)) -> adds P (bind m k).
Proof.
  intros Hm Hk st. destruct (Hm st) as (e1 & L1 & F1 & D1). unfold bind.
  destruct (m st) as [[a|e] st1]; cbn [fst snd] in *.
  - destruct (Hk a st1) as (e2 & L2 & F2 & D2). exists (e1 ++ e2).
    rewrite L2, L1, app_assoc, forallb_app, F1, F2. repeat split. congruence.
  - now exists e1.
Qed.

Lemma adds_try_except {A} (m : M W A) (h : exn -> M W A) :
  adds P m -> (forall e, adds P (h e)) -> adds P (try_except m h).
Proof.
  intros Hm Hh st. destruct (Hm st) as (e1 & L1 & F1 & D1). unfold try_except.
  destruct (m st) as [[a|e] st1]; cbn [fst snd] in *.
  - now exists e1.
  - destruct (Hh e st1) as (e2 & L2 & F2 & D2). exists (e1 ++ e2).
    rewrite L2, L1, app_assoc, forallb_app, F1, F2. repeat split. congruence.
Qed.

Lemma adds_try_except_if {A} (c : exn -> bool) (m : M W A) (h : exn -> M W A) :
  adds P m -> (forall e, adds P (h e)) -> adds P (try_except_if c m h).
Proof.
  intros Hm Hh. apply adds_try_except; [exact Hm|].
  intros e. destruct (c e); [apply Hh|apply adds_raise].
Qed.

Lemma adds_call {A} (op : W -> res A * W) (ev : res A -> Event) :
  (forall r, P (ev r) = true) -> adds P (call op ev).
Proof.
  intros H st. unfold call. destruct (op (world st)) as [r w].
  exists [ev r]. cbn. now rewrite H.
Qed.

Lemma adds_call_quiet (op : W -> W) (ev : Event) :
  P ev = true -> adds P (call_quiet op ev).
Proof. intros H st. exists [ev]. cbn. now rewrite H. Qed.

Lemma adds_act {A} (op : W -> res A * W) : adds P (act op).
Proof.
  intros st. unfold act. destruct (op (world st)) as [r w].
  exists []. cbn. now rewrite app_nil_r.
Qed.

Lemma adds_query {A} (op : W -> res A) : adds P (query op).
Proof. intros st. exists []. cbn. now rewrite app_nil_r. Qed.

Lemma adds_clock : (forall t, P (EvTime t) = true) -> adds P (clock B).
Proof.
  intros H st. unfold clock. destruct (time_time B (world st)) as [t w].
  exists [EvTime t]. cbn. now rewrite H.
Qed.

Lemma adds_update (f : State W -> State W) :
  (forall st, log (f st) = log st /\ test_driver (f st) = test_driver st) ->
  adds P (update f).
Proof.
  intros H st. exists []. cbn. rewrite app_nil_r.
  destruct (H st) as [H1 H2]. auto.
Qed.

Lemma adds_on_result (f : TestResult -> TestResult) : adds P (@on_result W f).
Proof. apply adds_update. intros st. split; reflexivity. Qed.

Lemma adds_finalize (s : bool) (m : pystr) (e : option pystr) :
  (forall t, P (EvTime t) = true) -> adds P (finalize B s m e).
Proof.
  intros H. apply adds_bind; [now apply adds_clock|]. intros t. apply adds_on_result.
Qed.

Lemma adds_print (td : TestResult -> pyval) :
  adds P (fun st : State W => print_json (td (test_result st)) st).
Proof. intros st. exists []. cbn. now rewrite app_nil_r. Qed.

Lemma adds_if_driver {A} (m : M W A) (a : A) :
  adds P m -> adds P (fun st => if test_driver st then m st else (Ok a, st)).
Proof.
  intros H st. specialize (H st). destruct (test_driver st) eqn:E; [exact H|].
  exists []. cbn. now rewrite app_nil_r.
Qed.

Lemma adds_for_range {A} (xs : list nat) (body : nat -> M W (option A)) :
  (forall x, adds P (body x)) -> adds P (for_range xs body).
Proof.
  intros H. induction xs as [|x xs IH]; cbn [for_range]; [apply adds_ret|].
  apply adds_bind; [apply H|]. intros [v|]; [apply adds_ret|exact IH].
Qed.

Lemma adds_run_steps (blocks : list (M W bool)) :
  Forall (adds P) blocks -> adds P (run_steps blocks).
Proof.
  induction 1 as [|b bs Hb _ IH]; cbn [run_steps]; [apply adds_ret|].
  apply adds_bind; [exact Hb|]. intros [|]; [exact IH|apply adds_ret].
Qed.

End Adds.

Ltac adds_steps :=
  repeat first
    [ apply adds_ret | apply adds_raise | apply adds_on_result
    | apply adds_print | apply adds_act | apply adds_query
    | apply adds_finalize; intros ?; reflexivity
    | apply adds_clock; intros ?; reflexivity
    | apply adds_call; intros ?; reflexivity
    | apply adds_call_quiet; reflexivity
    | apply adds_update; intros ?; split; reflexivity
    | apply adds_if_driver
    | apply adds_bind; [|intros ?]
    | apply adds_try_except; [|intros ?]
    | apply adds_try_except_if; [|intros ?]
    | apply adds_for_range; intros ?
    | match goal with |- adds _ (if ?c then _ else _) => destruct c end
    | match goal with |- adds _ (match ?c with Some _ => _ | None => _ end) =>
        destruct c end ].

Section Sessions.

Context {W : Type} (B : Browser W).

Lemma itrans_step_block_adds (n : nat) (key : pystr) (body : M W unit) :
  adds in_session body -> adds in_session (Itrans.step_block B n key body).
Proof.
  intros H. unfold Itrans.step_block, Itrans.print_report, alert. adds_steps; exact H.
Qed.

Lemma run_step_adds (k : nat) : adds in_session (run_step B k).
Proof. unfold run_step. adds_steps. Qed.

Lemma itrans_blocks_add :
  Forall (adds in_session) (map (@blk_run W) (itrans_blocks B)).
Proof.
  repeat constructor; cbn [blk_run itrans_login itrans_block];
    apply itrans_step_block_adds; try apply run_step_adds.
  unfold Itrans.login_body, run_step. adds_steps.
Qed.

Lemma zd_execute_step_adds (n : nat) (key : pystr) (body : M W unit)
    (before after : option (M W unit)) :
  adds in_session body ->
  adds in_session (ItransZd.when_given before) ->
  adds in_session (ItransZd.when_given after) ->
  adds in_session (ItransZd.execute_step B n key body before after).
Proof.
  intros H Hb Ha. unfold ItransZd.execute_step, ItransZd.print_report, alert.
  adds_steps; assumption.
Qed.

Lemma zd_blocks_add :
  Forall (adds in_session) (map (@blk_run W) (zd_blocks B)).
Proof.
  repeat constructor; cbn [blk_run zd_login zd_block];
    apply zd_execute_step_adds; try apply run_step_adds;
    cbn [ItransZd.when_given]; adds_steps.
Qed.

Lemma lks_blocks_add :
  Forall (adds in_session) (map (@blk_run W) (lks_blocks B)).
Proof.
  repeat constructor; cbn [blk_run lks_block];
    unfold Lks.execute_step_with_retry, Lks.attempt_body, Lks.reload_page,
      Lks.capture, Lks.screenshot_of, Lks.print_report, alert, run_step;
    adds_steps.
Qed.

Lemma itrans_handler_adds (e : exn) : adds in_session (Itrans.critical_handler B e).
Proof. unfold Itrans.critical_handler, Itrans.print_report, alert. adds_steps. Qed.

Lemma zd_handler_adds (e : exn) : adds in_session (ItransZd.general_handler B e).
Proof. unfold ItransZd.general_handler, ItransZd.print_report, alert. adds_steps. Qed.

Lemma lks_handler_adds (e : exn) : adds in_session (Lks.general_handler B e).
Proof. unfold Lks.general_handler, Lks.print_report, alert. adds_steps. Qed.

Lemma itrans_quits : quits (Itrans.quit_driver B).
Proof.
  intros st. unfold Itrans.quit_driver, try_except, call, ret. split; intros ->.
  - reflexivity.
  - destruct (driver_quit B (world st)) as [[[]|e] w]; eexists; reflexivity.
Qed.

Lemma lks_quits : quits (Lks.quit_driver B).
Proof.
  intros st. unfold Lks.quit_driver, try_except, call, ret. split; intros ->.
  - reflexivity.
  - destruct (driver_quit B (world st)) as [[[]|e] w]; eexists; reflexivity.
Qed.

Lemma guarded_run_session (td : TestResult -> pyval) (u p : option pystr)
    (blocks : list (M W bool)) (h : exn -> M W Z) (q : M W unit) (st : State W) :
  Forall (adds in_session) blocks ->
  (forall e, adds in_session (h e)) ->
  quits q ->
  forallb in_session (log st) = true -> test_driver st = false ->
  session_shape (log (snd (guarded_run B td u p blocks h q st))).
Proof.
  intros Hbs Hh Hq Hlog Hd. unfold guarded_run, try_finally.
  rewrite guarded_body_eq.
  destruct (negb (truthy u) || negb (truthy p)).
  - (* no credentials *)
    destruct (Hh (Exn ValueError CREDENTIALS_MISSING) st) as (evs & L & F & D).
    destruct (h (Exn ValueError CREDENTIALS_MISSING) st) as [r st1].
    cbn [fst snd] in *.
    right; right. rewrite (proj1 (Hq st1)) by (rewrite D; exact Hd).
    now rewrite L, forallb_app, Hlog, F.
  - destruct (build_driver B (world st)) as [[[]|e] w1].
    + (* a session *)
      set (st2 := set_test_driver true
                    (add_log (EvBuildDriver (Ok tt)) (set_world w1 st))).
      destruct (adds_run_steps in_session blocks Hbs st2) as (evs & L & F & D).
      assert (L2 : log st2 = log st ++ [EvBuildDriver (Ok tt)]) by reflexivity.
      destruct (run_steps blocks st2) as [[[|]|e] st3]; cbn [fst snd] in *.
      * left. destruct (proj2 (Hq
                  (add_stdout
                     (td (finalize_at (reading B st3) true SUCCESS_MESSAGE None
                            (test_result st3)))
                     (set_test_result
                        (finalize_at (reading B st3) true SUCCESS_MESSAGE None
                           (test_result st3)) (after_clock B st3)))) D) as [r Hr].
        cbn [snd]. rewrite Hr.
        exists (log st), (evs ++ [EvTime (reading B st3)]), r. split.
        { cbn. rewrite L, L2, <- !app_assoc. reflexivity. }
        split; [exact Hlog|]. now rewrite forallb_app, F.
      * left. destruct (proj2 (Hq st3) D) as [r Hr]. cbn [snd]. rewrite Hr.
        exists (log st), evs, r. split.
        { rewrite L, L2, <- !app_assoc. reflexivity. }
        split; assumption.
      * left. destruct (Hh e st3) as (evs' & L' & F' & D').
        destruct (h e st3) as [r' st4]. cbn [fst snd] in *.
        destruct (proj2 (Hq st4) (eq_trans D' D)) as [r Hr]. rewrite Hr.
        exists (log st), (evs ++ evs'), r. split.
        { rewrite L', L, L2, <- !app_assoc. reflexivity. }
        split; [exact Hlog|]. now rewrite forallb_app, F, F'.
    + (* the session could not be opened *)
      set (st2 := add_log (EvBuildDriver (Raise e)) (set_world w1 st)).
      destruct (Hh e st2) as (evs & L & F & D).
      destruct (h e st2) as [r st3]. cbn [fst snd] in *.
      right; left. rewrite (proj1 (Hq st3)) by (rewrite D; exact Hd).
      exists (log st), e, evs. split; [rewrite L; cbn; now rewrite <- app_assoc|].
      split; assumption.
Qed.

End Sessions.

(** A run of [main] opens at most one browser session, and closes the one
    it opened: in the log of a run of [itrans.py], [itrans_zd.py] or [lks.py]
    either the driver was built once and [quit] was called once, as the last
    action of the run, whatever the steps and handlers did in between; or
    building the driver failed once and [quit] was not called; or neither was
    asked for.  An exception of [quit] is swallowed. *)
Theorem session_closed_once {W : Type} (B : Browser W) (u p : option pystr) (w : W) :
  session_shape (log (snd (Itrans.main B u p (initial_state w)))) /\
  session_shape (log (snd (ItransZd.main B u p (initial_state w)))) /\
  session_shape (log (snd (Lks.main B u p (initial_state w)))).
Proof.
  split; [|split].
  - rewrite itrans_main_eq. apply guarded_run_session;
      [apply itrans_blocks_add|apply itrans_handler_adds|apply itrans_quits| |];
      reflexivity.
  - rewrite zd_main_eq. apply guarded_run_session;
      [apply zd_blocks_add|apply zd_handler_adds|apply itrans_quits| |];
      reflexivity.
  - rewrite lks_main_eq. apply guarded_run_session;
      [apply lks_blocks_add|apply lks_handler_adds|apply lks_quits| |];
      reflexivity.
Qed.

(** ** The steps of a result *)

Lemma dict_get_set_other {V : Type} (k k' : pystr) (v : V) (d : list (pystr * V)) :
  k' <> k -> dict_get k' (dict_set k v d) = dict_get k' d.
Proof.
  intros Hne. induction d as [|[k0 v0] d IH]; simpl.
  - apply str_eqb_neq in Hne. now rewrite Hne.
  - destruct (str_eqb k k0) eqn:E; simpl.
    + apply str_eqb_eq in E. subst k0.
      apply str_eqb_neq in Hne. now rewrite Hne.
    + now rewrite IH.
Qed.

Lemma dict_set_keys {V : Type} (k : pystr) (v : V) (d : list (pystr * V)) :
  map fst (dict_set k v d) =
  if existsb (str_eqb k) (map fst d) then map fst d else map fst d ++ [k].
Proof.
  induction d as [|[k0 v0] d IH]; simpl; [reflexivity|].
  destruct (str_eqb k k0) eqn:E; simpl.
  - apply str_eqb_eq in E. now subst.
  - rewrite IH. now destruct (existsb _ _).
Qed.

Lemma existsb_str_eqb (k : pystr) (l : list pystr) :
  existsb (str_eqb k) l = true <-> In k l.
Proof.
  rewrite existsb_exists. split.
  - intros (x & Hx & E). apply str_eqb_eq in E. now subst.
  - intros H. exists k. split; [exact H|apply str_eqb_refl].
Qed.

Lemma dict_set_nodup {V : Type} (k : pystr) (v : V) (d : list (pystr * V)) :
  NoDup (map fst d) -> NoDup (map fst (dict_set k v d)).
Proof.
  intros H. rewrite dict_set_keys.
  destruct (existsb (str_eqb k) (map fst d)) eqn:E; [exact H|].
  apply NoDup_app; [exact H|repeat constructor; intros []|].
  intros x Hx [<-|[]]. apply existsb_str_eqb in Hx. congruence.
Qed.

Lemma dict_get_none {V : Type} (k : pystr) (d : list (pystr * V)) :
  dict_get k d = None <-> ~ In k (map fst d).
Proof.
  induction d as [|[k0 v0] d IH]; simpl; [tauto|].
  destruct (str_eqb k k0) eqn:E.
  - apply str_eqb_eq in E. subst. split; [discriminate|]. intros H. exfalso. auto.
  - apply str_eqb_neq in E. rewrite IH. split.
    + intros H [H1|H1]; [congruence|contradiction].
    + intros H H1. apply H. now right.
Qed.



Lemma invoke_all_snoc (calls : list Method) (c : Method) (r : TestResult) :
  invoke_all (calls ++ [c]) r = invoke c (invoke_all calls r).
Proof. unfold invoke_all. now rewrite fold_left_app. Qed.

Lemma last_recorded_snoc (name : pystr) (calls : list Method) (c : Method)
    (acc : option StepEntry) :
  last_recorded name (calls ++ [c]) acc =
  match c with
  | AddStep n s d =>
    if str_eqb name n
    then Some {| st_status := s; st_duration_seconds := round2 d |}
    else last_recorded name calls acc
  | _ => last_recorded name calls acc
  end.
Proof.
  revert acc. induction calls as [|c0 calls IH]; intros acc.
  - destruct c; reflexivity.
  - destruct c0; cbn [app last_recorded]; apply IH.
Qed.

(** Invariants of [TestResult].  After any sequence of [add_step],
    [set_screenshot_b64] and [finalize] calls on a fresh object: [status] is
    ["1"] when [success] is true and ["0"] when it is false; no name occurs
    twice in [steps], and each name maps to what the last [add_step] call on
    it recorded; [start_time] is still the reading taken at construction;
    [screenshot] is set exactly when [set_screenshot_b64] was called; and
    [test_info] is empty until [finalize] is called. *)
Theorem test_result_invariants (now : Z) (calls : list Method) :
  let r := invoke_all calls (TestResult__init__ now) in
  coherent r /\
  NoDup (map fst (steps r)) /\
  (forall name, dict_get name (steps r) = last_recorded name calls None) /\
  start_time r = now /\
  (screenshot r = None <-> existsb is_SetScreenshot calls = false) /\
  (test_info r = [] <->
   existsb (fun c => match c with Finalize _ _ _ _ => true | _ => false end) calls = false).
Proof.
  intros r. subst r. induction calls as [|c calls IH] using rev_ind.
  - cbn. repeat split; try constructor; auto.
  - rewrite invoke_all_snoc. destruct IH as (I1 & I2 & I3 & I4 & I5 & I6).
    set (r := invoke_all calls (TestResult__init__ now)) in *.
    rewrite !existsb_app. cbn [existsb]. rewrite !orb_false_r.
    destruct c as [n s d|b|t s m e]; cbn [invoke is_SetScreenshot].
    + rewrite !orb_false_r.
      split; [now apply add_step_coherent|].
      split; [rewrite add_step_steps; now apply dict_set_nodup|].
      split.
      { intros name. rewrite last_recorded_snoc, add_step_steps.
        destruct (str_eqb name n) eqn:E.
        - apply str_eqb_eq in E. subst name. apply dict_get_set.
        - apply str_eqb_neq in E. rewrite dict_get_set_other by exact E. apply I3. }
      split; [now rewrite add_step_start_time|].
      split; [now rewrite add_step_screenshot|].
      unfold add_step. now destruct (str_eqb s (py "0")).
    + rewrite orb_true_r, orb_false_r.
      split; [exact I1|]. split; [exact I2|].
      split; [intros name; rewrite last_recorded_snoc; apply I3|].
      split; [exact I4|]. split; [|exact I6].
      cbn. split; discriminate.
    + rewrite orb_true_r, orb_false_r.
      split; [unfold coherent; cbn; now destruct s|]. split; [exact I2|].
      split; [intros name; rewrite last_recorded_snoc; apply I3|].
      split; [exact I4|]. split; [exact I5|].
      cbn. split; discriminate.
Qed.

(** ** Waits and clicks *)

Section Clicks.

Context {W : Type} (B : Browser W) (P : Page W).

Lemma banner_check_state (st : State W) :
  snd (ItransTest.raise_if_error_banner B st) = st.
Proof.
  destruct (check_error_banner st) eqn:Hon.
  - destruct (test_driver st) eqn:Hd.
    + now rewrite (banner_check_unfold B st Hon Hd).
    + rewrite (banner_check_off B st); auto.
  - rewrite (banner_check_off B st); auto.
Qed.

Lemma banner_check_no_driver_error (st : State W) (e : exn) :
  fst (ItransTest.raise_if_error_banner B st) = Raise e ->
  is_WebDriverException e = false.
Proof.
  destruct (check_error_banner st) eqn:Hon.
  - destruct (test_driver st) eqn:Hd.
    + rewrite (banner_check_unfold B st Hon Hd). cbn [fst].
      destruct (fst (ItransTest.scan B st)) as [|e']; [intros H; discriminate H|].
      destruct (is_WebDriverException e') eqn:E; [intros H; discriminate H|].
      intros H. now injection H as <-.
    + rewrite (banner_check_off B st); [intros H; discriminate H|auto].
  - rewrite (banner_check_off B st); [intros H; discriminate H|auto].
Qed.

Lemma banner_check_eq (st : State W) :
  ItransTest.raise_if_error_banner B st =
  (fst (ItransTest.raise_if_error_banner B st), st).
Proof.
  rewrite <- (banner_check_state st) at 3. apply surjective_pairing.
Qed.

Lemma driver_error_classes (e : exn) :
  is_WebDriverException e = false ->
  is_TimeoutException e = false /\ is_Stale_or_Timeout e = false.
Proof.
  unfold is_WebDriverException, is_TimeoutException, is_Stale_or_Timeout.
  destruct (exn_cls e); intros H; try discriminate; split; reflexivity.
Qed.

Lemma wait_element_with_cases (nf : pystr -> pystr) (xpath : pystr) (timeout : Z)
    (st : State W) :
  let st' := waited B xpath timeout st in
  ItransTest.wait_element_with B nf xpath timeout st =
  (match fst (wait_until_presence B xpath timeout (world st)),
         fst (ItransTest.raise_if_error_banner B st') with
   | Ok el, Ok _ => Ok el
   | Ok _, Raise b => Raise b
   | Raise e, Ok _ =>
     if is_TimeoutException e then Raise (Exn Exception (nf xpath)) else Raise e
   | Raise e, Raise b => if is_TimeoutException e then Raise b else Raise e
   end, st').
Proof.
  intros st'. subst st'. unfold waited.
  unfold ItransTest.wait_element_with, try_except_if, try_except, bind, call, ret, raise.
  destruct (wait_until_presence B xpath timeout (world st)) as [[el|e] w']; cbn [fst snd].
  - rewrite banner_check_eq.
    pose proof (banner_check_no_driver_error
                  (add_log (EvWaitPresence xpath timeout (Ok el)) (set_world w' st))) as H.
    destruct (fst (ItransTest.raise_if_error_banner B _)) as [[]|b]; [reflexivity|].
    destruct (driver_error_classes b (H b eq_refl)) as [-> _]. reflexivity.
  - destruct (is_TimeoutException e); [|now destruct (fst _)].
    rewrite banner_check_eq. now destruct (fst (ItransTest.raise_if_error_banner B _)) as [[]|b].
Qed.

End Clicks.

Section ClickLoop.

Context {W : Type} (B : Browser W).

Lemma unchanged_refl (st : State W) : unchanged st st.
Proof. repeat split. Qed.

Lemma unchanged_trans (a b c : State W) :
  unchanged a b -> unchanged b c -> unchanged a c.
Proof.
  intros (A1 & A2 & A3 & A4) (B1 & B2 & B3 & B4). repeat split; congruence.
Qed.

Lemma click_log_cons (xpath : pystr) (timeout : Z) (r : res WebElement)
    (waits : list (res WebElement)) :
  waits <> [] ->
  click_log xpath timeout (r :: waits) =
  [EvWaitPresence xpath timeout r; EvSleep 1] ++ click_log xpath timeout waits.
Proof. destruct waits; [contradiction|reflexivity]. Qed.

Lemma for_range_cons {A} (x : nat) (xs : list nat) (body : nat -> M W (option A))
    (st : State W) :
  for_range (x :: xs) body st =
  match body x st with
  | (Ok (Some v), st1) => (Ok (Some v), st1)
  | (Ok None, st1) => for_range xs body st1
  | (Raise e, st1) => (Raise e, st1)
  end.
Proof.
  cbn [for_range]. unfold bind. now destruct (body x st) as [[[v|]|e] st1].
Qed.

Lemma click_loop_cases (xpath : pystr) (timeout : Z) (retries : nat)
    (turn : nat -> M W (option unit)) :
  click_turn B xpath timeout retries turn ->
  forall len a st,
    a + len = retries ->
    let out := for_range (seq a len) turn st in
    click_outcome xpath timeout len st out /\ (fst out = Ok None -> len = 0).
Proof.
  intros Hturn. induction len as [|len IH]; intros a st Ha out; subst out.
  - cbn. split; [|reflexivity]. exists []. cbn. rewrite app_nil_r.
    repeat split; auto. intros e H. discriminate H.
  - cbn [seq]. rewrite for_range_cons.
    destruct (Hturn a st) as (Hu & Hcase).
    destruct (turn a st) as [r1 st1]. cbn [fst snd] in *.
    set (r := fst (wait_until_presence B xpath timeout (world st))) in *.
    destruct Hcase as [([->|(e & -> & He)] & Hlog)|(-> & Hne & Hlog)].
    + split; [|intros H; discriminate H]. exists [r]. cbn.
      repeat split; try apply Hu; auto; try lia; try discriminate.
    + split; [|intros H; discriminate H]. exists [r]. cbn.
      repeat split; try apply Hu; auto; try lia; try discriminate.
      intros e0 H. now injection H as <-.
    + assert (Hlen : len <> 0) by lia.
      destruct (IH (S a) st1 ltac:(lia)) as [(waits & Hl & Hb & Hw & Hu' & Hleak) Hnone].
      split; [|intros H; apply Hnone in H; contradiction].
      exists (r :: waits).
      rewrite (click_log_cons xpath timeout r waits (Hw Hlen)).
      split; [rewrite Hl, Hlog, <- app_assoc; reflexivity|].
      split; [cbn; lia|]. split; [discriminate|].
      split; [exact (unchanged_trans _ _ _ Hu Hu')|exact Hleak].
Qed.

Lemma click_loop_outcome (xpath : pystr) (timeout : Z) (retries : nat)
    (turn : nat -> M W (option unit)) (st : State W) :
  click_turn B xpath timeout retries turn ->
  click_outcome xpath timeout retries st
    (bind (for_range (seq 0 retries) turn) (fun _ => ret tt) st) /\
  (retries = 0 -> bind (for_range (seq 0 retries) turn) (fun _ => ret tt) st = (Ok tt, st)).
Proof.
  intros Hturn. split.
  - destruct (click_loop_cases xpath timeout retries turn Hturn retries 0 st eq_refl)
      as [(waits & Hl & Hb & Hw & Hu & Hleak) _].
    unfold bind. destruct (for_range (seq 0 retries) turn st) as [[o|e] st1];
      cbn [fst snd] in *; exists waits; cbn [fst snd ret].
    + repeat split; try apply Hu; auto. intros e H. discriminate H.
    + repeat split; try apply Hu; auto.
      intros e0 H. injection H as <-. now apply Hleak.
  - intros ->. reflexivity.
Qed.

End ClickLoop.

Ltac banner_cases :=
  match goal with
  | |- context [ItransTest.raise_if_error_banner ?B ?s] =>
    rewrite (banner_check_eq B s);
    let Hb := fresh "Hb" in
    let b := fresh "b" in
    pose proof (banner_check_no_driver_error B s) as Hb;
    destruct (fst (ItransTest.raise_if_error_banner B s)) as [[]|b];
    [clear Hb
    |let E1 := fresh "E" in let E2 := fresh "E" in
     destruct (driver_error_classes b (Hb b eq_refl)) as [E1 E2];
     clear Hb]
  end.

Ltac page_cases :=
  match goal with
  | |- context [wait_until_clickable ?P ?x ?t ?w] =>
    let e := fresh "e" in let w' := fresh "w" in
    destruct (wait_until_clickable P x t w) as [[[]|e] w']
  | |- context [wait_until_visible ?P ?x ?t ?w] =>
    let e := fresh "e" in let w' := fresh "w" in
    destruct (wait_until_visible P x t w) as [[[]|e] w']
  | |- context [element_click ?P ?el ?w] =>
    let e := fresh "e" in let w' := fresh "w" in
    destruct (element_click P el w) as [[[]|e] w']
  | |- context [execute_script_click ?P ?el ?w] =>
    let e := fresh "e" in let w' := fresh "w" in
    destruct (execute_script_click P el w) as [[[]|e] w']
  end.

Ltac class_cases :=
  match goal with
  | H : is_Stale_or_Timeout ?e = _ |- context [is_Stale_or_Timeout ?e] => rewrite H
  | H : is_TimeoutException ?e = _ |- context [is_TimeoutException ?e] => rewrite H
  | H : is_WebDriverException ?e = _ |- context [is_WebDriverException ?e] => rewrite H
  | |- context [is_Stale_or_Timeout ?e] =>
    let E := fresh "E" in destruct (is_Stale_or_Timeout e) eqn:E
  | |- context [is_TimeoutException ?e] =>
    let E := fresh "E" in destruct (is_TimeoutException e) eqn:E
  | |- context [(?a =? ?b)%nat] =>
    let E := fresh "E" in destruct (Nat.eqb_spec a b) as [E|E]
  end.

Ltac click_steps :=
  repeat (cbn [fst snd world set_world];
          unfold bind, ret, raise, act, call_quiet;
          first [banner_cases | page_cases | class_cases]).

Ltac click_done Er :=
  eexists _, _; (split; [reflexivity|]); (split; [repeat split|]);
  first
    [ left; split; [left; reflexivity|unfold waited; cbn; rewrite Er; reflexivity]
    | left; split;
      [right; eexists; split; [reflexivity|first [assumption|reflexivity]]
      |unfold waited; cbn; rewrite Er; reflexivity]
    | right; split; [reflexivity|]; split;
      [assumption|unfold waited; cbn; rewrite Er, <- ?app_assoc; reflexivity] ].

Section ClickTurns.

Context {W : Type} (B : Browser W) (P : Page W).

Lemma click_turn_intro (xpath : pystr) (timeout : Z) (retries : nat)
    (turn : nat -> M W (option unit)) :
  (forall attempt st,
     exists o s',
       turn attempt st = (o, s') /\
       unchanged st s' /\
       let r := fst (wait_until_presence B xpath timeout (world st)) in
       (((o = Ok (Some tt) \/ exists e, o = Raise e /\ is_Stale_or_Timeout e = false) /\
         log s' = log st ++ [EvWaitPresence xpath timeout r])
        \/
        (o = Ok None /\ attempt <> retries - 1 /\
         log s' = log st ++ [EvWaitPresence xpath timeout r; EvSleep 1]))) ->
  click_turn B xpath timeout retries turn.
Proof.
  intros H attempt st. destruct (H attempt st) as (o & s' & -> & Hu & Hc).
  split; [exact Hu|exact Hc].
Qed.

Lemma itrans_click_turn (xpath : pystr) (timeout : Z) (retries : nat) :
  click_turn B xpath timeout retries
    (ItransClicks.click_attempt B P xpath timeout retries).
Proof.
  apply click_turn_intro. intros attempt st.
  unfold ItransClicks.click_attempt, Itrans.wait_element, try_except_if, try_except.
  unfold bind at 1. rewrite wait_element_with_cases.
  destruct (fst (wait_until_presence B xpath timeout (world st))) as [el|e0] eqn:Er.
  all: click_steps.
  all: click_done Er.
Qed.

Lemma zd_click_turn (xpath : pystr) (timeout : Z) (retries : nat)
    (description : option pystr) :
  click_turn B xpath timeout retries
    (ZdClicks.click_attempt B P xpath timeout retries description).
Proof.
  apply click_turn_intro. intros attempt st.
  unfold ZdClicks.click_attempt, ItransZd.wait_element, try_except_if, try_except.
  unfold bind at 1. rewrite wait_element_with_cases.
  destruct (fst (wait_until_presence B xpath timeout (world st))) as [el|e0] eqn:Er.
  all: click_steps.
  all: click_done Er.
Qed.

Lemma lks_wait_element_cases (xpath : pystr) (timeout : Z) (st : State W) :
  LksTest.wait_element B xpath timeout st =
  (match fst (wait_until_presence B xpath timeout (world st)) with
   | Ok el => Ok el
   | Raise e => if is_TimeoutException e then Raise (LksTest.not_found xpath) else Raise e
   end, waited B xpath timeout st).
Proof.
  unfold LksTest.wait_element, try_except_if, try_except, call, raise, waited.
  destruct (wait_until_presence B xpath timeout (world st)) as [[el|e] w']; cbn [fst snd];
    [reflexivity|]. now destruct (is_TimeoutException e).
Qed.

Lemma lks_click_turn (xpath : pystr) (timeout : Z) (retries : nat) :
  click_turn B xpath timeout retries
    (LksTest.click_attempt B P xpath timeout retries).
Proof.
  apply click_turn_intro. intros attempt st.
  unfold LksTest.click_attempt, try_except_if, try_except.
  unfold bind at 1. rewrite lks_wait_element_cases.
  destruct (fst (wait_until_presence B xpath timeout (world st))) as [el|e0] eqn:Er.
  all: click_steps.
  all: click_done Er.
Qed.

End ClickTurns.

(** [click_element] in [itrans.py], [itrans_zd.py] and [lks.py].  A call
    with [retries] waits for the element at most [retries] times, and at
    least once unless [retries] is 0; it sleeps one second between two
    waits and not after the last; it leaves the result, the output and the
    test object as they were; and what it raises is never a
    [TimeoutException] or a [StaleElementReferenceException]: those are
    retried, and after the last attempt replaced by the exception that names
    the locator.  With [retries = 0] the loop is empty: the call returns at
    once, nothing is waited for, clicked or raised. *)
Theorem click_element_bounded_retries {W : Type} (B : Browser W) (P : Page W)
    (xpath : pystr) (timeout : Z) (retries : nat) (description : option pystr)
    (st : State W) :
  click_outcome xpath timeout retries st
    (ItransClicks.click_element B P xpath timeout retries st) /\
  click_outcome xpath timeout retries st
    (ZdClicks.click_element B P xpath timeout retries description st) /\
  click_outcome xpath timeout retries st
    (LksTest.click_element B P xpath timeout retries st) /\
  (retries = 0 ->
   ItransClicks.click_element B P xpath timeout retries st = (Ok tt, st) /\
   ZdClicks.click_element B P xpath timeout retries description st = (Ok tt, st) /\
   LksTest.click_element B P xpath timeout retries st = (Ok tt, st)).
Proof.
  pose proof (click_loop_outcome B xpath timeout retries _ st
                (itrans_click_turn B P xpath timeout retries)) as [H1 Z1].
  pose proof (click_loop_outcome B xpath timeout retries _ st
                (zd_click_turn B P xpath timeout retries description)) as [H2 Z2].
  pose proof (click_loop_outcome B xpath timeout retries _ st
                (lks_click_turn B P xpath timeout retries)) as [H3 Z3].
  split; [exact H1|]. split; [exact H2|]. split; [exact H3|].
  intros H. split; [exact (Z1 H)|]. split; [exact (Z2 H)|exact (Z3 H)].
Qed.

Section PresenceTimeout.

Context {W : Type} (B : Browser W) (P : Page W).

Lemma loop_stops_on_raise (turn : nat -> M W (option unit)) (n : nat)
    (st st' : State W) (x : exn) :
  turn 0 st = (Raise x, st') ->
  bind (for_range (seq 0 (S n)) turn) (fun _ => ret tt) st = (Raise x, st').
Proof.
  intros H. unfold bind. cbn [seq]. now rewrite for_range_cons, H.
Qed.

Lemma wait_element_with_timeout (nf : pystr -> pystr) (xpath : pystr) (timeout : Z)
    (st : State W) (e : exn) :
  fst (wait_until_presence B xpath timeout (world st)) = Raise e ->
  is_TimeoutException e = true ->
  exists x,
    ItransTest.wait_element_with B nf xpath timeout st =
      (Raise x, waited B xpath timeout st) /\
    is_WebDriverException x = false /\
    (x = Exn Exception (nf xpath) \/
     fst (ItransTest.raise_if_error_banner B (waited B xpath timeout st)) = Raise x).
Proof.
  intros Hr Ht. rewrite wait_element_with_cases, Hr, Ht.
  pose proof (banner_check_no_driver_error B (waited B xpath timeout st)) as Hb.
  destruct (fst (ItransTest.raise_if_error_banner B _)) as [[]|b].
  - eexists. split; [reflexivity|]. split; [reflexivity|now left].
  - exists b. split; [reflexivity|]. split; [now apply Hb|now right].
Qed.

End PresenceTimeout.

(** A timeout of the wait for presence is not retried by [click_element]:
    [wait_element] has already turned it into a plain exception, which the
    [except] clause of the loop does not catch.  Whatever [retries] is, once
    positive, the call ends after one wait, without a sleep and without a
    click, with what [wait_element] raised: in [itrans.py] and [itrans_zd.py]
    the exception of the banner check or the one that names the locator, in
    [lks.py] always the latter. *)
Theorem presence_timeout_is_not_retried {W : Type} (B : Browser W) (P : Page W)
    (xpath : pystr) (timeout : Z) (n : nat) (description : option pystr)
    (st : State W) (e : exn) :
  fst (wait_until_presence B xpath timeout (world st)) = Raise e ->
  is_TimeoutException e = true ->
  let st' := waited B xpath timeout st in
  log st' = log st ++ [EvWaitPresence xpath timeout (Raise e)] /\
  (exists x,
     Itrans.wait_element B xpath timeout st = (Raise x, st') /\
     ItransClicks.click_element B P xpath timeout (S n) st = (Raise x, st') /\
     is_Stale_or_Timeout x = false) /\
  (exists x,
     ItransZd.wait_element B xpath timeout st = (Raise x, st') /\
     ZdClicks.click_element B P xpath timeout (S n) description st = (Raise x, st') /\
     is_Stale_or_Timeout x = false) /\
  LksTest.click_element B P xpath timeout (S n) st =
    (Raise (LksTest.not_found xpath), st').
Proof.
  intros Hr Ht st'. subst st'.
  split; [unfold waited; cbn; now rewrite Hr|]. split; [|split].
  - destruct (wait_element_with_timeout B (fun x => py "Element not found: " ++ x)
                xpath timeout st e Hr Ht) as (x & Hw & Hx & _).
    destruct (driver_error_classes x Hx) as [_ Hs].
    exists x. split; [exact Hw|]. split; [|exact Hs].
    apply loop_stops_on_raise.
    unfold ItransClicks.click_attempt, try_except_if, try_except, bind, Itrans.wait_element.
    now rewrite Hw, Hs.
  - destruct (wait_element_with_timeout B
                (fun x => py "Ошибка при поиске элемента Локатор = " ++ x ++ py ".")
                xpath timeout st e Hr Ht) as (x & Hw & Hx & _).
    destruct (driver_error_classes x Hx) as [_ Hs].
    exists x. split; [exact Hw|]. split; [|exact Hs].
    apply loop_stops_on_raise.
    unfold ZdClicks.click_attempt, try_except_if, try_except, bind, ItransZd.wait_element.
    now rewrite Hw, Hs.
  - apply loop_stops_on_raise.
    unfold LksTest.click_attempt, try_except_if, try_except, bind.
    now rewrite lks_wait_element_cases, Hr, Ht.
Qed.

(** The button never appears, three attempts allowed. *)
Lemma presence_timeout_is_not_retried_witness :
  let st := set_test_driver true (initial_state Sim.timed_out_page) in
  log (snd (LksTest.click_element Sim.browser SimPage.no_clicks (py "//button") 10 3 st)) =
  [EvWaitPresence (py "//button") 10 (Raise Sim.timeout_error)].
Proof.
  intros st.
  destruct (presence_timeout_is_not_retried Sim.browser SimPage.no_clicks (py "//button")
              10 2 None st Sim.timeout_error eq_refl eq_refl)
    as (Hlog & _ & _ & Hlks).
  rewrite Hlks. exact Hlog.
Defined.

Section Presence.

Context {W : Type} (B : Browser W) (P : Page W).

Lemma element_is_present_cases (xpath : pystr) (timeout : Z) (st : State W) :
  let st' := waited B xpath timeout st in
  ItransClicks.element_is_present B xpath timeout st =
  (match fst (wait_until_presence B xpath timeout (world st)),
         fst (ItransTest.raise_if_error_banner B st') with
   | Ok _, Ok _ => Ok true
   | Ok _, Raise b => Raise b
   | Raise e, Ok _ => if is_TimeoutException e then Ok false else Raise e
   | Raise e, Raise b => if is_TimeoutException e then Raise b else Raise e
   end, st').
Proof.
  intros st'. subst st'. unfold waited.
  unfold ItransClicks.element_is_present, try_except_if, try_except, bind, call, ret, raise.
  destruct (wait_until_presence B xpath timeout (world st)) as [[el|e] w']; cbn [fst snd].
  - rewrite banner_check_eq.
    pose proof (banner_check_no_driver_error B
                  (add_log (EvWaitPresence xpath timeout (Ok el)) (set_world w' st))) as H.
    destruct (fst (ItransTest.raise_if_error_banner B _)) as [[]|b]; [reflexivity|].
    destruct (driver_error_classes b (H b eq_refl)) as [-> _]. reflexivity.
  - destruct (is_TimeoutException e); [|now destruct (fst _)].
    rewrite banner_check_eq.
    now destruct (fst (ItransTest.raise_if_error_banner B _)) as [[]|b].
Qed.

End Presence.

(** [element_is_present] in [itrans.py] and [itrans_zd.py].  It waits for
    the element once and then runs the banner check, whether the element was
    found or the wait timed out.  It answers [True] only when the element
    was found, and [False] only when the wait timed out, and in both cases
    only when the banner check passed; when the check raises, that exception
    is what the caller sees instead of the answer.  With the check enabled
    and a driver set, this is the banner failure with the text of the alert
    when the check reaches a displayed error alert before any of its queries
    fails; when a query fails with a driver error first, the check passes.
    An exception of the wait that is not a timeout goes through. *)
Theorem element_is_present_checks_banner {W : Type} (B : Browser W) (st : State W)
    (xpath : pystr) (timeout : Z) :
  let r := fst (wait_until_presence B xpath timeout (world st)) in
  let st' := waited B xpath timeout st in
  let timed_out := exists e, r = Raise e /\ is_TimeoutException e = true in
  let checked := fst (ItransTest.raise_if_error_banner B st') in
  let out := ItransClicks.element_is_present B xpath timeout st in
  snd out = st' /\
  (fst out = Ok true <-> (exists el, r = Ok el) /\ checked = Ok tt) /\
  (fst out = Ok false <-> timed_out /\ checked = Ok tt) /\
  ((exists el, r = Ok el) \/ timed_out ->
   forall b, checked = Raise b -> fst out = Raise b) /\
  ((exists el, r = Ok el) \/ timed_out ->
   check_error_banner st = true -> test_driver st = true ->
   (forall el t, finds_banner B (world st') el t ->
      fst out =
        Raise (Exn Exception
                 (py "Обнаружено сообщение об ошибке на странице: "
                    ++ strip (or_empty t)))) /\
   (forall x, query_fails B (world st') x -> is_WebDriverException x = true ->
      checked = Ok tt)) /\
  (forall e, r = Raise e -> is_TimeoutException e = false -> fst out = Raise e).
Proof.
  intros r st' timed_out checked out. subst out.
  rewrite element_is_present_cases. fold st'. fold r. fold checked. cbn [fst snd].
  assert (Hfound : forall b : exn,
             ((exists el, r = Ok el) \/ timed_out) -> checked = Raise b ->
             match r with
             | Ok _ => Raise b
             | Raise e => if is_TimeoutException e then Raise b else Raise e
             end = @Raise bool b).
  { intros b [[el Hr]|(e & Hr & Ht)] _; rewrite Hr; [reflexivity|now rewrite Ht]. }
  split; [reflexivity|]. split; [|split; [|split; [|split]]].
  - split.
    + destruct r as [el|e]; destruct checked as [[]|b];
        try destruct (is_TimeoutException e); intros H; try discriminate H.
      split; [now exists el|reflexivity].
    + intros [[el ->] ->]. reflexivity.
  - split.
    + destruct r as [el|e]; destruct checked as [[]|b];
        try destruct (is_TimeoutException e) eqn:E; intros H; try discriminate H.
      split; [now exists e|reflexivity].
    + intros [(e & -> & ->) ->]. reflexivity.
  - intros Hr b Hb. rewrite Hb. now apply Hfound.
  - intros Hr Hon Hd. split.
    + intros el t Hb.
      assert (Hc : checked =
                   Raise (Exn Exception
                            (py "Обнаружено сообщение об ошибке на странице: "
                               ++ strip (or_empty t)))).
      { unfold checked. now rewrite (banner_check_finds B el t st' Hon Hd Hb). }
      rewrite Hc. now apply Hfound.
    + intros x Hq Hw. unfold checked.
      now rewrite (banner_check_fails B x st' Hon Hd Hq), Hw.
  - intros e -> Ht. rewrite Ht. now destruct checked.
Qed.

(** The tab is there, and so is an error alert. *)
Lemma element_is_present_checks_banner_witness :
  fst (ItransClicks.element_is_present Sim.browser (py "//*[@id='sales']") 10
         (set_test_driver true (initial_state (Sim.scripted [] [] [Sim.error_alert])))) =
  Raise (Exn Exception
           (py "Обнаружено сообщение об ошибке на странице: Произошла ОШИБКА сервера")).
Proof.
  destruct (element_is_present_checks_banner Sim.browser
              (set_test_driver true (initial_state (Sim.scripted [] [] [Sim.error_alert])))
              (py "//*[@id='sales']") 10) as (_ & _ & _ & _ & H & _).
  destruct (H (or_introl (ex_intro _ 0%nat eq_refl)) eq_refl eq_refl) as [Hb _].
  refine (eq_trans (Hb 0%nat (Some (py "  Произошла ОШИБКА сервера ")) _) _).
  - exists [0%nat], [], [], (Some (py "alert alert-danger show")).
    split; [reflexivity|]. split; [repeat constructor; now exists true|].
    split; [reflexivity|]. split; [constructor|]. split; [now split|].
    apply is_error_marks. vm_compute. reflexivity.
  - vm_compute. reflexivity.
Defined.

(** [element_is_present] in [lks.py].  Its [except] clause names
    [TimeoutException], but a timeout never reaches it: [wait_element] has
    already replaced the timeout by a plain exception, which leaves
    [element_is_present] as it is.  The answer is [True] when the element was
    found, and [False] only when the wait raised a driver error that is not
    a timeout. *)
Theorem lks_element_is_present_raises_on_timeout {W : Type} (B : Browser W)
    (st : State W) (xpath : pystr) (timeout : Z) :
  let r := fst (wait_until_presence B xpath timeout (world st)) in
  let out := LksTest.element_is_present B xpath timeout st in
  snd out = waited B xpath timeout st /\
  (forall e, r = Raise e -> is_TimeoutException e = true ->
     fst out = Raise (LksTest.not_found xpath)) /\
  (fst out = Ok true <-> exists el, r = Ok el) /\
  (fst out = Ok false <->
   exists e, r = Raise e /\ is_WebDriverException e = true /\
             is_TimeoutException e = false) /\
  (forall e, r = Raise e -> is_WebDriverException e = false -> fst out = Raise e).
Proof.
  intros r out. subst out.
  unfold LksTest.element_is_present, try_except_if, try_except, bind.
  rewrite lks_wait_element_cases. fold r.
  assert (Hcls : forall e, is_TimeoutException e = true -> is_WebDriverException e = true).
  { intros e. unfold is_TimeoutException, is_WebDriverException.
    now destruct (exn_cls e). }
  destruct r as [el|e]; cbn [fst snd ret raise].
  - split; [reflexivity|]. split; [intros e H; discriminate H|].
    split; [split; [intros _; now exists el|reflexivity]|].
    split; [|intros e H; discriminate H].
    split; [intros H; discriminate H|intros (e & H & _); discriminate H].
  - destruct (is_TimeoutException e) eqn:Et; cbn [is_WebDriverException exn_cls LksTest.not_found].
    + split; [reflexivity|]. split; [reflexivity|].
      split; [split; [intros H; discriminate H|intros [el H]; discriminate H]|].
      split.
      * split; [intros H; discriminate H|].
        intros (e' & H & _ & Ht). injection H as <-. congruence.
      * intros e' H Hw. injection H as <-. rewrite (Hcls e Et) in Hw. discriminate Hw.
    + destruct (is_WebDriverException e) eqn:Ew.
      * split; [reflexivity|]. split; [intros e' H Ht; injection H as <-; congruence|].
        split; [split; [intros H; discriminate H|intros [el H]; discriminate H]|].
        split; [split; [intros _; now exists e|reflexivity]|].
        intros e' H Hw. injection H as <-. congruence.
      * split; [reflexivity|]. split; [intros e' H Ht; injection H as <-; congruence|].
        split; [split; [intros H; discriminate H|intros [el H]; discriminate H]|].
        split.
        { split; [intros H; discriminate H|].
          intros (e' & H & Hw & _). injection H as <-. congruence. }
        intros e' H _. now injection H as <-.
Qed.

(** The element never appears. *)
Lemma lks_element_is_present_raises_on_timeout_witness :
  fst (LksTest.element_is_present Sim.browser (py "//nav") 5
         (initial_state Sim.timed_out_page)) =
  Raise (LksTest.not_found (py "//nav")).
Proof.
  exact (proj1 (proj2 (lks_element_is_present_raises_on_timeout Sim.browser
                         (initial_state Sim.timed_out_page) (py "//nav") 5))
           Sim.timeout_error eq_refl eq_refl).
Defined.

Lemma visibility_title (title xpath : pystr) :
  title <> [] ->
  exn_str (ZdClicks.visibility_failure (Some title) xpath) =
  py "Ошибка при проверке видимости надписи " ++ QUOTE ++ title ++ QUOTE
    ++ py " Локатор = " ++ xpath ++ py ".".
Proof.
  intros Ht. destruct title as [|c title]; [contradiction|].
  unfold ZdClicks.visibility_failure, ZdClicks.title_part.
  cbn [or_empty truthy exn_str]. rewrite <- !app_assoc. reflexivity.
Qed.

(** [wait_visible_by_xpath] of [itrans_zd.py].  When the wait times out,
    the call raises the exception that names the label and the locator, and
    the banner check is not run: this is so whatever the page shows.  The
    check is run only after the label became visible.  The title is set in
    quotes after one blank, and left out with its quotes when there is no
    description or an empty one. *)
Theorem wait_visible_skips_banner_on_timeout {W : Type} (B : Browser W) (P : Page W)
    (st : State W) (xpath : pystr) (timeout : Z) (description : option pystr) :
  let r := fst (wait_until_visible P xpath timeout (world st)) in
  let st' := set_world (snd (wait_until_visible P xpath timeout (world st))) st in
  let out := ZdClicks.wait_visible_by_xpath B P xpath timeout description st in
  snd out = st' /\
  (forall e, r = Raise e -> is_TimeoutException e = true ->
     fst out = Raise (ZdClicks.visibility_failure description xpath)) /\
  (r = Ok tt -> fst out = fst (ItransTest.raise_if_error_banner B st')) /\
  (forall e, r = Raise e -> is_TimeoutException e = false -> fst out = Raise e) /\
  (forall title, title <> [] ->
     exn_str (ZdClicks.visibility_failure (Some title) xpath) =
     py "Ошибка при проверке видимости надписи " ++ QUOTE ++ title ++ QUOTE
       ++ py " Локатор = " ++ xpath ++ py ".") /\
  exn_str (ZdClicks.visibility_failure None xpath) =
    py "Ошибка при проверке видимости надписи Локатор = " ++ xpath ++ py "." /\
  ZdClicks.visibility_failure (Some []) xpath = ZdClicks.visibility_failure None xpath.
Proof.
  intros r st' out. subst out r st'.
  unfold ZdClicks.wait_visible_by_xpath, try_except_if, try_except, bind, act, raise.
  destruct (wait_until_visible P xpath timeout (world st)) as [[[]|e] w']; cbn [fst snd].
  - rewrite banner_check_eq.
    pose proof (banner_check_no_driver_error B (set_world w' st)) as Hb.
    destruct (fst (ItransTest.raise_if_error_banner B (set_world w' st))) as [[]|b] eqn:Eb.
    + repeat split; try (intros e H; discriminate H).
      * intros title Ht. now apply visibility_title.
    + destruct (driver_error_classes b (Hb b eq_refl)) as [-> _].
      repeat split; try (intros e H; discriminate H).
      * intros title Ht. now apply visibility_title.
  - destruct (is_TimeoutException e) eqn:Et.
    + repeat split; try (intros H; discriminate H).
      * intros e' H Ht. injection H as <-. congruence.
      * intros title Ht. now apply visibility_title.
    + repeat split; try (intros H; discriminate H).
      * intros e' H Ht. injection H as <-. congruence.
      * intros e' H _. now injection H as <-.
      * intros title Ht. now apply visibility_title.
Qed.

(** ** Base64 *)

Lemma b64_chars_below (f : N -> bool) :
  forallb f (map N.of_nat (seq 0 64)) = true ->
  forall v, (v < 64)%N -> f v = true.
Proof. intros H v Hv. now apply (forallb_below f 64). Qed.

Lemma b64_value_char (v : N) : (v < 64)%N -> b64_value (b64_char v) = Some v.
Proof.
  intros Hv.
  pose proof (b64_chars_below
                (fun v => match b64_value (b64_char v) with
                          | Some x => (x =? v)%N
                          | None => false
                          end) ltac:(vm_compute; reflexivity) v Hv) as H.
  cbv beta in H. destruct (b64_value (b64_char v)) as [x|]; [|discriminate].
  apply N.eqb_eq in H. now subst.
Qed.

Lemma b64_char_not_pad (v : N) : (v < 64)%N -> (b64_char v =? B64_PAD)%N = false.
Proof.
  intros Hv.
  apply negb_true_iff.
  apply (b64_chars_below (fun v => negb (b64_char v =? B64_PAD)%N));
    [vm_compute; reflexivity|exact Hv].
Qed.

Lemma b64_char_ascii (v : N) : (b64_char v <? 128)%N = true.
Proof.
  destruct (N.lt_ge_cases v 64) as [Hv|Hv].
  - apply (b64_chars_below (fun v => (b64_char v <? 128)%N));
      [vm_compute; reflexivity|exact Hv].
  - unfold b64_char. rewrite nth_overflow; [reflexivity|].
    change (length B64_ALPHABET) with 64%nat. lia.
Qed.

(** One character of the alphabet read by the decoder. *)
Lemma a2b_char (v : N) (rest : pystr) (quad_pos : nat) (leftchar : N) (pads : nat)
    (out : list N) :
  (v < 64)%N ->
  a2b_base64 (b64_char v :: rest) quad_pos leftchar pads out =
  match quad_pos with
  | 0 => a2b_base64 rest 1 v 0 out
  | 1 => a2b_base64 rest 2 (v mod 16) 0 (out ++ [leftchar * 4 + v / 16])%N
  | 2 => a2b_base64 rest 3 (v mod 4) 0 (out ++ [leftchar * 16 + v / 4])%N
  | _ => a2b_base64 rest 0 0 0 (out ++ [leftchar * 64 + v])%N
  end.
Proof.
  intros Hv. cbn [a2b_base64].
  now rewrite (b64_char_not_pad v Hv), (b64_value_char v Hv).
Qed.

Ltac byte_facts :=
  repeat match goal with
  | |- (_ / _ < _)%N => apply N.Div0.div_lt_upper_bound; lia
  | |- (_ mod _ < _)%N => apply N.mod_upper_bound; lia
  | |- (_ < _)%N => lia
  end.

Lemma six_bits (a b c : N) :
  (a < 256)%N -> (b < 256)%N -> (c < 256)%N ->
  (a / 4 < 64 /\ a mod 4 * 16 + b / 16 < 64 /\ b mod 16 * 4 + c / 64 < 64 /\
   c mod 64 < 64 /\ a mod 4 * 16 < 64 /\ b mod 16 * 4 < 64)%N.
Proof.
  intros Ha Hb Hc.
  assert (a / 4 < 64)%N by (apply N.Div0.div_lt_upper_bound; lia).
  assert (b / 16 < 16)%N by (apply N.Div0.div_lt_upper_bound; lia).
  assert (c / 64 < 4)%N by (apply N.Div0.div_lt_upper_bound; lia).
  assert (a mod 4 < 4)%N by (apply N.mod_upper_bound; lia).
  assert (b mod 16 < 16)%N by (apply N.mod_upper_bound; lia).
  assert (c mod 64 < 64)%N by (apply N.mod_upper_bound; lia).
  lia.
Qed.

Lemma join_bits (hi lo k : N) :
  (k <> 0)%N -> (lo < k)%N ->
  ((hi * k + lo) / k = hi /\ (hi * k + lo) mod k = lo)%N.
Proof.
  intros Hk Hlo. split.
  - rewrite N.add_comm, N.div_add by exact Hk. rewrite N.div_small by exact Hlo. lia.
  - rewrite N.add_comm, N.Div0.mod_add. now apply N.mod_small.
Qed.

Lemma split_bits (a k : N) : (k <> 0)%N -> (a / k * k + a mod k = a)%N.
Proof. intros Hk. rewrite (N.div_mod a k) at 3 by exact Hk. lia. Qed.

Lemma decode_three (a b c : N) (rest : pystr) (leftchar : N) (pads : nat)
    (out : list N) :
  (a < 256)%N -> (b < 256)%N -> (c < 256)%N ->
  a2b_base64
    ([b64_char (a / 4); b64_char (a mod 4 * 16 + b / 16);
      b64_char (b mod 16 * 4 + c / 64); b64_char (c mod 64)]%N ++ rest)
    0 leftchar pads out =
  a2b_base64 rest 0 0 0 (out ++ [a; b; c]).
Proof.
  intros Ha Hb Hc.
  destruct (six_bits a b c Ha Hb Hc) as (H1 & H2 & H3 & H4 & _).
  assert (Hb16 : (b / 16 < 16)%N) by (apply N.Div0.div_lt_upper_bound; lia).
  assert (Hc64 : (c / 64 < 4)%N) by (apply N.Div0.div_lt_upper_bound; lia).
  cbn [app].
  rewrite (a2b_char _ _ 0 _ _ _ H1), (a2b_char _ _ 1 _ _ _ H2),
    (a2b_char _ _ 2 _ _ _ H3), (a2b_char _ _ 3 _ _ _ H4).
  destruct (join_bits (a mod 4) (b / 16) 16 ltac:(lia) Hb16) as [-> ->].
  destruct (join_bits (b mod 16) (c / 64) 4 ltac:(lia) Hc64) as [-> ->].
  rewrite (split_bits a 4), (split_bits b 16), (split_bits c 64) by lia.
  rewrite <- !app_assoc. reflexivity.
Qed.

Lemma decode_two (a b : N) (leftchar : N) (pads : nat) (out : list N) :
  (a < 256)%N -> (b < 256)%N ->
  a2b_base64
    [b64_char (a / 4); b64_char (a mod 4 * 16 + b / 16);
     b64_char (b mod 16 * 4); B64_PAD]%N 0 leftchar pads out =
  Ok (out ++ [a; b]).
Proof.
  intros Ha Hb.
  destruct (six_bits a b 0 Ha Hb ltac:(lia)) as (H1 & H2 & _ & _ & _ & H3).
  assert (Hb16 : (b / 16 < 16)%N) by (apply N.Div0.div_lt_upper_bound; lia).
  rewrite (a2b_char _ _ 0 _ _ _ H1), (a2b_char _ _ 1 _ _ _ H2),
    (a2b_char _ _ 2 _ _ _ H3).
  destruct (join_bits (a mod 4) (b / 16) 16 ltac:(lia) Hb16) as [-> ->].
  destruct (join_bits (b mod 16) 0 4 ltac:(lia) ltac:(lia)) as [E _].
  rewrite N.add_0_r in E. rewrite E.
  rewrite (split_bits a 4), (split_bits b 16) by lia.
  cbn. rewrite <- !app_assoc. reflexivity.
Qed.

Lemma decode_one (a : N) (leftchar : N) (pads : nat) (out : list N) :
  (a < 256)%N ->
  a2b_base64 [b64_char (a / 4); b64_char (a mod 4 * 16); B64_PAD; B64_PAD]%N
    0 leftchar pads out =
  Ok (out ++ [a]).
Proof.
  intros Ha.
  destruct (six_bits a 0 0 Ha ltac:(lia) ltac:(lia)) as (H1 & _ & _ & _ & H2 & _).
  rewrite (a2b_char _ _ 0 _ _ _ H1), (a2b_char _ _ 1 _ _ _ H2).
  destruct (join_bits (a mod 4) 0 16 ltac:(lia) ltac:(lia)) as [E _].
  rewrite N.add_0_r in E. rewrite E.
  rewrite (split_bits a 4) by lia. reflexivity.
Qed.

(** Induction on a list three elements at a time. *)
Lemma list_ind3 {A : Type} (Q : list A -> Prop) :
  Q [] -> (forall a, Q [a]) -> (forall a b, Q [a; b]) ->
  (forall a b c rest, Q rest -> Q (a :: b :: c :: rest)) ->
  forall l, Q l.
Proof.
  intros H0 H1 H2 H3.
  assert (H : forall l, Q l /\ (forall a, Q (a :: l)) /\ (forall a b, Q (a :: b :: l))).
  { induction l as [|x l (I0 & I1 & I2)]; [auto|].
    split; [apply I1|]. split; [intros a; apply I2|]. intros a b. now apply H3. }
  intros l. apply H.
Qed.

Lemma a2b_encode (bs : list N) :
  Forall (fun b => (b < 256)%N) bs ->
  forall leftchar pads out,
    a2b_base64 (b64encode bs) 0 leftchar pads out = Ok (out ++ bs).
Proof.
  induction bs as [|a|a b|a b c rest IH] using list_ind3; intros Hall lc pads out.
  - cbn. now rewrite app_nil_r.
  - inversion_clear Hall as [|? ? Ha _]. now apply decode_one.
  - inversion_clear Hall as [|? ? Ha H]. inversion_clear H as [|? ? Hb _].
    now apply decode_two.
  - inversion_clear Hall as [|? ? Ha H]. inversion_clear H as [|? ? Hb H0].
    inversion_clear H0 as [|? ? Hc Hrest].
    cbn [b64encode]. rewrite (decode_three a b c _ lc pads out Ha Hb Hc).
    rewrite (IH Hrest). now rewrite <- app_assoc.
Qed.

Lemma b64encode_ascii (bs : list N) :
  forallb (fun c => (c <? 128)%N) (b64encode bs) = true.
Proof.
  induction bs as [|a|a b|a b c rest IH] using list_ind3;
    cbn [b64encode forallb app]; rewrite ?b64_char_ascii, ?IH; reflexivity.
Qed.

Lemma b64encode_length (bs : list N) :
  length (b64encode bs) = 4 * ((length bs + 2) / 3).
Proof.
  induction bs as [|a|a b|a b c rest IH] using list_ind3; try reflexivity.
  cbn [b64encode length app]. rewrite IH.
  replace (S (S (S (length rest))) + 2) with (length rest + 2 + 1 * 3) by lia.
  rewrite Nat.div_add by lia. lia.
Qed.

(** [base64.b64decode] undoes [base64.b64encode]: the string that
    [get_screenshot_b64] puts into the report decodes to the bytes of the
    screenshot.  That string is ASCII, four characters for every three bytes
    or part of three, and empty only for no bytes at all. *)
Theorem b64decode_b64encode (png_bytes : list N) :
  Forall (fun b => (b < 256)%N) png_bytes ->
  b64decode (b64encode png_bytes) = Ok png_bytes /\
  forallb (fun c => (c <? 128)%N) (b64encode png_bytes) = true /\
  length (b64encode png_bytes) = 4 * ((length png_bytes + 2) / 3) /\
  (truthy (Some (b64encode png_bytes)) = false <-> png_bytes = []).
Proof.
  intros H. split; [|split; [apply b64encode_ascii|split; [apply b64encode_length|]]].
  - unfold b64decode. rewrite b64encode_ascii. exact (a2b_encode png_bytes H 0%N 0 []).
  - destruct png_bytes as [|a [|b [|c rest]]]; cbn; split; congruence.
Qed.

Lemma b64decode_b64encode_witness :
  b64encode [137; 80; 78; 71]%N = py "iVBORw==" /\
  b64decode (py "iVBORw==") = Ok [137; 80; 78; 71]%N.
Proof.
  assert (E : b64encode [137; 80; 78; 71]%N = py "iVBORw==") by reflexivity.
  split; [exact E|]. rewrite <- E.
  apply (b64decode_b64encode [137; 80; 78; 71]%N).
  repeat constructor.
Defined.

(** ** Alerts *)

Lemma falsy_or (a b : option pystr) :
  truthy a = false \/ truthy b = false -> negb (truthy a) || negb (truthy b) = true.
Proof. intros [H|H]; rewrite H; [reflexivity|apply orb_true_r]. Qed.

Lemma truthy_both (a b : option pystr) :
  truthy a = true -> truthy b = true -> negb (truthy a) || negb (truthy b) = false.
Proof. intros -> ->. reflexivity. Qed.

Lemma encoded_truthy (png : list N) :
  png <> [] -> truthy (Some (b64encode png)) = true.
Proof. destruct png as [|a [|b [|c rest]]]; [contradiction| | |]; reflexivity. Qed.

Lemma encoded_decodes (png : list N) :
  Forall (fun b => (b < 256)%N) png -> b64decode (b64encode png) = Ok png.
Proof. intros H. unfold b64decode. rewrite b64encode_ascii. exact (a2b_encode png H 0%N 0 []). Qed.

(** [send_telegram_alert] of [itrans.py], with [get_screenshot_b64].
    Without a token or without a chat id nothing is sent.  With both, one
    request is posted and its answer dropped: [sendMessage] with the text
    when there is no screenshot or an empty one, [sendPhoto] with the text as
    caption when there is one, and the photo it carries is, byte for byte,
    the screenshot the driver took.  A screenshot string that cannot be
    decoded makes the call send nothing at all, the text included. *)
Theorem itrans_alert_posts_the_screenshot {W : Type} (sv : Services W)
    (token chat_id : option pystr) (text : pystr) (w : W) :
  let send := ItransAlert.send_telegram_alert sv token chat_id text in
  (truthy token = false \/ truthy chat_id = false ->
   forall shot, send shot w = w) /\
  (truthy token = true -> truthy chat_id = true ->
   (forall shot, truthy shot = false ->
      send shot w =
      snd (requests_post sv (message_request token (or_empty chat_id) text None 15) w)) /\
   (forall w0 s, get_screenshot_b64_of sv w0 = (Ok s, w) ->
      exists png_bytes,
        driver_get_screenshot_as_png sv w0 = (Ok png_bytes, w) /\
        s = b64encode png_bytes /\
        (Forall (fun b => (b < 256)%N) png_bytes -> png_bytes <> [] ->
         send (Some s) w =
         snd (requests_post sv
                (photo_request token (or_empty chat_id) text None png_bytes 15) w))) /\
   (forall s e, truthy (Some s) = true -> b64decode s = Raise e ->
      send (Some s) w = w)).
Proof.
  intros send. subst send. unfold ItransAlert.send_telegram_alert. split.
  - intros H shot. now rewrite (falsy_or token chat_id H).
  - intros Ht Hc. rewrite (truthy_both token chat_id Ht Hc). split; [|split].
    + intros shot ->. reflexivity.
    + intros w0 s Hs. unfold get_screenshot_b64_of in Hs.
      destruct (driver_get_screenshot_as_png sv w0) as [[png|e] w']; [|discriminate Hs].
      injection Hs as <- <-. exists png. split; [reflexivity|]. split; [reflexivity|].
      intros Hb Hne. rewrite (encoded_truthy png Hne). cbn [or_empty].
      now rewrite (encoded_decodes png Hb).
    + intros s e Hs Hd. rewrite Hs. cbn [or_empty]. now rewrite Hd.
Qed.

Lemma safe_caption_length (text : pystr) (shot : option pystr) :
  truthy shot = true -> length (ZdAlert.safe_caption text shot) <= 1001.
Proof.
  intros Hs. unfold ZdAlert.safe_caption. rewrite Hs. cbn [andb].
  destruct (Nat.ltb_spec 1000 (length text)) as [H|H]; [|lia].
  rewrite length_app, length_firstn.
  change (length ZdAlert.ELLIPSIS) with 1. lia.
Qed.

(** [send_telegram_alert] of [itrans_zd.py].  The caption of a photo is the
    text when the text has at most 1000 characters, and otherwise its first
    1000 characters and an ellipsis: never more than 1001.  A text sent as a
    message is not shortened.  The photo is the screenshot the driver took;
    requests wait for at most 20 seconds; and with debugging off nothing is
    written to the error stream, whatever the answer. *)
Theorem zd_alert_caption_is_bounded {W : Type} (sv : Services W)
    (environ : list (pystr * pystr)) (token chat_id : option pystr) (text : pystr)
    (w : W) :
  let send := ZdAlert.send_telegram_alert sv environ token chat_id text in
  let debug := telegram_debug environ in
  (truthy token = false \/ truthy chat_id = false ->
   forall shot, send shot w = if debug then stderr_print sv SKIPPED w else w) /\
  (truthy token = true -> truthy chat_id = true ->
   (forall shot, truthy shot = false ->
      send shot w =
      report_post sv debug
        (requests_post sv (message_request token (or_empty chat_id) text None 20) w)) /\
   (forall png_bytes, Forall (fun b => (b < 256)%N) png_bytes -> png_bytes <> [] ->
      let shot := Some (b64encode png_bytes) in
      let caption := ZdAlert.safe_caption text shot in
      send shot w =
      report_post sv debug
        (requests_post sv
           (photo_request token (or_empty chat_id) caption None png_bytes 20) w) /\
      length caption <= 1001 /\
      (length text <= 1000 -> caption = text) /\
      (1000 < length text -> caption = firstn 1000 text ++ ZdAlert.ELLIPSIS))) /\
  (debug = false -> forall out, report_post sv debug out = snd out).
Proof.
  intros send debug. subst send. unfold ZdAlert.send_telegram_alert. fold debug.
  split; [|split].
  - intros H shot. rewrite (falsy_or token chat_id H). unfold when. reflexivity.
  - intros Ht Hc. rewrite (truthy_both token chat_id Ht Hc). split.
    + intros shot ->. reflexivity.
    + intros png Hb Hne. cbv zeta.
      pose proof (encoded_truthy png Hne) as Hs. rewrite Hs. cbn [or_empty].
      rewrite (encoded_decodes png Hb). split; [reflexivity|].
      split; [now apply safe_caption_length|].
      unfold ZdAlert.safe_caption. rewrite Hs. cbn [andb]. split; intros H.
      * destruct (Nat.ltb_spec 1000 (length text)); [lia|reflexivity].
      * destruct (Nat.ltb_spec 1000 (length text)); [reflexivity|lia].
  - intros Hd [[resp|e] w']; unfold report_post, when; rewrite Hd;
      [now rewrite andb_false_r|reflexivity].
Qed.

Lemma str_of_nat_fuel_nonempty (fuel n : nat) (acc : pystr) :
  str_of_nat_fuel (S fuel) n acc <> [].
Proof.
  revert n acc. induction fuel as [|f IH]; intros n acc; cbn [str_of_nat_fuel].
  - destruct (n / 10 =? 0)%nat; discriminate.
  - destruct (n / 10 =? 0)%nat; [discriminate|apply IH].
Qed.

Lemma str_of_nat_truthy (n : nat) : truthy (Some (str_of_nat n)) = true.
Proof.
  unfold str_of_nat. pose proof (str_of_nat_fuel_nonempty n n []) as H.
  destruct (str_of_nat_fuel (S n) n []); [contradiction|reflexivity].
Qed.

(** [send_telegram_alert] of [lks.py].  What is sent does not depend on
    the [text] argument: the error text that the callers pass is not part of
    the message.  The message is the caption built from the step, the date
    and the time, sent as HTML, as the caption of the screenshot when there
    is one.  The step line reads "Шаг n - description" when both are given, as
    in every call of [execute_step_with_retry], whose step number is never
    empty; the description alone when only it is given, as in the handler of
    [main]; and "Шаг N/A" when neither is given or both are empty. *)
Theorem lks_alert_ignores_the_text {W : Type} (sv : Services W)
    (environ : list (pystr * pystr)) (token chat_id : option pystr) (w : W) :
  let send := LksAlert.send_telegram_alert sv environ token chat_id in
  (forall text1 text2 shot num desc, send text1 shot num desc w = send text2 shot num desc w) /\
  (truthy token = true -> truthy chat_id = true ->
   forall text png_bytes num desc,
     Forall (fun b => (b < 256)%N) png_bytes -> png_bytes <> [] ->
     send text (Some (b64encode png_bytes)) num desc w =
     report_post sv (telegram_debug environ)
       (requests_post sv
          (photo_request token (or_empty chat_id)
             (LksAlert.caption (LksAlert.step_info num desc)
                (fst (fst (datetime_now sv w))) (snd (fst (datetime_now sv w))))
             LksAlert.HTML png_bytes 20)
          (snd (datetime_now sv w)))) /\
  (forall n desc, desc <> [] ->
     LksAlert.step_info (Some (str_of_nat n)) (Some desc) =
     py "Шаг " ++ str_of_nat n ++ py " - " ++ desc) /\
  (forall n, LksAlert.step_info (Some (str_of_nat n)) None = py "Шаг " ++ str_of_nat n) /\
  (forall desc, desc <> [] -> LksAlert.step_info None (Some desc) = desc) /\
  LksAlert.step_info None None = py "Шаг N/A" /\
  LksAlert.step_info None (Some []) = py "Шаг N/A".
Proof.
  intros send. subst send. split; [reflexivity|]. split.
  - intros Ht Hc text png num desc Hb Hne.
    unfold LksAlert.send_telegram_alert.
    rewrite (truthy_both token chat_id Ht Hc).
    destruct (datetime_now sv w) as [[d t] w1]. cbn [fst snd].
    rewrite (encoded_truthy png Hne). cbn [or_empty].
    now rewrite (encoded_decodes png Hb).
  - unfold LksAlert.step_info. repeat split.
    + intros n desc Hd. rewrite (str_of_nat_truthy n).
      destruct desc; [contradiction|reflexivity].
    + intros n. now rewrite (str_of_nat_truthy n).
    + intros desc Hd. destruct desc; [contradiction|reflexivity].
Qed.

Lemma png_magic_bytes :
  Forall (fun b => (b < 256)%N) SimPage.PNG_MAGIC /\ SimPage.PNG_MAGIC <> [].
Proof. split; [repeat constructor|discriminate]. Qed.

(** The screenshot of a failed step goes out as the photo it was taken
    as. *)
Lemma itrans_alert_posts_the_screenshot_witness :
  let shot := b64encode SimPage.PNG_MAGIC in
  get_screenshot_b64_of SimPage.outbox [] = (Ok shot, []) /\
  ItransAlert.send_telegram_alert SimPage.outbox SimPage.TOKEN SimPage.CHAT_ID
    (py "Шаг 2 ошибка") (Some shot) [] =
  [photo_request SimPage.TOKEN (py "-1001") (py "Шаг 2 ошибка") None SimPage.PNG_MAGIC 15].
Proof.
  intros shot.
  pose proof (itrans_alert_posts_the_screenshot SimPage.outbox SimPage.TOKEN
                SimPage.CHAT_ID (py "Шаг 2 ошибка") []) as H.
  cbv zeta in H. destruct H as (_ & H).
  destruct (H eq_refl eq_refl) as (_ & Hshot & _).
  destruct (Hshot [] shot eq_refl) as (png_bytes & Hpng & _ & Hsend).
  injection Hpng as <-. split; [reflexivity|].
  rewrite (Hsend (proj1 png_magic_bytes) (proj2 png_magic_bytes)). reflexivity.
Defined.

(** A text of 1200 letters under a photo. *)
Lemma zd_alert_caption_is_bounded_witness :
  let text := repeat 1040%N 1200 in
  ZdAlert.send_telegram_alert SimPage.outbox [] SimPage.TOKEN SimPage.CHAT_ID text
    (Some (b64encode SimPage.PNG_MAGIC)) [] =
  [photo_request SimPage.TOKEN (py "-1001") (firstn 1000 text ++ ZdAlert.ELLIPSIS) None
     SimPage.PNG_MAGIC 20].
Proof.
  intros text.
  pose proof (zd_alert_caption_is_bounded SimPage.outbox [] SimPage.TOKEN SimPage.CHAT_ID
                text []) as H.
  cbv zeta in H. destruct H as (_ & H & _).
  destruct (H eq_refl eq_refl) as (_ & Hphoto).
  destruct (Hphoto SimPage.PNG_MAGIC (proj1 png_magic_bytes) (proj2 png_magic_bytes))
    as (Hsend & _ & _ & Hcut).
  rewrite Hsend, (Hcut ltac:(vm_compute; lia)).
  reflexivity.
Defined.

(** The alert of step 3 of [lks.py]: the text of the error is not in it. *)
Lemma lks_alert_ignores_the_text_witness :
  LksAlert.send_telegram_alert SimPage.outbox [] SimPage.TOKEN SimPage.CHAT_ID
    (py "Шаг 3 ошибка: boom") (Some (b64encode SimPage.PNG_MAGIC))
    (Some (py "3")) (Some (py "step_03")) [] =
  [photo_request SimPage.TOKEN (py "-1001")
     (LksAlert.caption (py "Шаг 3 - step_03") (py "03.11.2026") (py "09:30"))
     LksAlert.HTML SimPage.PNG_MAGIC 20].
Proof.
  pose proof (lks_alert_ignores_the_text SimPage.outbox [] SimPage.TOKEN SimPage.CHAT_ID [])
    as H.
  cbv zeta in H. destruct H as (_ & H & _).
  etransitivity;
    [exact (H eq_refl eq_refl (py "Шаг 3 ошибка: boom") SimPage.PNG_MAGIC
              (Some (py "3")) (Some (py "step_03"))
              (proj1 png_magic_bytes) (proj2 png_magic_bytes))|].
  vm_compute. reflexivity.
Defined.

(** ** The answers of the retry wrappers *)

Section Answers.

Context {W : Type} (B : Browser W).

Lemma reload_page_returns (driver : bool) (st : State W) :
  exists s, Lks.reload_page B driver st = (Ok tt, s).
Proof.
  unfold Lks.reload_page, try_except, bind, call, call_quiet, ret.
  destruct driver; [|now eexists].
  destruct (driver_refresh B (world st)) as [[[]|e] w1]; [|now eexists].
  cbn [world set_world add_log].
  destruct (wait_ready_state B w1) as [[[]|e] w2]; now eexists.
Qed.

Lemma capture_returns (driver : bool) (st : State W) :
  exists o s, Lks.capture B driver st = (Ok o, s) /\ stdout s = stdout st.
Proof.
  unfold Lks.capture, Lks.screenshot_of, try_except, bind, call, call_quiet,
    on_result, update, raise, ret.
  destruct driver; [|now eexists _, _].
  destruct (get_screenshot_b64 B (world st)) as [[s|e] w1]; now eexists _, _.
Qed.

Lemma lks_attempt_answers (n : nat) (key : pystr) (action : M W unit) (driver : bool)
    (m attempt : nat) (st : State W) :
  exists o s,
    Lks.attempt_body B n key action driver m attempt st = (Ok o, s) /\
    match o with
    | None => attempt < m
    | Some b => answered n key b s
    end.
Proof.
  unfold Lks.attempt_body, bind at 1, clock.
  destruct (time_time B (world st)) as [t0 w0].
  set (s0 := add_log (EvTime t0) (set_world w0 st)).
  unfold try_except, bind at 1.
  destruct (action s0) as [[[]|e] s1].
  - unfold bind, clock, on_result, update, ret.
    destruct (time_time B (world s1)) as [t1 w1].
    eexists (Some true), _. split; [reflexivity|].
    cbn [answered test_result set_test_result]. eexists. unfold add_step.
    replace (str_eqb (py "1") (py "0")) with false by (vm_compute; reflexivity).
    cbn [steps]. apply dict_get_set.
  - destruct (Nat.ltb_spec attempt m) as [Hlt|Hge].
    + unfold bind.
      destruct (reload_page_returns driver s1) as (s2 & ->).
      eexists None, _. split; [reflexivity|exact Hlt].
    + unfold bind at 1.
      destruct (capture_returns driver s1) as (o & s2 & -> & _).
      unfold bind, clock, on_result, update, ret, alert, call_quiet, finalize,
        Lks.print_report, print_json, clock, bind, on_result, update.
      destruct (time_time B (world s2)) as [t1 w1].
      cbn [world set_world add_log set_test_result test_result].
      destruct (time_time B _) as [t2 w2].
      eexists (Some false), _. split; [reflexivity|].
      cbn [answered test_result set_test_result add_log set_world add_stdout stdout].
      exists e, t2, (round2 (t1 - t0)), (add_step key (py "0") (t1 - t0) (test_result s2)),
        (stdout s2).
      split; [reflexivity|]. unfold add_step.
      replace (str_eqb (py "0") (py "0")) with true by (vm_compute; reflexivity).
      cbn [steps success]. split; [apply dict_get_set|]. split; reflexivity.
Qed.

Lemma lks_loop_answers (n : nat) (key : pystr) (action : M W unit) (driver : bool)
    (m : nat) :
  forall len a st,
    a + len = m ->
    exists b s,
      for_range (seq a (S len)) (Lks.attempt_body B n key action driver m) st =
        (Ok (Some b), s) /\
      answered n key b s.
Proof.
  induction len as [|len IH]; intros a st Ha;
    cbn [seq]; rewrite for_range_cons;
    destruct (lks_attempt_answers n key action driver m a st) as ([b|] & s1 & -> & H).
  - now exists b, s1.
  - lia.
  - now exists b, s1.
  - apply (IH (S a) s1). lia.
Qed.

Lemma dl_attempt_answers {A} (retries : nat) (delay : Z) (func : M W A) (attempt : nat)
    (st : State W) :
  fst (TestDl.attempt_body B retries delay func attempt st) = Ok None ->
  attempt <> retries - 1.
Proof.
  unfold TestDl.attempt_body, try_except, bind at 1.
  destruct (func st) as [[v|e] s1]; [intros H; discriminate H|].
  destruct (Nat.eqb_spec attempt (retries - 1)) as [He|Hne]; [|intros _; exact Hne].
  intros H; discriminate H.
Qed.

Lemma dl_loop_answers {A} (retries : nat) (delay : Z) (func : M W A) :
  forall len a st,
    a + S len = retries ->
    fst (for_range (seq a (S len)) (TestDl.attempt_body B retries delay func) st)
      <> Ok None.
Proof.
  induction len as [|len IH]; intros a st Ha;
    cbn [seq]; rewrite for_range_cons;
    pose proof (dl_attempt_answers retries delay func a st) as H;
    destruct (TestDl.attempt_body B retries delay func a st) as [[[v|]|e] s1];
    cbn [fst] in *; try discriminate.
  - specialize (H eq_refl). lia.
  - apply (IH (S a) s1). lia.
Qed.

End Answers.

Section IntegerRetries.

Context {W : Type} (B : Browser W).

Lemma for_range_ext {A} (xs : list nat) (f g : nat -> M W (option A)) :
  (forall x st, In x xs -> f x st = g x st) ->
  forall st, for_range xs f st = for_range xs g st.
Proof.
  induction xs as [|x xs IH]; intros H st; [reflexivity|].
  rewrite !for_range_cons, (H x st (or_introl eq_refl)).
  destruct (g x st) as [[[v|]|e] s]; try reflexivity.
  apply IH. intros y s' Hy. apply H. now right.
Qed.

(** For a natural number of retries the integer reading of
    [execute_step_with_retry] is the one above. *)
Lemma lks_retry_of_nat (n : nat) (key : pystr) (action : M W unit) (driver : bool)
    (m : nat) (st : State W) :
  LksRetry.execute_step_with_retry B n key action driver (Z.of_nat m) st =
  Lks.execute_step_with_retry B n key action driver m st.
Proof.
  unfold LksRetry.execute_step_with_retry, Lks.execute_step_with_retry, py_range.
  replace (Z.to_nat (Z.of_nat m + 1)) with (m + 1) by lia.
  apply for_range_ext. intros attempt s _.
  unfold LksRetry.attempt_body, Lks.attempt_body.
  replace (Z.of_nat attempt <? Z.of_nat m)%Z with (attempt <? m)%nat; [reflexivity|].
  destruct (Nat.ltb_spec attempt m), (Z.ltb_spec (Z.of_nat attempt) (Z.of_nat m));
    try reflexivity; lia.
Qed.

(** So is the wrapper of [retry_on_exception], with a delay that
    [time.sleep] accepts. *)
Lemma dl_retry_of_nat {A} (retries : nat) (delay : Z) (func : M W A) (st : State W) :
  (0 <= delay)%Z ->
  TestDlRetry.retry_on_exception B (Z.of_nat retries) delay func st =
  TestDl.retry_on_exception B retries delay func st.
Proof.
  intros Hd. unfold TestDlRetry.retry_on_exception, TestDl.retry_on_exception, py_range.
  rewrite Nat2Z.id. apply for_range_ext. intros attempt s Hin.
  apply in_seq in Hin.
  unfold TestDlRetry.attempt_body, TestDl.attempt_body, TestDlRetry.sleep.
  replace (Z.of_nat attempt =? Z.of_nat retries - 1)%Z with (attempt =? retries - 1)%nat.
  - destruct (Z.ltb_spec delay 0); [lia|reflexivity].
  - destruct (Nat.eqb_spec attempt (retries - 1)),
      (Z.eqb_spec (Z.of_nat attempt) (Z.of_nat retries - 1)); try reflexivity; lia.
Qed.

Lemma py_range_empty (n : Z) : (n <= 0)%Z -> py_range n = [].
Proof.
  intros H. unfold py_range. now replace (Z.to_nat n) with 0 by lia.
Qed.

Lemma dl_int_attempt_answers {A} (retries delay : Z) (func : M W A) (attempt : nat)
    (st : State W) :
  fst (TestDlRetry.attempt_body B retries delay func attempt st) = Ok None ->
  Z.of_nat attempt <> (retries - 1)%Z.
Proof.
  unfold TestDlRetry.attempt_body, try_except, bind at 1.
  destruct (func st) as [[v|e] s1]; [intros H; discriminate H|].
  destruct (Z.eqb_spec (Z.of_nat attempt) (retries - 1)) as [He|Hne];
    [|intros _; exact Hne].
  intros H; discriminate H.
Qed.

Lemma dl_int_loop_answers {A} (retries delay : Z) (func : M W A) :
  forall len a st,
    Z.of_nat (a + S len) = retries ->
    fst (for_range (seq a (S len)) (TestDlRetry.attempt_body B retries delay func) st)
      <> Ok None.
Proof.
  induction len as [|len IH]; intros a st Ha;
    cbn [seq]; rewrite for_range_cons;
    pose proof (dl_int_attempt_answers retries delay func a st) as H;
    destruct (TestDlRetry.attempt_body B retries delay func a st) as [[[v|]|e] s1];
    cbn [fst] in *; try discriminate.
  - specialize (H eq_refl). lia.
  - apply (IH (S a) s1). lia.
Qed.

End IntegerRetries.

(** What a retry wrapper answers, for every integer it is called with.
    [execute_step_with_retry] of [lks.py] with [max_retries >= 0] never
    raises and never answers [None], whatever the action does and whether or
    not there is a driver: it answers [True] with the step recorded as
    passed, or [False] with the step recorded as failed, the result
    finalized as failed with the error of the step and the report printed
    last.  With a negative [max_retries] the loop is empty: the call
    answers [None] and does nothing, the action is not called and nothing is
    recorded.  The wrapper of [retry_on_exception] in [test_dl.py] reaches
    its [return None] exactly when [retries <= 0], where the wrapped function
    is not called at all; with [retries >= 1] it returns what the function
    returned or raises.  For natural numbers, and a delay that is not
    negative, these are the functions of the theorems above. *)
Theorem retry_wrappers_always_answer {W : Type} (B : Browser W) :
  (forall (action : M W unit) (driver : bool) (n : nat) (key : pystr)
          (max_retries : Z) (st : State W),
     (0 <= max_retries)%Z ->
     exists b s,
       LksRetry.execute_step_with_retry B n key action driver max_retries st =
         (Ok (Some b), s) /\
       answered n key b s) /\
  (forall (action : M W unit) (driver : bool) (n : nat) (key : pystr)
          (max_retries : Z) (st : State W),
     (max_retries < 0)%Z ->
     LksRetry.execute_step_with_retry B n key action driver max_retries st =
       (Ok None, st)) /\
  (forall (A : Type) (func : M W A) (retries delay : Z) (st : State W),
     (retries <= 0)%Z ->
     TestDlRetry.retry_on_exception B retries delay func st = (Ok None, st)) /\
  (forall (A : Type) (func : M W A) (retries delay : Z) (st : State W),
     (1 <= retries)%Z ->
     fst (TestDlRetry.retry_on_exception B retries delay func st) <> Ok None) /\
  (forall (action : M W unit) (driver : bool) (n : nat) (key : pystr) (m : nat)
          (st : State W),
     LksRetry.execute_step_with_retry B n key action driver (Z.of_nat m) st =
     Lks.execute_step_with_retry B n key action driver m st) /\
  (forall (A : Type) (func : M W A) (retries : nat) (delay : Z) (st : State W),
     (0 <= delay)%Z ->
     TestDlRetry.retry_on_exception B (Z.of_nat retries) delay func st =
     TestDl.retry_on_exception B retries delay func st).
Proof.
  split; [|split; [|split; [|split; [|split]]]].
  - intros action driver n key max_retries st Hm.
    rewrite <- (Z2Nat.id max_retries Hm), lks_retry_of_nat.
    unfold Lks.execute_step_with_retry.
    replace (Z.to_nat max_retries + 1) with (S (Z.to_nat max_retries)) by lia.
    apply (lks_loop_answers B n key action driver (Z.to_nat max_retries)
             (Z.to_nat max_retries) 0 st). lia.
  - intros action driver n key max_retries st Hm.
    unfold LksRetry.execute_step_with_retry. rewrite py_range_empty; [reflexivity|lia].
  - intros A func retries delay st Hr.
    unfold TestDlRetry.retry_on_exception. now rewrite py_range_empty.
  - intros A func retries delay st Hr.
    unfold TestDlRetry.retry_on_exception, py_range.
    replace (Z.to_nat retries) with (S (Z.to_nat retries - 1)) by lia.
    apply (dl_int_loop_answers B retries delay func (Z.to_nat retries - 1) 0 st). lia.
  - intros action driver n key m st. apply lks_retry_of_nat.
  - intros A func retries delay st Hd. now apply dl_retry_of_nat.
Qed.

(** A step that fails at every attempt, with two retries; the same call
    with [max_retries = -1]; and a wrapper with [retries = 0] around the
    same step. *)
Lemma retry_wrappers_always_answer_witness :
  let st := initial_state
              (Sim.scripted [Sim.boom "first"; Sim.boom "second"; Sim.boom "third"] [] []) in
  fst (LksRetry.execute_step_with_retry Sim.browser 1 Lks.KEY1 (run_step Sim.browser 1)
         true 2 st) = Ok (Some false) /\
  LksRetry.execute_step_with_retry Sim.browser 1 Lks.KEY1 (run_step Sim.browser 1)
    true (-1) st = (Ok None, st) /\
  TestDlRetry.retry_on_exception Sim.browser 0 1 (run_step Sim.browser 8) st = (Ok None, st).
Proof.
  intros st.
  destruct (retry_wrappers_always_answer Sim.browser) as (H1 & H2 & H3 & _).
  split; [|split; [apply H2; reflexivity|apply H3; discriminate]].
  destruct (H1 (run_step Sim.browser 1) true 1 Lks.KEY1 2%Z st) as (b & s & E & Hb);
    [discriminate|].
  rewrite E. cbn [fst]. destruct b; [|reflexivity].
  exfalso. vm_compute in E. discriminate E.
Defined.

(** ** The environment *)

Lemma py_or_truthy (a b : option pystr) : truthy a = true -> py_or a b = a.
Proof. unfold py_or. now intros ->. Qed.

(** [env(name, default)] answers [None] only when the variable is not set
    and there is no default.  Otherwise it answers the value of the
    variable, or the default when the variable is not set, without the white
    space around it: what is cut off on both sides is white space only, and
    the answer neither starts nor ends with a white-space character.  A
    variable that is set wins over the default also when its value is blank.
    The [main] functions read the login with [os.getenv] and not with
    [env]: a login of white space only, for which [env] gives the empty
    string, counts there as given. *)
Theorem env_strips_and_main_does_not (environ : list (pystr * pystr)) (name : pystr)
    (default : option pystr) :
  (env environ name default = None <->
   dict_get name environ = None /\ default = None) /\
  (forall v, env environ name default = Some v ->
     exists raw p q,
       getenv environ name default = Some raw /\
       raw = p ++ v ++ q /\
       forallb isspace p = true /\ forallb isspace q = true /\
       (forall c r, v = c :: r -> isspace c = false) /\
       (forall c r, v = r ++ [c] -> isspace c = false)) /\
  (forall raw, dict_get name environ = Some raw ->
     env environ name default = Some (strip raw)) /\
  (forall blank, blank <> [] -> forallb isspace blank = true ->
     dict_get (py "ITRANS_LOGIN") environ = Some blank ->
     env environ (py "ITRANS_LOGIN") None = Some [] /\
     ItransEnv.username environ = Some blank /\
     LksEnv.username environ = Some blank /\
     truthy (Some blank) = true).
Proof.
  unfold env, getenv. split; [|split; [|split]].
  - destruct (dict_get name environ) as [raw|]; [|destruct default as [d|]];
      split; try discriminate; try (intros [H1 H2]; discriminate); auto.
  - intros v H.
    assert (Hraw : exists raw,
               match dict_get name environ with
               | Some v0 => Some v0
               | None => default
               end = Some raw /\ v = strip raw).
    { destruct (dict_get name environ) as [raw|]; [|destruct default as [d|]];
        try discriminate; injection H as <-; eexists; split; reflexivity. }
    destruct Hraw as (raw & E & ->).
    destruct (strip_inside raw) as (p & q & Hs & Hp & Hq & _).
    exists raw, p, q. split; [exact E|]. split; [exact Hs|].
    split; [exact Hp|]. split; [exact Hq|].
    split; intros c r Hv;
      [exact (proj1 (strip_ends raw c r) Hv)|exact (proj2 (strip_ends raw c r) Hv)].
  - now intros raw ->.
  - intros blank Hne Hb Hget.
    assert (Ht : truthy (Some blank) = true) by (destruct blank; [contradiction|reflexivity]).
    unfold ItransEnv.username, LksEnv.username, getenv. rewrite Hget.
    rewrite (strip_blank blank Hb), !py_or_truthy by exact Ht. auto.
Qed.

(** A login with blanks around it, and a login of blanks. *)
Lemma env_strips_and_main_does_not_witness :
  env [(py "ITRANS_LOGIN", py "  monitor ")] (py "ITRANS_LOGIN") None = Some (py "monitor") /\
  env [(py "ITRANS_LOGIN", py "   ")] (py "ITRANS_LOGIN") None = Some [] /\
  ItransEnv.username [(py "ITRANS_LOGIN", py "   ")] = Some (py "   ").
Proof.
  destruct (env_strips_and_main_does_not [(py "ITRANS_LOGIN", py "  monitor ")]
              (py "ITRANS_LOGIN") None) as (_ & _ & H & _).
  destruct (env_strips_and_main_does_not [(py "ITRANS_LOGIN", py "   ")]
              (py "ITRANS_LOGIN") None) as (_ & _ & _ & H').
  assert (Hne : py "   " <> []) by (vm_compute; discriminate).
  destruct (H' (py "   ") Hne ltac:(vm_compute; reflexivity) ltac:(vm_compute; reflexivity))
    as (H1 & H2 & _).
  split; [|split; [exact H1|exact H2]].
  rewrite (H (py "  monitor ") ltac:(vm_compute; reflexivity)).
  vm_compute. reflexivity.
Defined.

(** ** The driver *)

Lemma grid_url_truthy (login password : option pystr) :
  truthy (Some (SELENIUM_GRID_URL login password)) = true.
Proof. reflexivity. Qed.

(** When the grid refuses the session, [build_driver] of [lks.py] and of
    [itrans_zd.py] raises its own fixed exception whatever the grid raised,
    and the alert, the [error] of the result and the printed report carry
    that fixed text: the cause is in none of them.  [build_driver] of
    [itrans.py] lets the exception of the grid through, and the report
    carries its trace.  The address of the grid is never empty, also
    without a grid login and password, so the grid is always asked and the
    exception for an address that is not set is never raised. *)
Theorem grid_failure_hides_its_cause {W : Type} (B : Browser W) (G : Selenium W)
    (login password u p : option pystr) (w w1 : W) (e : exn) :
  truthy u = true -> truthy p = true ->
  webdriver_Remote G (SELENIUM_GRID_URL login password) (snd (time_time B w))
    = (Raise e, w1) ->
  early_end Lks.to_dict [EvBuildDriver (Raise LksDriver.CONNECTION_FAILED)]
    (py "Общая ошибка: " ++ exn_str LksDriver.CONNECTION_FAILED)
    (py "Тест завершился с ошибкой")
    (Lks.main (with_build_driver B (LksDriver.build_driver G login password)) u p
       (initial_state w)) /\
  early_end ItransZd.to_dict [EvBuildDriver (Raise ZdDriver.CONNECTION_FAILED)]
    (py "Общая ошибка: " ++ exn_str ZdDriver.CONNECTION_FAILED)
    (py "Тест завершился с ошибкой")
    (ItransZd.main (with_build_driver B (ZdDriver.build_driver G login password)) u p
       (initial_state w)) /\
  early_end Itrans.to_dict [EvBuildDriver (Raise e)]
    (py "Критическая ошибка: " ++ traceback_format_exception B e)
    (py "Тест завершился с критической ошибкой")
    (Itrans.main (with_build_driver B (ItransDriver.build_driver G login password)) u p
       (initial_state w)) /\
  (forall w0 x,
     (fst (LksDriver.build_driver G login password w0) = Raise x ->
      x = LksDriver.CONNECTION_FAILED /\
      is_raise (fst (webdriver_Remote G (SELENIUM_GRID_URL login password) w0)) = true) /\
     (fst (ZdDriver.build_driver G login password w0) = Raise x ->
      x = ZdDriver.CONNECTION_FAILED /\
      is_raise (fst (webdriver_Remote G (SELENIUM_GRID_URL login password) w0)) = true)).
Proof.
  intros Hu Hp Hr. split; [|split; [|split]].
  - apply (lks_no_driver (with_build_driver B (LksDriver.build_driver G login password))
             u p w w1 LksDriver.CONNECTION_FAILED Hu Hp).
    cbn [build_driver time_time with_build_driver]. unfold LksDriver.build_driver.
    cbn [USE_SELENIUM_GRID]. rewrite grid_url_truthy. cbn [negb]. now rewrite Hr.
  - apply (zd_no_driver (with_build_driver B (ZdDriver.build_driver G login password))
             u p w w1 ZdDriver.CONNECTION_FAILED Hu Hp).
    cbn [build_driver time_time with_build_driver]. unfold ZdDriver.build_driver.
    cbn [USE_SELENIUM_GRID]. rewrite grid_url_truthy. cbn [negb]. now rewrite Hr.
  - apply (itrans_no_driver (with_build_driver B (ItransDriver.build_driver G login password))
             u p w w1 e Hu Hp).
    cbn [build_driver time_time with_build_driver]. exact Hr.
  - intros w0 x. unfold LksDriver.build_driver, ZdDriver.build_driver.
    cbn [USE_SELENIUM_GRID]. rewrite grid_url_truthy. cbn [negb].
    destruct (webdriver_Remote G (SELENIUM_GRID_URL login password) w0) as [[[]|e0] w2];
      cbn [fst is_raise]; split; intros H; try discriminate H;
      injection H as <-; split; reflexivity.
Qed.

(** The grid refuses the session with an error of its own. *)
Lemma grid_failure_hides_its_cause_witness :
  exists t0 t1,
    log (snd (Lks.main
                (with_build_driver Sim.browser
                   (LksDriver.build_driver (refusing (Sim.driver_error "session not created"))
                      None None))
                Sim.creds Sim.creds (initial_state (Sim.scripted [] [] [])))) =
    [EvTime t0; EvBuildDriver (Raise LksDriver.CONNECTION_FAILED);
     EvAlert (py "Общая ошибка: " ++ exn_str LksDriver.CONNECTION_FAILED) None;
     EvTime t1].
Proof.
  destruct (proj1 (grid_failure_hides_its_cause Sim.browser
                     (refusing (Sim.driver_error "session not created")) None None
                     Sim.creds Sim.creds (Sim.scripted [] [] [])
                     (snd (Sim.tick (Sim.scripted [] [] [])))
                     (Sim.driver_error "session not created")
                     eq_refl eq_refl eq_refl))
    as (t0 & t1 & _ & Hlog & _).
  exists t0, t1. exact Hlog.
Defined.

(** ** The sub-tabs *)

Section Subtabs.

Context {W : Type} (B : Browser W) (P : Page W).

Lemma check_subtab_cases (timeout : Z) (tab_name : pystr) (st : State W) :
  let w := wait_until_link_visible P tab_name timeout (world st) in
  let st' := set_world (snd w) st in
  ItransSteps.check_subtab B P timeout tab_name st =
  (match fst w with
   | Ok _ => fst (ItransTest.raise_if_error_banner B st')
   | Raise e => Raise e
   end, st').
Proof.
  intros w st'. subst w st'. unfold ItransSteps.check_subtab, bind, act.
  destruct (wait_until_link_visible P tab_name timeout (world st)) as [[[]|e] w1];
    cbn [fst snd]; [apply banner_check_eq|reflexivity].
Qed.

Lemma check_subtab_timeout (timeout : Z) (tab_name : pystr) (st : State W) (e : exn) :
  fst (ItransSteps.check_subtab B P timeout tab_name st) = Raise e ->
  is_TimeoutException e = true ->
  fst (wait_until_link_visible P tab_name timeout (world st)) = Raise e.
Proof.
  rewrite check_subtab_cases. cbn [fst].
  destruct (fst (wait_until_link_visible P tab_name timeout (world st))) as [[]|e0];
    [|now intros H _].
  intros H Ht. apply banner_check_no_driver_error in H.
  apply driver_error_classes in H as [H _]. congruence.
Qed.

Lemma subtab_turn (timeout : Z) (tab_name : pystr) (acc : list pystr) (st : State W) :
  let out := ItransSteps.check_subtab B P timeout tab_name st in
  try_except_if is_TimeoutException
    (bind (ItransSteps.check_subtab B P timeout tab_name) (fun _ => ret acc))
    (fun _ => ret (acc ++ [tab_name])) st =
  (match fst out with
   | Ok _ => Ok acc
   | Raise e => if is_TimeoutException e then Ok (acc ++ [tab_name]) else Raise e
   end, snd out).
Proof.
  intros out. subst out. unfold try_except_if, try_except, bind, ret, raise.
  destruct (ItransSteps.check_subtab B P timeout tab_name st) as [[[]|e] s1];
    cbn [fst snd]; [reflexivity|].
  now destruct (is_TimeoutException e).
Qed.

Lemma collect_missing_cases (timeout : Z) :
  forall tab_names acc st,
    let answers := ItransSteps.subtab_answers B P timeout tab_names st in
    (found_or_missing answers = true ->
     fst (ItransSteps.collect_missing_tabs B P timeout tab_names acc st) =
       Ok (acc ++ missing_of tab_names answers)) /\
    (forall pre e post,
       answers = pre ++ Raise e :: post ->
       found_or_missing pre = true -> is_TimeoutException e = false ->
       fst (ItransSteps.collect_missing_tabs B P timeout tab_names acc st) = Raise e).
Proof.
  induction tab_names as [|tab rest IH]; intros acc st answers; subst answers.
  - cbn. split; [intros _; now rewrite app_nil_r|].
    intros pre e post H. now destruct pre.
  - cbn [ItransSteps.subtab_answers ItransSteps.collect_missing_tabs].
    unfold bind at 1 3. rewrite subtab_turn.
    destruct (ItransSteps.check_subtab B P timeout tab st) as [r s1]. cbn [fst snd].
    unfold found_or_missing, missing_of. cbn [forallb combine filter snd].
    destruct r as [[]|e]; cbn [is_raise negb orb timed_out andb].
    + split.
      * intros H. exact (proj1 (IH acc s1) H).
      * intros [|r0 pre] e post E; cbn [app] in E; [discriminate E|].
        injection E as <- E. cbn [forallb]. intros Hpre He.
        exact (proj2 (IH acc s1) pre e post E Hpre He).
    + destruct (is_TimeoutException e) eqn:Ht.
      * split.
        -- intros H. rewrite (proj1 (IH (acc ++ [tab]) s1) H).
           cbn [map fst]. now rewrite <- app_assoc.
        -- intros [|r0 pre] e0 post E; cbn [app] in E.
           ++ injection E as <- _. congruence.
           ++ injection E as <- E. cbn [forallb]. intros Hpre He.
              apply andb_prop in Hpre as [_ Hpre].
              exact (proj2 (IH (acc ++ [tab]) s1) pre e0 post E Hpre He).
      * split; [intros H; discriminate H|].
        intros [|r0 pre] e0 post E; cbn [app] in E.
        -- now injection E as <- _.
        -- injection E as <- _. cbn [forallb is_raise negb orb timed_out].
           rewrite Ht. intros H; discriminate H.
Qed.

End Subtabs.

(** The check of the sub-tabs in the module steps of [itrans.py] and
    [itrans_zd.py].  Every sub-tab of the list is waited for, also after
    one was found missing: as long as each check ends with the link found or
    with a timeout, the loop goes to the end, and then it raises one
    exception that names all the sub-tabs whose wait timed out, in the order
    of the list, or returns when there is none.  The first check that ends
    with another exception, that of an error banner or of the driver, ends
    the loop with that exception, whatever was missing before.  A timeout
    always comes from the wait for the link: the banner check raises none. *)
Theorem verify_subtabs_names_every_missing_tab {W : Type} (B : Browser W) (P : Page W)
    (timeout : Z) (tab_names : list pystr) (st : State W) :
  let answers := ItransSteps.subtab_answers B P timeout tab_names st in
  let out := ItransSteps.verify_subtabs B P timeout tab_names st in
  (found_or_missing answers = true ->
   fst out = match missing_of tab_names answers with
             | [] => Ok tt
             | missing_tabs =>
               Raise (Exn Exception
                        (py "Отсутствуют подвкладки: " ++ join (py ", ") missing_tabs))
             end) /\
  (forall pre e post,
     answers = pre ++ Raise e :: post ->
     found_or_missing pre = true -> is_TimeoutException e = false ->
     fst out = Raise e) /\
  (forall tab_name s e,
     fst (ItransSteps.check_subtab B P timeout tab_name s) = Raise e ->
     is_TimeoutException e = true ->
     fst (wait_until_link_visible P tab_name timeout (world s)) = Raise e).
Proof.
  intros answers out. subst answers out.
  destruct (collect_missing_cases B P timeout tab_names [] st) as [Hok Hfatal].
  unfold ItransSteps.verify_subtabs, bind.
  destruct (ItransSteps.collect_missing_tabs B P timeout tab_names [] st) as [r s1].
  cbn [fst] in *. split; [|split].
  - intros H. rewrite (Hok H). cbn [app].
    now destruct (missing_of tab_names _).
  - intros pre e post E Hpre He. now rewrite (Hfatal pre e post E Hpre He).
  - intros tab_name s e. apply check_subtab_timeout.
Qed.

(** Two of the three sub-tabs of the resources module are not there. *)
Lemma verify_subtabs_names_every_missing_tab_witness :
  let tabs := [py "Контейнеры без заказа"; py "События дислокации";
               py "Справочник текущей дислокации ресурсов"] in
  let page := SimPage.without_links
                [py "Справочник текущей дислокации ресурсов"; py "Контейнеры без заказа"] in
  fst (ItransSteps.verify_subtabs Sim.browser page 5 tabs
         (set_test_driver true (initial_state (Sim.scripted [] [] [])))) =
  Raise (Exn Exception
           (py "Отсутствуют подвкладки: Контейнеры без заказа, Справочник текущей дислокации ресурсов")).
Proof.
  intros tabs page.
  destruct (verify_subtabs_names_every_missing_tab Sim.browser page 5 tabs
              (set_test_driver true (initial_state (Sim.scripted [] [] []))))
    as [H _].
  etransitivity; [apply H; vm_compute; reflexivity|].
  vm_compute. reflexivity.
Defined.

(** ** The module steps of itrans.py *)

Section NoTimeout.

Context {W : Type} (B : Browser W) (P : Page W).

Lemma no_timeout_ret {A} (a : A) : no_timeout (@ret W A a).
Proof. intros st e H. discriminate H. Qed.

Lemma no_timeout_raise {A} (e : exn) :
  is_TimeoutException e = false -> no_timeout (@raise W A e).
Proof. intros He st e0 H. injection H as <-. exact He. Qed.

Lemma no_timeout_bind {A C} (m : M W A) (k : A -> M W C) :
  no_timeout m -> (forall a, no_timeout (k a)) -> no_timeout (bind m k).
Proof.
  intros Hm Hk st e. unfold bind. specialize (Hm st).
  destruct (m st) as [[a|e0] s1]; cbn [fst] in *.
  - apply Hk.
  - intros H. injection H as <-. now apply Hm.
Qed.

Lemma no_timeout_swallow (m : M W unit) :
  no_timeout (try_except m (fun _ => ret tt)).
Proof.
  intros st e. unfold try_except, ret.
  destruct (m st) as [[[]|e0] s1]; intros H; discriminate H.
Qed.

Lemma no_timeout_sleep (seconds : Z) : no_timeout (ItransSteps.sleep B seconds).
Proof. intros st e H. discriminate H. Qed.

Lemma no_timeout_click (xpath : pystr) (timeout : Z) (retries : nat) :
  no_timeout (ItransClicks.click_element B P xpath timeout retries).
Proof.
  intros st e H.
  destruct (click_loop_outcome B xpath timeout retries _ st
              (itrans_click_turn B P xpath timeout retries))
    as [(waits & _ & _ & _ & _ & Hleak) _].
  specialize (Hleak e H). unfold is_Stale_or_Timeout in Hleak.
  unfold is_TimeoutException. now destruct (exn_cls e).
Qed.

Lemma no_timeout_present (xpath : pystr) (timeout : Z) :
  no_timeout (ItransClicks.element_is_present B xpath timeout).
Proof.
  intros st e. rewrite element_is_present_cases. cbn [fst].
  pose proof (banner_check_no_driver_error B (waited B xpath timeout st)) as Hb.
  destruct (fst (wait_until_presence B xpath timeout (world st))) as [el|e0];
    destruct (fst (ItransTest.raise_if_error_banner B _)) as [[]|b];
    try destruct (is_TimeoutException e0) eqn:E; intros H; try discriminate H;
    injection H as <-; try exact E;
    exact (proj1 (driver_error_classes b (Hb b eq_refl))).
Qed.

Lemma no_timeout_collect (timeout : Z) :
  forall tab_names acc,
    no_timeout (ItransSteps.collect_missing_tabs B P timeout tab_names acc).
Proof.
  induction tab_names as [|tab rest IH]; intros acc.
  - apply no_timeout_ret.
  - cbn [ItransSteps.collect_missing_tabs]. apply no_timeout_bind; [|intros a; apply IH].
    intros st e. rewrite subtab_turn. cbn [fst].
    destruct (fst (ItransSteps.check_subtab B P timeout tab st)) as [[]|e0];
      [intros H; discriminate H|].
    destruct (is_TimeoutException e0) eqn:E; intros H; [discriminate H|].
    now injection H as <-.
Qed.

Lemma no_timeout_verify (timeout : Z) (tab_names : list pystr) :
  no_timeout (ItransSteps.verify_subtabs B P timeout tab_names).
Proof.
  apply no_timeout_bind; [apply no_timeout_collect|].
  intros [|x l]; [apply no_timeout_ret|now apply no_timeout_raise].
Qed.

Lemma no_timeout_found (present : bool) (e : exn) :
  is_TimeoutException e = false ->
  no_timeout (if negb present then @raise W unit e else ret tt).
Proof.
  intros He. destruct present; [apply no_timeout_ret|now apply no_timeout_raise].
Qed.

(** A step that starts with [element_is_present] on the tab and raises
    [not_found] when the answer is [False]. *)
Lemma tab_not_found (xpath : pystr) (not_found : exn) (rest : M W unit) (st : State W)
    (e : exn) :
  fst (wait_until_presence B xpath 10 (world st)) = Raise e ->
  is_TimeoutException e = true ->
  fst (ItransTest.raise_if_error_banner B (waited B xpath 10 st)) = Ok tt ->
  bind (ItransClicks.element_is_present B xpath 10)
    (fun present =>
       bind (if negb present then raise not_found else ret tt) (fun _ => rest)) st =
  (Raise not_found, waited B xpath 10 st).
Proof.
  intros Hr Ht Hb. unfold bind at 1.
  rewrite element_is_present_cases, Hr, Ht, Hb. reflexivity.
Qed.

End NoTimeout.

Ltac no_timeout_steps :=
  repeat
    (cbv zeta;
     lazymatch goal with
     | |- no_timeout (ItransClicks.click_element _ _ _ _ _) => apply no_timeout_click
     | |- no_timeout (ItransSteps.sleep _ _) => apply no_timeout_sleep
     | |- no_timeout (ItransClicks.element_is_present _ _ _) => apply no_timeout_present
     | |- no_timeout (ItransSteps.verify_subtabs _ _ _ _) => apply no_timeout_verify
     | |- no_timeout (try_except _ _) => apply no_timeout_swallow
     | |- no_timeout (if negb _ then _ else _) =>
       apply no_timeout_found; cbn; reflexivity
     | |- no_timeout (bind _ _) => apply no_timeout_bind; [|intros ?]
     end).

Ltac tab_missing B st Hr Ht Hb :=
  cbv zeta;
  etransitivity; [eapply (tab_not_found B); [exact Hr|exact Ht|exact Hb]|];
  apply (f_equal (fun x => (@Raise unit (Exn Exception x), waited B _ 10 st)));
  vm_compute; reflexivity.

(** The module steps of [itrans.py].  None of the four raises a
    [TimeoutException]: a wait that times out is either answered in the
    step (the optional click, the missing tab, the missing sub-tabs) or
    replaced by an exception of the script that names what was waited for.
    In the three steps that begin with [element_is_present] on the tab of
    the module, a wait for the tab that times out on a page without an
    error banner ends the step at once with the exception that the tab was
    not found; nothing was clicked and no sub-tab was looked for. *)
Theorem itrans_steps_name_what_is_missing {W : Type} (B : Browser W) (P : Page W) :
  no_timeout (ItransSteps.step_open_coordinator_module_and_verify_tabs B P) /\
  no_timeout (ItransSteps.step_open_sales_module_and_verify_tabs B P) /\
  no_timeout (ItransSteps.step_open_analytics_module_and_verify_tabs B P) /\
  no_timeout (ItransSteps.step_open_resources_module_and_verify_tabs B P) /\
  (forall (step : M W unit) (xpath title : pystr),
     In (step, xpath, title)
        [(ItransSteps.step_open_sales_module_and_verify_tabs B P,
          py "//*[@id='sales']/button/span", py "Регулировка");
         (ItransSteps.step_open_analytics_module_and_verify_tabs B P,
          py "//*[@id='analitycs']/button/span", py "Аналитика");
         (ItransSteps.step_open_resources_module_and_verify_tabs B P,
          py "//*[@id='resources']/button/span", py "Модуль управления ресурсами")] ->
     forall st e,
       fst (wait_until_presence B xpath 10 (world st)) = Raise e ->
       is_TimeoutException e = true ->
       fst (ItransTest.raise_if_error_banner B (waited B xpath 10 st)) = Ok tt ->
       step st =
         (Raise (Exn Exception
                   (py "Вкладка '" ++ title ++ py "' не найдена на странице")),
          waited B xpath 10 st)).
Proof.
  split; [|split; [|split; [|split]]].
  - unfold ItransSteps.step_open_coordinator_module_and_verify_tabs. no_timeout_steps.
  - unfold ItransSteps.step_open_sales_module_and_verify_tabs. no_timeout_steps.
  - unfold ItransSteps.step_open_analytics_module_and_verify_tabs. no_timeout_steps.
  - unfold ItransSteps.step_open_resources_module_and_verify_tabs. no_timeout_steps.
  - intros step xpath title [H|[H|[H|[]]]] st e Hr Ht Hb;
      injection H as <- <- <-.
    + unfold ItransSteps.step_open_sales_module_and_verify_tabs.
      tab_missing B st Hr Ht Hb.
    + unfold ItransSteps.step_open_analytics_module_and_verify_tabs.
      tab_missing B st Hr Ht Hb.
    + unfold ItransSteps.step_open_resources_module_and_verify_tabs.
      tab_missing B st Hr Ht Hb.
Qed.

(** The tab of the analytics module never appears. *)
Lemma itrans_steps_name_what_is_missing_witness :
  let st := set_test_driver true (initial_state SimPage.absent) in
  fst (ItransSteps.step_open_analytics_module_and_verify_tabs Sim.browser
         SimPage.no_clicks st) =
  Raise (Exn Exception (py "Вкладка 'Аналитика' не найдена на странице")).
Proof.
  intros st.
  destruct (itrans_steps_name_what_is_missing Sim.browser SimPage.no_clicks)
    as (_ & _ & _ & _ & H).
  assert (Hb : fst (ItransTest.raise_if_error_banner Sim.browser
                      (waited Sim.browser (py "//*[@id='analitycs']/button/span") 10 st))
               = Ok tt) by (vm_compute; reflexivity).
  rewrite (H _ _ _ (or_intror (or_introl eq_refl)) st Sim.timeout_error
             eq_refl eq_refl Hb).
  cbn [fst]. apply (f_equal (fun x => @Raise unit (Exn Exception x))).
  vm_compute. reflexivity.
Defined.

(** ** The page helpers of test_dl.py *)

Section DlHelpers.

Context {W : Type} (B : Browser W) (P : Page W) (sv : Services W) (D : Site W).

Lemma save_screenshot_skipped (name : pystr) (test_name : option pystr) (st : State W) :
  startswith (py "test_error") name = false ->
  TestIsales.save_screenshot B sv D name test_name st = (Ok None, st).
Proof.
  intros H. unfold TestIsales.save_screenshot, try_except_if, try_except.
  now rewrite H.
Qed.

Lemma helper_names_skipped (loc : pystr) :
  Forall (fun name => startswith (py "test_error") name = false)
    [py "element_not_found_" ++ replace_slashes loc;
     py "click_failed_" ++ replace_slashes loc;
     py "login_button_error"; py "credentials_error"; py "login_verification_error"].
Proof. repeat constructor. Qed.

Lemma dl_wait_element_cases (loc : pystr) (timeout : Z) (st : State W) :
  TestIsales.wait_element B sv D loc timeout st =
  (match fst (wait_until_presence B loc timeout (world st)) with
   | Ok el => Ok el
   | Raise e =>
     if is_TimeoutException e then Raise (TestIsales.not_found loc) else Raise e
   end, waited B loc timeout st).
Proof.
  unfold TestIsales.wait_element, try_except_if, try_except, call, raise, waited.
  destruct (wait_until_presence B loc timeout (world st)) as [[el|e] w']; cbn [fst snd];
    [reflexivity|].
  destruct (is_TimeoutException e); [|reflexivity].
  unfold bind. rewrite save_screenshot_skipped by reflexivity. reflexivity.
Qed.

Lemma dl_click_turn (loc : pystr) (timeout : Z) (retries : nat) :
  click_turn B loc timeout retries (TestIsales.click_attempt B P sv D loc timeout retries).
Proof.
  apply click_turn_intro. intros attempt st.
  unfold TestIsales.click_attempt, try_except_if, try_except.
  unfold bind at 1. rewrite dl_wait_element_cases.
  destruct (fst (wait_until_presence B loc timeout (world st))) as [el|e0] eqn:Er.
  all: repeat (cbn [fst snd world set_world];
               unfold bind, ret, raise, act, call_quiet;
               rewrite ?save_screenshot_skipped by reflexivity;
               first [page_cases | class_cases]).
  all: cbn [fst snd world set_world]; unfold bind, ret, raise, act, call_quiet;
    rewrite ?save_screenshot_skipped by reflexivity.
  all: click_done Er.
Qed.

Lemma dl_element_is_present_cases (loc : pystr) (timeout : Z) (st : State W) :
  TestIsales.element_is_present B sv D loc timeout st =
  (match fst (wait_until_presence B loc timeout (world st)) with
   | Ok _ => Ok true
   | Raise e =>
     if is_TimeoutException e then Raise (TestIsales.not_found loc)
     else if is_WebDriverException e then Ok false else Raise e
   end, waited B loc timeout st).
Proof.
  unfold TestIsales.element_is_present, try_except_if, try_except, bind.
  rewrite dl_wait_element_cases.
  destruct (fst (wait_until_presence B loc timeout (world st))) as [el|e]; [reflexivity|].
  destruct (is_TimeoutException e) eqn:Et; [reflexivity|].
  now destruct (is_WebDriverException e).
Qed.

Lemma open_attempt_cases (url : pystr) (wait : Z) (attempt : nat) (st : State W) :
  exists o s',
    TestIsales.open_attempt B sv D url wait attempt st = (Ok o, s') /\
    unchanged st s' /\
    ((exists el,
        o = Some tt /\
        log s' = log st ++ [EvSleep wait; EvWaitPresence TestIsales.HEADER_LINK 5 (Ok el)])
     \/
     (exists evs, o = None /\ failed_opening wait evs /\ log s' = log st ++ evs)).
Proof.
  unfold TestIsales.open_attempt, bind at 1, try_except, bind at 1, act.
  destruct (driver_get D url (world st)) as [[[]|e] w1].
  - unfold bind at 1, call_quiet. unfold bind at 1.
    rewrite dl_element_is_present_cases. unfold waited.
    cbn [world set_world add_log].
    destruct (wait_until_presence B TestIsales.HEADER_LINK 5 (time_sleep B wait w1))
      as [[el|e] w2]; cbn [fst snd].
    + eexists _, _. split; [reflexivity|]. split; [repeat split|].
      left. exists el. split; [reflexivity|]. cbn. now rewrite <- app_assoc.
    + assert (Hlog : forall s : State W,
                 log s = (log st ++ [EvSleep wait])
                           ++ [EvWaitPresence TestIsales.HEADER_LINK 5 (Raise e)] ->
                 log (add_log (EvSleep 3) s) =
                 log st ++ [EvSleep wait;
                            EvWaitPresence TestIsales.HEADER_LINK 5 (Raise e); EvSleep 3]).
      { intros s Hs. cbn. rewrite Hs, <- !app_assoc. reflexivity. }
      destruct (is_TimeoutException e); [|destruct (is_WebDriverException e)];
        unfold bind, call_quiet, ret; cbn [fst snd];
        (eexists _, _; split; [reflexivity|]; split; [repeat split|];
         right; eexists; split; [reflexivity|]; split;
         [right; exists e; reflexivity|apply Hlog; reflexivity]).
  - unfold bind, call_quiet, ret. eexists _, _. split; [reflexivity|].
    split; [repeat split|]. right. exists [EvSleep 3].
    split; [reflexivity|]. split; [now left|reflexivity].
Qed.

Lemma open_loop_cases (url : pystr) (wait : Z) :
  forall len a st,
    exists o s' rounds last,
      for_range (seq a len) (TestIsales.open_attempt B sv D url wait) st = (Ok o, s') /\
      log s' = log st ++ concat rounds ++ last /\
      Forall (failed_opening wait) rounds /\
      unchanged st s' /\
      ((exists el,
          o = Some tt /\
          last = [EvSleep wait; EvWaitPresence TestIsales.HEADER_LINK 5 (Ok el)] /\
          length rounds < len)
       \/
       (o = None /\ last = [] /\ length rounds = len)).
Proof.
  induction len as [|len IH]; intros a st.
  - exists None, st, [], []. cbn. rewrite app_nil_r.
    repeat split; auto.
  - cbn [seq]. rewrite for_range_cons.
    destruct (open_attempt_cases url wait a st) as (o & s1 & -> & Hu & Hcase).
    destruct Hcase as [(el & -> & Hlog)|(evs & -> & Hev & Hlog)].
    + exists (Some tt), s1, [], [EvSleep wait; EvWaitPresence TestIsales.HEADER_LINK 5 (Ok el)].
      split; [reflexivity|]. split; [exact Hlog|]. split; [constructor|].
      split; [exact Hu|]. left. exists el. repeat split. cbn. lia.
    + destruct (IH (S a) s1) as (o & s2 & rounds & last & -> & Hlog' & Hrs & Hu' & Hcase).
      exists o, s2, (evs :: rounds), last.
      split; [reflexivity|]. cbn [concat].
      split; [rewrite Hlog', Hlog, <- !app_assoc; reflexivity|].
      split; [now constructor|]. split; [exact (unchanged_trans _ _ _ Hu Hu')|].
      destruct Hcase as [(el & -> & -> & Hlen)|(-> & -> & Hlen)].
      * left. exists el. repeat split. cbn. lia.
      * right. repeat split. cbn. lia.
Qed.

Lemma open_site_screenshot (test_name : option pystr) (st : State W) :
  exists r s',
    TestIsales.save_screenshot B sv D (py "test_error_open_site") test_name st = (r, s') /\
    log s' = log st ++ [EvSleep 1] /\ unchanged st s' /\
    ((exists v, r = Ok v) \/
     exists e w, r = Raise e /\ fst (driver_get_screenshot_as_png sv w) = Raise e).
Proof.
  unfold TestIsales.save_screenshot, try_except_if, try_except.
  replace (startswith (py "test_error") (py "test_error_open_site")) with true
    by (vm_compute; reflexivity).
  unfold bind at 1, call_quiet. unfold bind at 1, act at 1.
  cbn [world set_world add_log].
  destruct (driver_get_screenshot_as_png sv (time_sleep B 1 (world st))) as [[png|e] w1] eqn:E.
  - unfold bind, act, ret. eexists _, _. split; [reflexivity|].
    split; [reflexivity|]. split; [repeat split|]. left. now eexists.
  - assert (Hraise : (if is_WebDriverException e then raise e else raise e)
                     = (@raise W (option pystr) e)) by now destruct (is_WebDriverException e).
    rewrite Hraise. unfold raise. eexists _, _. split; [reflexivity|].
    split; [reflexivity|]. split; [repeat split|]. right.
    exists e, (time_sleep B 1 (world st)). now rewrite E.
Qed.

Lemma open_site_cases (url : pystr) (retries : nat) (wait : Z) (st : State W) :
  opening_outcome sv wait retries st
    (TestIsales.open_site_with_retries B sv D url retries wait st).
Proof.
  unfold TestIsales.open_site_with_retries, bind at 1.
  destruct (open_loop_cases url wait retries 0 st)
    as (o & s1 & rounds & last & -> & Hlog & Hrs & Hu & Hcase).
  destruct Hcase as [(el & -> & -> & Hlen)|(-> & -> & Hlen)].
  - exists rounds, [EvSleep wait; EvWaitPresence TestIsales.HEADER_LINK 5 (Ok el)].
    cbn [fst snd ret]. split; [exact Hlog|]. split; [exact Hrs|]. split; [exact Hu|].
    left. exists el. repeat split. exact Hlen.
  - unfold bind.
    destruct (open_site_screenshot (Some (py "test_01_login")) s1)
      as (r & s2 & -> & Hlog' & Hu' & Hr).
    exists rounds, [EvSleep 1].
    assert (Hl : log s2 = log st ++ concat rounds ++ [EvSleep 1]).
    { rewrite Hlog', Hlog, app_nil_r, <- app_assoc. reflexivity. }
    destruct Hr as [[v ->]|(e & w & -> & He)]; cbn [fst snd raise];
      (split; [exact Hl|]; split; [exact Hrs|];
       split; [exact (unchanged_trans _ _ _ Hu Hu')|]; right;
       split; [exact Hlen|]; split; [reflexivity|]).
    + now left.
    + right. now exists e, w.
Qed.

End DlHelpers.

(** The page helpers of [TestIsales] in [test_dl.py].  [save_screenshot]
    does nothing unless the name it is given starts with [test_error], and
    none of the names that [wait_element], [click_element] and
    [test_01_login] pass does: a wait that times out raises the exception
    that names the locator and a click that fails raises its own, each
    without a pause, a screenshot, a file or a message.  So an element that
    is not found leaves the state as the wait left it; [click_element] waits
    at most [retries] times and raises no timeout; and [element_is_present]
    answers [False] only for a driver error that is not a timeout, while a
    timeout leaves it as the exception of [wait_element]. *)
Theorem dl_helpers_take_no_screenshot {W : Type} (B : Browser W) (P : Page W)
    (sv : Services W) (D : Site W) (loc : pystr) (timeout : Z) (retries : nat)
    (st : State W) :
  let r := fst (wait_until_presence B loc timeout (world st)) in
  let st' := waited B loc timeout st in
  (forall name test_name s,
     startswith (py "test_error") name = false ->
     TestIsales.save_screenshot B sv D name test_name s = (Ok None, s)) /\
  Forall (fun name => startswith (py "test_error") name = false)
    [py "element_not_found_" ++ replace_slashes loc;
     py "click_failed_" ++ replace_slashes loc;
     py "login_button_error"; py "credentials_error"; py "login_verification_error"] /\
  TestIsales.wait_element B sv D loc timeout st =
    (match r with
     | Ok el => Ok el
     | Raise e =>
       if is_TimeoutException e then Raise (TestIsales.not_found loc) else Raise e
     end, st') /\
  click_outcome loc timeout retries st
    (TestIsales.click_element B P sv D loc timeout retries st) /\
  TestIsales.element_is_present B sv D loc timeout st =
    (match r with
     | Ok _ => Ok true
     | Raise e =>
       if is_TimeoutException e then Raise (TestIsales.not_found loc)
       else if is_WebDriverException e then Ok false else Raise e
     end, st').
Proof.
  intros r st'. subst r st'.
  split; [intros name test_name s; apply save_screenshot_skipped|].
  split; [apply helper_names_skipped|].
  split; [apply dl_wait_element_cases|].
  split; [|apply dl_element_is_present_cases].
  exact (proj1 (click_loop_outcome B loc timeout retries _ st
                  (dl_click_turn B P sv D loc timeout retries))).
Qed.

(** [open_site_with_retries] in [test_dl.py].  It loads the page at most
    [retries] times.  An attempt opens the site when the page loads and,
    after the pause, the link in the header is there; then the call returns
    at once.  After every other attempt, the last one too, it sleeps three
    seconds.  When no attempt is left it sleeps a second, takes a
    screenshot and raises the exception that the site could not be opened,
    unless taking the screenshot raises: then that exception is what the
    caller gets.  With [retries = 0] the page is not loaded at all. *)
Theorem open_site_makes_bounded_attempts {W : Type} (B : Browser W) (sv : Services W)
    (D : Site W) (url : pystr) (retries : nat) (wait : Z) (st : State W) :
  opening_outcome sv wait retries st
    (TestIsales.open_site_with_retries B sv D url retries wait st).
Proof. apply open_site_cases. Qed.

(** ** A wait that times out, and the banner *)

Section TimedOutWait.

Context {W : Type} (B : Browser W) (P : Page W).

Lemma wait_element_timed_out (nf : pystr -> pystr) (xpath : pystr) (timeout : Z)
    (st : State W) (e : exn) :
  fst (wait_until_presence B xpath timeout (world st)) = Raise e ->
  is_TimeoutException e = true ->
  ItransTest.wait_element_with B nf xpath timeout st =
  (match fst (ItransTest.raise_if_error_banner B (waited B xpath timeout st)) with
   | Ok _ => Raise (Exn Exception (nf xpath))
   | Raise b => Raise b
   end, waited B xpath timeout st).
Proof.
  intros Hr Ht. rewrite wait_element_with_cases, Hr.
  destruct (fst (ItransTest.raise_if_error_banner B _)) as [[]|b]; now rewrite Ht.
Qed.

Lemma itrans_click_passes_on (xpath : pystr) (timeout : Z) (n : nat)
    (st st' : State W) (x : exn) :
  Itrans.wait_element B xpath timeout st = (Raise x, st') ->
  is_Stale_or_Timeout x = false ->
  ItransClicks.click_element B P xpath timeout (S n) st = (Raise x, st').
Proof.
  intros Hw Hs. apply loop_stops_on_raise.
  unfold ItransClicks.click_attempt, try_except_if, try_except, bind.
  now rewrite Hw, Hs.
Qed.

Lemma zd_click_passes_on (xpath : pystr) (timeout : Z) (n : nat)
    (description : option pystr) (st st' : State W) (x : exn) :
  ItransZd.wait_element B xpath timeout st = (Raise x, st') ->
  is_Stale_or_Timeout x = false ->
  ZdClicks.click_element B P xpath timeout (S n) description st = (Raise x, st').
Proof.
  intros Hw Hs. apply loop_stops_on_raise.
  unfold ZdClicks.click_attempt, try_except_if, try_except, bind.
  now rewrite Hw, Hs.
Qed.

(** A step of [itrans.py] whose body raises, with the screenshot taken. *)
Lemma itrans_step_block_reports (n : nat) (key : pystr) (body : M W unit)
    (st0 s1 : State W) (x : exn) (ss : pystr) :
  body (after_clock B st0) = (Raise x, s1) ->
  fst (get_screenshot_b64 B (world s1)) = Ok ss ->
  exists s,
    Itrans.step_block B n key body st0 = (Ok false, s) /\
    error (test_result s) = Some (Itrans.step_error B n x) /\
    stdout s = stdout s1 ++ [Itrans.to_dict (test_result s)].
Proof.
  intros Hb Hs. unfold Itrans.step_block. unfold bind at 1. rewrite clock_eq.
  unfold try_except, bind at 1. rewrite Hb.
  unfold Itrans.print_report, finalize, alert, clock, print_json.
  unfold bind, call, call_quiet, on_result, update, ret.
  destruct (get_screenshot_b64 B (world s1)) as [r w2]. cbn [fst] in Hs. subst r.
  cbn [world set_world add_log set_test_result test_result].
  repeat match goal with
  | |- context [time_time B ?w] => destruct (time_time B w) as [? ?]
  end.
  eexists. split; [reflexivity|]. split; reflexivity.
Qed.

(** The same for the [execute_step] of [itrans_zd.py]. *)
Lemma zd_execute_step_reports (n : nat) (key : pystr) (body : M W unit)
    (after : option (M W unit)) (st0 s1 : State W) (x : exn) (ss : pystr) :
  body (after_clock B st0) = (Raise x, s1) ->
  fst (get_screenshot_b64 B (world s1)) = Ok ss ->
  exists s,
    ItransZd.execute_step B n key body None after st0 = (Ok false, s) /\
    error (test_result s) = Some (ItransZd.step_error n x) /\
    stdout s = stdout s1 ++ [Itrans.to_dict (test_result s)].
Proof.
  intros Hb Hs. unfold ItransZd.execute_step. unfold bind at 1. rewrite clock_eq.
  unfold try_except, ItransZd.when_given at 1, bind at 1, ret at 1, bind at 1.
  rewrite Hb.
  unfold ItransZd.print_report, ItransZd.to_dict, finalize, alert, clock, print_json.
  unfold bind, call, call_quiet, on_result, update, ret.
  destruct (get_screenshot_b64 B (world s1)) as [r w2]. cbn [fst] in Hs. subst r.
  cbn [world set_world add_log set_test_result test_result].
  repeat match goal with
  | |- context [time_time B ?w] => destruct (time_time B w) as [? ?]
  end.
  eexists. split; [reflexivity|]. split; reflexivity.
Qed.

End TimedOutWait.

(** C2, as the code has it.  When the wait for presence times out,
    [wait_element] of [itrans.py] and of [itrans_zd.py] runs the banner check
    on the page as the wait left it and only then raises.  With the check
    enabled, it raises the banner failure with the text of the alert, and
    not the element-not-found failure, when the check reaches a displayed
    error alert before any of its queries fails; when a query fails with a
    driver error first, it raises element-not-found, whatever the page
    shows; a query failure of another class is raised as it is.  It raises
    something else than element-not-found only in the first and the last of
    these cases, and never with the check disabled.  [click_element] passes
    on what [wait_element] raised, after that one wait; a step that catches
    it, as the optional click at the start of step 2 of [itrans.py] does,
    goes on; a step that lets it through has it reported by [main] as the
    error of the step, when the screenshot of the failure can be taken. *)
Theorem wait_timeout_reports_banner_first {W : Type} (B : Browser W) (P : Page W)
    (st : State W) (xpath : pystr) (timeout : Z) (e : exn)
    (Hwait : fst (wait_until_presence B xpath timeout (world st)) = Raise e)
    (Htime : is_TimeoutException e = true)
    (Hdrv : test_driver st = true) :
  let st' := waited B xpath timeout st in
  let w' := world st' in
  let banner t :=
    Exn Exception
      (py "Обнаружено сообщение об ошибке на странице: " ++ strip (or_empty t)) in
  let not_found := Exn Exception (py "Element not found: " ++ xpath) in
  let not_found_zd :=
    Exn Exception (py "Ошибка при поиске элемента Локатор = " ++ xpath ++ py ".") in
  let raised := fst (Itrans.wait_element B xpath timeout st) in
  let raised_zd := fst (ItransZd.wait_element B xpath timeout st) in
  (snd (Itrans.wait_element B xpath timeout st) = st' /\
   snd (ItransZd.wait_element B xpath timeout st) = st') /\
  (check_error_banner st = true ->
   (forall el t, finds_banner B w' el t ->
      raised = Raise (banner t) /\ raised_zd = Raise (banner t)) /\
   (forall x, query_fails B w' x -> is_WebDriverException x = true ->
      raised = Raise not_found /\ raised_zd = Raise not_found_zd) /\
   (forall x, query_fails B w' x -> is_WebDriverException x = false ->
      raised = Raise x /\ raised_zd = Raise x) /\
   ((forall el t, ~ finds_banner B w' el t) ->
    (forall x, query_fails B w' x -> is_WebDriverException x = true) ->
    raised = Raise not_found /\ raised_zd = Raise not_found_zd)) /\
  (raised <> Raise not_found \/ raised_zd <> Raise not_found_zd ->
   check_error_banner st = true /\
   ((exists el t, finds_banner B w' el t) \/
    (exists x, query_fails B w' x /\ is_WebDriverException x = false))) /\
  (check_error_banner st = false ->
   raised = Raise not_found /\ raised_zd = Raise not_found_zd) /\
  (forall x n description,
     (raised = Raise x ->
      ItransClicks.click_element B P xpath timeout (S n) st = (Raise x, st')) /\
     (raised_zd = Raise x ->
      ZdClicks.click_element B P xpath timeout (S n) description st = (Raise x, st'))) /\
  (forall n,
     try_except
       (ItransClicks.click_element B P xpath timeout (S n) ;; ItransSteps.sleep B 1)
       (fun _ => ret tt) st = (Ok tt, st')) /\
  (forall st0 n r key rest after description ss x,
     after_clock B st0 = st ->
     fst (get_screenshot_b64 B w') = Ok ss ->
     (raised = Raise x ->
      exists s report,
        Itrans.step_block B n key
          (ItransClicks.click_element B P xpath timeout (S r) ;; rest) st0 = (Ok false, s) /\
        error (test_result s) =
          Some (py "Шаг " ++ str_of_nat n ++ py " ошибка: "
                  ++ traceback_format_exception B x) /\
        stdout s = stdout st ++ [report] /\
        field "error" report =
          Some (PyStr (py "Шаг " ++ str_of_nat n ++ py " ошибка: "
                         ++ traceback_format_exception B x))) /\
     (raised_zd = Raise x ->
      exists s report,
        ItransZd.execute_step B n key
          (ZdClicks.click_element B P xpath timeout (S r) description ;; rest)
          None after st0 = (Ok false, s) /\
        error (test_result s) =
          Some (py "Шаг " ++ str_of_nat n ++ py " ошибка: " ++ exn_str x) /\
        stdout s = stdout st ++ [report] /\
        field "error" report =
          Some (PyStr (py "Шаг " ++ str_of_nat n ++ py " ошибка: " ++ exn_str x)))).
Proof.
  intros st' w' banner not_found not_found_zd raised raised_zd.
  assert (Hi : Itrans.wait_element B xpath timeout st = (raised, st')).
  { unfold raised, Itrans.wait_element.
    now rewrite (wait_element_timed_out B _ xpath timeout st e Hwait Htime). }
  assert (Hz : ItransZd.wait_element B xpath timeout st = (raised_zd, st')).
  { unfold raised_zd, ItransZd.wait_element.
    now rewrite (wait_element_timed_out B _ xpath timeout st e Hwait Htime). }
  assert (Ri : raised =
               match fst (ItransTest.raise_if_error_banner B st') with
               | Ok _ => Raise not_found
               | Raise b => Raise b
               end).
  { unfold raised, Itrans.wait_element.
    now rewrite (wait_element_timed_out B _ xpath timeout st e Hwait Htime). }
  assert (Rz : raised_zd =
               match fst (ItransTest.raise_if_error_banner B st') with
               | Ok _ => Raise not_found_zd
               | Raise b => Raise b
               end).
  { unfold raised_zd, ItransZd.wait_element.
    now rewrite (wait_element_timed_out B _ xpath timeout st e Hwait Htime). }
  assert (Hd' : test_driver st' = true) by exact Hdrv.
  assert (Hstale : forall x, raised = Raise x \/ raised_zd = Raise x ->
                             is_Stale_or_Timeout x = false).
  { intros x Hx.
    pose proof (banner_check_no_driver_error B st') as Hb.
    rewrite Ri, Rz in Hx.
    destruct (fst (ItransTest.raise_if_error_banner B st')) as [[]|b].
    - destruct Hx as [Hx|Hx]; injection Hx as <-; reflexivity.
    - assert (x = b) by (destruct Hx as [Hx|Hx]; now injection Hx). subst x.
      now destruct (driver_error_classes b (Hb b eq_refl)). }
  clearbody raised raised_zd.
  split; [split; [now rewrite Hi|now rewrite Hz]|].
  split; [|split; [|split; [|split; [|split]]]].
  - intros Hon. assert (Hon' : check_error_banner st' = true) by exact Hon.
    split; [|split; [|split]].
    + intros el t Hb. rewrite Ri, Rz.
      rewrite (banner_check_finds B el t st' Hon' Hd' Hb). now split.
    + intros x Hq Hw. rewrite Ri, Rz.
      rewrite (banner_check_fails B x st' Hon' Hd' Hq), Hw. now split.
    + intros x Hq Hw. rewrite Ri, Rz.
      rewrite (banner_check_fails B x st' Hon' Hd' Hq), Hw. now split.
    + intros Hno Hall. rewrite Ri, Rz.
      destruct (fst (ItransTest.raise_if_error_banner B st')) as [[]|b] eqn:Eb;
        [now split|]. exfalso.
      destruct (banner_check_raises B b st' Hon' Hd' Eb) as [(el & t & Hb & _)|[Hq Hw]].
      * exact (Hno el t Hb).
      * rewrite (Hall b Hq) in Hw. discriminate Hw.
  - intros Hne. destruct (check_error_banner st) eqn:Hon.
    + split; [reflexivity|].
      assert (Hon' : check_error_banner st' = true) by exact Hon.
      destruct (fst (ItransTest.raise_if_error_banner B st')) as [[]|b] eqn:Eb.
      * exfalso. destruct Hne as [Hne|Hne]; apply Hne; [exact Ri|exact Rz].
      * destruct (banner_check_raises B b st' Hon' Hd' Eb) as [(el & t & Hb & _)|[Hq Hw]].
        -- left. now exists el, t.
        -- right. now exists b.
    + exfalso. rewrite (banner_check_off B st') in Ri, Rz; [|now left|now left].
      destruct Hne as [Hne|Hne]; apply Hne; [exact Ri|exact Rz].
  - intros Hoff. rewrite Ri, Rz.
    rewrite (banner_check_off B st'); [now split|now left].
  - intros x n description. split; intros Hx.
    + apply itrans_click_passes_on; [now rewrite Hi, Hx|apply Hstale; now left].
    + apply zd_click_passes_on; [now rewrite Hz, Hx|apply Hstale; now right].
  - intros n. unfold try_except, bind.
    destruct raised as [el|x] eqn:Er.
    + exfalso. rewrite Ri in Er.
      now destruct (fst (ItransTest.raise_if_error_banner B st')) as [[]|b].
    + rewrite (itrans_click_passes_on B P xpath timeout n st st' x Hi).
      * reflexivity.
      * apply Hstale. now left.
  - intros st0 n r key rest after description ss x Hst0 Hss. split; intros Hx.
    + destruct (itrans_step_block_reports B n key
                  (ItransClicks.click_element B P xpath timeout (S r) ;; rest)
                  st0 st' x ss) as (s & Hs & Herr & Hout).
      * unfold bind. rewrite Hst0.
        rewrite (itrans_click_passes_on B P xpath timeout r st st' x);
          [reflexivity|now rewrite Hi, Hx|apply Hstale; now left].
      * exact Hss.
      * exists s, (Itrans.to_dict (test_result s)).
        split; [exact Hs|]. split; [exact Herr|]. split; [exact Hout|].
        destruct (itrans_report_fields (test_result s)) as (_ & _ & _ & ->).
        now rewrite Herr.
    + destruct (zd_execute_step_reports B n key
                  (ZdClicks.click_element B P xpath timeout (S r) description ;; rest)
                  after st0 st' x ss) as (s & Hs & Herr & Hout).
      * unfold bind. rewrite Hst0.
        rewrite (zd_click_passes_on B P xpath timeout r description st st' x);
          [reflexivity|now rewrite Hz, Hx|apply Hstale; now right].
      * exact Hss.
      * exists s, (Itrans.to_dict (test_result s)).
        split; [exact Hs|]. split; [exact Herr|]. split; [exact Hout|].
        destruct (itrans_report_fields (test_result s)) as (_ & _ & _ & ->).
        now rewrite Herr.
Qed.

(** The wait for the login field times out on a page that shows a success
    alert and, after it, an error alert. *)
Lemma wait_timeout_reports_banner_first_witness :
  fst (Itrans.wait_element Sim.browser (py "//input[@id='username']") 20
         (set_test_driver true (initial_state SimAlerts.timed_out_behind_success))) =
  Raise (Exn Exception
           (py "Обнаружено сообщение об ошибке на странице: Произошла ОШИБКА сервера")).
Proof.
  refine (eq_trans
            (proj1 (proj1 (proj1 (proj2
               (wait_timeout_reports_banner_first Sim.browser SimPage.no_clicks
                  (set_test_driver true (initial_state SimAlerts.timed_out_behind_success))
                  (py "//input[@id='username']") 20 Sim.timeout_error
                  eq_refl eq_refl eq_refl)) eq_refl)
               1%nat (Some (py "  Произошла ОШИБКА сервера ")) _)) _).
  - exists [0%nat; 1%nat], [0%nat], [], (Some (py "alert alert-danger show")).
    split; [reflexivity|].
    split; [repeat constructor; now exists true|].
    split; [reflexivity|].
    split.
    { constructor; [|constructor].
      exists (Some (py "alert alert-success show")), (Some (py "Сохранено")).
      split; [now split|]. apply is_error_marks_not. vm_compute. reflexivity. }
    split; [now split|]. apply is_error_marks. vm_compute. reflexivity.
  - vm_compute. reflexivity.
Defined.

(** C2, the claim as stated fails: the wait times out on a page that
    lists, before the displayed error alert, an alert that has gone stale.
    Banner checking is enabled, the error alert is displayed and marks an
    error, and what [wait_element] raises is element-not-found. *)
Lemma wait_timeout_behind_stale_alert_reports_not_found :
  check_error_banner
    (set_test_driver true (initial_state SimAlerts.timed_out_behind_stale)) = true /\
  find_elements Sim.browser (py ".errors-container .alert.show")
    (world (waited Sim.browser (py "//input[@id='username']") 20
              (set_test_driver true (initial_state SimAlerts.timed_out_behind_stale))))
    = Ok [0%nat; 1%nat] /\
  is_displayed Sim.browser 1%nat
    (world (waited Sim.browser (py "//input[@id='username']") 20
              (set_test_driver true (initial_state SimAlerts.timed_out_behind_stale))))
    = Ok true /\
  says Sim.browser
    (world (waited Sim.browser (py "//input[@id='username']") 20
              (set_test_driver true (initial_state SimAlerts.timed_out_behind_stale))))
    1%nat (Some (py "alert alert-danger show")) (Some (py "  Произошла ОШИБКА сервера ")) /\
  marks_error (Some (py "alert alert-danger show"))
    (Some (py "  Произошла ОШИБКА сервера ")) /\
  fst (Itrans.wait_element Sim.browser (py "//input[@id='username']") 20
         (set_test_driver true (initial_state SimAlerts.timed_out_behind_stale))) =
    Raise (Exn Exception (py "Element not found: //input[@id='username']")) /\
  fst (ItransZd.wait_element Sim.browser (py "//input[@id='username']") 20
         (set_test_driver true (initial_state SimAlerts.timed_out_behind_stale))) =
    Raise (Exn Exception
             (py "Ошибка при поиске элемента Локатор = //input[@id='username'].")).
Proof.
  split; [reflexivity|]. split; [reflexivity|]. split; [reflexivity|].
  split; [now split|]. split; [apply is_error_marks; vm_compute; reflexivity|].
  split; vm_compute; reflexivity.
Qed.
